(** * ANCS client (Notification Consumer): shallow embedding and properties

    The development follows the C files of the Bluetooth ANCS client and
    of the sample that uses it:
    - [ancs_c.c]            Notification Source decoder, Control Point
                            dispatchers, write-complete callback,
                            subscriptions, handles, registrations;
    - [ancs_attr_parser.c]  Data Source attribute parser (state machine);
    - [ancs_app_attr_get.c] encoder of the "get app attributes" command;
    - [main.c]              the sample: event handler, buttons, connection
                            callbacks.

    Integers of the C code are values in [Z]; where the C type narrows a
    value the wrap-around is written out.  Memory that the code only holds a
    pointer to (the caller's attribute buffers) lives in an arena [ram] and
    pointers are arena slots, so that the event structure and the attribute
    table alias the same buffer, as in the C code. *)

From stdpp Require Import base list strings.
From Stdlib Require Import ZArith Lia.

Local Open Scope Z_scope.

(** ** Outcomes of C code

    [Trap] stands for an access outside the object a pointer or an array
    designates; [Spin] for a loop that has used up its iteration budget. *)

Inductive trap := NullDeref | OutOfBounds.

Inductive res (A : Type) : Type :=
| Ok (a : A)
| Trap (t : trap)
| Spin.

Arguments Ok {A} a.
Arguments Trap {A} t.
Arguments Spin {A}.

#[global] Instance res_ret : MRet res := fun A a => Ok a.
#[global] Instance res_bind : MBind res := fun A B f m =>
  match m with
  | Ok a => f a
  | Trap t => Trap t
  | Spin => Spin
  end.

(** ** Errno values used by the client (returned negated) *)

Definition EAGAIN : Z := 11.
Definition ENOMEM : Z := 12.
Definition EBUSY : Z := 16.
Definition EINVAL : Z := 22.

(** ** Constants of [ancs_c.h] *)

Definition BT_GATT_ANCS_ATTR_DATA_MAX : Z := 32.
Definition BT_GATT_ANCS_NB_OF_CATEGORY_ID : Z := 12.
Definition BT_GATT_ANCS_NB_OF_NOTIF_ATTR : Z := 8.
Definition BT_GATT_ANCS_NB_OF_APP_ATTR : Z := 1.
Definition BT_GATT_ANCS_NB_OF_EVT_ID : Z := 3.
Definition BT_GATT_ANCS_NOTIFICATION_DATA_LENGTH : nat := 8.

Definition BT_GATT_ANCS_EVENT_FLAG_SILENT : Z := 0.
Definition BT_GATT_ANCS_EVENT_FLAG_IMPORTANT : Z := 1.
Definition BT_GATT_ANCS_EVENT_FLAG_PREEXISTING : Z := 2.
Definition BT_GATT_ANCS_EVENT_FLAG_POSITIVE_ACTION : Z := 3.
Definition BT_GATT_ANCS_EVENT_FLAG_NEGATIVE_ACTION : Z := 4.

Definition BT_GATT_ANCS_COMMAND_ID_GET_NOTIF_ATTRIBUTES : Z := 0.
Definition BT_GATT_ANCS_COMMAND_ID_GET_APP_ATTRIBUTES : Z := 1.
Definition BT_GATT_ANCS_COMMAND_ID_GET_PERFORM_NOTIF_ACTION : Z := 2.

Definition ACTION_ID_POSITIVE : Z := 0.
Definition ACTION_ID_NEGATIVE : Z := 1.

Definition BT_GATT_ANCS_NOTIF_ATTR_ID_APP_IDENTIFIER : Z := 0.
Definition BT_GATT_ANCS_NOTIF_ATTR_ID_TITLE : Z := 1.
Definition BT_GATT_ANCS_NOTIF_ATTR_ID_SUBTITLE : Z := 2.
Definition BT_GATT_ANCS_NOTIF_ATTR_ID_MESSAGE : Z := 3.

Definition BT_GATT_ANCS_NOTIF_EVT_ID_INDEX : nat := 0.
Definition BT_GATT_ANCS_NOTIF_FLAGS_INDEX : nat := 1.
Definition BT_GATT_ANCS_NOTIF_CATEGORY_ID_INDEX : nat := 2.
Definition BT_GATT_ANCS_NOTIF_CATEGORY_CNT_INDEX : nat := 3.
Definition BT_GATT_ANCS_NOTIF_NOTIF_UID : nat := 4.

(** ** Enumerations *)

Inductive bt_gatt_ancs_c_evt_type_t :=
| BT_GATT_ANCS_C_EVT_NOTIF
| BT_GATT_ANCS_C_EVT_INVALID_NOTIF
| BT_GATT_ANCS_C_EVT_NOTIF_ATTRIBUTE
| BT_GATT_ANCS_C_EVT_APP_ATTRIBUTE
| BT_GATT_ANCS_C_EVT_NP_ERROR.

Inductive bt_gatt_ancs_c_parse_state_t :=
| COMMAND_ID | NOTIF_UID | APP_ID | ATTR_ID
| ATTR_LEN1 | ATTR_LEN2 | ATTR_DATA | ATTR_SKIP | DONE.

(** The two attribute tables of a client; [parse_info.p_attr_list] points
    to one of them. *)
Inductive attr_list_sel := NotifList | AppList.

#[global] Instance evt_type_eq_dec : EqDecision bt_gatt_ancs_c_evt_type_t.
Proof. solve_decision. Defined.

#[global] Instance parse_state_eq_dec : EqDecision bt_gatt_ancs_c_parse_state_t.
Proof. solve_decision. Defined.

#[global] Instance attr_list_sel_eq_dec : EqDecision attr_list_sel.
Proof. solve_decision. Defined.

(** ** Structures *)

(** [bt_gatt_ancs_c_notif_flags_t]: five one-bit fields. *)
Record bt_gatt_ancs_c_notif_flags_t := {
  silent : Z;
  important : Z;
  pre_existing : Z;
  positive_action : Z;
  negative_action : Z;
}.

(** [bt_gatt_ancs_c_evt_notif_t]. *)
Record bt_gatt_ancs_c_evt_notif_t := {
  notif_uid : Z;
  evt_id : Z;
  evt_flags : bt_gatt_ancs_c_notif_flags_t;
  category_id : Z;
  category_count : Z;
}.

(** [bt_gatt_ancs_c_attr_t]; a pointer is an arena slot, [None] is NULL. *)
Record bt_gatt_ancs_c_attr_t := {
  attr_len : Z;
  attr_id : Z;
  p_attr_data : option nat;
}.

(** [bt_gatt_ancs_c_attr_list_t]; the fields [attr_len] and [p_attr_data]
    of the C structure carry the prefix [list_] here ([attr_id] is never
    read or written by the client). *)
Record bt_gatt_ancs_c_attr_list_t := {
  get : bool;
  list_attr_len : Z;
  list_p_attr_data : option nat;
}.

(** [bt_gatt_ancs_c_evt_t], the members the Data Source parser fills; the
    member [notif_uid] is [evt_notif_uid] here. *)
Record bt_gatt_ancs_c_evt_t := {
  evt_type : bt_gatt_ancs_c_evt_type_t;
  attr : bt_gatt_ancs_c_attr_t;
  evt_notif_uid : Z;
  app_id : list Z;
}.

(** [bt_gatt_ancs_parse_sm_t]. *)
Record bt_gatt_ancs_parse_sm_t := {
  p_attr_list : option attr_list_sel;
  nb_of_attr : Z;
  expected_number_of_attrs : Z;
  parse_state : bt_gatt_ancs_c_parse_state_t;
  command_id : Z;
  current_attr_index : Z;
  current_app_id_index : Z;
}.

(** [struct bt_gatt_ancs_c]: the semaphore is its count (limit 1), the
    Control Point buffer has [CONFIG_BT_GATT_ANCS_C_CP_BUFF_SIZE] bytes. *)
Record bt_gatt_ancs_c := {
  cp_write_params_sem : Z;
  cp_data : list Z;
  ancs_notif_attr_list : list bt_gatt_ancs_c_attr_list_t;
  ancs_app_attr_list : list bt_gatt_ancs_c_attr_list_t;
  number_of_requested_attr : Z;
  parse_info : bt_gatt_ancs_parse_sm_t;
  evt : bt_gatt_ancs_c_evt_t;
}.

(** What the application's [evt_handler] is called with.  [on_ns] is a call
    from [parse_notif], whose event is a local structure: [None] when the
    [notif] member has not been assigned.  [on_ds] is a call from the Data
    Source parser with [&ancs_c->evt], together with the contents of the
    buffer [evt.attr.p_attr_data] points to at the time of the call.
    [on_cp] is the call of the write callback (type NP_ERROR). *)
Inductive sink_call :=
| on_ns (t : bt_gatt_ancs_c_evt_type_t) (n : option bt_gatt_ancs_c_evt_notif_t)
| on_ds (e : bt_gatt_ancs_c_evt_t) (storage : option (list Z))
| on_cp (err_code_np : Z).

(** The GATT layer below the client: the value [bt_gatt_write] returns and
    the payloads it has accepted. *)
Record gatt := {
  write_ret : Z;
  written : list (list Z);
}.

(** A client in its environment. *)
Record world := {
  ancs_c : bt_gatt_ancs_c;
  ram : list (list Z);
  sink : list sink_call;
  att : gatt;
}.

(** A received GATT notification: pointer and length.  Reading the pointer
    at or after [hvx_data_len] yields whatever follows the payload. *)
Record hvx := {
  p_data_src : nat → Z;
  hvx_data_len : nat;
}.

Definition payload (h : hvx) : list Z :=
  map (p_data_src h) (seq 0 (hvx_data_len h)).

(** A notification holding [l], followed in memory by [stray]. *)
Definition hvx_with (stray : nat → Z) (l : list Z) : hvx :=
  {| p_data_src := fun i => match l !! i with
                            | Some b => b
                            | None => stray (i - length l)%nat
                            end;
     hvx_data_len := length l |}.

Definition hvx_of (l : list Z) : hvx := hvx_with (fun _ => 0) l.

(** ** Field updates *)

Definition set_parse_info (f : bt_gatt_ancs_parse_sm_t → bt_gatt_ancs_parse_sm_t)
    (c : bt_gatt_ancs_c) : bt_gatt_ancs_c :=
  {| cp_write_params_sem := cp_write_params_sem c;
     cp_data := cp_data c;
     ancs_notif_attr_list := ancs_notif_attr_list c;
     ancs_app_attr_list := ancs_app_attr_list c;
     number_of_requested_attr := number_of_requested_attr c;
     parse_info := f (parse_info c);
     evt := evt c |}.

Definition set_evt (f : bt_gatt_ancs_c_evt_t → bt_gatt_ancs_c_evt_t)
    (c : bt_gatt_ancs_c) : bt_gatt_ancs_c :=
  {| cp_write_params_sem := cp_write_params_sem c;
     cp_data := cp_data c;
     ancs_notif_attr_list := ancs_notif_attr_list c;
     ancs_app_attr_list := ancs_app_attr_list c;
     number_of_requested_attr := number_of_requested_attr c;
     parse_info := parse_info c;
     evt := f (evt c) |}.

Definition set_sem (v : Z) (c : bt_gatt_ancs_c) : bt_gatt_ancs_c :=
  {| cp_write_params_sem := v;
     cp_data := cp_data c;
     ancs_notif_attr_list := ancs_notif_attr_list c;
     ancs_app_attr_list := ancs_app_attr_list c;
     number_of_requested_attr := number_of_requested_attr c;
     parse_info := parse_info c;
     evt := evt c |}.

Definition set_cp_data (v : list Z) (c : bt_gatt_ancs_c) : bt_gatt_ancs_c :=
  {| cp_write_params_sem := cp_write_params_sem c;
     cp_data := v;
     ancs_notif_attr_list := ancs_notif_attr_list c;
     ancs_app_attr_list := ancs_app_attr_list c;
     number_of_requested_attr := number_of_requested_attr c;
     parse_info := parse_info c;
     evt := evt c |}.

Definition set_number_of_requested_attr (v : Z) (c : bt_gatt_ancs_c) : bt_gatt_ancs_c :=
  {| cp_write_params_sem := cp_write_params_sem c;
     cp_data := cp_data c;
     ancs_notif_attr_list := ancs_notif_attr_list c;
     ancs_app_attr_list := ancs_app_attr_list c;
     number_of_requested_attr := v;
     parse_info := parse_info c;
     evt := evt c |}.

Definition set_parse_state (s : bt_gatt_ancs_c_parse_state_t)
    (p : bt_gatt_ancs_parse_sm_t) : bt_gatt_ancs_parse_sm_t :=
  {| p_attr_list := p_attr_list p;
     nb_of_attr := nb_of_attr p;
     expected_number_of_attrs := expected_number_of_attrs p;
     parse_state := s;
     command_id := command_id p;
     current_attr_index := current_attr_index p;
     current_app_id_index := current_app_id_index p |}.

Definition set_expected_number_of_attrs (v : Z)
    (p : bt_gatt_ancs_parse_sm_t) : bt_gatt_ancs_parse_sm_t :=
  {| p_attr_list := p_attr_list p;
     nb_of_attr := nb_of_attr p;
     expected_number_of_attrs := v;
     parse_state := parse_state p;
     command_id := command_id p;
     current_attr_index := current_attr_index p;
     current_app_id_index := current_app_id_index p |}.

Definition set_current_attr_index (v : Z)
    (p : bt_gatt_ancs_parse_sm_t) : bt_gatt_ancs_parse_sm_t :=
  {| p_attr_list := p_attr_list p;
     nb_of_attr := nb_of_attr p;
     expected_number_of_attrs := expected_number_of_attrs p;
     parse_state := parse_state p;
     command_id := command_id p;
     current_attr_index := v;
     current_app_id_index := current_app_id_index p |}.

Definition set_current_app_id_index (v : Z)
    (p : bt_gatt_ancs_parse_sm_t) : bt_gatt_ancs_parse_sm_t :=
  {| p_attr_list := p_attr_list p;
     nb_of_attr := nb_of_attr p;
     expected_number_of_attrs := expected_number_of_attrs p;
     parse_state := parse_state p;
     command_id := command_id p;
     current_attr_index := current_attr_index p;
     current_app_id_index := v |}.

(** The assignments of [command_id_parse] to [parse_info]. *)
Definition set_command (cmd : Z) (l : option attr_list_sel) (nb : Z)
    (p : bt_gatt_ancs_parse_sm_t) : bt_gatt_ancs_parse_sm_t :=
  {| p_attr_list := l;
     nb_of_attr := nb;
     expected_number_of_attrs := expected_number_of_attrs p;
     parse_state := parse_state p;
     command_id := cmd;
     current_attr_index := current_attr_index p;
     current_app_id_index := current_app_id_index p |}.

Definition set_evt_type (t : bt_gatt_ancs_c_evt_type_t)
    (e : bt_gatt_ancs_c_evt_t) : bt_gatt_ancs_c_evt_t :=
  {| evt_type := t; attr := attr e;
     evt_notif_uid := evt_notif_uid e; app_id := app_id e |}.

Definition set_attr (f : bt_gatt_ancs_c_attr_t → bt_gatt_ancs_c_attr_t)
    (e : bt_gatt_ancs_c_evt_t) : bt_gatt_ancs_c_evt_t :=
  {| evt_type := evt_type e; attr := f (attr e);
     evt_notif_uid := evt_notif_uid e; app_id := app_id e |}.

Definition set_evt_notif_uid (v : Z)
    (e : bt_gatt_ancs_c_evt_t) : bt_gatt_ancs_c_evt_t :=
  {| evt_type := evt_type e; attr := attr e;
     evt_notif_uid := v; app_id := app_id e |}.

Definition set_app_id (v : list Z)
    (e : bt_gatt_ancs_c_evt_t) : bt_gatt_ancs_c_evt_t :=
  {| evt_type := evt_type e; attr := attr e;
     evt_notif_uid := evt_notif_uid e; app_id := v |}.

Definition set_attr_len (v : Z) (a : bt_gatt_ancs_c_attr_t) : bt_gatt_ancs_c_attr_t :=
  {| attr_len := v; attr_id := attr_id a; p_attr_data := p_attr_data a |}.

Definition set_attr_id (v : Z) (a : bt_gatt_ancs_c_attr_t) : bt_gatt_ancs_c_attr_t :=
  {| attr_len := attr_len a; attr_id := v; p_attr_data := p_attr_data a |}.

Definition set_p_attr_data (v : option nat) (a : bt_gatt_ancs_c_attr_t) : bt_gatt_ancs_c_attr_t :=
  {| attr_len := attr_len a; attr_id := attr_id a; p_attr_data := v |}.

Definition set_ancs_c (f : bt_gatt_ancs_c → bt_gatt_ancs_c) (w : world) : world :=
  {| ancs_c := f (ancs_c w); ram := ram w; sink := sink w; att := att w |}.

Definition set_ram (v : list (list Z)) (w : world) : world :=
  {| ancs_c := ancs_c w; ram := v; sink := sink w; att := att w |}.

Definition set_att (v : gatt) (w : world) : world :=
  {| ancs_c := ancs_c w; ram := ram w; sink := sink w; att := v |}.

(** [ancs_c->evt_handler(e)]: the call is recorded. *)
Definition evt_handler (e : sink_call) (w : world) : world :=
  {| ancs_c := ancs_c w; ram := ram w; sink := sink w ++ [e]; att := att w |}.

(** ** Byte order helpers of Zephyr ([sys/byteorder.h]) *)

Definition sys_get_le16 (src : nat → Z) (off : nat) : Z :=
  Z.lor (Z.shiftl (src (off + 1)%nat) 8) (src off) mod 2 ^ 16.

Definition sys_get_le32 (src : nat → Z) (off : nat) : Z :=
  Z.lor (Z.shiftl (sys_get_le16 src (off + 2)) 16) (sys_get_le16 src off) mod 2 ^ 32.

(** Array store [buf[i] = v]; a store outside the array traps. *)
Definition store (buf : list Z) (i : nat) (v : Z) : res (list Z) :=
  if decide (i < length buf)%nat then Ok (<[i := v]> buf) else Trap OutOfBounds.

Definition sys_put_le16 (val : Z) (dst : list Z) (off : nat) : res (list Z) :=
  d ← store dst off (Z.land val 255);
  store d (off + 1) (Z.land (Z.shiftr val 8) 255).

Definition sys_put_le32 (val : Z) (dst : list Z) (off : nat) : res (list Z) :=
  d ← sys_put_le16 (Z.land val 65535) dst off;
  sys_put_le16 (Z.land (Z.shiftr val 16) 65535) d (off + 2).

(** ** Notification Source: [ancs_c.c] *)

Definition bt_gatt_ancs_verify_notification_format
    (notif : bt_gatt_ancs_c_evt_notif_t) : Z :=
  if (BT_GATT_ANCS_NB_OF_EVT_ID <=? evt_id notif)
     || (BT_GATT_ANCS_NB_OF_CATEGORY_ID <=? category_id notif)
  then - EINVAL else 0.

(** The assignments of [parse_notif] to [ancs_evt.notif]. *)
Definition notif_of_hvx (p : nat → Z) : bt_gatt_ancs_c_evt_notif_t :=
  let flag k := Z.land (Z.shiftr (p BT_GATT_ANCS_NOTIF_FLAGS_INDEX) k) 1 in
  {| evt_id := p BT_GATT_ANCS_NOTIF_EVT_ID_INDEX;
     evt_flags :=
       {| silent := flag BT_GATT_ANCS_EVENT_FLAG_SILENT;
          important := flag BT_GATT_ANCS_EVENT_FLAG_IMPORTANT;
          pre_existing := flag BT_GATT_ANCS_EVENT_FLAG_PREEXISTING;
          positive_action := flag BT_GATT_ANCS_EVENT_FLAG_POSITIVE_ACTION;
          negative_action := flag BT_GATT_ANCS_EVENT_FLAG_NEGATIVE_ACTION |};
     category_id := p BT_GATT_ANCS_NOTIF_CATEGORY_ID_INDEX;
     category_count := p BT_GATT_ANCS_NOTIF_CATEGORY_CNT_INDEX;
     notif_uid := sys_get_le32 p BT_GATT_ANCS_NOTIF_NOTIF_UID |}.

Definition parse_notif (w : world) (h : hvx) : world :=
  let w :=
    if decide (hvx_data_len h ≠ BT_GATT_ANCS_NOTIFICATION_DATA_LENGTH)
    then evt_handler (on_ns BT_GATT_ANCS_C_EVT_INVALID_NOTIF None) w
    else w in
  let notif := notif_of_hvx (p_data_src h) in
  let err := bt_gatt_ancs_verify_notification_format notif in
  let t := if err =? 0 then BT_GATT_ANCS_C_EVT_NOTIF
           else BT_GATT_ANCS_C_EVT_INVALID_NOTIF in
  evt_handler (on_ns t (Some notif)) w.

Definition on_received_ns (w : world) (h : hvx) : world := parse_notif w h.

(** ** Kernel semaphore ([k_sem], initialised with count 1 and limit 1 by
    [bt_gatt_ancs_c_init]) *)

Inductive k_timeout_t := K_NO_WAIT | K_MSEC (ms : Z) | K_FOREVER.

(** Whether a timeout is [K_NO_WAIT]: [K_MSEC(ms)] stands for no ticks when
    [ms] is not positive. *)
Definition no_wait (timeout : k_timeout_t) : bool :=
  match timeout with
  | K_NO_WAIT => true
  | K_MSEC ms => ms <=? 0
  | K_FOREVER => false
  end.

(** [k_sem_take]: 0 and the count decremented when a permit is there;
    otherwise [-EBUSY] without waiting, [-EAGAIN] when the wait timed out.
    Nothing else runs while a dispatcher waits, so a wait without limit on
    an empty semaphore does not return. *)
Definition k_sem_take (count : Z) (timeout : k_timeout_t) : res (Z * Z) :=
  if 0 <? count then Ok (0, count - 1)
  else if no_wait timeout then Ok (- EBUSY, count)
  else match timeout with
       | K_FOREVER => Spin
       | _ => Ok (- EAGAIN, count)
       end.

Definition k_sem_give (count : Z) : Z :=
  if count =? 1 then count else count + 1.

(** ** Control Point: [ancs_c.c] *)

(** [bt_gatt_write]: the payload is taken over when the call succeeds. *)
Definition bt_gatt_write (w : world) (data : list Z) : Z * world :=
  let g := att w in
  if write_ret g =? 0
  then (0, set_att {| write_ret := write_ret g; written := written g ++ [data] |} w)
  else (write_ret g, w).

Definition encode_notif_action (p_encoded_data : list Z) (uid : Z) (action_id : Z)
    : res (list Z * nat) :=
  let index := 0%nat in
  d ← store p_encoded_data index BT_GATT_ANCS_COMMAND_ID_GET_PERFORM_NOTIF_ACTION;
  let index := S index in
  d ← sys_put_le32 uid d index;
  let index := (index + 4)%nat in
  d ← store d index (action_id mod 256);
  let index := S index in
  Ok (d, index).

Definition bt_gatt_ancs_c_cp_write_callback (w : world) (err : Z) : world :=
  let w := set_ancs_c (fun c => set_sem (k_sem_give (cp_write_params_sem c)) c) w in
  evt_handler (on_cp err) w.

(** Conversion of a length to [uint16_t]. *)
Definition uint16 (n : nat) : nat := Z.to_nat (Z.of_nat n mod 65536).

(** The parameter [len] is a [uint16_t]: what the caller passes is narrowed
    to it. *)
Definition bt_gatt_ancs_c_cp_write (w : world) (len : nat) : Z * world :=
  let len := uint16 len in
  let '(err, w) := bt_gatt_write w (take len (cp_data (ancs_c w))) in
  if err =? 0 then (err, w)
  else (err, set_ancs_c (fun c => set_sem (k_sem_give (cp_write_params_sem c)) c) w).

Definition bt_gatt_ancs_perform_notif_action (w : world) (uuid : Z)
    (action_id : Z) (timeout : k_timeout_t) : res (Z * world) :=
  '(err, sem) ← k_sem_take (cp_write_params_sem (ancs_c w)) timeout;
  if negb (err =? 0) then Ok (err, w)
  else
    let w := set_ancs_c (set_sem sem) w in
    '(d, len) ← encode_notif_action (cp_data (ancs_c w)) uuid action_id;
    let w := set_ancs_c (set_cp_data d) w in
    Ok (bt_gatt_ancs_c_cp_write w len).

(** Body of the [for (attr = 0; attr < BT_GATT_ANCS_NB_OF_NOTIF_ATTR; attr++)]
    loop of [bt_gatt_ancs_get_notif_attrs]. *)
Definition get_notif_attrs_body (attr : nat) (st : bt_gatt_ancs_c * nat)
    : res (bt_gatt_ancs_c * nat) :=
  let '(c, index) := st in
  match ancs_notif_attr_list c !! attr with
  | None => Trap OutOfBounds
  | Some e =>
    if get e then
      d ← store (cp_data c) index (Z.of_nat attr mod 256);
      let index := S index in
      '(d, index) ←
        (if (Z.of_nat attr =? BT_GATT_ANCS_NOTIF_ATTR_ID_TITLE)
            || (Z.of_nat attr =? BT_GATT_ANCS_NOTIF_ATTR_ID_SUBTITLE)
            || (Z.of_nat attr =? BT_GATT_ANCS_NOTIF_ATTR_ID_MESSAGE)
         then d ← sys_put_le16 (list_attr_len e) d index; Ok (d, (index + 2)%nat)
         else Ok (d, index));
      Ok (set_number_of_requested_attr (number_of_requested_attr c + 1)
            (set_cp_data d c), index)
    else Ok (c, index)
  end.

Fixpoint get_notif_attrs_loop (attrs : list nat) (st : bt_gatt_ancs_c * nat)
    : res (bt_gatt_ancs_c * nat) :=
  match attrs with
  | [] => Ok st
  | attr :: rest => st ← get_notif_attrs_body attr st; get_notif_attrs_loop rest st
  end.

Definition bt_gatt_ancs_get_notif_attrs (w : world) (p_uid : Z)
    (timeout : k_timeout_t) : res (Z * world) :=
  '(err, sem) ← k_sem_take (cp_write_params_sem (ancs_c w)) timeout;
  if negb (err =? 0) then Ok (err, w)
  else
    let c := set_sem sem (ancs_c w) in
    let index := 0%nat in
    let c := set_number_of_requested_attr 0 c in
    d ← store (cp_data c) index BT_GATT_ANCS_COMMAND_ID_GET_NOTIF_ATTRIBUTES;
    let index := S index in
    d ← sys_put_le32 p_uid d index;
    let index := (index + 4)%nat in
    '(c, index) ← get_notif_attrs_loop
                    (seq 0 (Z.to_nat BT_GATT_ANCS_NB_OF_NOTIF_ATTR))
                    (set_cp_data d c, index);
    let c := set_parse_info
               (set_expected_number_of_attrs (number_of_requested_attr c)) c in
    Ok (bt_gatt_ancs_c_cp_write (set_ancs_c (fun _ => c) w) index).

Definition bt_gatt_ancs_c_request_attrs (w : world)
    (p_notif : bt_gatt_ancs_c_evt_notif_t) (timeout : k_timeout_t)
    : res (Z * world) :=
  let err := bt_gatt_ancs_verify_notification_format p_notif in
  if negb (err =? 0) then Ok (err, w)
  else
    '(err, w) ← bt_gatt_ancs_get_notif_attrs w (notif_uid p_notif) timeout;
    Ok (err, set_ancs_c (set_parse_info (set_parse_state COMMAND_ID)) w).

(** ** Get-app-attributes encoder: [ancs_app_attr_get.c] *)

Inductive encode_app_attr_t :=
| APP_ATTR_COMMAND_ID | APP_ATTR_APP_ID | APP_ATTR_ATTR_ID
| APP_ATTR_DONE | APP_ATTR_ABORT.

(** The locals of [app_attr_get] that the encoding steps update through
    pointers, with the client they write into. *)
Record app_attr_enc := {
  enc_c : bt_gatt_ancs_c;
  index : nat;
  attr_bytes_encoded_count : nat;
  app_id_bytes_encoded_count : nat;
}.

Section cp_buff.

(** [CONFIG_BT_GATT_ANCS_C_CP_BUFF_SIZE], set by the build configuration. *)
Variable ANCS_GATTC_WRITE_PAYLOAD_LEN_MAX : nat.

Definition app_attr_is_requested (c : bt_gatt_ancs_c) (attr_id : nat) : res bool :=
  match ancs_app_attr_list c !! attr_id with
  | Some e => Ok (get e)
  | None => Trap OutOfBounds
  end.

Fixpoint app_attr_nb_to_get_loop (c : bt_gatt_ancs_c) (ids : list nat) (n : Z) : res Z :=
  match ids with
  | [] => Ok n
  | i :: rest =>
    r ← app_attr_is_requested c i;
    app_attr_nb_to_get_loop c rest (if r : bool then n + 1 else n)
  end.

Definition app_attr_nb_to_get (c : bt_gatt_ancs_c) : res Z :=
  app_attr_nb_to_get_loop c (seq 0 (length (ancs_app_attr_list c))) 0.

Definition app_attr_encode_cmd_id (e : app_attr_enc) : res (encode_app_attr_t * app_attr_enc) :=
  d ← store (cp_data (enc_c e)) (index e) BT_GATT_ANCS_COMMAND_ID_GET_APP_ATTRIBUTES;
  Ok (APP_ATTR_APP_ID,
      {| enc_c := set_cp_data d (enc_c e); index := S (index e);
         attr_bytes_encoded_count := attr_bytes_encoded_count e;
         app_id_bytes_encoded_count := app_id_bytes_encoded_count e |}).

(** The [LOG_DBG] calls of the C functions are left out. *)
Definition app_attr_encode_app_id (e : app_attr_enc) (p_app_id : list Z)
    (app_id_len : nat) : res (encode_app_attr_t * app_attr_enc) :=
  r ← (if decide (app_id_bytes_encoded_count e = app_id_len) then
         if decide (ANCS_GATTC_WRITE_PAYLOAD_LEN_MAX ≤ index e)%nat
         then Ok (inl APP_ATTR_ABORT)
         else
           d ← store (cp_data (enc_c e)) (index e) 0;
           Ok (inr {| enc_c := set_cp_data d (enc_c e); index := S (index e);
                      attr_bytes_encoded_count := attr_bytes_encoded_count e;
                      app_id_bytes_encoded_count := S (app_id_bytes_encoded_count e) |})
       else Ok (inr e));
  match r with
  | inl s => Ok (s, e)
  | inr e =>
    r ← (if decide (app_id_bytes_encoded_count e < app_id_len)%nat then
           if decide (ANCS_GATTC_WRITE_PAYLOAD_LEN_MAX ≤ index e)%nat
           then Ok (inl APP_ATTR_ABORT)
           else
             match p_app_id !! app_id_bytes_encoded_count e with
             | None => Trap OutOfBounds
             | Some b =>
               d ← store (cp_data (enc_c e)) (index e) b;
               Ok (inr {| enc_c := set_cp_data d (enc_c e); index := S (index e);
                          attr_bytes_encoded_count := attr_bytes_encoded_count e;
                          app_id_bytes_encoded_count := S (app_id_bytes_encoded_count e) |})
             end
         else Ok (inr e));
    match r with
    | inl s => Ok (s, e)
    | inr e =>
      if decide (app_id_len < app_id_bytes_encoded_count e)%nat
      then Ok (APP_ATTR_ATTR_ID, e)
      else Ok (APP_ATTR_APP_ID, e)
    end
  end.

Definition app_attr_encode_attr_id (e : app_attr_enc) : res (encode_app_attr_t * app_attr_enc) :=
  r ← (if decide (Z.of_nat (attr_bytes_encoded_count e) < BT_GATT_ANCS_NB_OF_APP_ATTR) then
         req ← app_attr_is_requested (enc_c e) (attr_bytes_encoded_count e);
         r ← (if req : bool then
                if decide (ANCS_GATTC_WRITE_PAYLOAD_LEN_MAX ≤ index e)%nat
                then Ok (inl APP_ATTR_ABORT)
                else
                  d ← store (cp_data (enc_c e)) (index e)
                        (Z.of_nat (attr_bytes_encoded_count e) mod 256);
                  let c := set_cp_data d (enc_c e) in
                  let c := set_number_of_requested_attr (number_of_requested_attr c + 1) c in
                  Ok (inr {| enc_c := c; index := S (index e);
                             attr_bytes_encoded_count := attr_bytes_encoded_count e;
                             app_id_bytes_encoded_count := app_id_bytes_encoded_count e |})
              else Ok (inr e));
         match r with
         | inl s => Ok (inl s)
         | inr e =>
           Ok (inr {| enc_c := enc_c e; index := index e;
                      attr_bytes_encoded_count := S (attr_bytes_encoded_count e);
                      app_id_bytes_encoded_count := app_id_bytes_encoded_count e |})
         end
       else Ok (inr e));
  match r with
  | inl s => Ok (s, e)
  | inr e =>
    if decide (Z.of_nat (attr_bytes_encoded_count e) = BT_GATT_ANCS_NB_OF_APP_ATTR)
    then Ok (APP_ATTR_DONE, e)
    else Ok (APP_ATTR_APP_ID, e)
  end.

(** The [while (state != APP_ATTR_DONE && state != APP_ATTR_ABORT)] loop,
    run for at most [fuel] iterations. *)
Fixpoint app_attr_get_loop (fuel : nat) (state : encode_app_attr_t)
    (e : app_attr_enc) (p_app_id : list Z) (app_id_len : nat)
    : res (encode_app_attr_t * app_attr_enc) :=
  match state with
  | APP_ATTR_DONE | APP_ATTR_ABORT => Ok (state, e)
  | _ =>
    match fuel with
    | O => Spin
    | S fuel =>
      '(state, e) ←
        match state with
        | APP_ATTR_COMMAND_ID => app_attr_encode_cmd_id e
        | APP_ATTR_APP_ID => app_attr_encode_app_id e p_app_id app_id_len
        | APP_ATTR_ATTR_ID => app_attr_encode_attr_id e
        | _ => Ok (state, e)
        end;
      app_attr_get_loop fuel state e p_app_id app_id_len
    end
  end.

Definition app_attr_get (fuel : nat) (w : world) (p_app_id : list Z)
    (app_id_len : nat) (timeout : k_timeout_t) : res (Z * world) :=
  '(err, sem) ← k_sem_take (cp_write_params_sem (ancs_c w)) timeout;
  if negb (err =? 0) then Ok (err, w)
  else
    let c := set_sem sem (ancs_c w) in
    let c := set_number_of_requested_attr 0 c in
    _ ← app_attr_nb_to_get c;
    '(state, e) ← app_attr_get_loop fuel APP_ATTR_COMMAND_ID
                    {| enc_c := c; index := 0;
                       attr_bytes_encoded_count := 0;
                       app_id_bytes_encoded_count := 0 |}
                    p_app_id app_id_len;
    let w := set_ancs_c (fun _ => enc_c e) w in
    match state with
    | APP_ATTR_DONE =>
      let '(err, w) := bt_gatt_ancs_c_cp_write w (index e) in
      Ok (err, set_ancs_c (fun c => set_parse_info
              (set_expected_number_of_attrs (number_of_requested_attr c)) c) w)
    | _ => Ok (- ENOMEM, w)
    end.

Definition ancs_c_app_attr_request (fuel : nat) (w : world) (p_app_id : list Z)
    (len : nat) (timeout : k_timeout_t) : res (Z * world) :=
  if decide (len = 0%nat) then Ok (- EINVAL, w)
  else
    match p_app_id !! len with
    | None => Trap OutOfBounds
    | Some b =>
      if negb (b =? 0) then Ok (- EINVAL, w)
      else
        let w := set_ancs_c (set_parse_info (set_parse_state COMMAND_ID)) w in
        app_attr_get fuel w p_app_id len timeout
    end.

Definition bt_gatt_ancs_c_app_attr_request := ancs_c_app_attr_request.

End cp_buff.

(** ** Data Source parser: [ancs_attr_parser.c] *)

Definition attr_list_of (c : bt_gatt_ancs_c) (l : attr_list_sel)
    : list bt_gatt_ancs_c_attr_list_t :=
  match l with
  | NotifList => ancs_notif_attr_list c
  | AppList => ancs_app_attr_list c
  end.

(** [ancs_c->parse_info.p_attr_list[id]]. *)
Definition p_attr_list_at (c : bt_gatt_ancs_c) (id : Z)
    : res bt_gatt_ancs_c_attr_list_t :=
  match p_attr_list (parse_info c) with
  | None => Trap NullDeref
  | Some l =>
    match attr_list_of c l !! Z.to_nat id with
    | Some e => Ok e
    | None => Trap OutOfBounds
    end
  end.

(** [ancs_c->evt.attr.p_attr_data[i] = v]. *)
Definition store_attr_data (w : world) (i : Z) (v : Z) : res world :=
  match p_attr_data (attr (evt (ancs_c w))) with
  | None => Trap NullDeref
  | Some a =>
    match ram w !! a with
    | None => Trap OutOfBounds
    | Some buf =>
      buf ← store buf (Z.to_nat i) v;
      Ok (set_ram (<[a := buf]> (ram w)) w)
    end
  end.

(** [ancs_c->evt_handler(&ancs_c->evt)]. *)
Definition deliver_evt (w : world) : world :=
  let e := evt (ancs_c w) in
  evt_handler
    (on_ds e (match p_attr_data (attr e) with
              | Some a => ram w !! a
              | None => None
              end)) w.

Definition all_req_attrs_parsed (c : bt_gatt_ancs_c) : bool :=
  expected_number_of_attrs (parse_info c) =? 0.

Definition attr_is_requested (c : bt_gatt_ancs_c) (a : bt_gatt_ancs_c_attr_t) : res bool :=
  e ← p_attr_list_at c (attr_id a);
  Ok (get e).

(** Each parse function receives the client, the received data and the
    index into it, and returns the next parse state with the client and the
    index as it leaves them. *)
Definition parse_result : Type := bt_gatt_ancs_c_parse_state_t * world * nat.

Definition command_id_parse (w : world) (p : nat → Z) (index : nat) : res parse_result :=
  let cmd := p index in
  let index := S index in
  if cmd =? BT_GATT_ANCS_COMMAND_ID_GET_NOTIF_ATTRIBUTES then
    let w := set_ancs_c (fun c =>
      set_parse_info (set_command cmd (Some NotifList) BT_GATT_ANCS_NB_OF_NOTIF_ATTR)
        (set_evt (set_evt_type BT_GATT_ANCS_C_EVT_NOTIF_ATTRIBUTE) c)) w in
    Ok (NOTIF_UID, w, index)
  else if cmd =? BT_GATT_ANCS_COMMAND_ID_GET_APP_ATTRIBUTES then
    let w := set_ancs_c (fun c =>
      set_parse_info (set_command cmd (Some AppList) BT_GATT_ANCS_NB_OF_APP_ATTR)
        (set_evt (set_evt_type BT_GATT_ANCS_C_EVT_APP_ATTRIBUTE) c)) w in
    Ok (APP_ID, w, index)
  else
    let w := set_ancs_c (fun c =>
      set_parse_info (fun q => set_command cmd (p_attr_list q) (nb_of_attr q) q) c) w in
    Ok (DONE, w, index).

Definition notif_uid_parse (w : world) (p : nat → Z) (index : nat) : res parse_result :=
  let w := set_ancs_c (set_evt (set_evt_notif_uid (sys_get_le32 p index))) w in
  Ok (ATTR_ID, w, (index + 4)%nat).

Definition app_id_parse (w : world) (p : nat → Z) (index : nat) : res parse_result :=
  let i := current_app_id_index (parse_info (ancs_c w)) in
  let b := p index in
  let index := S index in
  a ← store (app_id (evt (ancs_c w))) (Z.to_nat i) b;
  let w := set_ancs_c (set_evt (set_app_id a)) w in
  if negb (b =? 0) then
    Ok (APP_ID, set_ancs_c (set_parse_info (set_current_app_id_index (i + 1))) w, index)
  else Ok (ATTR_ID, w, index).

Definition attr_id_parse (w : world) (p : nat → Z) (index : nat) : res parse_result :=
  let id := p index in
  let index := S index in
  let w := set_ancs_c (set_evt (set_attr (set_attr_id id))) w in
  if nb_of_attr (parse_info (ancs_c w)) <=? id then Ok (DONE, w, index)
  else
    e ← p_attr_list_at (ancs_c w) id;
    let w := set_ancs_c (set_evt (set_attr (set_p_attr_data (list_p_attr_data e)))) w in
    if all_req_attrs_parsed (ancs_c w) then Ok (DONE, w, index)
    else
      req ← attr_is_requested (ancs_c w) (attr (evt (ancs_c w)));
      let w :=
        if req : bool then
          set_ancs_c (set_parse_info (fun q =>
            set_expected_number_of_attrs (expected_number_of_attrs q - 1) q)) w
        else w in
      Ok (ATTR_LEN1, w, index).

Definition attr_len1_parse (w : world) (p : nat → Z) (index : nat) : res parse_result :=
  let w := set_ancs_c (set_evt (set_attr (set_attr_len (p index)))) w in
  Ok (ATTR_LEN2, w, S index).

Definition attr_len2_parse (w : world) (p : nat → Z) (index : nat) : res parse_result :=
  let w := set_ancs_c (set_evt (set_attr (fun a =>
             set_attr_len (Z.lor (attr_len a) (Z.shiftl (p index) 8) mod 2 ^ 16) a))) w in
  let index := S index in
  let w := set_ancs_c (set_parse_info (set_current_attr_index 0)) w in
  let c := ancs_c w in
  if negb (attr_len (attr (evt c)) =? 0) then
    e ← p_attr_list_at c (attr_id (attr (evt c)));
    if (list_attr_len e =? 0) || bool_decide (list_p_attr_data e = None)
    then Ok (ATTR_SKIP, w, index)
    else Ok (ATTR_DATA, w, index)
  else
    req ← attr_is_requested c (attr (evt c));
    let w := if req : bool then deliver_evt w else w in
    if all_req_attrs_parsed (ancs_c w) then Ok (DONE, w, index)
    else Ok (ATTR_ID, w, index).

(** The increments of [current_attr_index] (a [uint16_t]) cannot wrap: each
    is guarded by [current_attr_index < evt.attr.attr_len]. *)
Definition attr_data_parse (w : world) (p : nat → Z) (index : nat) : res parse_result :=
  e ← p_attr_list_at (ancs_c w) (attr_id (attr (evt (ancs_c w))));
  let i := current_attr_index (parse_info (ancs_c w)) in
  '(w, index) ←
    (if (i <? list_attr_len e) && (i <? attr_len (attr (evt (ancs_c w)))) then
       w ← store_attr_data w i (p index);
       Ok (set_ancs_c (set_parse_info (set_current_attr_index (i + 1))) w, S index)
     else Ok (w, index));
  let c := ancs_c w in
  let i := current_attr_index (parse_info c) in
  e ← p_attr_list_at c (attr_id (attr (evt c)));
  if (i =? attr_len (attr (evt c))) || (i =? list_attr_len e - 1) then
    req ← attr_is_requested c (attr (evt c));
    w ← (if req : bool then store_attr_data w i 0 else Ok w);
    let c := ancs_c w in
    if current_attr_index (parse_info c) <? attr_len (attr (evt c))
    then Ok (ATTR_SKIP, w, index)
    else
      req ← attr_is_requested c (attr (evt c));
      let w := if req : bool then deliver_evt w else w in
      if all_req_attrs_parsed (ancs_c w) then Ok (DONE, w, index)
      else Ok (ATTR_ID, w, index)
  else Ok (ATTR_DATA, w, index).

Definition attr_skip (w : world) (p : nat → Z) (index : nat) : res parse_result :=
  let c := ancs_c w in
  let '(w, index) :=
    if current_attr_index (parse_info c) <? attr_len (attr (evt c)) then
      (set_ancs_c (set_parse_info (fun q =>
         set_current_attr_index (current_attr_index q + 1) q)) w, S index)
    else (w, index) in
  let c := ancs_c w in
  if current_attr_index (parse_info c) =? attr_len (attr (evt c)) then
    req ← attr_is_requested c (attr (evt c));
    let w := if req : bool then deliver_evt w else w in
    if all_req_attrs_parsed (ancs_c w) then Ok (DONE, w, index)
    else Ok (ATTR_ID, w, index)
  else Ok (ATTR_SKIP, w, index).

(** One iteration of the [for] loop of [ancs_parse_get_attrs_response]: the
    [switch] on the parse state.  (The [default] branch has no counterpart:
    the parse state is one of the nine enumerators.) *)
Definition parse_iter (w : world) (h : hvx) (index : nat) : res (world * nat) :=
  let next (r : res parse_result) : res (world * nat) :=
    '(s, w, index) ← r;
    Ok (set_ancs_c (set_parse_info (set_parse_state s)) w, index) in
  let p := p_data_src h in
  match parse_state (parse_info (ancs_c w)) with
  | COMMAND_ID => next (command_id_parse w p index)
  | NOTIF_UID => next (notif_uid_parse w p index)
  | APP_ID => next (app_id_parse w p index)
  | ATTR_ID => next (attr_id_parse w p index)
  | ATTR_LEN1 => next (attr_len1_parse w p index)
  | ATTR_LEN2 => next (attr_len2_parse w p index)
  | ATTR_DATA => next (attr_data_parse w p index)
  | ATTR_SKIP => next (attr_skip w p index)
  | DONE => Ok (w, hvx_data_len h)
  end.

(** [for (index = 0; index < hvx_data_len;)], at most [fuel] iterations. *)
Fixpoint parse_loop (fuel : nat) (w : world) (h : hvx) (index : nat) : res world :=
  if decide (index < hvx_data_len h)%nat then
    match fuel with
    | O => Spin
    | S fuel =>
      '(w, index) ← parse_iter w h index;
      parse_loop fuel w h index
    end
  else Ok w.

Definition ancs_parse_get_attrs_response (fuel : nat) (w : world) (h : hvx) : res world :=
  parse_loop fuel w h 0.

Definition on_received_ds (fuel : nat) (w : world) (h : hvx) : res world :=
  ancs_parse_get_attrs_response fuel w h.

(** Data Source notifications arriving one after the other. *)
Fixpoint on_received_ds_all (fuel : nat) (w : world) (hs : list hvx) : res world :=
  match hs with
  | [] => Ok w
  | h :: hs => w ← on_received_ds fuel w h; on_received_ds_all fuel w hs
  end.

(** ** Session set-up: [bt_gatt_ancs_c_init] and the two [attr_add] *)

Definition zero_parse_info : bt_gatt_ancs_parse_sm_t :=
  {| p_attr_list := None; nb_of_attr := 0; expected_number_of_attrs := 0;
     parse_state := COMMAND_ID; command_id := 0;
     current_attr_index := 0; current_app_id_index := 0 |}.

Definition zero_evt : bt_gatt_ancs_c_evt_t :=
  {| evt_type := BT_GATT_ANCS_C_EVT_NOTIF;
     attr := {| attr_len := 0; attr_id := 0; p_attr_data := None |};
     evt_notif_uid := 0;
     app_id := replicate (Z.to_nat BT_GATT_ANCS_ATTR_DATA_MAX) 0 |}.

Definition zero_attr_list : bt_gatt_ancs_c_attr_list_t :=
  {| get := false; list_attr_len := 0; list_p_attr_data := None |}.

(** [memset] to zero, then [k_sem_init(&sem, 1, 1)]; [cp_buff_size] is
    [CONFIG_BT_GATT_ANCS_C_CP_BUFF_SIZE]. *)
Definition bt_gatt_ancs_c_init (cp_buff_size : nat) : bt_gatt_ancs_c :=
  {| cp_write_params_sem := 1;
     cp_data := replicate cp_buff_size 0;
     ancs_notif_attr_list :=
       replicate (Z.to_nat BT_GATT_ANCS_NB_OF_NOTIF_ATTR) zero_attr_list;
     ancs_app_attr_list :=
       replicate (Z.to_nat BT_GATT_ANCS_NB_OF_APP_ATTR) zero_attr_list;
     number_of_requested_attr := 0;
     parse_info := zero_parse_info;
     evt := zero_evt |}.

Definition set_notif_attr_list (v : list bt_gatt_ancs_c_attr_list_t)
    (c : bt_gatt_ancs_c) : bt_gatt_ancs_c :=
  {| cp_write_params_sem := cp_write_params_sem c;
     cp_data := cp_data c;
     ancs_notif_attr_list := v;
     ancs_app_attr_list := ancs_app_attr_list c;
     number_of_requested_attr := number_of_requested_attr c;
     parse_info := parse_info c;
     evt := evt c |}.

Definition set_app_attr_list (v : list bt_gatt_ancs_c_attr_list_t)
    (c : bt_gatt_ancs_c) : bt_gatt_ancs_c :=
  {| cp_write_params_sem := cp_write_params_sem c;
     cp_data := cp_data c;
     ancs_notif_attr_list := ancs_notif_attr_list c;
     ancs_app_attr_list := v;
     number_of_requested_attr := number_of_requested_attr c;
     parse_info := parse_info c;
     evt := evt c |}.

Definition bt_gatt_ancs_c_attr_add (c : bt_gatt_ancs_c) (id : nat)
    (p_data : option nat) (len : Z) : Z * bt_gatt_ancs_c :=
  if bool_decide (p_data = None) then (- EINVAL, c)
  else if (len =? 0) || (BT_GATT_ANCS_ATTR_DATA_MAX <? len) then (- EINVAL, c)
  else (0, set_notif_attr_list
             (<[id := {| get := true; list_attr_len := len;
                         list_p_attr_data := p_data |}]> (ancs_notif_attr_list c)) c).

Definition bt_gatt_ancs_c_app_attr_add (c : bt_gatt_ancs_c) (id : nat)
    (p_data : option nat) (len : Z) : Z * bt_gatt_ancs_c :=
  if bool_decide (p_data = None) then (- EINVAL, c)
  else if (len =? 0) || (BT_GATT_ANCS_ATTR_DATA_MAX <? len) then (- EINVAL, c)
  else (0, set_app_attr_list
             (<[id := {| get := true; list_attr_len := len;
                         list_p_attr_data := p_data |}]> (ancs_app_attr_list c)) c).

(** ** Vocabulary of the statements *)

Definition is_byte (b : Z) : Prop := 0 ≤ b < 256.

(** Little-endian layout of a 16-bit and of a 32-bit value. *)
Definition le16 (v : Z) : list Z := [v mod 256; v / 256 mod 256].

Definition le32 (v : Z) : list Z :=
  [v mod 256; v / 256 mod 256; v / 65536 mod 256; v / 16777216 mod 256].

(** The value whose little-endian bytes are [b0 b1 b2 b3]. *)
Definition of_le32 (b0 b1 b2 b3 : Z) : Z :=
  b0 + 256 * b1 + 65536 * b2 + 16777216 * b3.

(** Failure to obtain the Control Point semaphore within a bounded
    timeout, as [k_sem_take] reports it: [-EBUSY] when the call does not
    wait, [-EAGAIN] when the wait timed out. *)
Definition busy (timeout : k_timeout_t) : Z :=
  if no_wait timeout then - EBUSY else - EAGAIN.

(** A session as the sample application sets it up: every attribute
    registered with its own buffer of [BT_GATT_ANCS_ATTR_DATA_MAX] bytes;
    buffer [i] serves notification attribute [i], buffer 8 the display
    name.  [fill] is what the buffers hold before anything is received. *)
Definition sample_ram (fill : Z) : list (list Z) :=
  replicate 9 (replicate (Z.to_nat BT_GATT_ANCS_ATTR_DATA_MAX) fill).

Definition add_notif_attrs (ids : list nat) (c : bt_gatt_ancs_c) : bt_gatt_ancs_c :=
  foldl (fun c id => (bt_gatt_ancs_c_attr_add c id (Some id) BT_GATT_ANCS_ATTR_DATA_MAX).2)
        c ids.

Definition sample_client (cp_buff_size : nat) (ids : list nat) : bt_gatt_ancs_c :=
  (bt_gatt_ancs_c_app_attr_add
     (add_notif_attrs ids (bt_gatt_ancs_c_init cp_buff_size))
     0 (Some 8%nat) BT_GATT_ANCS_ATTR_DATA_MAX).2.

Definition sample_world (cp_buff_size : nat) (ids : list nat) (fill : Z) : world :=
  {| ancs_c := sample_client cp_buff_size ids;
     ram := sample_ram fill;
     sink := [];
     att := {| write_ret := 0; written := [] |} |}.

(** [poke d i bs]: the buffer [d] with [bs] written from index [i] on. *)
Definition poke (d : list Z) (i : nat) (bs : list Z) : list Z :=
  take i d ++ bs ++ drop (i + length bs) d.

(** The world a dispatcher leaves, or [dflt] when it does not return. *)
Definition world_after (r : res (Z * world)) (dflt : world) : world :=
  match r with
  | Ok (_, w) => w
  | _ => dflt
  end.

Definition received (r : res world) (dflt : world) : world :=
  match r with
  | Ok w => w
  | _ => dflt
  end.

Definition sample_notif : bt_gatt_ancs_c_evt_notif_t :=
  {| notif_uid := 67305985;
     evt_id := 0;
     evt_flags :=
       {| silent := 0; important := 0; pre_existing := 0;
          positive_action := 1; negative_action := 1 |};
     category_id := 6;
     category_count := 2 |}.

(** A session with the Title registered, in the middle of a response while
    a later command is in flight: the attributes of [sample_notif] were
    requested and the write completed, the first Data Source notification
    00 01 02 03 04 01 has arrived, and a positive action has been sent whose
    write has not completed yet, so the semaphore is taken. *)
Definition held_world : world :=
  let w := sample_world 18 [1%nat] 0 in
  let w := world_after (bt_gatt_ancs_c_request_attrs w sample_notif K_NO_WAIT) w in
  let w := bt_gatt_ancs_c_cp_write_callback w 0 in
  let w := received (on_received_ds 6 w (hvx_of [0; 1; 2; 3; 4; 1])) w in
  world_after (bt_gatt_ancs_perform_notif_action w 67305985 ACTION_ID_POSITIVE K_NO_WAIT) w.

(** The encoding of the "get notification attributes" command: command
    id 0, the uid, then every requested attribute id in ascending order,
    Title, Subtitle and Message followed by their registered length. *)
Definition notif_attr_wire (i : nat) (e : bt_gatt_ancs_c_attr_list_t) : list Z :=
  if get e then
    Z.of_nat i :: (if bool_decide (i = 1 ∨ i = 2 ∨ i = 3)%nat
                   then le16 (list_attr_len e) else [])
  else [].

Fixpoint notif_attrs_wire (i : nat) (l : list bt_gatt_ancs_c_attr_list_t) : list Z :=
  match l with
  | [] => []
  | e :: l => notif_attr_wire i e ++ notif_attrs_wire (S i) l
  end.

Definition get_notif_attrs_wire (uid : Z) (l : list bt_gatt_ancs_c_attr_list_t) : list Z :=
  0 :: le32 uid ++ notif_attrs_wire 0 l.

Definition requested_count (l : list bt_gatt_ancs_c_attr_list_t) : Z :=
  Z.of_nat (length (filter (fun e => get e = true) l)).

(** The client [c] with the Control Point buffer [d] and [n] attributes
    counted as requested. *)
Definition with_cp (c : bt_gatt_ancs_c) (d : list Z) (n : Z) : bt_gatt_ancs_c :=
  set_number_of_requested_attr n (set_cp_data d c).

(** ** Byte-wise view of the Data Source parser *)

(** One byte offered to the parser as a notification of its own.  The
    states COMMAND_ID, APP_ID, ATTR_ID, ATTR_LEN1, ATTR_LEN2, ATTR_DATA,
    ATTR_SKIP and DONE look at one byte per iteration; [byte_step] is
    defined for them, and only when the iteration takes the byte. *)
Definition byte_step (w : world) (b : Z) : res world :=
  match parse_state (parse_info (ancs_c w)) with
  | NOTIF_UID => Spin
  | _ =>
    '(w, index) ← parse_iter w (hvx_of [b]) 0;
    if decide (index = 1%nat) then Ok w else Spin
  end.

Fixpoint run (w : world) (bs : list Z) : res world :=
  match bs with
  | [] => Ok w
  | b :: bs => w ← byte_step w b; run w bs
  end.

(** The world [w] with the parts the attribute phase of the parser works
    on replaced. *)
Definition ds_world (w : world) (s : bt_gatt_ancs_c_parse_state_t)
    (expected index : Z) (a : bt_gatt_ancs_c_attr_t)
    (r : list (list Z)) (k : list sink_call) : world :=
  let c := ancs_c w in
  let q := parse_info c in
  let e := evt c in
  {| ancs_c :=
       {| cp_write_params_sem := cp_write_params_sem c;
          cp_data := cp_data c;
          ancs_notif_attr_list := ancs_notif_attr_list c;
          ancs_app_attr_list := ancs_app_attr_list c;
          number_of_requested_attr := number_of_requested_attr c;
          parse_info :=
            {| p_attr_list := p_attr_list q;
               nb_of_attr := nb_of_attr q;
               expected_number_of_attrs := expected;
               parse_state := s;
               command_id := command_id q;
               current_attr_index := index;
               current_app_id_index := current_app_id_index q |};
          evt :=
            {| evt_type := evt_type e;
               attr := a;
               evt_notif_uid := evt_notif_uid e;
               app_id := app_id e |} |};
     ram := r;
     sink := k;
     att := att w |}.

(** ** Well-formed responses and what the parser makes of them *)

(** An attribute of a response: its id and its data. *)
Definition attr_wire (x : Z * list Z) : list Z :=
  x.1 :: le16 (Z.of_nat (length x.2)) ++ x.2.

Definition attrs_wire (attrs : list (Z * list Z)) : list Z :=
  concat (map attr_wire attrs).

(** Response to "get notification attributes": command id 0, the four
    bytes of the notification UID, the attributes. *)
Definition notif_response_wire (uid : list Z) (attrs : list (Z * list Z)) : list Z :=
  BT_GATT_ANCS_COMMAND_ID_GET_NOTIF_ATTRIBUTES :: uid ++ attrs_wire attrs.

(** Response to "get app attributes": command id 1, the app identifier
    with its terminator, the attributes. *)
Definition app_response_wire (app : list Z) (attrs : list (Z * list Z)) : list Z :=
  BT_GATT_ANCS_COMMAND_ID_GET_APP_ATTRIBUTES :: app ++ 0 :: attrs_wire attrs.

(** What a buffer of registered length [m] holds after an attribute with
    [data] has been received into it: nothing new when there is no data,
    otherwise the first [min (length data) (m - 1)] bytes and a
    terminator. *)
Definition kept (m : Z) (data : list Z) : nat :=
  Nat.min (length data) (Z.to_nat (m - 1)).

Definition stored (m : Z) (data buf : list Z) : list Z :=
  match data with
  | [] => buf
  | _ => take (kept m data) data ++ 0 :: drop (S (kept m data)) buf
  end.

(** The world after the attribute [x] of a response for table [l] has been
    parsed, for a requested attribute with a buffer. *)
Definition attr_effect (l : attr_list_sel) (w : world) (x : Z * list Z) : world :=
  match attr_list_of (ancs_c w) l !! Z.to_nat x.1 with
  | Some e =>
    match list_p_attr_data e with
    | Some a =>
      match ram w !! a with
      | Some buf =>
        let buf := stored (list_attr_len e) x.2 buf in
        let expected := expected_number_of_attrs (parse_info (ancs_c w)) - 1 in
        let len := Z.of_nat (length x.2) in
        let ea := {| attr_len := len; attr_id := x.1; p_attr_data := Some a |} in
        let r := <[a := buf]> (ram w) in
        let s := if expected =? 0 then DONE else ATTR_ID in
        ds_world w s expected len ea r
          (sink w ++ [on_ds (evt (ancs_c (ds_world w s expected len ea r []))) (Some buf)])
      | None => w
      end
    | None => w
    end
  | None => w
  end.

(** The value [notif_uid_parse] reads from four bytes. *)
Definition uid_value (uid : list Z) : Z :=
  sys_get_le32 (fun i => default 0 (uid !! i)) 0.

(** The world after the command id of a notification response, and after
    its UID. *)
Definition notif_cmd_effect (w : world) : world :=
  set_ancs_c (fun c =>
    set_parse_info (set_parse_state NOTIF_UID)
      (set_parse_info
         (set_command BT_GATT_ANCS_COMMAND_ID_GET_NOTIF_ATTRIBUTES
            (Some NotifList) BT_GATT_ANCS_NB_OF_NOTIF_ATTR)
         (set_evt (set_evt_type BT_GATT_ANCS_C_EVT_NOTIF_ATTRIBUTE) c))) w.

Definition uid_effect (w : world) (uid : list Z) : world :=
  set_ancs_c (fun c =>
    set_parse_info (set_parse_state ATTR_ID)
      (set_evt (set_evt_notif_uid (uid_value uid)) c)) w.

Definition notif_header_effect (w : world) (uid : list Z) : world :=
  uid_effect (notif_cmd_effect w) uid.

Definition notif_response_effect (w : world) (uid : list Z)
    (attrs : list (Z * list Z)) : world :=
  foldl (attr_effect NotifList) (notif_header_effect w uid) attrs.

(** Offsets in the response at which one notification ends and the next
    begins, for notifications of the given lengths starting at [off]. *)
Fixpoint boundaries (off : nat) (lens : list nat) : list nat :=
  match lens with
  | [] => []
  | n :: lens => (off + n)%nat :: boundaries (off + n) lens
  end.

(** No notification ends inside the UID, which is at offsets 1 to 4. *)
Definition uid_whole_from (off : nat) (hs : list hvx) : bool :=
  forallb (fun b => negb ((1 <? b)%nat && (b <? 5)%nat))
          (boundaries off (map hvx_data_len hs)).

Definition uid_whole (hs : list hvx) : bool := uid_whole_from 0 hs.

(** Buffers as the parser needs them: an entry with storage has a length
    of at least 2 and a buffer at least that long; a requested entry has
    storage. *)
Definition has_storage (e : bt_gatt_ancs_c_attr_list_t) : bool :=
  negb ((list_attr_len e =? 0) || bool_decide (list_p_attr_data e = None)).

Definition entry_ok (r : list (list Z)) (e : bt_gatt_ancs_c_attr_list_t) : bool :=
  if has_storage e then
    match list_p_attr_data e with
    | Some a =>
      match r !! a with
      | Some buf => (2 <=? list_attr_len e) && (list_attr_len e <=? Z.of_nat (length buf))
      | None => false
      end
    | None => false
    end
  else negb (get e).

Definition tables_ok (w : world) : bool :=
  forallb (entry_ok (ram w)) (ancs_notif_attr_list (ancs_c w))
  && forallb (entry_ok (ram w)) (ancs_app_attr_list (ancs_c w))
  && bool_decide (length (ancs_notif_attr_list (ancs_c w))
                  = Z.to_nat BT_GATT_ANCS_NB_OF_NOTIF_ATTR)
  && bool_decide (length (ancs_app_attr_list (ancs_c w))
                  = Z.to_nat BT_GATT_ANCS_NB_OF_APP_ATTR).

(** The attributes of a response are requested ones, and their data fit
    the 16-bit length field. *)
Definition attr_requested (c : bt_gatt_ancs_c) (l : attr_list_sel) (x : Z * list Z) : bool :=
  (0 <=? x.1)
  && match attr_list_of c l !! Z.to_nat x.1 with
     | Some e => get e
     | None => false
     end
  && (Z.of_nat (length x.2) <? 65536).

(** The handler call [ev] reports attribute [x]: same id, the length on
    the wire, and a buffer starting with the first
    [min (length data) (max_len - 1)] bytes of the data. *)
Definition carries (c : bt_gatt_ancs_c) (l : attr_list_sel)
    (x : Z * list Z) (ev : sink_call) : Prop :=
  match ev, attr_list_of c l !! Z.to_nat x.1 with
  | on_ds e (Some buf), Some r =>
    attr_id (attr e) = x.1
    ∧ attr_len (attr e) = Z.of_nat (length x.2)
    ∧ take (kept (list_attr_len r) x.2) buf = take (kept (list_attr_len r) x.2) x.2
    ∧ (x.2 ≠ [] → buf !! kept (list_attr_len r) x.2 = Some 0)
  | _, _ => False
  end.

(** The event structure of [w] with the attribute [ea]. *)
Definition ds_evt (w : world) (ea : bt_gatt_ancs_c_attr_t) : bt_gatt_ancs_c_evt_t :=
  set_attr (fun _ => ea) (evt (ancs_c w)).

(** What holds of the parser when the attributes [attrs] of a response for
    table [l] are still to come. *)
Record attr_phase (l : attr_list_sel) (w : world) (attrs : list (Z * list Z)) : Prop := {
  ph_list : p_attr_list (parse_info (ancs_c w)) = Some l;
  ph_nb : nb_of_attr (parse_info (ancs_c w))
          = Z.of_nat (length (attr_list_of (ancs_c w) l));
  ph_expected : expected_number_of_attrs (parse_info (ancs_c w))
                = Z.of_nat (length attrs);
  ph_state : attrs ≠ [] → parse_state (parse_info (ancs_c w)) = ATTR_ID;
  ph_tables : tables_ok w = true;
  ph_requested : forallb (attr_requested (ancs_c w) l) attrs = true;
}.

(** The session of the sample application with AppIdentifier, Title and
    Message registered, buffers filled with 'A', after the attributes of
    [sample_notif] have been requested and the write has completed. *)
Definition sample_title_message_appid : world :=
  let w := sample_world 18 [0; 1; 3]%nat 65 in
  let w := world_after (bt_gatt_ancs_c_request_attrs w sample_notif K_NO_WAIT) w in
  bt_gatt_ancs_c_cp_write_callback w 0.

(** Title "nRF", Message "52", AppIdentifier "com". *)
Definition sample_response : list (Z * list Z) :=
  [(1, [110; 82; 70]); (3, [53; 50]); (0, [99; 111; 109])].

(** The world [w] with the parts the APP_ID phase of the parser works on
    replaced. *)
Definition app_id_world (w : world) (s : bt_gatt_ancs_c_parse_state_t)
    (k : Z) (buf : list Z) : world :=
  set_ancs_c (fun c =>
    set_parse_info (set_parse_state s)
      (set_parse_info (set_current_app_id_index k)
         (set_evt (set_app_id buf) c))) w.

(** The world after the command id of an app response, and after its app
    identifier. *)
Definition app_cmd_effect (w : world) : world :=
  set_ancs_c (fun c =>
    set_parse_info (set_parse_state APP_ID)
      (set_parse_info
         (set_command BT_GATT_ANCS_COMMAND_ID_GET_APP_ATTRIBUTES
            (Some AppList) BT_GATT_ANCS_NB_OF_APP_ATTR)
         (set_evt (set_evt_type BT_GATT_ANCS_C_EVT_APP_ATTRIBUTE) c))) w.

Definition app_header_effect (w : world) (app : list Z) : world :=
  let k := current_app_id_index (parse_info (ancs_c w)) in
  app_id_world (app_cmd_effect w) ATTR_ID (k + Z.of_nat (length app))
    (poke (app_id (evt (ancs_c w))) (Z.to_nat k) (app ++ [0])).

Definition app_response_effect (w : world) (app : list Z)
    (attrs : list (Z * list Z)) : world :=
  foldl (attr_effect AppList) (app_header_effect w app) attrs.

(** A response on the Data Source: to "get notification attributes" or to
    "get app attributes". *)
Inductive response :=
| NotifResponse (uid : list Z) (attrs : list (Z * list Z))
| AppResponse (app : list Z) (attrs : list (Z * list Z)).

Definition response_wire (r : response) : list Z :=
  match r with
  | NotifResponse uid attrs => notif_response_wire uid attrs
  | AppResponse app attrs => app_response_wire app attrs
  end.

Definition response_attrs (r : response) : list (Z * list Z) :=
  match r with
  | NotifResponse _ attrs => attrs
  | AppResponse _ attrs => attrs
  end.

Definition response_list (r : response) : attr_list_sel :=
  match r with
  | NotifResponse _ _ => NotifList
  | AppResponse _ _ => AppList
  end.

Definition response_effect (w : world) (r : response) : world :=
  match r with
  | NotifResponse uid attrs => notif_response_effect w uid attrs
  | AppResponse app attrs => app_response_effect w app attrs
  end.

(** The header of a response as the parser needs it: a UID of four
    bytes; an app identifier without a zero byte inside that fits, with its
    terminator, what [current_app_id_index] leaves of [evt.app_id]. *)
Definition header_ok (w : world) (r : response) : bool :=
  match r with
  | NotifResponse uid _ => bool_decide (length uid = 4%nat)
  | AppResponse app _ =>
    let k := current_app_id_index (parse_info (ancs_c w)) in
    forallb (fun b => negb (b =? 0)) app
    && (0 <=? k)
    && (Z.to_nat k + length app <? length (app_id (evt (ancs_c w))))%nat
  end.

(** Where the notifications may end: anywhere, except inside the UID. *)
Definition cut_ok (r : response) (hs : list hvx) : bool :=
  match r with
  | NotifResponse _ _ => uid_whole hs
  | AppResponse _ _ => true
  end.

(** ** Invariant of the Data Source parser *)

Definition evt_type_of (l : attr_list_sel) : bt_gatt_ancs_c_evt_type_t :=
  match l with
  | NotifList => BT_GATT_ANCS_C_EVT_NOTIF_ATTRIBUTE
  | AppList => BT_GATT_ANCS_C_EVT_APP_ATTRIBUTE
  end.

Definition list_of_evt_type (t : bt_gatt_ancs_c_evt_type_t) : option attr_list_sel :=
  match t with
  | BT_GATT_ANCS_C_EVT_NOTIF_ATTRIBUTE => Some NotifList
  | BT_GATT_ANCS_C_EVT_APP_ATTRIBUTE => Some AppList
  | _ => None
  end.

(** The table entry an attribute event is about. *)
Definition registered_entry (c : bt_gatt_ancs_c) (e : bt_gatt_ancs_c_evt_t)
    : option bt_gatt_ancs_c_attr_list_t :=
  match list_of_evt_type (evt_type e) with
  | Some l => attr_list_of c l !! Z.to_nat (attr_id (attr e))
  | None => None
  end.

(** A handler call of the parser for a requested attribute; when the
    attribute has data, the buffer holds the terminator at offset
    [min attr_len (max_len - 1)]. *)
Definition evt_terminated (c : bt_gatt_ancs_c) (ev : sink_call) : Prop :=
  match ev with
  | on_ds e storage =>
    match registered_entry c e with
    | Some r =>
      get r = true
      ∧ (attr_len (attr e) ≠ 0 →
         ∃ buf, storage = Some buf
                ∧ buf !! Z.to_nat (Z.min (attr_len (attr e)) (list_attr_len r - 1)) = Some 0)
    | None => False
    end
  | _ => False
  end.

(** A table has been selected by the command id. *)
Definition bound (c : bt_gatt_ancs_c) (l : attr_list_sel) : Prop :=
  p_attr_list (parse_info c) = Some l
  ∧ nb_of_attr (parse_info c) = Z.of_nat (length (attr_list_of c l))
  ∧ evt_type (evt c) = evt_type_of l.

(** The attribute id has been read and [e] is its entry. *)
Definition located (c : bt_gatt_ancs_c) (l : attr_list_sel)
    (e : bt_gatt_ancs_c_attr_list_t) : Prop :=
  bound c l
  ∧ attr_list_of c l !! Z.to_nat (attr_id (attr (evt c))) = Some e
  ∧ p_attr_data (attr (evt c)) = list_p_attr_data e.

Definition parser_inv (w : world) : Prop :=
  let c := ancs_c w in
  let i := current_attr_index (parse_info c) in
  let len := attr_len (attr (evt c)) in
  tables_ok w = true
  ∧ match parse_state (parse_info c) with
    | COMMAND_ID | DONE => True
    | NOTIF_UID | APP_ID | ATTR_ID => ∃ l, bound c l
    | ATTR_LEN1 | ATTR_LEN2 => ∃ l e, located c l e
    | ATTR_DATA =>
      ∃ l e, located c l e ∧ has_storage e = true
             ∧ 0 ≤ i < len ∧ i < list_attr_len e - 1
    | ATTR_SKIP =>
      ∃ l e, located c l e ∧ 0 ≤ i < len
             ∧ (get e = true →
                list_attr_len e - 1 < len
                ∧ ∃ a buf, list_p_attr_data e = Some a ∧ ram w !! a = Some buf
                           ∧ buf !! Z.to_nat (list_attr_len e - 1) = Some 0)
    end.


(** What one iteration of the parser's loop at index [i] guarantees; the
    one access that can leave its object is the store of [app_id_parse]. *)
Definition iter_post (w : world) (i : nat) (r : res (world * nat)) : Prop :=
  match r with
  | Ok (w', j) =>
    (i < j)%nat
    ∧ parser_inv w'
    ∧ ancs_notif_attr_list (ancs_c w') = ancs_notif_attr_list (ancs_c w)
    ∧ ancs_app_attr_list (ancs_c w') = ancs_app_attr_list (ancs_c w)
    ∧ ∃ evs, sink w' = sink w ++ evs ∧ Forall (evt_terminated (ancs_c w)) evs
  | Trap _ => parse_state (parse_info (ancs_c w)) = APP_ID
  | Spin => False
  end.

(** The same of a whole notification, or of several. *)
Definition parse_post (w : world) (r : res world) : Prop :=
  match r with
  | Ok w' =>
    parser_inv w'
    ∧ ancs_notif_attr_list (ancs_c w') = ancs_notif_attr_list (ancs_c w)
    ∧ ancs_app_attr_list (ancs_c w') = ancs_app_attr_list (ancs_c w)
    ∧ ∃ evs, sink w' = sink w ++ evs ∧ Forall (evt_terminated (ancs_c w)) evs
  | Trap _ => True
  | Spin => False
  end.

(** What the encoding steps leave alone. *)
Definition enc_frame (e e' : app_attr_enc) : Prop :=
  cp_write_params_sem (enc_c e') = cp_write_params_sem (enc_c e)
  ∧ ancs_app_attr_list (enc_c e') = ancs_app_attr_list (enc_c e)
  ∧ parse_info (enc_c e') = parse_info (enc_c e)
  ∧ length (cp_data (enc_c e')) = length (cp_data (enc_c e)).

(** ** Proof automation *)

(** Case analysis on the outcomes and tests of a parse function. *)
Ltac res_cases :=
  repeat first
    [ done
    | progress cbn [mbind res_bind]
    | progress cbn
    | progress simplify_eq
    | match goal with
      | |- context [mbind _ ?m] =>
        lazymatch m with
        | Ok _ => fail
        | Trap _ => fail
        | Spin => fail
        | context [mbind] => fail
        | context [match _ with _ => _ end] => fail
        | _ => destruct m as [? | ? |] eqn:?
        end
      end
    | case_match ].

(** Decides comparisons of integers that [lia] settles. *)
Ltac Zbool :=
  repeat first
    [ rewrite (proj2 (Z.ltb_lt _ _)) by lia
    | rewrite (proj2 (Z.ltb_ge _ _)) by lia
    | rewrite (proj2 (Z.eqb_eq _ _)) by lia
    | rewrite (proj2 (Z.eqb_neq _ _)) by lia
    | rewrite (proj2 (Z.leb_le _ _)) by lia
    | rewrite (proj2 (Z.leb_gt _ _)) by lia ];
  cbn [andb orb negb].

(** "com.apple.mobilemail", and the response to a request for its
    attributes: the identifier, its terminator, DisplayName "Mail". *)
Definition mail_app_id : list Z :=
  [99; 111; 109; 46; 97; 112; 112; 108; 101; 46;
   109; 111; 98; 105; 108; 101; 109; 97; 105; 108].

Definition mail_response : list Z :=
  app_response_wire mail_app_id [(0, [77; 97; 105; 108])].

(** A session with a Control Point buffer of 32 bytes that has requested
    the attributes of [mail_app_id] and seen the write complete. *)
Definition mail_requested (w : world) : world :=
  let w := world_after (bt_gatt_ancs_c_app_attr_request 32 64 w
                          (mail_app_id ++ [0]) 20 K_NO_WAIT) w in
  bt_gatt_ancs_c_cp_write_callback w 0.

(** A session whose Title entry is registered with a length of one byte,
    after the same request as in [sample_title_message_appid]. *)
Definition sample_title_len1 : world :=
  let c := (bt_gatt_ancs_c_attr_add (bt_gatt_ancs_c_init 18) 1 (Some 1%nat) 1).2 in
  let w := {| ancs_c := c; ram := sample_ram 65; sink := [];
              att := {| write_ret := 0; written := [] |} |} in
  let w := world_after (bt_gatt_ancs_c_request_attrs w sample_notif K_NO_WAIT) w in
  bt_gatt_ancs_c_cp_write_callback w 0.

(** * The rest of the client and the sample application *)

(** What the Data Source parser leaves alone: the Control Point side of the
    client, the attribute tables, and the number and the sizes of the
    buffers. *)
Definition ds_frame (w w' : world) : Prop :=
  att w' = att w
  ∧ cp_write_params_sem (ancs_c w') = cp_write_params_sem (ancs_c w)
  ∧ cp_data (ancs_c w') = cp_data (ancs_c w)
  ∧ number_of_requested_attr (ancs_c w') = number_of_requested_attr (ancs_c w)
  ∧ ancs_notif_attr_list (ancs_c w') = ancs_notif_attr_list (ancs_c w)
  ∧ ancs_app_attr_list (ancs_c w') = ancs_app_attr_list (ancs_c w)
  ∧ map length (ram w') = map length (ram w).

(** The world after a command id the parser does not know. *)
Definition unknown_cmd_effect (w : world) (cmd : Z) : world :=
  set_ancs_c (fun c =>
    set_parse_info (set_parse_state DONE)
      (set_parse_info (fun q => set_command cmd (p_attr_list q) (nb_of_attr q) q) c)) w.

(** Offset [k] of buffer [a] lies at or after the registered length of
    every table entry that points to [a] (of every offset, when no entry
    points to [a]). *)
Definition beyond (c : bt_gatt_ancs_c) (a k : nat) : bool :=
  forallb (fun e => negb (bool_decide (list_p_attr_data e = Some a))
                    || (list_attr_len e <=? Z.of_nat k))
          (ancs_notif_attr_list c ++ ancs_app_attr_list c).

(** The byte at offset [k] of buffer [a], if there is one. *)
Definition byte_at (r : list (list Z)) (a k : nat) : option Z :=
  match r !! a with
  | Some buf => buf !! k
  | None => None
  end.

(** The bytes beyond the registered lengths are the same in [w'] as in
    [w]. *)
Definition ram_kept (w w' : world) : Prop :=
  ∀ a k, beyond (ancs_c w) a k = true → byte_at (ram w') a k = byte_at (ram w) a k.

(** A session with only Title registered, with length [len] on its buffer
    of 32 bytes, after the attributes of [sample_notif] have been
    requested and the write has completed. *)
Definition sample_title_registered (len : Z) : world :=
  let c := (bt_gatt_ancs_c_attr_add (bt_gatt_ancs_c_init 18) 1 (Some 1%nat) len).2 in
  let w := {| ancs_c := c; ram := sample_ram 65; sink := [];
              att := {| write_ret := 0; written := [] |} |} in
  let w := world_after (bt_gatt_ancs_c_request_attrs w sample_notif K_NO_WAIT) w in
  bt_gatt_ancs_c_cp_write_callback w 0.

(** 1 while the parser is inside an attribute that is requested, whose call
    of the handler is still to come; 0 otherwise. *)
Definition pending (c : bt_gatt_ancs_c) : Z :=
  match parse_state (parse_info c) with
  | ATTR_LEN1 | ATTR_LEN2 | ATTR_DATA | ATTR_SKIP =>
    match attr_is_requested c (attr (evt c)) with
    | Ok true => 1
    | _ => 0
    end
  | _ => 0
  end.

(** The handler calls made so far and those the parser still owes. *)
Definition ds_budget (w : world) : Z :=
  Z.of_nat (length (sink w))
  + expected_number_of_attrs (parse_info (ancs_c w)) + pending (ancs_c w).

(** The encoding of the "get app attributes" command: command id 1, the
    app identifier with its terminator, then the id of every requested app
    attribute. *)
Definition app_attr_ids_wire (l : list bt_gatt_ancs_c_attr_list_t) : list Z :=
  concat (imap (fun i e => if get e then [Z.of_nat i] else []) l).

Definition get_app_attrs_wire (p_app_id : list Z) (len : nat)
    (l : list bt_gatt_ancs_c_attr_list_t) : list Z :=
  BT_GATT_ANCS_COMMAND_ID_GET_APP_ATTRIBUTES :: take len p_app_id ++ [0]
  ++ app_attr_ids_wire l.

(** ** Link management: [ancs_c.c] *)

(** Errno values of Zephyr's [errno.h], as [EINVAL] and the others above. *)
Definition EFAULT : Z := 14.
Definition EALREADY : Z := 120.
Definition ENOTSUP : Z := 134.

(** The bits of [ancs_c->state] (the anonymous [enum] of [ancs_c.c]). *)
Definition ANCS_C_NS_NOTIF_ENABLED : Z := 0.
Definition ANCS_C_DS_NOTIF_ENABLED : Z := 1.

(** [BT_GATT_CCC_NOTIFY] and [BT_GATT_SUBSCRIBE_FLAG_VOLATILE] of Zephyr's
    [gatt.h]. *)
Definition BT_GATT_CCC_NOTIFY : Z := 1.
Definition BT_GATT_SUBSCRIBE_FLAG_VOLATILE : Z := 0.

(** The two notification callbacks a subscription can name. *)
Inductive notify_func := notify_on_received_ns | notify_on_received_ds.

#[global] Instance notify_func_eq_dec : EqDecision notify_func.
Proof. solve_decision. Defined.

(** [struct bt_gatt_subscribe_params], the members the client assigns;
    [flags] is the bit set [atomic_set_bit] works on. *)
Record bt_gatt_subscribe_params := {
  notify : option notify_func;
  value : Z;
  value_handle : Z;
  ccc_handle : Z;
  flags : Z;
}.

(** The members of [struct bt_gatt_ancs_c] that belong to the link: the
    connection (a [bt_conn] is identified by a number, [None] is NULL), the
    state bits, the handles and the subscribe parameters.  The other
    members are in [bt_gatt_ancs_c] above. *)
Record ancs_link := {
  conn : option nat;
  state : Z;
  handle_cp : Z;
  handle_ns : Z;
  handle_ns_ccc : Z;
  handle_ds : Z;
  handle_ds_ccc : Z;
  ns_notif_params : bt_gatt_subscribe_params;
  ds_notif_params : bt_gatt_subscribe_params;
}.

(** A call of [bt_gatt_subscribe] or [bt_gatt_unsubscribe], with the value
    it returned. *)
Inductive gatt_sub_call :=
| Subscribe (c : option nat) (p : bt_gatt_subscribe_params) (ret : Z)
| Unsubscribe (c : option nat) (p : bt_gatt_subscribe_params) (ret : Z).

(** The GATT layer as the subscription functions see it: the values
    [bt_gatt_subscribe] and [bt_gatt_unsubscribe] return, and the calls
    made. *)
Record gatt_sub := {
  subscribe_ret : Z;
  unsubscribe_ret : Z;
  sub_calls : list gatt_sub_call;
}.

(** A client with its link and its environment. *)
Record session := {
  link : ancs_link;
  sub : gatt_sub;
  client : world;
}.

Definition set_state (v : Z) (l : ancs_link) : ancs_link :=
  {| conn := conn l; state := v; handle_cp := handle_cp l;
     handle_ns := handle_ns l; handle_ns_ccc := handle_ns_ccc l;
     handle_ds := handle_ds l; handle_ds_ccc := handle_ds_ccc l;
     ns_notif_params := ns_notif_params l; ds_notif_params := ds_notif_params l |}.

Definition set_ns_notif_params (p : bt_gatt_subscribe_params) (l : ancs_link) : ancs_link :=
  {| conn := conn l; state := state l; handle_cp := handle_cp l;
     handle_ns := handle_ns l; handle_ns_ccc := handle_ns_ccc l;
     handle_ds := handle_ds l; handle_ds_ccc := handle_ds_ccc l;
     ns_notif_params := p; ds_notif_params := ds_notif_params l |}.

Definition set_ds_notif_params (p : bt_gatt_subscribe_params) (l : ancs_link) : ancs_link :=
  {| conn := conn l; state := state l; handle_cp := handle_cp l;
     handle_ns := handle_ns l; handle_ns_ccc := handle_ns_ccc l;
     handle_ds := handle_ds l; handle_ds_ccc := handle_ds_ccc l;
     ns_notif_params := ns_notif_params l; ds_notif_params := p |}.

(** The part of the client [memset] clears in [bt_gatt_ancs_c_init]. *)
Definition zero_subscribe_params : bt_gatt_subscribe_params :=
  {| notify := None; value := 0; value_handle := 0; ccc_handle := 0; flags := 0 |}.

Definition zero_link : ancs_link :=
  {| conn := None; state := 0; handle_cp := 0; handle_ns := 0; handle_ns_ccc := 0;
     handle_ds := 0; handle_ds_ccc := 0;
     ns_notif_params := zero_subscribe_params;
     ds_notif_params := zero_subscribe_params |}.

(** Zephyr's atomic bit operations on an [atomic_t]. *)
Definition atomic_test_bit (target bit : Z) : bool := Z.testbit target bit.
Definition atomic_set_bit (target bit : Z) : Z := Z.setbit target bit.
Definition atomic_clear_bit (target bit : Z) : Z := Z.clearbit target bit.
Definition atomic_test_and_set_bit (target bit : Z) : bool * Z :=
  (Z.testbit target bit, Z.setbit target bit).

Definition bt_gatt_subscribe (g : gatt_sub) (c : option nat)
    (p : bt_gatt_subscribe_params) : Z * gatt_sub :=
  (subscribe_ret g,
   {| subscribe_ret := subscribe_ret g; unsubscribe_ret := unsubscribe_ret g;
      sub_calls := sub_calls g ++ [Subscribe c p (subscribe_ret g)] |}).

Definition bt_gatt_unsubscribe (g : gatt_sub) (c : option nat)
    (p : bt_gatt_subscribe_params) : Z * gatt_sub :=
  (unsubscribe_ret g,
   {| subscribe_ret := subscribe_ret g; unsubscribe_ret := unsubscribe_ret g;
      sub_calls := sub_calls g ++ [Unsubscribe c p (unsubscribe_ret g)] |}).

Definition bt_gatt_ancs_c_notif_source_notif_enable (s : session) : Z * session :=
  let l := link s in
  let '(was, st) := atomic_test_and_set_bit (state l) ANCS_C_NS_NOTIF_ENABLED in
  let l := set_state st l in
  if was : bool then (- EALREADY, {| link := l; sub := sub s; client := client s |})
  else
    let p := {| notify := Some notify_on_received_ns;
                value := BT_GATT_CCC_NOTIFY;
                value_handle := handle_ns l;
                ccc_handle := handle_ns_ccc l;
                flags := atomic_set_bit (flags (ns_notif_params l))
                           BT_GATT_SUBSCRIBE_FLAG_VOLATILE |} in
    let l := set_ns_notif_params p l in
    let '(err, g) := bt_gatt_subscribe (sub s) (conn l) p in
    let l := if negb (err =? 0)
             then set_state (atomic_clear_bit (state l) ANCS_C_NS_NOTIF_ENABLED) l
             else l in
    (err, {| link := l; sub := g; client := client s |}).

Definition bt_gatt_ancs_c_data_source_notif_enable (s : session) : Z * session :=
  let l := link s in
  let '(was, st) := atomic_test_and_set_bit (state l) ANCS_C_DS_NOTIF_ENABLED in
  let l := set_state st l in
  if was : bool then (- EALREADY, {| link := l; sub := sub s; client := client s |})
  else
    let p := {| notify := Some notify_on_received_ds;
                value := BT_GATT_CCC_NOTIFY;
                value_handle := handle_ds l;
                ccc_handle := handle_ds_ccc l;
                flags := atomic_set_bit (flags (ds_notif_params l))
                           BT_GATT_SUBSCRIBE_FLAG_VOLATILE |} in
    let l := set_ds_notif_params p l in
    let '(err, g) := bt_gatt_subscribe (sub s) (conn l) p in
    let l := if negb (err =? 0)
             then set_state (atomic_clear_bit (state l) ANCS_C_DS_NOTIF_ENABLED) l
             else l in
    (err, {| link := l; sub := g; client := client s |}).

Definition bt_gatt_ancs_c_notif_source_notif_disable (s : session) : Z * session :=
  let l := link s in
  if negb (atomic_test_bit (state l) ANCS_C_NS_NOTIF_ENABLED) then (- EFAULT, s)
  else
    let '(err, g) := bt_gatt_unsubscribe (sub s) (conn l) (ns_notif_params l) in
    let l := if negb (err =? 0) then l
             else set_state (atomic_clear_bit (state l) ANCS_C_NS_NOTIF_ENABLED) l in
    (err, {| link := l; sub := g; client := client s |}).

Definition bt_gatt_ancs_c_data_source_notif_disable (s : session) : Z * session :=
  let l := link s in
  if negb (atomic_test_bit (state l) ANCS_C_DS_NOTIF_ENABLED) then (- EFAULT, s)
  else
    let '(err, g) := bt_gatt_unsubscribe (sub s) (conn l) (ds_notif_params l) in
    let l := if negb (err =? 0) then l
             else set_state (atomic_clear_bit (state l) ANCS_C_DS_NOTIF_ENABLED) l in
    (err, {| link := l; sub := g; client := client s |}).

Definition bt_gatt_ancs_c_on_disconnected (s : session) : session :=
  let l := link s in
  let l := set_state (atomic_clear_bit (state l) ANCS_C_NS_NOTIF_ENABLED) l in
  let l := set_state (atomic_clear_bit (state l) ANCS_C_DS_NOTIF_ENABLED) l in
  {| link := l; sub := sub s;
     client := set_ancs_c (fun c => set_sem (k_sem_give (cp_write_params_sem c)) c)
                 (client s) |}.

(** Discovery data ([gatt_dm.h]): the UUIDs the client compares, an
    attribute with its handle, and the discovery manager's look-ups. *)
Inductive bt_uuid :=
| BT_UUID_ANCS_SERVICE | BT_UUID_ANCS_CONTROL_POINT
| BT_UUID_ANCS_NOTIFICATION_SOURCE | BT_UUID_ANCS_DATA_SOURCE
| BT_UUID_GATT_CCC | BT_UUID_OTHER (n : nat).

#[global] Instance bt_uuid_eq_dec : EqDecision bt_uuid.
Proof. solve_decision. Defined.

(** [bt_uuid_cmp]: zero when the two are equal. *)
Definition bt_uuid_cmp (u1 u2 : bt_uuid) : Z := if decide (u1 = u2) then 0 else 1.

Record bt_gatt_dm_attr := { attr_uuid : bt_uuid; handle : Z }.

(** [struct bt_gatt_dm] through the functions of [gatt_dm.h] the client
    calls: the UUID of the discovered service, a characteristic by UUID, a
    descriptor of a characteristic by UUID, and the connection. *)
Record bt_gatt_dm := {
  bt_gatt_dm_service_uuid : bt_uuid;
  bt_gatt_dm_char_by_uuid : bt_uuid → option bt_gatt_dm_attr;
  bt_gatt_dm_desc_by_uuid : bt_gatt_dm_attr → bt_uuid → option bt_gatt_dm_attr;
  bt_gatt_dm_conn_get : option nat;
}.

Definition set_handle_cp (v : Z) (l : ancs_link) : ancs_link :=
  {| conn := conn l; state := state l; handle_cp := v;
     handle_ns := handle_ns l; handle_ns_ccc := handle_ns_ccc l;
     handle_ds := handle_ds l; handle_ds_ccc := handle_ds_ccc l;
     ns_notif_params := ns_notif_params l; ds_notif_params := ds_notif_params l |}.

Definition set_handle_ns (v : Z) (l : ancs_link) : ancs_link :=
  {| conn := conn l; state := state l; handle_cp := handle_cp l;
     handle_ns := v; handle_ns_ccc := handle_ns_ccc l;
     handle_ds := handle_ds l; handle_ds_ccc := handle_ds_ccc l;
     ns_notif_params := ns_notif_params l; ds_notif_params := ds_notif_params l |}.

Definition set_handle_ns_ccc (v : Z) (l : ancs_link) : ancs_link :=
  {| conn := conn l; state := state l; handle_cp := handle_cp l;
     handle_ns := handle_ns l; handle_ns_ccc := v;
     handle_ds := handle_ds l; handle_ds_ccc := handle_ds_ccc l;
     ns_notif_params := ns_notif_params l; ds_notif_params := ds_notif_params l |}.

Definition set_handle_ds (v : Z) (l : ancs_link) : ancs_link :=
  {| conn := conn l; state := state l; handle_cp := handle_cp l;
     handle_ns := handle_ns l; handle_ns_ccc := handle_ns_ccc l;
     handle_ds := v; handle_ds_ccc := handle_ds_ccc l;
     ns_notif_params := ns_notif_params l; ds_notif_params := ds_notif_params l |}.

Definition set_handle_ds_ccc (v : Z) (l : ancs_link) : ancs_link :=
  {| conn := conn l; state := state l; handle_cp := handle_cp l;
     handle_ns := handle_ns l; handle_ns_ccc := handle_ns_ccc l;
     handle_ds := handle_ds l; handle_ds_ccc := v;
     ns_notif_params := ns_notif_params l; ds_notif_params := ds_notif_params l |}.

Definition set_conn (v : option nat) (l : ancs_link) : ancs_link :=
  {| conn := v; state := state l; handle_cp := handle_cp l;
     handle_ns := handle_ns l; handle_ns_ccc := handle_ns_ccc l;
     handle_ds := handle_ds l; handle_ds_ccc := handle_ds_ccc l;
     ns_notif_params := ns_notif_params l; ds_notif_params := ds_notif_params l |}.

(** The handles are assigned one after the other; a look-up that fails
    leaves the ones assigned before it in place. *)
Definition bt_gatt_ancs_c_handles_assign (dm : bt_gatt_dm) (l : ancs_link)
    : Z * ancs_link :=
  if negb (bt_uuid_cmp (bt_gatt_dm_service_uuid dm) BT_UUID_ANCS_SERVICE =? 0)
  then (- ENOTSUP, l)
  else
    match bt_gatt_dm_char_by_uuid dm BT_UUID_ANCS_CONTROL_POINT with
    | None => (- EINVAL, l)
    | Some gatt_chrc =>
    match bt_gatt_dm_desc_by_uuid dm gatt_chrc BT_UUID_ANCS_CONTROL_POINT with
    | None => (- EINVAL, l)
    | Some gatt_desc =>
    let l := set_handle_cp (handle gatt_desc) l in
    match bt_gatt_dm_char_by_uuid dm BT_UUID_ANCS_NOTIFICATION_SOURCE with
    | None => (- EINVAL, l)
    | Some gatt_chrc =>
    match bt_gatt_dm_desc_by_uuid dm gatt_chrc BT_UUID_ANCS_NOTIFICATION_SOURCE with
    | None => (- EINVAL, l)
    | Some gatt_desc =>
    let l := set_handle_ns (handle gatt_desc) l in
    match bt_gatt_dm_desc_by_uuid dm gatt_chrc BT_UUID_GATT_CCC with
    | None => (- EINVAL, l)
    | Some gatt_desc =>
    let l := set_handle_ns_ccc (handle gatt_desc) l in
    match bt_gatt_dm_char_by_uuid dm BT_UUID_ANCS_DATA_SOURCE with
    | None => (- EINVAL, l)
    | Some gatt_chrc =>
    match bt_gatt_dm_desc_by_uuid dm gatt_chrc BT_UUID_ANCS_DATA_SOURCE with
    | None => (- EINVAL, l)
    | Some gatt_desc =>
    let l := set_handle_ds (handle gatt_desc) l in
    match bt_gatt_dm_desc_by_uuid dm gatt_chrc BT_UUID_GATT_CCC with
    | None => (- EINVAL, l)
    | Some gatt_desc =>
    let l := set_handle_ds_ccc (handle gatt_desc) l in
    (0, set_conn (bt_gatt_dm_conn_get dm) l)
    end end end end end end end end.

(** Whether the client holds a subscription, by its state bits. *)
Definition ns_enabled (s : session) : bool :=
  atomic_test_bit (state (link s)) ANCS_C_NS_NOTIF_ENABLED.

Definition ds_enabled (s : session) : bool :=
  atomic_test_bit (state (link s)) ANCS_C_DS_NOTIF_ENABLED.

(** The parameters the two [notif_enable] functions subscribe with. *)
Definition ns_subscription (l : ancs_link) : bt_gatt_subscribe_params :=
  {| notify := Some notify_on_received_ns; value := BT_GATT_CCC_NOTIFY;
     value_handle := handle_ns l; ccc_handle := handle_ns_ccc l;
     flags := atomic_set_bit (flags (ns_notif_params l))
                BT_GATT_SUBSCRIBE_FLAG_VOLATILE |}.

Definition ds_subscription (l : ancs_link) : bt_gatt_subscribe_params :=
  {| notify := Some notify_on_received_ds; value := BT_GATT_CCC_NOTIFY;
     value_handle := handle_ds l; ccc_handle := handle_ds_ccc l;
     flags := atomic_set_bit (flags (ds_notif_params l))
                BT_GATT_SUBSCRIBE_FLAG_VOLATILE |}.

(** A discovery result with the three characteristics of the service, each
    with its value descriptor, the two sources with a CCC descriptor. *)
Definition sample_dm : bt_gatt_dm :=
  {| bt_gatt_dm_service_uuid := BT_UUID_ANCS_SERVICE;
     bt_gatt_dm_char_by_uuid := fun u =>
       match u with
       | BT_UUID_ANCS_CONTROL_POINT => Some {| attr_uuid := u; handle := 16 |}
       | BT_UUID_ANCS_NOTIFICATION_SOURCE => Some {| attr_uuid := u; handle := 18 |}
       | BT_UUID_ANCS_DATA_SOURCE => Some {| attr_uuid := u; handle := 21 |}
       | _ => None
       end;
     bt_gatt_dm_desc_by_uuid := fun c u =>
       if decide (u = attr_uuid c) then Some {| attr_uuid := u; handle := handle c + 1 |}
       else if decide (u = BT_UUID_GATT_CCC ∧ attr_uuid c ≠ BT_UUID_ANCS_CONTROL_POINT)
            then Some {| attr_uuid := u; handle := handle c + 2 |}
            else None;
     bt_gatt_dm_conn_get := Some 1%nat |}.

Definition sample_session (w : world) : session :=
  {| link := zero_link;
     sub := {| subscribe_ret := 0; unsubscribe_ret := 0; sub_calls := [] |};
     client := w |}.

(** ** The client in use: any sequence of calls *)

(** What an application and the stack below it can do with a client: the
    functions of [ancs_c.h], the callbacks the client registers with the
    GATT layer, and a change of the values the GATT layer answers with. *)
Inductive api_call :=
| NotifSourceNotifEnable | DataSourceNotifEnable
| NotifSourceNotifDisable | DataSourceNotifDisable
| OnDisconnected
| HandlesAssign (dm : bt_gatt_dm)
| AttrAdd (id : nat) (p_data : option nat) (len : Z)
| AppAttrAdd (id : nat) (p_data : option nat) (len : Z)
| RequestAttrs (notif : bt_gatt_ancs_c_evt_notif_t) (timeout : k_timeout_t)
| PerformNotifAction (uid action : Z) (timeout : k_timeout_t)
| AppAttrRequest (p_app_id : list Z) (len : nat) (timeout : k_timeout_t)
| CpWriteCallback (err : Z)
| ReceivedNs (h : hvx)
| ReceivedDs (h : hvx)
| GattAnswers (write subscribe unsubscribe : Z).

Definition set_client (w : world) (s : session) : session :=
  {| link := link s; sub := sub s; client := w |}.

Definition set_link (l : ancs_link) (s : session) : session :=
  {| link := l; sub := sub s; client := client s |}.

(** An [attr_add] that is accepted stores into entry [id] of the table:
    outside the table the store is out of bounds. *)
Definition checked_add (r : Z * bt_gatt_ancs_c) (id : nat) (table_len : nat)
    : res bt_gatt_ancs_c :=
  if (r.1 =? 0) && negb (bool_decide (id < table_len)%nat)
  then Trap OutOfBounds else Ok r.2.

Section api.

Variable ANCS_GATTC_WRITE_PAYLOAD_LEN_MAX : nat.
Variable fuel : nat.

Definition api_step (s : session) (call : api_call) : res session :=
  match call with
  | NotifSourceNotifEnable => Ok (bt_gatt_ancs_c_notif_source_notif_enable s).2
  | DataSourceNotifEnable => Ok (bt_gatt_ancs_c_data_source_notif_enable s).2
  | NotifSourceNotifDisable => Ok (bt_gatt_ancs_c_notif_source_notif_disable s).2
  | DataSourceNotifDisable => Ok (bt_gatt_ancs_c_data_source_notif_disable s).2
  | OnDisconnected => Ok (bt_gatt_ancs_c_on_disconnected s)
  | HandlesAssign dm => Ok (set_link (bt_gatt_ancs_c_handles_assign dm (link s)).2 s)
  | AttrAdd id p len =>
    let c := ancs_c (client s) in
    c ← checked_add (bt_gatt_ancs_c_attr_add c id p len) id
          (length (ancs_notif_attr_list c));
    Ok (set_client (set_ancs_c (fun _ => c) (client s)) s)
  | AppAttrAdd id p len =>
    let c := ancs_c (client s) in
    c ← checked_add (bt_gatt_ancs_c_app_attr_add c id p len) id
          (length (ancs_app_attr_list c));
    Ok (set_client (set_ancs_c (fun _ => c) (client s)) s)
  | RequestAttrs notif timeout =>
    '(_, w) ← bt_gatt_ancs_c_request_attrs (client s) notif timeout;
    Ok (set_client w s)
  | PerformNotifAction uid action timeout =>
    '(_, w) ← bt_gatt_ancs_perform_notif_action (client s) uid action timeout;
    Ok (set_client w s)
  | AppAttrRequest p_app_id len timeout =>
    '(_, w) ← bt_gatt_ancs_c_app_attr_request ANCS_GATTC_WRITE_PAYLOAD_LEN_MAX
                 fuel (client s) p_app_id len timeout;
    Ok (set_client w s)
  | CpWriteCallback err => Ok (set_client (bt_gatt_ancs_c_cp_write_callback (client s) err) s)
  | ReceivedNs h => Ok (set_client (on_received_ns (client s) h) s)
  | ReceivedDs h => w ← on_received_ds fuel (client s) h; Ok (set_client w s)
  | GattAnswers wr su un =>
    Ok {| link := link s;
          sub := {| subscribe_ret := su; unsubscribe_ret := un;
                    sub_calls := sub_calls (sub s) |};
          client := set_att {| write_ret := wr;
                               written := written (att (client s)) |} (client s) |}
  end.

Fixpoint api_run (s : session) (calls : list api_call) : res session :=
  match calls with
  | [] => Ok s
  | call :: rest => s ← api_step s call; api_run s rest
  end.

End api.




(** Subscriptions of one characteristic the GATT layer has accepted, and
    the ones it has dropped on request, among the calls of a log. *)
Definition is_for (f : notify_func) (p : bt_gatt_subscribe_params) : bool :=
  bool_decide (notify p = Some f).

Fixpoint subscribed (f : notify_func) (log : list gatt_sub_call) : Z :=
  match log with
  | [] => 0
  | Subscribe _ p ret :: rest =>
    (if is_for f p && (ret =? 0) then 1 else 0) + subscribed f rest
  | Unsubscribe _ _ _ :: rest => subscribed f rest
  end.

Fixpoint unsubscribed (f : notify_func) (log : list gatt_sub_call) : Z :=
  match log with
  | [] => 0
  | Unsubscribe _ p ret :: rest =>
    (if is_for f p && (ret =? 0) then 1 else 0) + unsubscribed f rest
  | Subscribe _ _ _ :: rest => unsubscribed f rest
  end.

Definition is_disconnection (call : api_call) : Z :=
  match call with
  | OnDisconnected => 1
  | _ => 0
  end.

Fixpoint disconnections (calls : list api_call) : Z :=
  match calls with
  | [] => 0
  | call :: rest => is_disconnection call + disconnections rest
  end.

(** The state bit and the parameters of a characteristic. *)
Definition enabled (f : notify_func) (s : session) : Z :=
  match f with
  | notify_on_received_ns => if ns_enabled s then 1 else 0
  | notify_on_received_ds => if ds_enabled s then 1 else 0
  end.

Definition params_of (f : notify_func) (s : session) : bt_gatt_subscribe_params :=
  match f with
  | notify_on_received_ns => ns_notif_params (link s)
  | notify_on_received_ds => ds_notif_params (link s)
  end.

(** While a characteristic is enabled its parameters name its callback. *)
Definition params_ok (s : session) : Prop :=
  ∀ f, enabled f s = 1 → notify (params_of f s) = Some f.

(** The session a sequence of calls leaves, or [dflt] when it does not
    return. *)
Definition session_after (r : res session) (dflt : session) : session :=
  match r with
  | Ok s => s
  | _ => dflt
  end.

(** A day in the life of the sample: discovery, both subscriptions, a
    notification, a request for its attributes with the response, an action
    that is turned away and one that is not, a disconnection in the middle
    of a write, and the subscriptions enabled again. *)
Definition sample_calls : list api_call :=
  [HandlesAssign sample_dm; NotifSourceNotifEnable; DataSourceNotifEnable;
   NotifSourceNotifEnable;
   ReceivedNs (hvx_of [0; 24; 6; 2; 1; 2; 3; 4]);
   RequestAttrs sample_notif K_NO_WAIT;
   PerformNotifAction 67305985 ACTION_ID_POSITIVE K_NO_WAIT;
   CpWriteCallback 0;
   ReceivedDs (hvx_of [0; 1; 2; 3; 4; 1; 3; 0; 110; 82; 70]);
   PerformNotifAction 67305985 ACTION_ID_POSITIVE K_NO_WAIT;
   GattAnswers 0 13 0;
   OnDisconnected;
   DataSourceNotifEnable;
   GattAnswers 0 0 0;
   NotifSourceNotifEnable; DataSourceNotifEnable;
   PerformNotifAction 67305985 ACTION_ID_NEGATIVE K_NO_WAIT;
   NotifSourceNotifDisable].

(** What a sequence of calls may do to the subscriptions of one
    characteristic, with [d] disconnections. *)
Definition sub_flow (f : notify_func) (d : Z) (s s' : session) : Prop :=
  ∃ new, sub_calls (sub s') = sub_calls (sub s) ++ new
         ∧ unsubscribed f new + enabled f s' ≤ subscribed f new + enabled f s
         ∧ subscribed f new + enabled f s ≤ unsubscribed f new + enabled f s' + d.

(** What encoding a command leaves alone in the client: everything but the
    command buffer and the count of requested attributes. *)
Definition cp_only (c c' : bt_gatt_ancs_c) : Prop :=
  cp_write_params_sem c' = cp_write_params_sem c
  ∧ ancs_notif_attr_list c' = ancs_notif_attr_list c
  ∧ ancs_app_attr_list c' = ancs_app_attr_list c
  ∧ parse_info c' = parse_info c
  ∧ evt c' = evt c.

(** What a dispatcher leaves alone: the handler is not called, the buffers
    and the tables are not touched, and of the parser's state at most the
    expected number of attributes and the parse state change, the latter to
    COMMAND_ID. *)
Definition dispatch_frame (w w' : world) : Prop :=
  sink w' = sink w ∧ ram w' = ram w
  ∧ ancs_notif_attr_list (ancs_c w') = ancs_notif_attr_list (ancs_c w)
  ∧ ancs_app_attr_list (ancs_c w') = ancs_app_attr_list (ancs_c w)
  ∧ evt (ancs_c w') = evt (ancs_c w)
  ∧ (parse_info (ancs_c w') = parse_info (ancs_c w)
     ∨ parse_state (parse_info (ancs_c w')) = COMMAND_ID).

(** ** Registered buffers *)

(** A registration the parser can live with: one that [attr_add] turns
    down, or one for an entry of the table with a buffer of the arena that
    has at least [len] bytes, [len] being at least 2.  [lens] are the sizes
    of the buffers of the arena. *)
Definition registration_fits (lens : list nat) (table_len id : nat)
    (p_data : option nat) (len : Z) : bool :=
  match p_data with
  | None => true
  | Some a =>
    (len =? 0) || (BT_GATT_ANCS_ATTR_DATA_MAX <? len)
    || (bool_decide (id < table_len)%nat && (2 <=? len)
        && match lens !! a with
           | Some n => len <=? Z.of_nat n
           | None => false
           end)
  end.

Definition call_fits (lens : list nat) (call : api_call) : bool :=
  match call with
  | AttrAdd id p len =>
    registration_fits lens (Z.to_nat BT_GATT_ANCS_NB_OF_NOTIF_ATTR) id p len
  | AppAttrAdd id p len =>
    registration_fits lens (Z.to_nat BT_GATT_ANCS_NB_OF_APP_ATTR) id p len
  | _ => true
  end.

(** What no call changes but a registration: the two tables and the sizes
    of the buffers. *)
Definition tables_frame (w w' : world) : Prop :=
  ancs_notif_attr_list (ancs_c w') = ancs_notif_attr_list (ancs_c w)
  ∧ ancs_app_attr_list (ancs_c w') = ancs_app_attr_list (ancs_c w)
  ∧ map length (ram w') = map length (ram w).

(** The registrations of the sample's [ancs_c_init], in its order, with
    buffer [i] for notification attribute [i] and buffer 8 for the display
    name. *)
Definition sample_registrations : list api_call :=
  [AttrAdd 0 (Some 0%nat) BT_GATT_ANCS_ATTR_DATA_MAX;
   AppAttrAdd 0 (Some 8%nat) BT_GATT_ANCS_ATTR_DATA_MAX;
   AttrAdd 1 (Some 1%nat) BT_GATT_ANCS_ATTR_DATA_MAX;
   AttrAdd 3 (Some 3%nat) BT_GATT_ANCS_ATTR_DATA_MAX;
   AttrAdd 2 (Some 2%nat) BT_GATT_ANCS_ATTR_DATA_MAX;
   AttrAdd 4 (Some 4%nat) BT_GATT_ANCS_ATTR_DATA_MAX;
   AttrAdd 5 (Some 5%nat) BT_GATT_ANCS_ATTR_DATA_MAX;
   AttrAdd 6 (Some 6%nat) BT_GATT_ANCS_ATTR_DATA_MAX;
   AttrAdd 7 (Some 7%nat) BT_GATT_ANCS_ATTR_DATA_MAX].

(** The client right after [bt_gatt_ancs_c_init], with the sample's nine
    buffers. *)
Definition fresh_session (cp_buff_size : nat) (fill : Z) : session :=
  sample_session
    {| ancs_c := bt_gatt_ancs_c_init cp_buff_size;
       ram := sample_ram fill;
       sink := [];
       att := {| write_ret := 0; written := [] |} |}.

(** ** Handler calls over a whole session *)

Definition is_registration (call : api_call) : bool :=
  match call with
  | AttrAdd _ _ _ | AppAttrAdd _ _ _ => true
  | _ => false
  end.

(** A call that is no registration; a Data Source record has at most [fuel]
    bytes. *)
Definition call_in_use (fuel : nat) (call : api_call) : bool :=
  negb (is_registration call)
  && match call with
     | ReceivedDs h => (hvx_data_len h <=? fuel)%nat
     | _ => true
     end.

(** What the handler can rely on in a call.  From the Notification Source:
    the event is NOTIF with a notification that passes
    [bt_gatt_ancs_verify_notification_format], or INVALID_NOTIF.  From the
    Data Source parser: the event is for a requested attribute and the
    buffer holds the terminator ([evt_terminated]).  From the write
    callback: any status. *)
Definition handler_call_ok (c : bt_gatt_ancs_c) (ev : sink_call) : Prop :=
  match ev with
  | on_ns t n =>
    t = BT_GATT_ANCS_C_EVT_INVALID_NOTIF
    ∨ t = BT_GATT_ANCS_C_EVT_NOTIF
      ∧ ∃ m, n = Some m ∧ bt_gatt_ancs_verify_notification_format m = 0
  | on_ds _ _ => evt_terminated c ev
  | on_cp _ => True
  end.

(** ** The sample application: [main.c] *)

(** Status codes of the Notification Provider ([ancs_c.h]). *)
Definition BT_ATT_ERR_ANCS_NP_UNKNOWN_COMMAND : Z := 160.
Definition BT_ATT_ERR_ANCS_NP_INVALID_COMMAND : Z := 161.
Definition BT_ATT_ERR_ANCS_NP_INVALID_PARAMETER : Z := 162.
Definition BT_ATT_ERR_ANCS_NP_ACTION_FAILED : Z := 163.

(** The button masks [DK_BTN1_MSK] to [DK_BTN4_MSK] of
    [dk_buttons_and_leds.h]. *)
Definition KEY_REQ_NOTI_ATTR : Z := 1.
Definition KEY_REQ_APP_ATTR : Z := 2.
Definition KEY_POS_ACTION : Z := 4.
Definition KEY_NEG_ACTION : Z := 8.

Definition ATTR_DATA_SIZE : Z := BT_GATT_ANCS_ATTR_DATA_MAX.

Definition lit_catid : list string :=
  ["Other"; "Incoming Call"; "Missed Call"; "Voice Mail"; "Social"; "Schedule";
   "Email"; "News"; "Health And Fitness"; "Business And Finance"; "Location";
   "Entertainment"]%string.

Definition lit_eventid : list string := ["Added"; "Modified"; "Removed"]%string.

Definition lit_attrid : list string :=
  ["App Identifier"; "Title"; "Subtitle"; "Message"; "Message Size"; "Date";
   "Positive Action Label"; "Negative Action Label"]%string.

Definition lit_appid : list string := ["Display Name"]%string.

(** An argument of [printk]: a string literal or the bytes of a buffer up
    to its terminator for [%s], a number for [%u], [%d] and [%02x]. *)
Inductive printk_arg :=
| arg_s (s : string)
| arg_cs (bytes : list Z)
| arg_u (v : Z)
| arg_d (v : Z)
| arg_x (v : Z).

(** A call of [printk]; the format is as written in the source, the
    escape [\n] included as its two characters. *)
Record printk_call := { fmt : string; args : list printk_arg }.

(** The statics of [main.c] the callbacks work on, and the console. *)
Record sample_app := {
  has_ancs : bool;
  security_level : Z;
  m_notification_latest : bt_gatt_ancs_c_evt_notif_t;
  m_notif_attr_latest : bt_gatt_ancs_c_attr_t;
  m_notif_attr_app_id_latest : bt_gatt_ancs_c_attr_t;
  console : list printk_call;
}.

Definition printk (f : string) (a : list printk_arg) (app : sample_app) : sample_app :=
  {| has_ancs := has_ancs app;
     security_level := security_level app;
     m_notification_latest := m_notification_latest app;
     m_notif_attr_latest := m_notif_attr_latest app;
     m_notif_attr_app_id_latest := m_notif_attr_app_id_latest app;
     console := console app ++ [{| fmt := f; args := a |}] |}.

Definition set_m_notification_latest (v : bt_gatt_ancs_c_evt_notif_t)
    (app : sample_app) : sample_app :=
  {| has_ancs := has_ancs app;
     security_level := security_level app;
     m_notification_latest := v;
     m_notif_attr_latest := m_notif_attr_latest app;
     m_notif_attr_app_id_latest := m_notif_attr_app_id_latest app;
     console := console app |}.

Definition set_m_notif_attr_latest (v : bt_gatt_ancs_c_attr_t)
    (app : sample_app) : sample_app :=
  {| has_ancs := has_ancs app;
     security_level := security_level app;
     m_notification_latest := m_notification_latest app;
     m_notif_attr_latest := v;
     m_notif_attr_app_id_latest := m_notif_attr_app_id_latest app;
     console := console app |}.

Definition set_m_notif_attr_app_id_latest (v : bt_gatt_ancs_c_attr_t)
    (app : sample_app) : sample_app :=
  {| has_ancs := has_ancs app;
     security_level := security_level app;
     m_notification_latest := m_notification_latest app;
     m_notif_attr_latest := m_notif_attr_latest app;
     m_notif_attr_app_id_latest := v;
     console := console app |}.

(** [table[i]] for one of the literal tables. *)
Definition lit_at (table : list string) (i : Z) : res string :=
  match table !! Z.to_nat i with
  | Some s => Ok s
  | None => Trap OutOfBounds
  end.

(** What [%s] reads from a buffer: the bytes before the first zero; without
    a zero in the buffer the read leaves it. *)
Fixpoint c_string (buf : list Z) : res (list Z) :=
  match buf with
  | [] => Trap OutOfBounds
  | b :: rest => if b =? 0 then Ok [] else s ← c_string rest; Ok (b :: s)
  end.

Definition c_string_at (storage : option (list Z)) : res (list Z) :=
  match storage with
  | Some buf => c_string buf
  | None => Trap NullDeref
  end.

Definition notif_print (p_notif : bt_gatt_ancs_c_evt_notif_t) (app : sample_app)
    : res sample_app :=
  let app := printk "\nNotification\n" [] app in
  ev ← lit_at lit_eventid (evt_id p_notif);
  let app := printk "Event:       %s\n" [arg_s ev] app in
  cat ← lit_at lit_catid (category_id p_notif);
  let app := printk "Category ID: %s\n" [arg_s cat] app in
  let app := printk "Category Cnt:%u\n" [arg_u (category_count p_notif)] app in
  let app := printk "UID:         %u\n" [arg_u (notif_uid p_notif)] app in
  let app := printk "Flags:\n" [] app in
  let app := if silent (evt_flags p_notif) =? 1
             then printk " Silent\n" [] app else app in
  let app := if important (evt_flags p_notif) =? 1
             then printk " Important\n" [] app else app in
  let app := if pre_existing (evt_flags p_notif) =? 1
             then printk " Pre-existing\n" [] app else app in
  let app := if positive_action (evt_flags p_notif) =? 1
             then printk " Positive Action\n" [] app else app in
  let app := if negative_action (evt_flags p_notif) =? 1
             then printk " Negative Action\n" [] app else app in
  Ok app.

(** [notif_attr_print] and [app_attr_print] differ in the table of
    literals; [storage] is the memory [p_attr->p_attr_data] points to. *)
Definition attr_print (table : list string) (p_attr : bt_gatt_ancs_c_attr_t)
    (storage : option (list Z)) (app : sample_app) : res sample_app :=
  if negb (attr_len p_attr =? 0) then
    name ← lit_at table (attr_id p_attr);
    data ← c_string_at storage;
    Ok (printk "%s: %s\n" [arg_s name; arg_cs data] app)
  else
    name ← lit_at table (attr_id p_attr);
    Ok (printk "%s: (N/A)\n" [arg_s name] app).

Definition notif_attr_print := attr_print lit_attrid.
Definition app_attr_print := attr_print lit_appid.

Definition err_code_print (err_code_np : Z) (app : sample_app) : sample_app :=
  if err_code_np =? BT_ATT_ERR_ANCS_NP_UNKNOWN_COMMAND then
    printk "Error: Command ID was not recognized by the Notification Provider.\n" [] app
  else if err_code_np =? BT_ATT_ERR_ANCS_NP_INVALID_COMMAND then
    printk "Error: Command failed to be parsed on the Notification Provider.\n" [] app
  else if err_code_np =? BT_ATT_ERR_ANCS_NP_INVALID_PARAMETER then
    printk "Error: Parameter does not refer to an existing object on the Notification Provider.\n" [] app
  else if err_code_np =? BT_ATT_ERR_ANCS_NP_ACTION_FAILED then
    printk "Error: Perform Notification Action Failed on the Notification Provider.\n" [] app
  else app.

(** The [notif] member of [ancs_c->evt]: cleared by [bt_gatt_ancs_c_init]
    and not written afterwards. *)
Definition zero_notif : bt_gatt_ancs_c_evt_notif_t :=
  {| notif_uid := 0; evt_id := 0;
     evt_flags := {| silent := 0; important := 0; pre_existing := 0;
                     positive_action := 0; negative_action := 0 |};
     category_id := 0; category_count := 0 |}.

(** The handler, on a call as the client makes it.  The Notification
    Source decoder and the write callback pass a local structure of which
    they have assigned the type and one member; a call with a type whose
    member they have not assigned does not occur and has no defined
    result.  The Data Source parser passes [ancs_c->evt]. *)
Definition bt_ancs_c_evt_handler (app : sample_app) (p_evt : sink_call)
    : res sample_app :=
  match p_evt with
  | on_ns BT_GATT_ANCS_C_EVT_NOTIF (Some n) =>
    notif_print n (set_m_notification_latest n app)
  | on_ns BT_GATT_ANCS_C_EVT_INVALID_NOTIF _ => Ok app
  | on_ns _ _ => Trap NullDeref
  | on_cp err => Ok (err_code_print err app)
  | on_ds e storage =>
    match evt_type e with
    | BT_GATT_ANCS_C_EVT_NOTIF =>
      notif_print zero_notif (set_m_notification_latest zero_notif app)
    | BT_GATT_ANCS_C_EVT_NOTIF_ATTRIBUTE =>
      let app := set_m_notif_attr_latest (attr e) app in
      app ← notif_attr_print (m_notif_attr_latest app) storage app;
      if attr_id (attr e) =? BT_GATT_ANCS_NOTIF_ATTR_ID_APP_IDENTIFIER
      then Ok (set_m_notif_attr_app_id_latest (attr e) app)
      else Ok app
    | BT_GATT_ANCS_C_EVT_APP_ATTRIBUTE => app_attr_print (attr e) storage app
    | BT_GATT_ANCS_C_EVT_NP_ERROR => Ok (err_code_print 0 app)
    | BT_GATT_ANCS_C_EVT_INVALID_NOTIF => Ok app
    end
  end.

(** The handler called for each event of a list in turn. *)
Fixpoint handle_events (app : sample_app) (evs : list sink_call) : res sample_app :=
  match evs with
  | [] => Ok app
  | ev :: evs => app ← bt_ancs_c_evt_handler app ev; handle_events app evs
  end.

Section sample.

Variable ANCS_GATTC_WRITE_PAYLOAD_LEN_MAX : nat.
Variable fuel : nat.

(** The bodies of the four [if (buttons & KEY_...)] statements of
    [button_changed]; the client is the session's, the statics are
    [app]. *)
Definition req_noti_attr (st : session * sample_app) : res (session * sample_app) :=
  let '(s, app) := st in
  '(err, w) ← bt_gatt_ancs_c_request_attrs (client s)
                (m_notification_latest app) K_NO_WAIT;
  let app :=
    if negb (err =? 0)
    then printk "Failed requesting attributes for a notification (err: %d)\n"
           [arg_d err] app
    else app in
  Ok (set_client w s, app).

Definition req_app_attr (st : session * sample_app) : res (session * sample_app) :=
  let '(s, app) := st in
  let a := m_notif_attr_app_id_latest app in
  if (attr_id a =? BT_GATT_ANCS_NOTIF_ATTR_ID_APP_IDENTIFIER)
     && negb (attr_len a =? 0) then
    match p_attr_data a with
    | None => Trap NullDeref
    | Some slot =>
      match ram (client s) !! slot with
      | None => Trap OutOfBounds
      | Some buf =>
        name ← c_string buf;
        let app := printk "Request for %s: \n" [arg_cs name] app in
        '(err, w) ← bt_gatt_ancs_c_app_attr_request
                      ANCS_GATTC_WRITE_PAYLOAD_LEN_MAX fuel (client s)
                      buf (Z.to_nat (attr_len a)) K_NO_WAIT;
        let app :=
          if negb (err =? 0)
          then printk "Failed requesting attributes for a given app (err: %d)\n"
                 [arg_d err] app
          else app in
        Ok (set_client w s, app)
      end
    end
  else Ok (s, app).

Definition pos_action (st : session * sample_app) : res (session * sample_app) :=
  let '(s, app) := st in
  if positive_action (evt_flags (m_notification_latest app)) =? 1 then
    let app := printk "Performing Positive Action.\n" [] app in
    '(err, w) ← bt_gatt_ancs_perform_notif_action (client s)
                  (notif_uid (m_notification_latest app))
                  ACTION_ID_POSITIVE K_NO_WAIT;
    let app :=
      if negb (err =? 0)
      then printk "Failed performing action (err: %d)\n" [arg_d err] app
      else app in
    Ok (set_client w s, app)
  else Ok (s, app).

Definition neg_action (st : session * sample_app) : res (session * sample_app) :=
  let '(s, app) := st in
  if negative_action (evt_flags (m_notification_latest app)) =? 1 then
    let app := printk "Performing Negative Action.\n" [] app in
    '(err, w) ← bt_gatt_ancs_perform_notif_action (client s)
                  (notif_uid (m_notification_latest app))
                  ACTION_ID_NEGATIVE K_NO_WAIT;
    let app :=
      if negb (err =? 0)
      then printk "Failed performing action (err: %d)\n" [arg_d err] app
      else app in
    Ok (set_client w s, app)
  else Ok (s, app).

Definition button_changed (st : session * sample_app) (button_state has_changed : Z)
    : res (session * sample_app) :=
  let buttons := Z.land button_state has_changed in
  st ← (if negb (Z.land buttons KEY_REQ_NOTI_ATTR =? 0)
        then req_noti_attr st else Ok st);
  st ← (if negb (Z.land buttons KEY_REQ_APP_ATTR =? 0)
        then req_app_attr st else Ok st);
  st ← (if negb (Z.land buttons KEY_POS_ACTION =? 0)
        then pos_action st else Ok st);
  (if negb (Z.land buttons KEY_NEG_ACTION =? 0)
   then neg_action st else Ok st).

End sample.

(** The statics as the program starts. *)
Definition zero_app : sample_app :=
  {| has_ancs := false;
     security_level := 0;
     m_notification_latest := zero_notif;
     m_notif_attr_latest := {| attr_len := 0; attr_id := 0; p_attr_data := None |};
     m_notif_attr_app_id_latest := {| attr_len := 0; attr_id := 0; p_attr_data := None |};
     console := [] |}.

(** The events a sequence of calls has added to the log of a session. *)
Definition new_events (s s' : session) : list sink_call :=
  drop (length (sink (client s))) (sink (client s')).

(** The statics the handler leaves, or [dflt] when it does not return. *)
Definition app_after (r : res sample_app) (dflt : sample_app) : sample_app :=
  match r with
  | Ok app => app
  | _ => dflt
  end.

(** The sample after [ancs_c_init]. *)
Definition sample_registered : session :=
  session_after (api_run 32 64 (fresh_session 32 65) sample_registrations)
    (fresh_session 32 65).

(** The attributes of [sample_notif] have been requested and the response
    has begun: its first attribute is an App Identifier of [n] bytes 'a'. *)
Definition app_id_received (n : nat) : list api_call :=
  [RequestAttrs sample_notif K_NO_WAIT; CpWriteCallback 0;
   ReceivedDs (hvx_of ([0; 1; 2; 3; 4; 0; Z.of_nat n mod 256; Z.of_nat n / 256]
                       ++ replicate n 97))].

(** What a button press does to the client, as calls of its functions. *)
Definition button_calls (app : sample_app) (r : list (list Z))
    (button_state has_changed : Z) : list api_call :=
  let buttons := Z.land button_state has_changed in
  let latest := m_notification_latest app in
  let a := m_notif_attr_app_id_latest app in
  (if negb (Z.land buttons KEY_REQ_NOTI_ATTR =? 0)
   then [RequestAttrs latest K_NO_WAIT] else [])
  ++ (if negb (Z.land buttons KEY_REQ_APP_ATTR =? 0)
         && (attr_id a =? BT_GATT_ANCS_NOTIF_ATTR_ID_APP_IDENTIFIER)
         && negb (attr_len a =? 0)
      then [AppAttrRequest (default [] (p_attr_data a ≫= λ slot, r !! slot))
              (Z.to_nat (attr_len a)) K_NO_WAIT]
      else [])
  ++ (if negb (Z.land buttons KEY_POS_ACTION =? 0)
         && (positive_action (evt_flags latest) =? 1)
      then [PerformNotifAction (notif_uid latest) ACTION_ID_POSITIVE K_NO_WAIT]
      else [])
  ++ (if negb (Z.land buttons KEY_NEG_ACTION =? 0)
         && (negative_action (evt_flags latest) =? 1)
      then [PerformNotifAction (notif_uid latest) ACTION_ID_NEGATIVE K_NO_WAIT]
      else []).

(** What one of the four bodies of [button_changed] does, as the calls
    [calls] of the client. *)
Definition pressed (W fuel : nat) (st st' : session * sample_app)
    (calls : list api_call) : Prop :=
  api_run W fuel st.1 calls = Ok st'.1
  ∧ forallb (call_in_use fuel) calls = true
  ∧ sink (client st'.1) = sink (client st.1)
  ∧ ram (client st'.1) = ram (client st.1)
  ∧ m_notification_latest st'.2 = m_notification_latest st.2
  ∧ m_notif_attr_latest st'.2 = m_notif_attr_latest st.2
  ∧ m_notif_attr_app_id_latest st'.2 = m_notif_attr_app_id_latest st.2
  ∧ ∃ lines, console st'.2 = console st.2 ++ lines.

(** What a button press leaves, or [dflt] when it does not return. *)
Definition pressed_after (r : res (session * sample_app))
    (dflt : session * sample_app) : session * sample_app :=
  match r with
  | Ok st => st
  | _ => dflt
  end.

(** The sample after the calls [calls], its handler having handled the
    events they brought. *)
Definition sample_after (calls : list api_call) : session * sample_app :=
  let s := session_after (api_run 32 64 sample_registered calls) sample_registered in
  (s, app_after (handle_events zero_app (new_events sample_registered s)) zero_app).

(** The session [sample_title_len1] after the start of a response: header,
    the id of the Title and a length of 2. *)
Definition sample_title_len1_data : world :=
  received (on_received_ds 8 sample_title_len1 (hvx_of [0; 1; 2; 3; 4; 1; 2; 0]))
    sample_title_len1.

(** ** The sample application: connection callbacks of [main.c] *)

(** [bt_security_t] ([conn.h]), the status LED ([DK_LED2]) and the HCI
    reason the sample disconnects with. *)
Definition BT_SECURITY_L0 : Z := 0.
Definition BT_SECURITY_L2 : Z := 2.
Definition CON_STATUS_LED : Z := 1.
Definition BT_HCI_ERR_LOCALHOST_TERM_CONN : Z := 22.

(** Calls of the sample into the stack and the board, other than those of
    the client. *)
Inductive stack_call :=
| call_bt_gatt_dm_data_print
| call_bt_gatt_dm_data_release
| call_bt_gatt_dm_start (c : option nat)
| call_bt_conn_set_security (c : option nat) (level : Z)
| call_bt_conn_disconnect (c : option nat) (reason : Z)
| call_dk_set_led_on (led : Z)
| call_dk_set_led_off (led : Z).

(** The stack as these calls see it: the values they return, the address
    [bt_addr_le_to_str] gives for the peer, and the calls made. *)
Record stack := {
  bt_conn_set_security_ret : Z;
  bt_gatt_dm_data_release_ret : Z;
  bt_gatt_dm_start_ret : Z;
  addr : string;
  stack_calls : list stack_call;
}.

Definition called (c : stack_call) (k : stack) : stack :=
  {| bt_conn_set_security_ret := bt_conn_set_security_ret k;
     bt_gatt_dm_data_release_ret := bt_gatt_dm_data_release_ret k;
     bt_gatt_dm_start_ret := bt_gatt_dm_start_ret k;
     addr := addr k;
     stack_calls := stack_calls k ++ [c] |}.

Definition set_has_ancs (v : bool) (app : sample_app) : sample_app :=
  {| has_ancs := v;
     security_level := security_level app;
     m_notification_latest := m_notification_latest app;
     m_notif_attr_latest := m_notif_attr_latest app;
     m_notif_attr_app_id_latest := m_notif_attr_app_id_latest app;
     console := console app |}.

Definition set_security_level (v : Z) (app : sample_app) : sample_app :=
  {| has_ancs := has_ancs app;
     security_level := v;
     m_notification_latest := m_notification_latest app;
     m_notif_attr_latest := m_notif_attr_latest app;
     m_notif_attr_app_id_latest := m_notif_attr_app_id_latest app;
     console := console app |}.

(** The sample: the client with its link, the statics, the stack. *)
Definition sample : Type := session * sample_app * stack.

Definition enable_notifications (st : session * sample_app) : session * sample_app :=
  let '(s, app) := st in
  if has_ancs app && (BT_SECURITY_L2 <=? security_level app) then
    let '(err, s) := bt_gatt_ancs_c_notif_source_notif_enable s in
    let app :=
      if negb (err =? 0)
      then printk "Failed to enable Notification Source notification (err %d)\n"
             [arg_d err] app
      else app in
    let '(err, s) := bt_gatt_ancs_c_data_source_notif_enable s in
    let app :=
      if negb (err =? 0)
      then printk "Failed to enable Data Source notification (err %d)\n"
             [arg_d err] app
      else app in
    (s, app)
  else (s, app).

Definition discover_completed_cb (dm : bt_gatt_dm) (st : sample) : sample :=
  let '(s, app, k) := st in
  let app := printk "The discovery procedure succeeded\n" [] app in
  let k := called call_bt_gatt_dm_data_print k in
  let '(err, l) := bt_gatt_ancs_c_handles_assign dm (link s) in
  let s := set_link l s in
  let '(s, app, k) :=
    if negb (err =? 0) then
      (s, printk "Could not init ANCS client object, error: %d\n" [arg_d err] app, k)
    else
      let app := set_has_ancs true app in
      if security_level app <? BT_SECURITY_L2 then
        let err := bt_conn_set_security_ret k in
        let k := called (call_bt_conn_set_security (conn (link s)) BT_SECURITY_L2) k in
        let app :=
          if negb (err =? 0)
          then printk "Failed to set security (err %d)\n" [arg_d err] app
          else app in
        (s, app, k)
      else
        let '(s, app) := enable_notifications (s, app) in
        (s, app, k) in
  let err := bt_gatt_dm_data_release_ret k in
  let k := called call_bt_gatt_dm_data_release k in
  let app :=
    if negb (err =? 0)
    then printk "Could not release the discovery data, error code: %d\n" [arg_d err] app
    else app in
  (s, app, k).

(** [err] is a [uint8_t]: the result of [bt_gatt_dm_start] is narrowed to
    it. *)
Definition connected (c : option nat) (err : Z) (st : sample) : sample :=
  let '(s, app, k) := st in
  if negb (err =? 0) then
    (s, printk "Connection failed (err 0x%02x)\n" [arg_x err] app, k)
  else
    let app := printk "Connected %s\n" [arg_s (addr k)] app in
    let k := called (call_dk_set_led_on CON_STATUS_LED) k in
    let app := set_has_ancs false app in
    let app := set_security_level BT_SECURITY_L0 app in
    let err := bt_gatt_dm_start_ret k mod 256 in
    let k := called (call_bt_gatt_dm_start c) k in
    let app :=
      if negb (err =? 0)
      then printk "Failed to start discovery (err %d)\n" [arg_d err] app
      else app in
    (s, app, k).

Definition disconnected (c : option nat) (reason : Z) (st : sample) : sample :=
  let '(s, app, k) := st in
  let app := printk "Disconnected from %s (reason 0x%02x)\n"
               [arg_s (addr k); arg_x reason] app in
  let s := bt_gatt_ancs_c_on_disconnected s in
  let k := called (call_dk_set_led_off CON_STATUS_LED) k in
  (s, app, k).

Definition security_changed (c : option nat) (level : Z) (err : Z) (st : sample)
    : sample :=
  let '(s, app, k) := st in
  if err =? 0 then
    let app := printk "Security changed: %s level %u\n"
                 [arg_s (addr k); arg_u level] app in
    let app := set_security_level level app in
    let '(s, app) := enable_notifications (s, app) in
    (s, app, k)
  else
    (s, printk "Security failed: %s level %u err %d\n"
          [arg_s (addr k); arg_u level; arg_d err] app, k).

(** Whether the client holds neither subscription, as after
    [bt_gatt_ancs_c_init] and after a disconnection. *)
Definition no_subscription (st : sample) : Prop :=
  ns_enabled st.1.1 = false ∧ ds_enabled st.1.1 = false.

(** The two calls of [bt_gatt_subscribe] that [enable_notifications] makes
    on a link [l]. *)
Definition both_subscriptions (l : ancs_link) (ret : Z) : list gatt_sub_call :=
  [Subscribe (conn l) (ns_subscription l) ret;
   Subscribe (conn l) (ds_subscription l) ret].

Definition subscribe_calls (st : sample) : list gatt_sub_call :=
  sub_calls (sub st.1.1).

Definition sample_stack : stack :=
  {| bt_conn_set_security_ret := 0; bt_gatt_dm_data_release_ret := 0;
     bt_gatt_dm_start_ret := 0; addr := "C0:FF:EE:00:00:01 (random)";
     stack_calls := [] |}.

(** * Properties *)

(** ** Arithmetic of the byte order helpers *)

Lemma lor_shiftl_add (a b n : Z) :
  0 ≤ n → 0 ≤ a < 2 ^ n → Z.lor (Z.shiftl b n) a = b * 2 ^ n + a.
Proof.
  intros Hn Ha.
  rewrite Z.shiftl_mul_pow2 by done.
  rewrite <- Z.lxor_lor, <- Z.add_nocarry_lxor; [done | |];
    (apply Z.bits_inj'; intros k Hk; rewrite Z.land_spec, Z.bits_0;
     destruct (decide (k < n)) as [Hlt | Hge];
     [ rewrite Z.mul_pow2_bits_low by lia; done
     | replace a with (a mod 2 ^ n) by (apply Z.mod_small; lia);
       rewrite Z.mod_pow2_bits_high by lia; apply andb_false_r ]).
Qed.

Lemma sys_get_le16_bytes (p : nat → Z) (off : nat) :
  is_byte (p off) → is_byte (p (off + 1)%nat) →
  sys_get_le16 p off = p off + 256 * p (off + 1)%nat.
Proof.
  unfold is_byte, sys_get_le16. intros H0 H1.
  rewrite lor_shiftl_add by lia. rewrite Z.mod_small; lia.
Qed.

Lemma sys_get_le32_bytes (p : nat → Z) (off : nat) :
  is_byte (p off) → is_byte (p (off + 1)%nat) →
  is_byte (p (off + 2)%nat) → is_byte (p (off + 3)%nat) →
  sys_get_le32 p off =
    of_le32 (p off) (p (off + 1)%nat) (p (off + 2)%nat) (p (off + 3)%nat).
Proof.
  unfold sys_get_le32, of_le32. intros H0 H1 H2 H3.
  rewrite !sys_get_le16_bytes; try done;
    rewrite <- ?Nat.add_assoc; simpl Nat.add; try done.
  unfold is_byte in *.
  rewrite lor_shiftl_add by lia. rewrite Z.mod_small; lia.
Qed.

Lemma land_shiftr_bit (b k : Z) :
  0 ≤ k → Z.land (Z.shiftr b k) 1 = Z.b2z (Z.testbit b k).
Proof.
  intros Hk. rewrite Z.testbit_spec' by done.
  rewrite Z.shiftr_div_pow2 by done.
  change 1 with (Z.ones 1). rewrite Z.land_ones by lia. done.
Qed.

Lemma land_255 (v : Z) : Z.land v 255 = v mod 256.
Proof. change 255 with (Z.ones 8). rewrite Z.land_ones by lia. done. Qed.

Lemma land_65535 (v : Z) : Z.land v 65535 = v mod 65536.
Proof. change 65535 with (Z.ones 16). rewrite Z.land_ones by lia. done. Qed.

Lemma le32_of_le32 (b0 b1 b2 b3 : Z) :
  is_byte b0 → is_byte b1 → is_byte b2 → is_byte b3 →
  le32 (of_le32 b0 b1 b2 b3) = [b0; b1; b2; b3].
Proof.
  unfold is_byte, le32, of_le32. intros H0 H1 H2 H3.
  repeat f_equal.
  - symmetry. apply Z.mod_unique with (q := b1 + 256 * b2 + 65536 * b3); lia.
  - replace ((b0 + 256 * b1 + 65536 * b2 + 16777216 * b3) / 256)
      with (b1 + 256 * b2 + 65536 * b3)
      by (apply Z.div_unique with (r := b0); lia).
    symmetry. apply Z.mod_unique with (q := b2 + 256 * b3); lia.
  - replace ((b0 + 256 * b1 + 65536 * b2 + 16777216 * b3) / 65536)
      with (b2 + 256 * b3)
      by (apply Z.div_unique with (r := b0 + 256 * b1); lia).
    symmetry. apply Z.mod_unique with (q := b3); lia.
  - replace ((b0 + 256 * b1 + 65536 * b2 + 16777216 * b3) / 16777216)
      with b3
      by (apply Z.div_unique with (r := b0 + 256 * b1 + 65536 * b2); lia).
    apply Z.mod_small; lia.
Qed.

(** ** Notification Source decoder *)

Lemma payload_lookup (h : hvx) (i : nat) :
  (i < hvx_data_len h)%nat → payload h !! i = Some (p_data_src h i).
Proof.
  intros Hi. unfold payload.
  rewrite list_lookup_fmap, lookup_seq_lt by done. done.
Qed.

Lemma payload_byte (h : hvx) (i : nat) :
  Forall is_byte (payload h) → (i < hvx_data_len h)%nat → is_byte (p_data_src h i).
Proof.
  intros Hall Hi. eapply Forall_lookup_1; [exact Hall | by apply payload_lookup].
Qed.

(** C2: a Notification Source record of exactly 8 bytes makes the decoder
    call the handler once and leaves the client as it was; the call is
    InvalidNotif when byte 0 is at least 3 or byte 2 at least 12, and
    otherwise Notif with evt_id = byte 0, the five flags = bits 0..4 of
    byte 1 (higher bits play no part), category = byte 2, count = byte 3
    and notif_uid = the little-endian value of bytes 4..7. *)
Theorem ns_record_of_length_8 (w : world) (h : hvx) :
  hvx_data_len h = 8%nat →
  Forall is_byte (payload h) →
  on_received_ns w h =
    evt_handler
      (on_ns
         (if (3 <=? p_data_src h 0) || (12 <=? p_data_src h 2)
          then BT_GATT_ANCS_C_EVT_INVALID_NOTIF
          else BT_GATT_ANCS_C_EVT_NOTIF)
         (Some
            {| notif_uid := of_le32 (p_data_src h 4) (p_data_src h 5)
                                    (p_data_src h 6) (p_data_src h 7);
               evt_id := p_data_src h 0;
               evt_flags :=
                 {| silent := Z.b2z (Z.testbit (p_data_src h 1) 0);
                    important := Z.b2z (Z.testbit (p_data_src h 1) 1);
                    pre_existing := Z.b2z (Z.testbit (p_data_src h 1) 2);
                    positive_action := Z.b2z (Z.testbit (p_data_src h 1) 3);
                    negative_action := Z.b2z (Z.testbit (p_data_src h 1) 4) |};
               category_id := p_data_src h 2;
               category_count := p_data_src h 3 |}))
      w.
Proof.
  intros Hlen Hbytes.
  unfold on_received_ns, parse_notif.
  rewrite decide_False by (rewrite Hlen; unfold BT_GATT_ANCS_NOTIFICATION_DATA_LENGTH; lia).
  unfold notif_of_hvx, bt_gatt_ancs_verify_notification_format. cbn [evt_id category_id].
  rewrite !land_shiftr_bit by done.
  rewrite sys_get_le32_bytes by (apply payload_byte; [done | rewrite Hlen; cbv; lia]).
  change BT_GATT_ANCS_NB_OF_EVT_ID with 3.
  change BT_GATT_ANCS_NB_OF_CATEGORY_ID with 12.
  destruct ((3 <=? _) || (12 <=? _)); reflexivity.
Qed.

Lemma ns_record_of_length_8_witness :
  on_received_ns (sample_world 18 [] 0) (hvx_of [0; 24; 6; 2; 1; 2; 3; 4]) =
    evt_handler
      (on_ns BT_GATT_ANCS_C_EVT_NOTIF
         (Some
            {| notif_uid := 67305985;
               evt_id := 0;
               evt_flags :=
                 {| silent := 0; important := 0; pre_existing := 0;
                    positive_action := 1; negative_action := 1 |};
               category_id := 6;
               category_count := 2 |}))
      (sample_world 18 [] 0).
Proof.
  apply (ns_record_of_length_8 (sample_world 18 [] 0)
           (hvx_of [0; 24; 6; 2; 1; 2; 3; 4])).
  - reflexivity.
  - repeat constructor; simpl; lia.
Defined.

(** C5, as the code has it: a record of any other length is reported as
    invalid and then decoded all the same, so the handler is called twice
    for it: first with InvalidNotif, then with the event decoded from the
    eight bytes at the start of the record (or from what lies there, when
    the record is shorter). *)
Theorem parse_notif_other_length (w : world) (h : hvx) :
  hvx_data_len h ≠ 8%nat →
  ∃ t n, sink (on_received_ns w h) =
         sink w ++ [on_ns BT_GATT_ANCS_C_EVT_INVALID_NOTIF None; on_ns t (Some n)].
Proof.
  intros Hlen. unfold on_received_ns, parse_notif.
  rewrite decide_True by done.
  eexists _, _. simpl. rewrite <- app_assoc. reflexivity.
Qed.

Lemma parse_notif_other_length_witness :
  ∃ t n, sink (on_received_ns (sample_world 18 [] 0)
                 (hvx_of [0; 24; 6; 2; 1; 2; 3; 4; 0])) =
         sink (sample_world 18 [] 0)
         ++ [on_ns BT_GATT_ANCS_C_EVT_INVALID_NOTIF None; on_ns t (Some n)].
Proof.
  apply (parse_notif_other_length (sample_world 18 [] 0)
           (hvx_of [0; 24; 6; 2; 1; 2; 3; 4; 0])).
  vm_compute. lia.
Defined.

(** An instance: the record 00 18 06 02 01 02 03 04 00 has nine bytes; the
    handler is called with InvalidNotif and then once more, here with
    Notif. *)
Lemma ns_record_of_length_9_two_calls :
  sink (on_received_ns (sample_world 18 [] 0)
          (hvx_of [0; 24; 6; 2; 1; 2; 3; 4; 0])) =
    [ on_ns BT_GATT_ANCS_C_EVT_INVALID_NOTIF None;
      on_ns BT_GATT_ANCS_C_EVT_NOTIF
        (Some
           {| notif_uid := 67305985;
              evt_id := 0;
              evt_flags :=
                {| silent := 0; important := 0; pre_existing := 0;
                   positive_action := 1; negative_action := 1 |};
              category_id := 6;
              category_count := 2 |}) ].
Proof. reflexivity. Qed.

(** ** Stores into a byte buffer *)

Lemma poke_length (d : list Z) (i : nat) (bs : list Z) :
  (i + length bs ≤ length d)%nat → length (poke d i bs) = length d.
Proof.
  intros H. unfold poke. rewrite !length_app, length_take, length_drop. lia.
Qed.

Lemma poke_nil (d : list Z) (i : nat) : poke d i [] = d.
Proof. unfold poke. simpl. rewrite Nat.add_0_r. apply take_drop. Qed.

Lemma poke_take (d : list Z) (i : nat) (bs : list Z) :
  (i ≤ length d)%nat → take (i + length bs) (poke d i bs) = take i d ++ bs.
Proof.
  intros H. unfold poke. rewrite app_assoc.
  rewrite take_app_length'; [done |].
  rewrite length_app, length_take. lia.
Qed.

Lemma poke_poke (d : list Z) (i : nat) (a b : list Z) :
  (i + length a ≤ length d)%nat →
  poke (poke d i a) (i + length a) b = poke d i (a ++ b).
Proof.
  intros H. unfold poke at 1.
  rewrite poke_take by lia.
  unfold poke. rewrite length_app.
  rewrite <- !app_assoc. do 3 f_equal.
  rewrite !app_assoc.
  rewrite drop_app_ge; rewrite !length_app, length_take; [| lia].
  rewrite drop_drop. f_equal. lia.
Qed.

Lemma store_poke (d : list Z) (i : nat) (v : Z) :
  (i < length d)%nat → store d i v = Ok (poke d i [v]).
Proof.
  intros H. unfold store, poke. rewrite decide_True by done.
  rewrite insert_take_drop by done. simpl. do 4 f_equal. lia.
Qed.

Lemma store_trap (d : list Z) (i : nat) (v : Z) :
  (length d ≤ i)%nat → store d i v = Trap OutOfBounds.
Proof. intros H. unfold store. rewrite decide_False by lia. done. Qed.

Lemma sys_put_le16_poke (v : Z) (d : list Z) (i : nat) :
  (i + 2 ≤ length d)%nat → sys_put_le16 v d i = Ok (poke d i (le16 v)).
Proof.
  intros H. unfold sys_put_le16.
  rewrite store_poke by lia. cbn [mbind res_bind].
  replace (i + 1)%nat with (i + length [Z.land v 255])%nat by (simpl; lia).
  rewrite store_poke by (rewrite poke_length; simpl; lia).
  rewrite poke_poke by (simpl; lia). simpl.
  rewrite !land_255, Z.shiftr_div_pow2 by lia. done.
Qed.

Lemma mod_65536_low (v : Z) : v mod 65536 mod 256 = v mod 256.
Proof. apply Z.mod_mod_divide. exists 256. reflexivity. Qed.

Lemma mod_65536_high (v : Z) : v mod 65536 / 256 mod 256 = v / 256 mod 256.
Proof.
  assert (H := Z.rem_mul_r v 256 256).
  change (256 * 256) with 65536 in H. rewrite H by lia.
  assert (Hlo := Z.mod_pos_bound v 256).
  assert (Hhi := Z.mod_pos_bound (v / 256) 256).
  replace ((v mod 256 + 256 * (v / 256 mod 256)) / 256) with (v / 256 mod 256).
  - apply Z.mod_mod. lia.
  - apply Z.div_unique with (r := v mod 256); lia.
Qed.

Lemma sys_put_le32_poke (v : Z) (d : list Z) (i : nat) :
  (i + 4 ≤ length d)%nat → sys_put_le32 v d i = Ok (poke d i (le32 v)).
Proof.
  intros H. unfold sys_put_le32.
  rewrite sys_put_le16_poke by lia. cbn [mbind res_bind].
  replace (i + 2)%nat with (i + length (le16 (Z.land v 65535)))%nat by (simpl; lia).
  rewrite sys_put_le16_poke by (rewrite poke_length; simpl; lia).
  rewrite poke_poke by (simpl; lia).
  unfold le16, le32. simpl.
  rewrite !land_65535, Z.shiftr_div_pow2 by lia.
  rewrite !mod_65536_low, !mod_65536_high.
  rewrite Z.div_div by lia. done.
Qed.

(** ** Perform-notification-action command *)

Lemma encode_notif_action_poke (d : list Z) (uid action : Z) :
  (6 ≤ length d)%nat →
  encode_notif_action d uid action =
    Ok (poke d 0 (2 :: le32 uid ++ [action mod 256]), 6%nat).
Proof.
  intros H. unfold encode_notif_action.
  rewrite store_poke by lia. cbn [mbind res_bind].
  change 1%nat with (0 + length [BT_GATT_ANCS_COMMAND_ID_GET_PERFORM_NOTIF_ACTION])%nat.
  rewrite sys_put_le32_poke by (rewrite poke_length; simpl; lia).
  cbn [mbind res_bind].
  rewrite poke_poke by (simpl; lia).
  change (0 + length [BT_GATT_ANCS_COMMAND_ID_GET_PERFORM_NOTIF_ACTION] + 4)%nat
    with (0 + length ([BT_GATT_ANCS_COMMAND_ID_GET_PERFORM_NOTIF_ACTION] ++ le32 uid))%nat.
  rewrite store_poke by (rewrite poke_length; simpl; lia).
  cbn [mbind res_bind].
  rewrite poke_poke by (simpl; lia). done.
Qed.

(** C8: for a uid with little-endian bytes b0 b1 b2 b3 and an action that
    is Positive (0) or Negative (1), the encoder writes exactly the six
    bytes 02 b0 b1 b2 b3 action at the start of the buffer and returns the
    length 6, and the dispatcher hands these six bytes to the GATT write;
    uid 0x04030201 with Positive gives 02 01 02 03 04 00. *)
Theorem perform_notif_action_wire :
  (∀ (d : list Z) (b0 b1 b2 b3 action : Z),
     (6 ≤ length d)%nat →
     is_byte b0 → is_byte b1 → is_byte b2 → is_byte b3 →
     action = ACTION_ID_POSITIVE ∨ action = ACTION_ID_NEGATIVE →
     ∃ d', encode_notif_action d (of_le32 b0 b1 b2 b3) action = Ok (d', 6%nat)
           ∧ take 6 d' = [2; b0; b1; b2; b3; action]
           ∧ drop 6 d' = drop 6 d)
  ∧ (∀ (w : world) (b0 b1 b2 b3 action : Z) (timeout : k_timeout_t),
       (6 ≤ length (cp_data (ancs_c w)))%nat →
       cp_write_params_sem (ancs_c w) = 1 →
       write_ret (att w) = 0 →
       is_byte b0 → is_byte b1 → is_byte b2 → is_byte b3 →
       action = ACTION_ID_POSITIVE ∨ action = ACTION_ID_NEGATIVE →
       ∃ w', bt_gatt_ancs_perform_notif_action w (of_le32 b0 b1 b2 b3) action timeout
               = Ok (0, w')
             ∧ written (att w') = written (att w) ++ [[2; b0; b1; b2; b3; action]])
  ∧ (∃ w', bt_gatt_ancs_perform_notif_action (sample_world 18 [] 0)
             67305985 ACTION_ID_POSITIVE K_NO_WAIT = Ok (0, w')
           ∧ written (att w') = [[2; 1; 2; 3; 4; 0]]
           ∧ length [2; 1; 2; 3; 4; 0] = 6%nat).
Proof.
  assert (Hact : ∀ action, action = ACTION_ID_POSITIVE ∨ action = ACTION_ID_NEGATIVE →
                           action mod 256 = action).
  { intros a [-> | ->]; reflexivity. }
  split; [| split].
  - intros d b0 b1 b2 b3 action Hlen H0 H1 H2 H3 Ha.
    eexists. split; [by apply encode_notif_action_poke |].
    rewrite le32_of_le32, Hact by done. split.
    + change 6%nat with (0 + length [2%Z; b0; b1; b2; b3; action])%nat.
      rewrite poke_take by lia. done.
    + unfold poke. simpl. done.
  - intros w b0 b1 b2 b3 action timeout Hlen Hsem Hret H0 H1 H2 H3 Ha.
    unfold bt_gatt_ancs_perform_notif_action, k_sem_take. rewrite Hsem.
    cbn -[of_le32 encode_notif_action].
    rewrite encode_notif_action_poke by done.
    rewrite le32_of_le32, Hact by done.
    unfold bt_gatt_ancs_c_cp_write, bt_gatt_write. cbn. rewrite Hret. cbn.
    eexists. split; reflexivity.
  - eexists. split; [reflexivity |]. split; reflexivity.
Qed.

Lemma perform_notif_action_wire_witness :
  ∃ d', encode_notif_action (replicate 18 0) (of_le32 1 2 3 4) ACTION_ID_POSITIVE
          = Ok (d', 6%nat)
        ∧ take 6 d' = [2; 1; 2; 3; 4; ACTION_ID_POSITIVE]
        ∧ drop 6 d' = drop 6 (replicate 18 0).
Proof.
  apply (proj1 perform_notif_action_wire (replicate 18 0) 1 2 3 4 ACTION_ID_POSITIVE).
  - simpl. lia.
  - unfold is_byte. lia.
  - unfold is_byte. lia.
  - unfold is_byte. lia.
  - unfold is_byte. lia.
  - left. reflexivity.
Defined.

(** ** Write completion and the semaphore *)

(** C9: the write callback gives the semaphore back and calls the handler
    exactly once with NpError and the status it was given, whatever the
    status; afterwards a dispatch obtains the semaphore and succeeds,
    whereas while the semaphore is taken a dispatch is turned away.  With
    status 0xA3 after a dispatched action: the sink has received
    NpError 0xA3 alone and the next dispatch returns 0. *)
Theorem cp_write_callback_releases :
  (∀ (w : world) (err : Z),
     0 ≤ cp_write_params_sem (ancs_c w) ≤ 1 →
     let w' := bt_gatt_ancs_c_cp_write_callback w err in
     sink w' = sink w ++ [on_cp err]
     ∧ cp_write_params_sem (ancs_c w') = 1
     ∧ (∀ uid action timeout,
          (6 ≤ length (cp_data (ancs_c w)))%nat →
          write_ret (att w) = 0 →
          ∃ w'', bt_gatt_ancs_perform_notif_action w' uid action timeout = Ok (0, w''))
     ∧ (cp_write_params_sem (ancs_c w) = 0 →
        ∀ uid action,
          bt_gatt_ancs_perform_notif_action w uid action K_NO_WAIT = Ok (- EBUSY, w)))
  ∧ (let w0 := sample_world 18 [] 0 in
     let w1 := world_after
                 (bt_gatt_ancs_perform_notif_action w0 67305985 ACTION_ID_POSITIVE K_NO_WAIT) w0 in
     let w2 := bt_gatt_ancs_c_cp_write_callback w1 163 in
     cp_write_params_sem (ancs_c w1) = 0
     ∧ sink w2 = [on_cp 163]
     ∧ cp_write_params_sem (ancs_c w2) = 1
     ∧ ∃ w3, bt_gatt_ancs_perform_notif_action w2 67305985 ACTION_ID_NEGATIVE K_NO_WAIT
               = Ok (0, w3)).
Proof.
  split.
  - intros w err Hsem w'. subst w'.
    assert (Hgive : k_sem_give (cp_write_params_sem (ancs_c w)) = 1).
    { unfold k_sem_give. destruct (Z.eqb_spec (cp_write_params_sem (ancs_c w)) 1); lia. }
    split; [reflexivity |]. split; [exact Hgive |]. split.
    + intros uid action timeout Hlen Hret.
      unfold bt_gatt_ancs_perform_notif_action, bt_gatt_ancs_c_cp_write_callback.
      cbn -[encode_notif_action k_sem_give]. rewrite Hgive.
      cbn -[encode_notif_action].
      rewrite encode_notif_action_poke by done.
      unfold bt_gatt_ancs_c_cp_write, bt_gatt_write. cbn. rewrite Hret. cbn.
      eexists. reflexivity.
    + intros H0 uid action.
      unfold bt_gatt_ancs_perform_notif_action, k_sem_take. rewrite H0.
      reflexivity.
  - cbv zeta. repeat split; try reflexivity.
    eexists. reflexivity.
Qed.

Lemma cp_write_callback_releases_witness :
  let w := held_world in
  let w' := bt_gatt_ancs_c_cp_write_callback w 163 in
  sink w' = sink w ++ [on_cp 163]
  ∧ cp_write_params_sem (ancs_c w') = 1
  ∧ (∀ uid action timeout,
       (6 ≤ length (cp_data (ancs_c w)))%nat →
       write_ret (att w) = 0 →
       ∃ w'', bt_gatt_ancs_perform_notif_action w' uid action timeout = Ok (0, w''))
  ∧ (cp_write_params_sem (ancs_c w) = 0 →
     ∀ uid action,
       bt_gatt_ancs_perform_notif_action w uid action K_NO_WAIT = Ok (- EBUSY, w)).
Proof.
  apply (proj1 cp_write_callback_releases held_world 163).
  vm_compute. split; discriminate.
Defined.

(** ** Dispatch while the semaphore is taken *)

(** C3, as the code has it: when the semaphore is taken and the caller's
    wait is bounded, each dispatcher returns the semaphore's failure code,
    [-EBUSY] when the timeout is [K_NO_WAIT] (or a [K_MSEC] of no time) and
    [-EAGAIN] after a timed wait, and hands nothing to the GATT write; the
    action dispatcher leaves the world as it was, and the two attribute
    dispatchers leave it as it was except that the parse state of the Data
    Source parser is COMMAND_ID. *)
Theorem dispatch_while_taken (cp_buff_size fuel : nat) (w : world) (timeout : k_timeout_t) :
  cp_write_params_sem (ancs_c w) = 0 →
  timeout ≠ K_FOREVER →
  (busy timeout = match timeout with
                  | K_NO_WAIT => - EBUSY
                  | K_MSEC ms => if ms <=? 0 then - EBUSY else - EAGAIN
                  | K_FOREVER => - EAGAIN
                  end)
  ∧ (∀ uid action,
       bt_gatt_ancs_perform_notif_action w uid action timeout = Ok (busy timeout, w))
  ∧ (∀ notif,
       bt_gatt_ancs_verify_notification_format notif = 0 →
       bt_gatt_ancs_c_request_attrs w notif timeout
       = Ok (busy timeout, set_ancs_c (set_parse_info (set_parse_state COMMAND_ID)) w))
  ∧ (∀ p_app_id len,
       len ≠ 0%nat →
       p_app_id !! len = Some 0 →
       bt_gatt_ancs_c_app_attr_request cp_buff_size fuel w p_app_id len timeout
       = Ok (busy timeout, set_ancs_c (set_parse_info (set_parse_state COMMAND_ID)) w)).
Proof.
  intros Hsem Ht.
  assert (Htake : k_sem_take 0 timeout = Ok (busy timeout, 0)
                  ∧ (busy timeout =? 0) = false).
  { unfold k_sem_take, busy. cbn [Z.ltb Z.compare].
    destruct timeout as [| ms |]; [done | | done].
    cbn [no_wait]. by destruct (ms <=? 0). }
  destruct Htake as [Htake Hne].
  split; [by destruct timeout |]. split; [| split].
  - intros uid action.
    unfold bt_gatt_ancs_perform_notif_action. rewrite Hsem, Htake.
    cbn [mbind res_bind]. rewrite Hne. done.
  - intros notif Hfmt.
    unfold bt_gatt_ancs_c_request_attrs, bt_gatt_ancs_get_notif_attrs.
    rewrite Hfmt, Hsem, Htake. cbn [mbind res_bind Z.eqb negb]. rewrite Hne. done.
  - intros p_app_id len Hlen Hnul.
    unfold bt_gatt_ancs_c_app_attr_request, ancs_c_app_attr_request, app_attr_get.
    rewrite decide_False by done. rewrite Hnul. cbn [Z.eqb negb].
    cbn [ancs_c set_ancs_c cp_write_params_sem set_parse_info].
    rewrite Hsem, Htake. cbn [mbind res_bind]. rewrite Hne. done.
Qed.

Lemma dispatch_while_taken_witness :
  (busy (K_MSEC 100) = - EAGAIN)
  ∧ (∀ uid action,
       bt_gatt_ancs_perform_notif_action held_world uid action (K_MSEC 100)
       = Ok (busy (K_MSEC 100), held_world))
  ∧ (∀ notif,
       bt_gatt_ancs_verify_notification_format notif = 0 →
       bt_gatt_ancs_c_request_attrs held_world notif (K_MSEC 100)
       = Ok (busy (K_MSEC 100),
             set_ancs_c (set_parse_info (set_parse_state COMMAND_ID)) held_world))
  ∧ (∀ p_app_id len,
       len ≠ 0%nat →
       p_app_id !! len = Some 0 →
       bt_gatt_ancs_c_app_attr_request 18 64 held_world p_app_id len (K_MSEC 100)
       = Ok (busy (K_MSEC 100),
             set_ancs_c (set_parse_info (set_parse_state COMMAND_ID)) held_world)).
Proof.
  apply (dispatch_while_taken 18 64 held_world (K_MSEC 100)).
  - reflexivity.
  - discriminate.
Defined.

(** C3 as stated fails: in [held_world] the parser is in state ATTR_LEN1;
    a request for attributes is turned away with [-EBUSY] and yet leaves
    the parser in state COMMAND_ID. *)
Lemma dispatch_while_taken_resets_parser :
  ∃ w', bt_gatt_ancs_c_request_attrs held_world sample_notif K_NO_WAIT = Ok (- EBUSY, w')
        ∧ parse_state (parse_info (ancs_c held_world)) = ATTR_LEN1
        ∧ parse_state (parse_info (ancs_c w')) = COMMAND_ID
        ∧ ancs_c w' ≠ ancs_c held_world.
Proof.
  eexists. split; [reflexivity |]. split; [reflexivity |]. split; [reflexivity |].
  intros H. apply (f_equal (fun c => parse_state (parse_info c))) in H.
  vm_compute in H. discriminate.
Qed.

(** ** Get-notification-attributes command *)

Lemma with_cp_id (c : bt_gatt_ancs_c) :
  with_cp c (cp_data c) (number_of_requested_attr c) = c.
Proof. destruct c. reflexivity. Qed.

Lemma requested_count_cons (e : bt_gatt_ancs_c_attr_list_t) (l : list bt_gatt_ancs_c_attr_list_t) :
  requested_count (e :: l) = (if get e then 1 else 0) + requested_count l.
Proof.
  unfold requested_count. rewrite filter_cons.
  destruct (decide (get e = true)) as [-> | Hne].
  - simpl length. lia.
  - destruct (get e); [done | lia].
Qed.

Lemma get_notif_attrs_body_poke (c : bt_gatt_ancs_c) (d : list Z) (n : Z)
    (attr i : nat) (e : bt_gatt_ancs_c_attr_list_t) :
  ancs_notif_attr_list c !! attr = Some e →
  (attr < 256)%nat →
  (i + length (notif_attr_wire attr e) ≤ length d)%nat →
  get_notif_attrs_body attr (with_cp c d n, i) =
    Ok (with_cp c (poke d i (notif_attr_wire attr e)) (n + (if get e then 1 else 0)),
        (i + length (notif_attr_wire attr e))%nat).
Proof.
  intros He Hattr Hlen.
  unfold get_notif_attrs_body, notif_attr_wire in *.
  cbn [with_cp set_number_of_requested_attr set_cp_data ancs_notif_attr_list
       cp_data number_of_requested_attr].
  rewrite He.
  assert (Hsel : (Z.of_nat attr =? BT_GATT_ANCS_NOTIF_ATTR_ID_TITLE)
                 || (Z.of_nat attr =? BT_GATT_ANCS_NOTIF_ATTR_ID_SUBTITLE)
                 || (Z.of_nat attr =? BT_GATT_ANCS_NOTIF_ATTR_ID_MESSAGE)
                 = bool_decide (attr = 1 ∨ attr = 2 ∨ attr = 3)%nat).
  { unfold BT_GATT_ANCS_NOTIF_ATTR_ID_TITLE, BT_GATT_ANCS_NOTIF_ATTR_ID_SUBTITLE,
      BT_GATT_ANCS_NOTIF_ATTR_ID_MESSAGE.
    destruct (bool_decide_reflect (attr = 1 ∨ attr = 2 ∨ attr = 3)%nat);
      destruct (Z.eqb_spec (Z.of_nat attr) 1);
      destruct (Z.eqb_spec (Z.of_nat attr) 2);
      destruct (Z.eqb_spec (Z.of_nat attr) 3); simpl; try done; lia. }
  rewrite Hsel. clear Hsel.
  destruct (get e).
  - rewrite Z.mod_small by lia.
    destruct (bool_decide (attr = 1 ∨ attr = 2 ∨ attr = 3)%nat).
    + simpl in Hlen.
      rewrite store_poke by lia. cbn [mbind res_bind].
      replace (S i) with (i + length [Z.of_nat attr])%nat by (simpl; lia).
      rewrite sys_put_le16_poke by (rewrite poke_length; simpl; lia).
      cbn [mbind res_bind].
      rewrite poke_poke by (simpl; lia).
      unfold with_cp. cbn. do 2 f_equal. lia.
    + simpl in Hlen.
      rewrite store_poke by lia. cbn [mbind res_bind].
      unfold with_cp. cbn. do 2 f_equal. lia.
  - rewrite poke_nil, Z.add_0_r. simpl. rewrite Nat.add_0_r. done.
Qed.

Lemma get_notif_attrs_loop_poke (c : bt_gatt_ancs_c) (l : list bt_gatt_ancs_c_attr_list_t) :
  ∀ (s i : nat) (d : list Z) (n : Z),
    (∀ k e, l !! k = Some e → ancs_notif_attr_list c !! (s + k)%nat = Some e) →
    (s + length l ≤ 256)%nat →
    (i + length (notif_attrs_wire s l) ≤ length d)%nat →
    get_notif_attrs_loop (seq s (length l)) (with_cp c d n, i) =
      Ok (with_cp c (poke d i (notif_attrs_wire s l)) (n + requested_count l),
          (i + length (notif_attrs_wire s l))%nat).
Proof.
  induction l as [| e l IH]; intros s i d n Hl Hs Hlen.
  - simpl. rewrite poke_nil, Nat.add_0_r.
    unfold requested_count. simpl. rewrite Z.add_0_r. done.
  - simpl in Hlen, Hs. rewrite length_app in Hlen.
    cbn [length seq get_notif_attrs_loop notif_attrs_wire].
    rewrite (get_notif_attrs_body_poke c d n s i e); [| | lia | lia].
    2:{ specialize (Hl 0%nat e eq_refl). by rewrite Nat.add_0_r in Hl. }
    cbn [mbind res_bind].
    rewrite IH.
    + rewrite poke_poke by lia.
      rewrite requested_count_cons, length_app.
      rewrite Z.add_assoc, Nat.add_assoc. reflexivity.
    + intros k e' Hk. specialize (Hl (S k) e' Hk).
      by replace (S s + k)%nat with (s + S k)%nat by lia.
    + lia.
    + rewrite poke_length by lia. lia.
Qed.

Lemma uint16_small (n : nat) : Z.of_nat n < 65536 → uint16 n = n.
Proof. intros Hn. unfold uint16. rewrite Z.mod_small by lia. apply Nat2Z.id. Qed.

Lemma notif_attrs_wire_length (i : nat) (l : list bt_gatt_ancs_c_attr_list_t) :
  (length (notif_attrs_wire i l) ≤ 3 * length l)%nat.
Proof.
  revert i. induction l as [| e l IH]; intros i; [done |].
  cbn [notif_attrs_wire length]. rewrite length_app. specialize (IH (S i)).
  assert (length (notif_attr_wire i e) ≤ 3)%nat; [| lia].
  unfold notif_attr_wire, le16. destruct (get e); [| simpl; lia].
  case_bool_decide; simpl; lia.
Qed.

(** C7: when the semaphore is free and the Control Point buffer holds the
    command, the dispatcher encodes 00, the uid in little-endian order,
    then each requested attribute id in ascending order, Title, Subtitle
    and Message followed by their registered length in little-endian
    order; it hands exactly these bytes to the GATT write and sets the
    expected number of attributes to the number of requested entries.  With
    AppIdentifier, Title (32), Message (32), Date and the two action labels
    requested and uid 0x04030201 the bytes are
    00 01 02 03 04 00 01 20 00 03 20 00 05 06 07. *)
Theorem get_notif_attrs_wire_format :
  (∀ (w : world) (uid : Z) (timeout : k_timeout_t),
     let wire := get_notif_attrs_wire uid (ancs_notif_attr_list (ancs_c w)) in
     cp_write_params_sem (ancs_c w) = 1 →
     length (ancs_notif_attr_list (ancs_c w)) = 8%nat →
     (length wire ≤ length (cp_data (ancs_c w)))%nat →
     ∃ w', bt_gatt_ancs_get_notif_attrs w uid timeout = Ok (write_ret (att w), w')
           ∧ take (length wire) (cp_data (ancs_c w')) = wire
           ∧ expected_number_of_attrs (parse_info (ancs_c w'))
             = requested_count (ancs_notif_attr_list (ancs_c w))
           ∧ (write_ret (att w) = 0 → written (att w') = written (att w) ++ [wire]))
  ∧ (∀ b0 b1 b2 b3 l,
       is_byte b0 → is_byte b1 → is_byte b2 → is_byte b3 →
       take 5 (get_notif_attrs_wire (of_le32 b0 b1 b2 b3) l) = [0; b0; b1; b2; b3])
  ∧ (let w := sample_world 18 [0; 1; 3; 5; 6; 7]%nat 0 in
     ∃ w', bt_gatt_ancs_c_request_attrs w sample_notif K_NO_WAIT = Ok (0, w')
           ∧ written (att w') = [[0; 1; 2; 3; 4; 0; 1; 32; 0; 3; 32; 0; 5; 6; 7]]
           ∧ expected_number_of_attrs (parse_info (ancs_c w')) = 6).
Proof.
  split; [| split].
  - intros w uid timeout wire Hsem Htab Hlen.
    unfold bt_gatt_ancs_get_notif_attrs, k_sem_take. rewrite Hsem.
    cbn [Z.ltb Z.compare mbind res_bind Z.eqb negb].
    cbn [set_number_of_requested_attr set_sem cp_data].
    subst wire. unfold get_notif_attrs_wire in *. simpl length in Hlen.
    rewrite store_poke by lia. cbn [mbind res_bind].
    rewrite sys_put_le32_poke by (rewrite poke_length; simpl; lia).
    cbn [mbind res_bind].
    rewrite (poke_poke _ 0 [_]) by (simpl; lia).
    match goal with
    | |- context [set_cp_data ?d (set_number_of_requested_attr 0 ?c)] =>
      change (set_cp_data d (set_number_of_requested_attr 0 c)) with (with_cp c d 0)
    end.
    change (Z.to_nat BT_GATT_ANCS_NB_OF_NOTIF_ATTR) with 8%nat.
    rewrite <- Htab.
    rewrite (get_notif_attrs_loop_poke _ (ancs_notif_attr_list (ancs_c w)));
      [| intros k e Hk; exact Hk | lia | rewrite poke_length; simpl; lia].
    cbn [mbind res_bind].
    change (1 + 4)%nat
      with (0 + length ([BT_GATT_ANCS_COMMAND_ID_GET_NOTIF_ATTRIBUTES] ++ le32 uid))%nat.
    rewrite poke_poke by (simpl; lia).
    set (wire := ([BT_GATT_ANCS_COMMAND_ID_GET_NOTIF_ATTRIBUTES] ++ le32 uid)
                 ++ notif_attrs_wire 0 (ancs_notif_attr_list (ancs_c w))).
    change (0 :: le32 uid ++ notif_attrs_wire 0 (ancs_notif_attr_list (ancs_c w)))
      with wire.
    replace (0 + length ([BT_GATT_ANCS_COMMAND_ID_GET_NOTIF_ATTRIBUTES] ++ le32 uid)
             + length (notif_attrs_wire 0 (ancs_notif_attr_list (ancs_c w))))%nat
      with (length wire) by (subst wire; rewrite !length_app; simpl; lia).
    assert (Hwl : (length wire ≤ length (cp_data (ancs_c w)))%nat) by (subst wire; simpl; lia).
    assert (Htake : take (length wire) (poke (cp_data (ancs_c w)) 0 wire) = wire).
    { change (length wire) with (0 + length wire)%nat. rewrite poke_take by lia. done. }
    assert (Hsmall : Z.of_nat (length wire) < 65536).
    { subst wire. rewrite !length_app.
      pose proof (notif_attrs_wire_length 0 (ancs_notif_attr_list (ancs_c w))).
      simpl length in *. lia. }
    unfold bt_gatt_ancs_c_cp_write, bt_gatt_write. cbv zeta.
    rewrite (uint16_small _ Hsmall).
    cbn [ancs_c set_ancs_c cp_data with_cp set_number_of_requested_attr set_cp_data
         set_parse_info att].
    rewrite Htake.
    destruct (write_ret (att w) =? 0) eqn:E.
    + apply Z.eqb_eq in E. rewrite E. cbn [Z.eqb].
      eexists. split; [reflexivity |]. cbn.
      split; [exact Htake |]. split; [lia | done].
    + rewrite E.
      eexists. split; [reflexivity |]. cbn.
      split; [exact Htake |]. split; [lia |].
      intros Hz. rewrite Hz in E. discriminate.
  - intros b0 b1 b2 b3 l H0 H1 H2 H3. unfold get_notif_attrs_wire.
    rewrite le32_of_le32 by done. reflexivity.
  - exists (world_after (bt_gatt_ancs_c_request_attrs
                           (sample_world 18 [0; 1; 3; 5; 6; 7]%nat 0)
                           sample_notif K_NO_WAIT)
                        (sample_world 18 [] 0)).
    vm_compute. repeat split; reflexivity.
Qed.

Lemma get_notif_attrs_wire_format_witness :
  let w := sample_world 18 [0; 1; 3; 5; 6; 7]%nat 0 in
  let wire := get_notif_attrs_wire 67305985 (ancs_notif_attr_list (ancs_c w)) in
  ∃ w', bt_gatt_ancs_get_notif_attrs w 67305985 K_NO_WAIT = Ok (write_ret (att w), w')
        ∧ take (length wire) (cp_data (ancs_c w')) = wire
        ∧ expected_number_of_attrs (parse_info (ancs_c w'))
          = requested_count (ancs_notif_attr_list (ancs_c w))
        ∧ (write_ret (att w) = 0 → written (att w') = written (att w) ++ [wire]).
Proof.
  apply (proj1 get_notif_attrs_wire_format
           (sample_world 18 [0; 1; 3; 5; 6; 7]%nat 0) 67305985 K_NO_WAIT).
  - reflexivity.
  - reflexivity.
  - vm_compute. lia.
Defined.

(** ** Data Source parser: one byte at a time *)

Lemma bind_ok {A B} (m : res A) (f : A → res B) (b : B) :
  m ≫= f = Ok b → ∃ a, m = Ok a ∧ f a = Ok b.
Proof. destruct m; simpl; try done. eauto. Qed.

Lemma hvx_of_single (b : Z) : p_data_src (hvx_of [b]) 0 = b.
Proof. reflexivity. Qed.


Lemma parse_iter_local (w : world) (h : hvx) (i : nat) :
  parse_state (parse_info (ancs_c w)) ≠ NOTIF_UID →
  parse_state (parse_info (ancs_c w)) ≠ DONE →
  parse_iter w h i =
    '(w', j) ← parse_iter w (hvx_of [p_data_src h i]) 0; Ok (w', (i + j)%nat).
Proof.
  intros Hu Hd. unfold parse_iter.
  destruct (parse_state (parse_info (ancs_c w))); try done.
  - unfold command_id_parse. rewrite hvx_of_single.
    res_cases; rewrite ?Nat.add_1_r, ?Nat.add_0_r; done.
  - unfold app_id_parse. rewrite hvx_of_single.
    res_cases; rewrite ?Nat.add_1_r, ?Nat.add_0_r; done.
  - unfold attr_id_parse. rewrite hvx_of_single.
    res_cases; rewrite ?Nat.add_1_r, ?Nat.add_0_r; done.
  - unfold attr_len1_parse. rewrite hvx_of_single.
    res_cases; rewrite ?Nat.add_1_r, ?Nat.add_0_r; done.
  - unfold attr_len2_parse. rewrite hvx_of_single.
    res_cases; rewrite ?Nat.add_1_r, ?Nat.add_0_r; done.
  - unfold attr_data_parse. rewrite hvx_of_single.
    res_cases; rewrite ?Nat.add_1_r, ?Nat.add_0_r; done.
  - unfold attr_skip. cbn.
    res_cases; rewrite ?Nat.add_1_r, ?Nat.add_0_r; try done; cbn in *; congruence.
Qed.

Lemma byte_step_done (w : world) (b : Z) :
  parse_state (parse_info (ancs_c w)) = DONE → byte_step w b = Ok w.
Proof. intros H. unfold byte_step, parse_iter. rewrite H. reflexivity. Qed.

Lemma run_done (w : world) (bs : list Z) :
  parse_state (parse_info (ancs_c w)) = DONE → run w bs = Ok w.
Proof.
  intros H. induction bs as [| b bs IH]; [done |].
  simpl. rewrite byte_step_done by done. exact IH.
Qed.

Lemma run_app (w : world) (a b : list Z) :
  run w (a ++ b) = w' ← run w a; run w' b.
Proof.
  revert w. induction a as [| x a IH]; intros w; [done |].
  simpl. destruct (byte_step w x); simpl; [apply IH | done | done].
Qed.

Lemma byte_step_ok (w w' : world) (b : Z) :
  byte_step w b = Ok w' →
  parse_state (parse_info (ancs_c w)) ≠ NOTIF_UID
  ∧ parse_iter w (hvx_of [b]) 0 = Ok (w', 1%nat).
Proof.
  unfold byte_step. intros H. split.
  - intros E. rewrite E in H. done.
  - destruct (parse_state (parse_info (ancs_c w))); try done;
      (destruct (parse_iter w (hvx_of [b]) 0) as [[w1 j] | |]; [| done | done];
       cbn in H; destruct (decide (j = 1%nat)); [| done]; congruence).
Qed.

Lemma drop_payload (h : hvx) (i : nat) :
  (i < hvx_data_len h)%nat →
  drop i (payload h) = p_data_src h i :: drop (S i) (payload h).
Proof.
  intros Hi. apply drop_S. by apply payload_lookup.
Qed.

Lemma payload_length (h : hvx) : length (payload h) = hvx_data_len h.
Proof. unfold payload. by rewrite length_map, length_seq. Qed.

Lemma parse_loop_end (fuel : nat) (w : world) (h : hvx) (i : nat) :
  (hvx_data_len h ≤ i)%nat → parse_loop fuel w h i = Ok w.
Proof.
  intros Hi. destruct fuel; simpl; rewrite decide_False by lia; done.
Qed.

(** From a state past the UID a notification is parsed byte by byte. *)
Lemma parse_loop_run (h : hvx) (n : nat) :
  ∀ (i fuel : nat) (w w' : world),
    (hvx_data_len h - i = n)%nat →
    (n ≤ fuel)%nat →
    run w (drop i (payload h)) = Ok w' →
    parse_loop fuel w h i = Ok w'.
Proof.
  induction n as [| n IH]; intros i fuel w w' Hn Hfuel Hrun.
  - rewrite drop_ge in Hrun by (rewrite payload_length; lia).
    simpl in Hrun. rewrite parse_loop_end by lia. done.
  - rewrite drop_payload in Hrun by lia. simpl in Hrun.
    apply bind_ok in Hrun as (w1 & Hstep & Hrun).
    destruct fuel as [| fuel]; [lia |].
    simpl. rewrite decide_True by lia.
    destruct (decide (parse_state (parse_info (ancs_c w)) = DONE)) as [Hd | Hd].
    + rewrite byte_step_done in Hstep by done. simplify_eq.
      rewrite run_done in Hrun by done. simplify_eq.
      unfold parse_iter. rewrite Hd. cbn [mbind res_bind].
      apply parse_loop_end. lia.
    + apply byte_step_ok in Hstep as [Hu Hit].
      rewrite parse_iter_local, Hit by done. cbn [mbind res_bind].
      apply IH; [lia | lia |].
      by replace (i + 1)%nat with (S i) by lia.
Qed.

Lemma on_received_ds_all_run (fuel : nat) (hs : list hvx) :
  ∀ (w w' : world),
    Forall (fun h => (hvx_data_len h ≤ fuel)%nat) hs →
    run w (concat (map payload hs)) = Ok w' →
    on_received_ds_all fuel w hs = Ok w'.
Proof.
  induction hs as [| h hs IH]; intros w w' Hfuel Hrun; [done |].
  apply Forall_cons in Hfuel as [Hh Hfuel].
  simpl in Hrun. rewrite run_app in Hrun.
  apply bind_ok in Hrun as (w1 & Hrun1 & Hrun).
  simpl. unfold on_received_ds, ancs_parse_get_attrs_response.
  rewrite (parse_loop_run h (hvx_data_len h) 0 fuel w w1); [| lia | lia | done].
  cbn [mbind res_bind]. by apply IH.
Qed.

Lemma sys_get_le32_ext (p q : nat → Z) (i j : nat) :
  (∀ k, (k < 4)%nat → p (i + k)%nat = q (j + k)%nat) →
  sys_get_le32 p i = sys_get_le32 q j.
Proof.
  intros H. unfold sys_get_le32, sys_get_le16.
  assert (H0 : p i = q j).
  { specialize (H 0%nat). rewrite !Nat.add_0_r in H. apply H. lia. }
  assert (H3 : p (i + 2 + 1)%nat = q (j + 2 + 1)%nat).
  { replace (i + 2 + 1)%nat with (i + 3)%nat by lia.
    replace (j + 2 + 1)%nat with (j + 3)%nat by lia. apply H. lia. }
  rewrite H0, H3, (H 1%nat), (H 2%nat) by lia. done.
Qed.

Lemma sys_get_le32_uid_value (p : nat → Z) (i : nat) (uid : list Z) :
  (∀ k, (k < 4)%nat → uid !! k = Some (p (i + k)%nat)) →
  sys_get_le32 p i = uid_value uid.
Proof.
  intros H. unfold uid_value. apply sys_get_le32_ext.
  intros k Hk. simpl. rewrite H by done. done.
Qed.

(** The notification that holds the whole UID from index [i] on. *)
Lemma parse_loop_uid (fuel : nat) (w w' : world) (h : hvx) (i : nat) (uid : list Z) :
  parse_state (parse_info (ancs_c w)) = NOTIF_UID →
  length uid = 4%nat →
  take 4 (drop i (payload h)) = uid →
  (hvx_data_len h - i ≤ fuel)%nat →
  run (uid_effect w uid) (drop (i + 4) (payload h)) = Ok w' →
  parse_loop fuel w h i = Ok w'.
Proof.
  intros Hst Hlen Huid Hfuel Hrun.
  assert (Hi : (i + 4 ≤ hvx_data_len h)%nat).
  { rewrite <- Huid, length_take, length_drop, payload_length in Hlen. lia. }
  destruct fuel as [| fuel]; [lia |].
  simpl. rewrite decide_True by lia.
  unfold parse_iter. rewrite Hst. unfold notif_uid_parse. cbn [mbind res_bind].
  rewrite (sys_get_le32_uid_value _ _ uid).
  - apply (parse_loop_run h (hvx_data_len h - (i + 4))); [done | lia | exact Hrun].
  - intros k Hk. rewrite <- Huid.
    rewrite lookup_take_lt, lookup_drop by lia.
    apply payload_lookup. lia.
Qed.

Lemma boundaries_cons (off n : nat) (lens : list nat) :
  boundaries off (n :: lens) = (off + n)%nat :: boundaries (off + n) lens.
Proof. reflexivity. Qed.

Lemma uid_records (fuel : nat) (uid body : list Z) (hs : list hvx) :
  ∀ (w w' : world),
    parse_state (parse_info (ancs_c w)) = NOTIF_UID →
    length uid = 4%nat →
    concat (map payload hs) = uid ++ body →
    uid_whole_from 1 hs = true →
    Forall (fun h => (hvx_data_len h ≤ fuel)%nat) hs →
    run (uid_effect w uid) body = Ok w' →
    on_received_ds_all fuel w hs = Ok w'.
Proof.
  induction hs as [| h hs IH]; intros w w' Hst Hlen Hcat Hwhole Hfuel Hrun.
  - simpl in Hcat. destruct uid; simplify_eq/=.
  - apply Forall_cons in Hfuel as [Hh Hfuel].
    unfold uid_whole_from in Hwhole. simpl in Hwhole.
    apply andb_prop in Hwhole as [Hb Hwhole].
    simpl in Hcat. simpl. unfold on_received_ds, ancs_parse_get_attrs_response.
    destruct (decide (hvx_data_len h = 0%nat)) as [Hz | Hnz].
    + rewrite parse_loop_end by lia. cbn [mbind res_bind].
      assert (Hp : payload h = []).
      { apply nil_length_inv. rewrite payload_length. done. }
      rewrite Hp in Hcat. simpl in Hcat.
      apply IH; try done.
      unfold uid_whole_from. rewrite Hz in Hwhole. exact Hwhole.
    + assert (Hn : (4 ≤ hvx_data_len h)%nat).
      { apply negb_true_iff, andb_false_iff in Hb as [Hb | Hb].
        - apply Nat.ltb_ge in Hb. lia.
        - apply Nat.ltb_ge in Hb. lia. }
      assert (Htake : take 4 (payload h) = uid).
      { apply (f_equal (take 4)) in Hcat.
        rewrite take_app_le in Hcat by (rewrite payload_length; lia).
        rewrite Hcat. rewrite take_app_length' by done. done. }
      assert (Hdrop : drop 4 (payload h) ++ concat (map payload hs) = body).
      { apply (f_equal (drop 4)) in Hcat.
        rewrite drop_app_le in Hcat by (rewrite payload_length; lia).
        rewrite Hcat. rewrite drop_app_length' by done. done. }
      rewrite <- Hdrop, run_app in Hrun.
      apply bind_ok in Hrun as (w1 & Hrun1 & Hrun).
      rewrite (parse_loop_uid fuel w w1 h 0 uid); try done; [| lia].
      cbn [mbind res_bind]. by apply on_received_ds_all_run.
Qed.

Lemma parse_iter_command_notif (w : world) (h : hvx) (i : nat) :
  parse_state (parse_info (ancs_c w)) = COMMAND_ID →
  p_data_src h i = BT_GATT_ANCS_COMMAND_ID_GET_NOTIF_ATTRIBUTES →
  parse_iter w h i = Ok (notif_cmd_effect w, S i).
Proof.
  intros Hst Hb. unfold parse_iter, command_id_parse. rewrite Hst, Hb. reflexivity.
Qed.

Lemma notif_header_records (fuel : nat) (uid body : list Z) (hs : list hvx) :
  ∀ (w w' : world),
    parse_state (parse_info (ancs_c w)) = COMMAND_ID →
    length uid = 4%nat →
    concat (map payload hs) = notif_response_wire uid [] ++ body →
    uid_whole hs = true →
    Forall (fun h => (hvx_data_len h ≤ fuel)%nat) hs →
    run (notif_header_effect w uid) body = Ok w' →
    on_received_ds_all fuel w hs = Ok w'.
Proof.
  unfold notif_response_wire, attrs_wire. simpl. rewrite app_nil_r.
  induction hs as [| h hs IH]; intros w w' Hst Hlen Hcat Hwhole Hfuel Hrun.
  - simpl in Hcat. done.
  - apply Forall_cons in Hfuel as [Hh Hfuel].
    unfold uid_whole, uid_whole_from in Hwhole. simpl in Hwhole.
    apply andb_prop in Hwhole as [Hb Hwhole].
    simpl in Hcat. simpl. unfold on_received_ds, ancs_parse_get_attrs_response.
    destruct (decide (hvx_data_len h = 0%nat)) as [Hz | Hnz].
    + rewrite parse_loop_end by lia. cbn [mbind res_bind].
      assert (Hp : payload h = []).
      { apply nil_length_inv. rewrite payload_length. done. }
      rewrite Hp in Hcat. simpl in Hcat.
      apply IH; try done.
      unfold uid_whole, uid_whole_from. by rewrite Hz in Hwhole.
    + assert (Hp0 : p_data_src h 0 = BT_GATT_ANCS_COMMAND_ID_GET_NOTIF_ATTRIBUTES).
      { pose proof (drop_payload h 0 ltac:(lia)) as Hd. rewrite drop_0 in Hd.
        rewrite Hd in Hcat. simpl in Hcat. by injection Hcat. }
      destruct fuel as [| fuel]; [lia |].
      cbn [parse_loop]. rewrite decide_True by lia.
      rewrite parse_iter_command_notif by done. cbn [mbind res_bind].
      destruct (decide (hvx_data_len h = 1%nat)) as [H1 | H1].
      * rewrite parse_loop_end by lia. cbn [mbind res_bind].
        assert (Hp : payload h = [BT_GATT_ANCS_COMMAND_ID_GET_NOTIF_ATTRIBUTES]).
        { pose proof (drop_payload h 0 ltac:(lia)) as Hd. rewrite drop_0 in Hd.
          rewrite Hd, Hp0.
          f_equal. apply nil_length_inv. rewrite length_drop, payload_length. lia. }
        rewrite Hp in Hcat. simpl in Hcat. injection Hcat as Hcat.
        apply (uid_records (S fuel) uid body); try done.
        rewrite H1 in Hwhole. exact Hwhole.
      * assert (Hn : (5 ≤ hvx_data_len h)%nat).
        { apply negb_true_iff, andb_false_iff in Hb as [Hb | Hb].
          - apply Nat.ltb_ge in Hb. lia.
          - apply Nat.ltb_ge in Hb. lia. }
        assert (Htake : take 5 (payload h) = 0 :: uid).
        { apply (f_equal (take 5)) in Hcat.
          rewrite take_app_le in Hcat by (rewrite payload_length; lia).
          rewrite Hcat. simpl. f_equal. by rewrite take_app_length'. }
        assert (Hdrop : drop 5 (payload h) ++ concat (map payload hs) = body).
        { apply (f_equal (drop 5)) in Hcat.
          rewrite drop_app_le in Hcat by (rewrite payload_length; lia).
          rewrite Hcat. simpl. by rewrite drop_app_length'. }
        rewrite <- Hdrop, run_app in Hrun.
        apply bind_ok in Hrun as (w1 & Hrun1 & Hrun).
        rewrite (parse_loop_uid fuel (notif_cmd_effect w) w1 h 1 uid);
          [| done | done | | lia | exact Hrun1].
        -- cbn [mbind res_bind]. apply on_received_ds_all_run; [| done].
           eapply Forall_impl; [exact Hfuel | simpl; lia].
        -- apply (f_equal (drop 1)) in Htake.
           change (drop 1 (0 :: uid)) with uid in Htake.
           rewrite <- Htake. rewrite take_drop_commute. done.
Qed.

(** ** Data Source parser: the attributes of a response *)

Section ds_world_eqs.
Context (w : world) (s : bt_gatt_ancs_c_parse_state_t) (x i : Z)
        (ea : bt_gatt_ancs_c_attr_t) (r : list (list Z)) (k : list sink_call).

Lemma dsw_set_attr f :
  set_ancs_c (set_evt (set_attr f)) (ds_world w s x i ea r k) = ds_world w s x i (f ea) r k.
Proof. reflexivity. Qed.
Lemma dsw_set_attr_c f :
  set_evt (set_attr f) (ancs_c (ds_world w s x i ea r k)) = ancs_c (ds_world w s x i (f ea) r k).
Proof. reflexivity. Qed.
Lemma dsw_set_state s' :
  set_ancs_c (set_parse_info (set_parse_state s')) (ds_world w s x i ea r k) = ds_world w s' x i ea r k.
Proof. reflexivity. Qed.
Lemma dsw_dec_expected :
  set_ancs_c (set_parse_info (λ q, set_expected_number_of_attrs (expected_number_of_attrs q - 1) q))
    (ds_world w s x i ea r k) = ds_world w s (x - 1) i ea r k.
Proof. reflexivity. Qed.
Lemma dsw_set_index v :
  set_ancs_c (set_parse_info (set_current_attr_index v)) (ds_world w s x i ea r k) = ds_world w s x v ea r k.
Proof. reflexivity. Qed.
Lemma dsw_inc_index :
  set_ancs_c (set_parse_info (λ q, set_current_attr_index (current_attr_index q + 1) q))
    (ds_world w s x i ea r k) = ds_world w s x (i + 1) ea r k.
Proof. reflexivity. Qed.
Lemma dsw_set_ram r' :
  set_ram r' (ds_world w s x i ea r k) = ds_world w s x i ea r' k.
Proof. reflexivity. Qed.
Lemma dsw_deliver :
  deliver_evt (ds_world w s x i ea r k) =
    ds_world w s x i ea r
      (k ++ [on_ds (evt (ancs_c (ds_world w s x i ea r [])))
               (match p_attr_data ea with Some a => r !! a | None => None end)]).
Proof. reflexivity. Qed.
Lemma dsw_state : parse_state (parse_info (ancs_c (ds_world w s x i ea r k))) = s.
Proof. reflexivity. Qed.
Lemma dsw_nb : nb_of_attr (parse_info (ancs_c (ds_world w s x i ea r k))) = nb_of_attr (parse_info (ancs_c w)).
Proof. reflexivity. Qed.
Lemma dsw_index : current_attr_index (parse_info (ancs_c (ds_world w s x i ea r k))) = i.
Proof. reflexivity. Qed.
Lemma dsw_expected : expected_number_of_attrs (parse_info (ancs_c (ds_world w s x i ea r k))) = x.
Proof. reflexivity. Qed.
Lemma dsw_parsed : all_req_attrs_parsed (ancs_c (ds_world w s x i ea r k)) = (x =? 0).
Proof. reflexivity. Qed.
Lemma dsw_attr : attr (evt (ancs_c (ds_world w s x i ea r k))) = ea.
Proof. reflexivity. Qed.
Lemma dsw_ram : ram (ds_world w s x i ea r k) = r.
Proof. reflexivity. Qed.
Lemma dsw_sink : sink (ds_world w s x i ea r k) = k.
Proof. reflexivity. Qed.
Lemma dsw_list : p_attr_list (parse_info (ancs_c (ds_world w s x i ea r k))) = p_attr_list (parse_info (ancs_c w)).
Proof. reflexivity. Qed.
Lemma dsw_table l : attr_list_of (ancs_c (ds_world w s x i ea r k)) l = attr_list_of (ancs_c w) l.
Proof. by destruct l. Qed.
Lemma dsw_dsw s' x' i' ea' r' k' :
  ds_world (ds_world w s x i ea r k) s' x' i' ea' r' k' = ds_world w s' x' i' ea' r' k'.
Proof. reflexivity. Qed.
End ds_world_eqs.

Lemma ds_world_id (w : world) :
  ds_world w (parse_state (parse_info (ancs_c w)))
    (expected_number_of_attrs (parse_info (ancs_c w)))
    (current_attr_index (parse_info (ancs_c w)))
    (attr (evt (ancs_c w))) (ram w) (sink w) = w.
Proof. destruct w as [[? ? ? ? ? [] []] ? ? ?]. reflexivity. Qed.


Create Rewrite HintDb dsw.
#[local] Hint Rewrite dsw_set_attr dsw_set_attr_c dsw_set_state dsw_dec_expected dsw_set_index
  dsw_inc_index dsw_set_ram dsw_deliver dsw_state dsw_nb dsw_index dsw_expected
  dsw_parsed dsw_attr dsw_ram dsw_sink dsw_list dsw_table dsw_dsw : dsw.


Lemma dsw_evt w s x i ea r k : evt (ancs_c (ds_world w s x i ea r k)) = ds_evt w ea.
Proof. reflexivity. Qed.
Lemma ds_evt_attr w ea : attr (ds_evt w ea) = ea.
Proof. reflexivity. Qed.
#[local] Hint Rewrite dsw_evt ds_evt_attr : dsw.

Lemma store_attr_data_dsw w s x i0 ea r k (a : nat) (buf : list Z) (i v : Z) :
  p_attr_data ea = Some a →
  r !! a = Some buf →
  (Z.to_nat i < length buf)%nat →
  store_attr_data (ds_world w s x i0 ea r k) i v =
    Ok (ds_world w s x i0 ea (<[a := <[Z.to_nat i := v]> buf]> r) k).
Proof.
  intros Hp Hr Hi. unfold store_attr_data. autorewrite with dsw.
  rewrite Hp, Hr. unfold store. rewrite decide_True by done.
  cbn [mbind res_bind]. autorewrite with dsw. done.
Qed.

Lemma insert_take_drop_step (data buf : list Z) (k : nat) (b : Z) :
  (k < length buf)%nat →
  (k ≤ length data)%nat →
  <[k := b]> (take k data ++ drop k buf) = (take k data ++ [b]) ++ drop (S k) buf.
Proof.
  intros Hb Hd.
  rewrite insert_app_r_alt; rewrite length_take; [| lia].
  replace (k - k `min` length data)%nat with 0%nat by lia.
  rewrite <- app_assoc. f_equal.
  destruct (drop k buf) as [| y t] eqn:E.
  - apply (f_equal length) in E. rewrite length_drop in E. simpl in E. lia.
  - simpl. f_equal.
    apply (f_equal (drop 1)) in E. rewrite drop_drop in E. simpl in E.
    rewrite drop_0 in E. rewrite <- E. f_equal. lia.
Qed.


Section attr.
Context (w : world) (l : attr_list_sel) (e : bt_gatt_ancs_c_attr_list_t)
        (id : Z) (a : nat).
Hypothesis Hlist : p_attr_list (parse_info (ancs_c w)) = Some l.
Hypothesis Hentry : attr_list_of (ancs_c w) l !! Z.to_nat id = Some e.
Hypothesis Hptr : list_p_attr_data e = Some a.
Hypothesis Hget : get e = true.

Lemma p_attr_list_at_ds_world s x i at_ r k :
  p_attr_list_at (ancs_c (ds_world w s x i at_ r k)) id = Ok e.
Proof.
  unfold p_attr_list_at. rewrite dsw_list, Hlist, dsw_table, Hentry. done.
Qed.

Lemma attr_is_requested_ds_world s x i len r k p :
  attr_is_requested (ancs_c (ds_world w s x i {| attr_len := len; attr_id := id; p_attr_data := p |} r k))
    {| attr_len := len; attr_id := id; p_attr_data := p |} = Ok true.
Proof.
  unfold attr_is_requested. cbn [attr_id]. rewrite p_attr_list_at_ds_world.
  cbn. by rewrite Hget.
Qed.

Lemma byte_step_attr_id (x i : Z) at_ r k :
  0 ≤ id →
  nb_of_attr (parse_info (ancs_c w)) = Z.of_nat (length (attr_list_of (ancs_c w) l)) →
  x ≠ 0 →
  byte_step (ds_world w ATTR_ID x i at_ r k) id =
    Ok (ds_world w ATTR_LEN1 (x - 1) i
          {| attr_len := attr_len at_; attr_id := id; p_attr_data := Some a |} r k).
Proof.
  intros Hid Hnb Hx.
  unfold byte_step, parse_iter. rewrite dsw_state.
  unfold attr_id_parse. rewrite hvx_of_single.
  autorewrite with dsw. rewrite Hnb.
  assert (Hlt : (Z.of_nat (length (attr_list_of (ancs_c w) l)) <=? id) = false).
  { apply Z.leb_gt. apply lookup_lt_Some in Hentry. lia. }
  rewrite Hlt. unfold set_attr_id at 1.
  rewrite p_attr_list_at_ds_world. cbn [mbind res_bind].
  autorewrite with dsw.
  destruct (Z.eqb_spec x 0) as [| _]; [done |].
  rewrite Hptr. unfold set_p_attr_data, set_attr_id. cbn [attr_len attr_id p_attr_data].
  rewrite attr_is_requested_ds_world. cbn [mbind res_bind].
  autorewrite with dsw. done.
Qed.

Lemma byte_step_attr_len1 (x i lo : Z) at_ r k :
  byte_step (ds_world w ATTR_LEN1 x i at_ r k) lo =
    Ok (ds_world w ATTR_LEN2 x i (set_attr_len lo at_) r k).
Proof.
  unfold byte_step, parse_iter. rewrite dsw_state.
  unfold attr_len1_parse. rewrite hvx_of_single.
  cbn [mbind res_bind decide]. autorewrite with dsw. done.
Qed.

Lemma le16_join (n : Z) :
  0 ≤ n < 65536 →
  Z.lor (n mod 256) (Z.shiftl (n / 256 mod 256) 8) mod 2 ^ 16 = n.
Proof.
  intros Hn. rewrite Z.lor_comm.
  assert (Hlo := Z.mod_pos_bound n 256 ltac:(lia)).
  assert (Hhi : 0 ≤ n / 256 < 256).
  { split; [apply Z.div_pos; lia | apply Z.div_lt_upper_bound; lia]. }
  assert (Hdm := Z.div_mod n 256 ltac:(lia)).
  rewrite lor_shiftl_add by lia.
  rewrite (Z.mod_small (n / 256)) by lia.
  rewrite Z.mod_small; lia.
Qed.

Lemma byte_step_attr_len2_data (x i len hi : Z) p r k :
  has_storage e = true →
  0 < Z.lor len (Z.shiftl hi 8) mod 2 ^ 16 →
  byte_step (ds_world w ATTR_LEN2 x i {| attr_len := len; attr_id := id; p_attr_data := p |} r k) hi =
    Ok (ds_world w ATTR_DATA x 0
          {| attr_len := Z.lor len (Z.shiftl hi 8) mod 2 ^ 16; attr_id := id; p_attr_data := p |} r k).
Proof.
  intros Hsto Hlen.
  unfold byte_step, parse_iter. rewrite dsw_state.
  unfold attr_len2_parse. rewrite hvx_of_single.
  autorewrite with dsw. unfold set_attr_len. cbn [attr_len attr_id p_attr_data].
  destruct (Z.eqb_spec (Z.lor len (Z.shiftl hi 8) mod 2 ^ 16) 0) as [E | _]; [lia |].
  cbn [negb]. rewrite p_attr_list_at_ds_world. cbn [mbind res_bind].
  unfold has_storage in Hsto. apply negb_true_iff in Hsto. rewrite Hsto.
  cbn [mbind res_bind decide]. autorewrite with dsw. done.
Qed.

Lemma byte_step_attr_len2_empty (x i len hi : Z) p r k :
  Z.lor len (Z.shiftl hi 8) mod 2 ^ 16 = 0 →
  byte_step (ds_world w ATTR_LEN2 x i {| attr_len := len; attr_id := id; p_attr_data := p |} r k) hi =
    Ok (ds_world w (if x =? 0 then DONE else ATTR_ID) x 0
          {| attr_len := 0; attr_id := id; p_attr_data := p |} r
          (k ++ [on_ds (evt (ancs_c (ds_world w DONE x 0
                         {| attr_len := 0; attr_id := id; p_attr_data := p |} r [])))
                   (match p with Some a => r !! a | None => None end)])).
Proof.
  intros Hlen.
  unfold byte_step, parse_iter. rewrite dsw_state.
  unfold attr_len2_parse. rewrite hvx_of_single.
  autorewrite with dsw. unfold set_attr_len. cbn [attr_len attr_id p_attr_data].
  rewrite Hlen. cbn [Z.eqb negb].
  rewrite attr_is_requested_ds_world. cbn [mbind res_bind].
  autorewrite with dsw. cbn [p_attr_data].
  destruct (x =? 0); cbn [mbind res_bind decide]; autorewrite with dsw; done.
Qed.

Section data.
Context (x : Z) (data buf0 : list Z) (r0 : list (list Z)) (snk : list sink_call).
Hypothesis Hr0 : r0 !! a = Some buf0.
Hypothesis Hm : 2 ≤ list_attr_len e ≤ Z.of_nat (length buf0).
Hypothesis Hsto : has_storage e = true.

Local Abbreviation len := (Z.of_nat (length data)).
Local Abbreviation ea := {| attr_len := len; attr_id := id; p_attr_data := Some a |}.
Local Abbreviation fin := (if x =? 0 then DONE else ATTR_ID).

Lemma run_attr_skip (rest : list Z) (r : list (list Z)) (n : nat) :
  ∀ k : nat,
    (length data - k = S n)%nat →
    run (ds_world w ATTR_SKIP x (Z.of_nat k) ea r snk) (drop k data ++ rest) =
      run (ds_world w fin x len ea r (snk ++ [on_ds (ds_evt w ea) (r !! a)])) rest.
Proof.
  induction n as [| n IH]; intros k Hk;
    (rewrite (drop_S data (default 0 (data !! k)) k);
     [| destruct (data !! k) eqn:E; [done | apply lookup_ge_None in E; lia]]);
    cbn [app run]; unfold byte_step at 1, parse_iter; rewrite dsw_state;
    unfold attr_skip; autorewrite with dsw; cbn [attr_len]; Zbool;
    autorewrite with dsw; cbn [attr_len]; Zbool.
  - rewrite attr_is_requested_ds_world. cbn [mbind res_bind].
    autorewrite with dsw. cbn [p_attr_data].
    replace (Z.of_nat k + 1) with (Z.of_nat (length data)) by lia.
    rewrite drop_ge by lia.
    destruct (x =? 0); cbn [mbind res_bind decide]; autorewrite with dsw; done.
  - cbn [mbind res_bind decide]. autorewrite with dsw.
    replace (Z.of_nat k + 1) with (Z.of_nat (S k)) by lia.
    apply IH. lia.
Qed.

Lemma kept_pos : data ≠ [] → (0 < kept (list_attr_len e) data)%nat.
Proof. intros Hd. unfold kept. destruct data; [done |]. cbn [length]. lia. Qed.

Lemma run_attr_data (rest : list Z) (n : nat) :
  ∀ k : nat,
    (kept (list_attr_len e) data - k = S n)%nat →
    run (ds_world w ATTR_DATA x (Z.of_nat k) ea
           (<[a := take k data ++ drop k buf0]> r0) snk)
        (drop k data ++ rest) =
      run (ds_world w fin x len ea (<[a := stored (list_attr_len e) data buf0]> r0)
             (snk ++ [on_ds (ds_evt w ea) (Some (stored (list_attr_len e) data buf0))]))
          rest.
Proof.
  assert (Ha : (a < length r0)%nat) by (by eapply lookup_lt_Some).
  unfold kept.
  induction n as [| n IH]; intros k Hk;
    (rewrite (drop_S data (default 0 (data !! k)) k);
     [| destruct (data !! k) eqn:E; [done | apply lookup_ge_None in E; lia]]);
    cbn [app run]; unfold byte_step at 1, parse_iter; rewrite dsw_state;
    unfold attr_data_parse; autorewrite with dsw; cbn [attr_len attr_id];
    rewrite p_attr_list_at_ds_world; cbn [mbind res_bind]; Zbool;
    rewrite hvx_of_single;
    (rewrite (store_attr_data_dsw _ _ _ _ _ _ _ a (take k data ++ drop k buf0));
     [| done | by rewrite list_lookup_insert_eq
        | rewrite length_app, length_take, length_drop; lia]);
    cbn [mbind res_bind]; autorewrite with dsw; cbn [attr_len attr_id];
    rewrite p_attr_list_at_ds_world; cbn [mbind res_bind];
    rewrite list_insert_insert_eq, Nat2Z.id;
    (rewrite insert_take_drop_step by lia);
    (rewrite <- take_S_r
       by (destruct (data !! k) eqn:E; [done | apply lookup_ge_None in E; lia])).
  - (* the last byte kept: terminate, then skip or report *)
    Zbool.
    rewrite attr_is_requested_ds_world. cbn [mbind res_bind].
    rewrite (store_attr_data_dsw _ _ _ _ _ _ _ a (take (S k) data ++ drop (S k) buf0));
      [| done | by rewrite list_lookup_insert_eq
       | rewrite length_app, length_take, length_drop; lia].
    cbn [mbind res_bind]. autorewrite with dsw. cbn [attr_len attr_id].
    rewrite list_insert_insert_eq.
    replace (Z.to_nat (Z.of_nat k + 1)) with (S k) by lia.
    rewrite insert_take_drop_step by lia.
    assert (Hsto' : stored (list_attr_len e) data buf0
                    = (take (S k) data ++ [0]) ++ drop (S (S k)) buf0).
    { unfold stored, kept. destruct data as [| d0 dt] eqn:Ed; [simpl in Hk; lia |].
      rewrite <- Ed in *.
      replace (length data `min` Z.to_nat (list_attr_len e - 1))%nat with (S k) by lia.
      by rewrite <- app_assoc. }
    rewrite <- Hsto'.
    destruct (decide (S k < length data)%nat) as [Hlt | Hge].
    + Zbool. cbn [mbind res_bind decide]. autorewrite with dsw.
      replace (Z.of_nat k + 1) with (Z.of_nat (S k)) by lia.
      rewrite decide_True by done. cbn [mbind res_bind].
      rewrite (run_attr_skip rest _ (length data - S k - 1)) by lia.
      rewrite list_lookup_insert_eq by done. done.
    + Zbool. rewrite attr_is_requested_ds_world. cbn [mbind res_bind].
      autorewrite with dsw. cbn [p_attr_data].
      rewrite list_lookup_insert_eq by done.
      replace (Z.of_nat k + 1) with (Z.of_nat (length data)) by lia.
      rewrite drop_ge by lia.
      destruct (x =? 0); cbn [mbind res_bind decide]; autorewrite with dsw; done.
  - (* more bytes to keep *)
    Zbool. cbn [mbind res_bind decide]. autorewrite with dsw.
    rewrite decide_True by done. cbn [mbind res_bind].
    replace (Z.of_nat k + 1) with (Z.of_nat (S k)) by lia.
    apply IH. lia.
Qed.
End data.
End attr.

Lemma entry_ok_storage (r : list (list Z)) (e : bt_gatt_ancs_c_attr_list_t) :
  entry_ok r e = true → get e = true →
  has_storage e = true
  ∧ ∃ a buf, list_p_attr_data e = Some a ∧ r !! a = Some buf
             ∧ 2 ≤ list_attr_len e ≤ Z.of_nat (length buf).
Proof.
  unfold entry_ok. intros Hok Hget.
  destruct (has_storage e); [| rewrite Hget in Hok; done].
  split; [done |].
  destruct (list_p_attr_data e) as [a |]; [| done].
  destruct (r !! a) as [buf |] eqn:Hr; [| done].
  apply andb_prop in Hok as [H1 H2]. apply Z.leb_le in H1, H2.
  exists a, buf. repeat split; done.
Qed.

Lemma entry_ok_insert (r : list (list Z)) (a : nat) (buf buf' : list Z)
    (e : bt_gatt_ancs_c_attr_list_t) :
  r !! a = Some buf → length buf' = length buf →
  entry_ok (<[a := buf']> r) e = entry_ok r e.
Proof.
  intros Hr Hlen. unfold entry_ok.
  destruct (has_storage e); [| done].
  destruct (list_p_attr_data e) as [a' |]; [| done].
  destruct (decide (a' = a)) as [-> | Hne].
  - rewrite list_lookup_insert_eq by (by eapply lookup_lt_Some).
    rewrite Hr, Hlen. done.
  - by rewrite list_lookup_insert_ne.
Qed.

Lemma tables_ok_entry (w : world) (l : attr_list_sel) (i : nat)
    (e : bt_gatt_ancs_c_attr_list_t) :
  tables_ok w = true → attr_list_of (ancs_c w) l !! i = Some e →
  entry_ok (ram w) e = true.
Proof.
  unfold tables_ok. intros Hok He.
  apply andb_prop in Hok as [Hok _]. apply andb_prop in Hok as [Hok _].
  apply andb_prop in Hok as [Hn Ha].
  rewrite forallb_forall in Hn, Ha.
  destruct l; simpl in He; [apply Hn | apply Ha];
    apply list_elem_of_In, list_elem_of_lookup; eauto.
Qed.

Lemma tables_ok_length (w : world) (l : attr_list_sel) :
  tables_ok w = true →
  Z.of_nat (length (attr_list_of (ancs_c w) l))
  = match l with
    | NotifList => BT_GATT_ANCS_NB_OF_NOTIF_ATTR
    | AppList => BT_GATT_ANCS_NB_OF_APP_ATTR
    end.
Proof.
  unfold tables_ok. intros Hok.
  apply andb_prop in Hok as [Hok Hb]. apply andb_prop in Hok as [_ Ha].
  apply bool_decide_eq_true in Ha, Hb.
  destruct l; simpl; [rewrite Ha | rewrite Hb]; done.
Qed.

Lemma forallb_entry_ok_insert (r : list (list Z)) (a : nat) (buf buf' : list Z)
    (l : list bt_gatt_ancs_c_attr_list_t) :
  r !! a = Some buf → length buf' = length buf →
  forallb (entry_ok (<[a := buf']> r)) l = forallb (entry_ok r) l.
Proof.
  intros Hr Hlen. induction l as [| e l IH]; [done |].
  simpl. by rewrite IH, (entry_ok_insert r a buf buf').
Qed.

Lemma tables_ok_ds_world (w : world) s x i ea k (a : nat) (buf buf' : list Z) :
  tables_ok w = true → ram w !! a = Some buf → length buf' = length buf →
  tables_ok (ds_world w s x i ea (<[a := buf']> (ram w)) k) = true.
Proof.
  intros Hok Hr Hlen. unfold tables_ok in *.
  cbn [ds_world ancs_c ram ancs_notif_attr_list ancs_app_attr_list].
  by rewrite !(forallb_entry_ok_insert (ram w) a buf buf').
Qed.

Lemma stored_length (m : Z) (data buf : list Z) :
  2 ≤ m ≤ Z.of_nat (length buf) → length (stored m data buf) = length buf.
Proof.
  intros Hm. unfold stored, kept. destruct data as [| d t]; [done |].
  rewrite length_app, length_take. cbn [length]. rewrite length_drop. lia.
Qed.

Lemma attrs_wire_cons (x : Z * list Z) (attrs : list (Z * list Z)) :
  attrs_wire (x :: attrs) = attr_wire x ++ attrs_wire attrs.
Proof. reflexivity. Qed.

(** One attribute of a well-formed response, byte by byte. *)
Lemma run_attr (w : world) (l : attr_list_sel) (x : Z * list Z) (rest : list Z) :
  parse_state (parse_info (ancs_c w)) = ATTR_ID →
  p_attr_list (parse_info (ancs_c w)) = Some l →
  nb_of_attr (parse_info (ancs_c w)) = Z.of_nat (length (attr_list_of (ancs_c w) l)) →
  expected_number_of_attrs (parse_info (ancs_c w)) ≠ 0 →
  tables_ok w = true →
  attr_requested (ancs_c w) l x = true →
  run w (attr_wire x ++ rest) = run (attr_effect l w x) rest.
Proof.
  intros Hst Hlist Hnb Hexp Hok Hreq.
  destruct x as [id data]. unfold attr_requested in Hreq. cbn [fst snd] in Hreq.
  apply andb_prop in Hreq as [Hreq Hlen]. apply andb_prop in Hreq as [Hid Hget].
  apply Z.leb_le in Hid. apply Z.ltb_lt in Hlen.
  destruct (attr_list_of (ancs_c w) l !! Z.to_nat id) as [e |] eqn:He; [| done].
  pose proof (tables_ok_entry w l _ e Hok He) as Hentry.
  destruct (entry_ok_storage _ _ Hentry Hget) as (Hsto & a & buf & Hptr & Hbuf & Hm).
  unfold attr_effect. cbn [fst snd]. rewrite He, Hptr, Hbuf. cbv zeta.
  rewrite <- (ds_world_id w) at 1. rewrite Hst.
  unfold attr_wire, le16. cbn [fst snd app run].
  rewrite (byte_step_attr_id w l e id a) by done. cbn [mbind res_bind].
  rewrite byte_step_attr_len1. cbn [mbind res_bind].
  unfold set_attr_len. cbn [attr_id p_attr_data].
  destruct data as [| d t] eqn:Ed.
  - rewrite (byte_step_attr_len2_empty w l e id) by done.
    cbn [mbind res_bind]. autorewrite with dsw.
    cbn [length stored Z.of_nat app]. rewrite list_insert_id by done.
    rewrite Hbuf. done.
  - rewrite <- Ed in *.
    assert (Hpos : 0 < Z.of_nat (length data)) by (rewrite Ed; cbn [length]; lia).
    rewrite (byte_step_attr_len2_data w l e id) by (rewrite ?le16_join; done || lia).
    cbn [mbind res_bind]. rewrite le16_join by lia.
    pose proof (run_attr_data w l e id a Hlist He Hget
                  (expected_number_of_attrs (parse_info (ancs_c w)) - 1)
                  data buf (ram w) (sink w) Hbuf Hm rest
                  (kept (list_attr_len e) data - 1) 0%nat) as Hrun.
    rewrite take_0, !drop_0, app_nil_l in Hrun.
    change (Z.of_nat 0) with 0 in Hrun.
    rewrite (list_insert_id (ram w)) in Hrun by done.
    rewrite Hrun; [done |].
    assert (0 < kept (list_attr_len e) data)%nat; [| lia].
    unfold kept. rewrite Ed. cbn [length]. lia.
Qed.


Lemma attr_effect_eq (l : attr_list_sel) (w : world) (x : Z * list Z) :
  tables_ok w = true →
  attr_requested (ancs_c w) l x = true →
  ∃ e a buf,
    attr_list_of (ancs_c w) l !! Z.to_nat x.1 = Some e
    ∧ ram w !! a = Some buf
    ∧ 2 ≤ list_attr_len e ≤ Z.of_nat (length buf)
    ∧ attr_effect l w x =
        let ea := {| attr_len := Z.of_nat (length x.2); attr_id := x.1;
                     p_attr_data := Some a |} in
        let x' := expected_number_of_attrs (parse_info (ancs_c w)) - 1 in
        ds_world w (if x' =? 0 then DONE else ATTR_ID) x'
          (Z.of_nat (length x.2)) ea
          (<[a := stored (list_attr_len e) x.2 buf]> (ram w))
          (sink w ++ [on_ds (ds_evt w ea) (Some (stored (list_attr_len e) x.2 buf))]).
Proof.
  intros Hok Hreq. unfold attr_requested in Hreq.
  apply andb_prop in Hreq as [Hreq Hlen]. apply andb_prop in Hreq as [Hid Hget].
  destruct (attr_list_of (ancs_c w) l !! Z.to_nat x.1) as [e |] eqn:He; [| done].
  pose proof (tables_ok_entry w l _ e Hok He) as Hentry.
  destruct (entry_ok_storage _ _ Hentry Hget) as (Hsto & a & buf & Hptr & Hbuf & Hm).
  exists e, a, buf. repeat split; try done; try lia.
  unfold attr_effect. rewrite He, Hptr, Hbuf. reflexivity.
Qed.

Lemma attr_requested_ds_world (w : world) s x i ea r k l y :
  attr_requested (ancs_c (ds_world w s x i ea r k)) l y = attr_requested (ancs_c w) l y.
Proof. unfold attr_requested. by rewrite dsw_table. Qed.

Lemma forallb_requested_ds_world (w : world) s x i ea r k l (ys : list (Z * list Z)) :
  forallb (attr_requested (ancs_c (ds_world w s x i ea r k)) l) ys
  = forallb (attr_requested (ancs_c w) l) ys.
Proof.
  induction ys as [| y ys IH]; [done |].
  cbn [forallb]. by rewrite IH, attr_requested_ds_world.
Qed.

Lemma attr_phase_step (l : attr_list_sel) (w : world) (x : Z * list Z)
    (attrs : list (Z * list Z)) :
  attr_phase l w (x :: attrs) → attr_phase l (attr_effect l w x) attrs.
Proof.
  intros [Hlist Hnb Hexp Hst Hok Hreq].
  cbn [forallb] in Hreq. apply andb_prop in Hreq as [Hx Hreq].
  destruct (attr_effect_eq l w x Hok Hx) as (e & a & buf & He & Hbuf & Hm & ->).
  cbv zeta. split.
  - by rewrite dsw_list.
  - by rewrite dsw_nb, dsw_table.
  - rewrite dsw_expected, Hexp. cbn [length]. lia.
  - intros Hne. rewrite dsw_state.
    destruct (Z.eqb_spec (expected_number_of_attrs (parse_info (ancs_c w)) - 1) 0) as [E | _];
      [| done].
    rewrite Hexp in E. destruct attrs; [done |]. cbn [length] in E. lia.
  - apply (tables_ok_ds_world w _ _ _ _ _ a buf); [done | done |].
    by apply stored_length.
  - by rewrite forallb_requested_ds_world.
Qed.

Lemma run_attrs (l : attr_list_sel) (attrs : list (Z * list Z)) :
  ∀ w, attr_phase l w attrs →
       run w (attrs_wire attrs) = Ok (foldl (attr_effect l) w attrs).
Proof.
  induction attrs as [| x attrs IH]; intros w Hph; [done |].
  rewrite attrs_wire_cons. cbn [foldl].
  destruct Hph as [Hlist Hnb Hexp Hst Hok Hreq].
  cbn [forallb] in Hreq. apply andb_prop in Hreq as [Hx Hreq].
  rewrite (run_attr w l); try done.
  - apply IH. apply attr_phase_step. split; try done.
    cbn [forallb]. by rewrite Hx, Hreq.
  - by apply Hst.
  - rewrite Hexp. cbn [length]. lia.
Qed.

Lemma carries_tables (c c' : bt_gatt_ancs_c) (l : attr_list_sel)
    (x : Z * list Z) (ev : sink_call) :
  attr_list_of c' l = attr_list_of c l → carries c l x ev → carries c' l x ev.
Proof. unfold carries. by intros ->. Qed.

Lemma stored_carries (m : Z) (data buf : list Z) :
  2 ≤ m ≤ Z.of_nat (length buf) →
  take (kept m data) (stored m data buf) = take (kept m data) data
  ∧ (data ≠ [] → stored m data buf !! kept m data = Some 0).
Proof.
  intros Hm. unfold stored. destruct data as [| d t] eqn:Ed.
  - split; [| done]. unfold kept. simpl. by rewrite !take_0.
  - rewrite <- Ed.
    assert (Hk : length (take (kept m data) data) = kept m data).
    { rewrite length_take. unfold kept. lia. }
    split.
    + by rewrite take_app_length'.
    + intros _. rewrite lookup_app_r by lia. rewrite Hk, Nat.sub_diag. done.
Qed.

Lemma attrs_carried (l : attr_list_sel) (attrs : list (Z * list Z)) :
  ∀ w, attr_phase l w attrs →
       ∃ evs, sink (foldl (attr_effect l) w attrs) = sink w ++ evs
              ∧ Forall2 (carries (ancs_c w) l) attrs evs.
Proof.
  induction attrs as [| x attrs IH]; intros w Hph.
  - exists []. split; [by rewrite app_nil_r | constructor].
  - pose proof (attr_phase_step _ _ _ _ Hph) as Hph'.
    destruct (IH _ Hph') as (evs & Hsink & Hall).
    destruct Hph as [Hlist Hnb Hexp Hst Hok Hreq].
    cbn [forallb] in Hreq. apply andb_prop in Hreq as [Hx Hreq].
    destruct (attr_effect_eq l w x Hok Hx) as (e & a & buf & He & Hbuf & Hm & Heff).
    cbn [foldl]. rewrite Hsink. rewrite Heff in Hall |- *. cbv zeta in *.
    rewrite dsw_sink. eexists (_ :: evs). split; [by rewrite <- app_assoc |].
    constructor.
    + unfold carries. rewrite He. cbn.
      destruct (stored_carries (list_attr_len e) x.2 buf Hm) as [H1 H2]. done.
    + eapply Forall2_impl; [exact Hall |]. intros y ev.
      apply carries_tables. by rewrite dsw_table.
Qed.

Lemma notif_header_phase (w : world) (uid : list Z) (attrs : list (Z * list Z)) :
  tables_ok w = true →
  expected_number_of_attrs (parse_info (ancs_c w)) = Z.of_nat (length attrs) →
  forallb (attr_requested (ancs_c w) NotifList) attrs = true →
  attr_phase NotifList (notif_header_effect w uid) attrs.
Proof.
  intros Hok Hexp Hreq. split; try done.
  symmetry. exact (tables_ok_length w NotifList Hok).
Qed.


(** A well-formed response to "get notification attributes" may be cut
    anywhere except inside the four bytes of the UID. *)
Lemma ds_notif_response_any_partition (fuel : nat) (w : world) (uid : list Z)
    (attrs : list (Z * list Z)) (hs : list hvx) :
  tables_ok w = true →
  parse_state (parse_info (ancs_c w)) = COMMAND_ID →
  expected_number_of_attrs (parse_info (ancs_c w)) = Z.of_nat (length attrs) →
  forallb (attr_requested (ancs_c w) NotifList) attrs = true →
  length uid = 4%nat →
  concat (map payload hs) = notif_response_wire uid attrs →
  uid_whole hs = true →
  forallb (fun h => (hvx_data_len h <=? fuel)%nat) hs = true →
  on_received_ds_all fuel w hs = Ok (notif_response_effect w uid attrs)
  ∧ ∃ evs, sink (notif_response_effect w uid attrs) = sink w ++ evs
           ∧ Forall2 (carries (ancs_c w) NotifList) attrs evs.
Proof.
  intros Hok Hst Hexp Hreq Hlen Hcat Hwhole Hfuel.
  pose proof (notif_header_phase w uid attrs Hok Hexp Hreq) as Hph.
  split.
  - apply (notif_header_records fuel uid (attrs_wire attrs)); try done.
    + rewrite Hcat. unfold notif_response_wire. cbn [attrs_wire map concat app].
      by rewrite app_nil_r.
    + apply Forall_forall. intros h Hh.
      rewrite forallb_forall in Hfuel. apply Nat.leb_le, Hfuel.
      by apply list_elem_of_In.
    + by apply run_attrs.
  - destruct (attrs_carried NotifList attrs _ Hph) as (evs & Hsink & Hall).
    exists evs. split; [exact Hsink |].
    eapply Forall2_impl; [exact Hall |]. intros y ev. by apply carries_tables.
Qed.

Lemma byte_step_command_app (w : world) :
  parse_state (parse_info (ancs_c w)) = COMMAND_ID →
  byte_step w BT_GATT_ANCS_COMMAND_ID_GET_APP_ATTRIBUTES = Ok (app_cmd_effect w).
Proof.
  intros Hst. unfold byte_step, parse_iter, command_id_parse. rewrite Hst. reflexivity.
Qed.

Lemma app_id_world_id (w : world) :
  app_id_world w (parse_state (parse_info (ancs_c w)))
    (current_app_id_index (parse_info (ancs_c w))) (app_id (evt (ancs_c w))) = w.
Proof. destruct w as [[? ? ? ? ? [] []] ? ? ?]. reflexivity. Qed.

Lemma byte_step_app_id (w : world) (k : Z) (buf : list Z) (b : Z) :
  b ≠ 0 → (Z.to_nat k < length buf)%nat →
  byte_step (app_id_world w APP_ID k buf) b
  = Ok (app_id_world w APP_ID (k + 1) (poke buf (Z.to_nat k) [b])).
Proof.
  intros Hb Hk. unfold byte_step, parse_iter, app_id_parse.
  cbn [app_id_world set_ancs_c ancs_c set_parse_info parse_info set_parse_state
       parse_state set_current_app_id_index current_app_id_index set_evt evt
       set_app_id app_id].
  rewrite hvx_of_single, store_poke by done. cbn [mbind res_bind].
  rewrite (proj2 (Z.eqb_neq b 0)) by done. reflexivity.
Qed.

Lemma byte_step_app_id_end (w : world) (k : Z) (buf : list Z) :
  (Z.to_nat k < length buf)%nat →
  byte_step (app_id_world w APP_ID k buf) 0
  = Ok (app_id_world w ATTR_ID k (poke buf (Z.to_nat k) [0])).
Proof.
  intros Hk. unfold byte_step, parse_iter, app_id_parse.
  cbn [app_id_world set_ancs_c ancs_c set_parse_info parse_info set_parse_state
       parse_state set_current_app_id_index current_app_id_index set_evt evt
       set_app_id app_id].
  rewrite hvx_of_single, store_poke by done. reflexivity.
Qed.

(** The bytes of an app identifier and its terminator, one at a time. *)
Lemma run_app_id (w : world) (app rest : list Z) :
  ∀ (k : Z) (buf : list Z),
    Forall (λ b, b ≠ 0) app → 0 ≤ k →
    (Z.to_nat k + length app < length buf)%nat →
    run (app_id_world w APP_ID k buf) (app ++ 0 :: rest)
    = run (app_id_world w ATTR_ID (k + Z.of_nat (length app))
             (poke buf (Z.to_nat k) (app ++ [0]))) rest.
Proof.
  induction app as [| b app IH]; intros k buf Hnz Hk Hfit.
  - cbn [Datatypes.app run length]. rewrite byte_step_app_id_end by (simpl in Hfit; lia).
    cbn [mbind res_bind]. by rewrite Z.add_0_r.
  - apply Forall_cons in Hnz as [Hb Hnz]. cbn [length] in Hfit.
    cbn [Datatypes.app run]. rewrite byte_step_app_id; [| exact Hb | lia].
    cbn [mbind res_bind].
    rewrite IH; [| done | lia | rewrite poke_length; simpl; lia].
    replace (Z.to_nat (k + 1)) with (Z.to_nat k + length [b])%nat by (simpl; lia).
    rewrite poke_poke by (simpl; lia).
    replace (k + 1 + Z.of_nat (length app)) with (k + Z.of_nat (length (b :: app)))
      by (cbn [length]; lia).
    reflexivity.
Qed.

Lemma run_app_header (w : world) (app rest : list Z) :
  parse_state (parse_info (ancs_c w)) = COMMAND_ID →
  Forall (λ b, b ≠ 0) app →
  0 ≤ current_app_id_index (parse_info (ancs_c w)) →
  (Z.to_nat (current_app_id_index (parse_info (ancs_c w))) + length app
   < length (app_id (evt (ancs_c w))))%nat →
  run w (app_response_wire app [] ++ rest) = run (app_header_effect w app) rest.
Proof.
  intros Hst Hnz Hk Hfit. unfold app_response_wire, attrs_wire.
  cbn [map concat Datatypes.app run]. rewrite byte_step_command_app by done.
  cbn [mbind res_bind]. rewrite <- (app_id_world_id (app_cmd_effect w)) at 1.
  rewrite <- app_assoc. cbn [Datatypes.app].
  rewrite run_app_id; [| done | done | done].
  reflexivity.
Qed.

Lemma app_header_phase (w : world) (app : list Z) (attrs : list (Z * list Z)) :
  tables_ok w = true →
  expected_number_of_attrs (parse_info (ancs_c w)) = Z.of_nat (length attrs) →
  forallb (attr_requested (ancs_c w) AppList) attrs = true →
  attr_phase AppList (app_header_effect w app) attrs.
Proof.
  intros Hok Hexp Hreq. split; try done.
  symmetry. exact (tables_ok_length w AppList Hok).
Qed.

(** A well-formed response to "get app attributes" may be cut anywhere. *)
Lemma ds_app_response_any_partition (fuel : nat) (w : world) (app : list Z)
    (attrs : list (Z * list Z)) (hs : list hvx) :
  tables_ok w = true →
  parse_state (parse_info (ancs_c w)) = COMMAND_ID →
  expected_number_of_attrs (parse_info (ancs_c w)) = Z.of_nat (length attrs) →
  forallb (attr_requested (ancs_c w) AppList) attrs = true →
  Forall (λ b, b ≠ 0) app →
  0 ≤ current_app_id_index (parse_info (ancs_c w)) →
  (Z.to_nat (current_app_id_index (parse_info (ancs_c w))) + length app
   < length (app_id (evt (ancs_c w))))%nat →
  concat (map payload hs) = app_response_wire app attrs →
  forallb (fun h => (hvx_data_len h <=? fuel)%nat) hs = true →
  on_received_ds_all fuel w hs = Ok (app_response_effect w app attrs)
  ∧ ∃ evs, sink (app_response_effect w app attrs) = sink w ++ evs
           ∧ Forall2 (carries (ancs_c w) AppList) attrs evs.
Proof.
  intros Hok Hst Hexp Hreq Hnz Hk Hfit Hcat Hfuel.
  pose proof (app_header_phase w app attrs Hok Hexp Hreq) as Hph.
  split.
  - apply on_received_ds_all_run.
    + apply Forall_forall. intros h Hh.
      rewrite forallb_forall in Hfuel. apply Nat.leb_le, Hfuel.
      by apply list_elem_of_In.
    + rewrite Hcat.
      replace (app_response_wire app attrs)
        with (app_response_wire app [] ++ attrs_wire attrs).
      * rewrite run_app_header by done. by apply run_attrs.
      * unfold app_response_wire. cbn [attrs_wire map concat Datatypes.app].
        by rewrite <- app_assoc.
  - destruct (attrs_carried AppList attrs _ Hph) as (evs & Hsink & Hall).
    exists evs. split; [exact Hsink |].
    eapply Forall2_impl; [exact Hall |]. intros y ev. by apply carries_tables.
Qed.

(** C1, as the code has it: a well-formed response that enumerates
    requested attributes, as many as the parser expects, each registered
    with a length of at least 2 and a buffer that long, may be cut into
    notifications anywhere, except inside the four bytes of the UID of a
    response to "get notification attributes"; however it is cut, the
    parser ends in the same world, and it calls the handler once per
    attribute, in order, each call with the attribute's id, its length on
    the wire and a buffer that starts with the first
    min (length, max_len - 1) bytes of its data. *)
Theorem ds_response_any_partition (fuel : nat) (w : world) (r : response)
    (hs : list hvx) :
  tables_ok w = true →
  parse_state (parse_info (ancs_c w)) = COMMAND_ID →
  expected_number_of_attrs (parse_info (ancs_c w))
  = Z.of_nat (length (response_attrs r)) →
  forallb (attr_requested (ancs_c w) (response_list r)) (response_attrs r) = true →
  header_ok w r = true →
  concat (map payload hs) = response_wire r →
  cut_ok r hs = true →
  forallb (fun h => (hvx_data_len h <=? fuel)%nat) hs = true →
  on_received_ds_all fuel w hs = Ok (response_effect w r)
  ∧ ∃ evs, sink (response_effect w r) = sink w ++ evs
           ∧ Forall2 (carries (ancs_c w) (response_list r)) (response_attrs r) evs.
Proof.
  intros Hok Hst Hexp Hreq Hhdr Hcat Hcut Hfuel.
  destruct r as [uid attrs | app attrs]; cbn in *.
  - apply bool_decide_eq_true in Hhdr.
    by apply ds_notif_response_any_partition.
  - apply andb_prop in Hhdr as [Hhdr Hfit]. apply andb_prop in Hhdr as [Hnz Hk].
    apply Z.leb_le in Hk. apply Nat.ltb_lt in Hfit.
    apply ds_app_response_any_partition; try done.
    apply Forall_forall. intros b Hb. rewrite forallb_forall in Hnz.
    specialize (Hnz b (proj1 (list_elem_of_In _ _) Hb)).
    apply negb_true_iff, Z.eqb_neq in Hnz. done.
Qed.

Lemma ds_response_any_partition_witness :
  on_received_ds_all 16 sample_title_message_appid
    [hvx_of [0; 1; 2; 3; 4; 1; 3; 0; 110; 82; 70; 3; 2; 0; 53; 50];
     hvx_of [0; 3; 0; 99; 111; 109]]
  = Ok (response_effect sample_title_message_appid
          (NotifResponse [1; 2; 3; 4] sample_response))
  ∧ ∃ evs, sink (response_effect sample_title_message_appid
                   (NotifResponse [1; 2; 3; 4] sample_response))
           = sink sample_title_message_appid ++ evs
           ∧ Forall2 (carries (ancs_c sample_title_message_appid) NotifList)
               sample_response evs.
Proof.
  apply (ds_response_any_partition 16 sample_title_message_appid
           (NotifResponse [1; 2; 3; 4] sample_response)); reflexivity.
Defined.

(** The response for "com.apple.mobilemail" with its one attribute, cut
    inside the app identifier and inside the length of the attribute. *)
Lemma ds_app_response_instance :
  let w := mail_requested (sample_world 32 [] 0) in
  let r := AppResponse mail_app_id [(0, [77; 97; 105; 108])] in
  on_received_ds_all 16 w
    [hvx_of [1; 99; 111; 109; 46; 97; 112; 112; 108; 101];
     hvx_of [46; 109; 111; 98; 105; 108; 101; 109; 97; 105; 108; 0; 0; 4];
     hvx_of [0; 77; 97; 105; 108]]
  = Ok (response_effect w r)
  ∧ ∃ evs, sink (response_effect w r) = sink w ++ evs
           ∧ Forall2 (carries (ancs_c w) AppList) [(0, [77; 97; 105; 108])] evs.
Proof.
  cbv zeta.
  apply (ds_app_response_any_partition 16 (mail_requested (sample_world 32 [] 0))
           mail_app_id [(0, [77; 97; 105; 108])]);
    [reflexivity | reflexivity | reflexivity | reflexivity | | done
    | vm_compute; lia | reflexivity | reflexivity].
  unfold mail_app_id. repeat (apply Forall_cons_2; [done |]). apply Forall_nil_2.
Qed.

(** C1 as stated fails: the response of the sample scenario delivered as
    00 01 02 | 03 04 01 03 00 ... (cut inside the UID) produces no attribute
    event at all, whereas delivered whole it produces three. *)
Lemma ds_response_split_inside_uid :
  let whole := [0; 1; 2; 3; 4; 1; 3; 0; 110; 82; 70; 3; 2; 0; 53; 50; 0; 3; 0; 99; 111; 109] in
  let split := [hvx_of [0; 1; 2];
                hvx_of [3; 4; 1; 3; 0; 110; 82; 70; 3; 2; 0; 53; 50; 0; 3; 0; 99; 111; 109]] in
  concat (map payload split) = whole
  ∧ whole = notif_response_wire [1; 2; 3; 4] sample_response
  ∧ ∃ w1 w2,
      on_received_ds_all 32 sample_title_message_appid [hvx_of whole] = Ok w1
      ∧ on_received_ds_all 32 sample_title_message_appid split = Ok w2
      ∧ length (sink w1) = 4%nat
      ∧ length (sink w2) = 1%nat.
Proof.
  cbv zeta. split; [reflexivity |]. split; [reflexivity |].
  exists (received (on_received_ds_all 32 sample_title_message_appid
                      [hvx_of [0; 1; 2; 3; 4; 1; 3; 0; 110; 82; 70; 3; 2; 0; 53; 50;
                               0; 3; 0; 99; 111; 109]]) sample_title_message_appid).
  exists (received (on_received_ds_all 32 sample_title_message_appid
                      [hvx_of [0; 1; 2];
                       hvx_of [3; 4; 1; 3; 0; 110; 82; 70; 3; 2; 0; 53; 50; 0; 3; 0;
                               99; 111; 109]]) sample_title_message_appid).
  vm_compute. repeat split; reflexivity.
Qed.

(** ** Data Source parser: what every handler call finds in the buffer *)

Lemma no_events (w w' : world) :
  sink w' = sink w →
  ∃ evs, sink w' = sink w ++ evs ∧ Forall (evt_terminated (ancs_c w)) evs.
Proof. intros ->. exists []. split; [by rewrite app_nil_r | constructor]. Qed.

Lemma tables_ok_same (w w' : world) :
  ram w' = ram w →
  ancs_notif_attr_list (ancs_c w') = ancs_notif_attr_list (ancs_c w) →
  ancs_app_attr_list (ancs_c w') = ancs_app_attr_list (ancs_c w) →
  tables_ok w' = tables_ok w.
Proof. unfold tables_ok. by intros -> -> ->. Qed.

(** Splits [iter_post] of an iteration that calls no handler and leaves
    the buffers alone; what remains is the invariant of the new state. *)
Ltac quiet_step Hok :=
  cbn [mbind res_bind iter_post];
  split; [lia |];
  split; [| split; [done | split; [done | by apply no_events]]];
  split; [erewrite (tables_ok_same _); [exact Hok | done ..] |].

Lemma iter_post_command_id (w : world) (h : hvx) (i : nat) :
  parser_inv w →
  parse_state (parse_info (ancs_c w)) = COMMAND_ID →
  iter_post w i (parse_iter w h i).
Proof.
  intros [Hok _] Hst. unfold parse_iter. rewrite Hst. unfold command_id_parse.
  repeat case_match; quiet_step Hok; cbn; try done.
  - exists NotifList. repeat split. symmetry. apply (tables_ok_length w NotifList Hok).
  - exists AppList. repeat split. symmetry. apply (tables_ok_length w AppList Hok).
Qed.

Lemma iter_post_notif_uid (w : world) (h : hvx) (i : nat) :
  parser_inv w →
  parse_state (parse_info (ancs_c w)) = NOTIF_UID →
  iter_post w i (parse_iter w h i).
Proof.
  intros [Hok Hinv] Hst. unfold parse_iter. rewrite Hst. unfold notif_uid_parse.
  rewrite Hst in Hinv. quiet_step Hok. cbn. exact Hinv.
Qed.

Lemma iter_post_app_id (w : world) (h : hvx) (i : nat) :
  parser_inv w →
  parse_state (parse_info (ancs_c w)) = APP_ID →
  iter_post w i (parse_iter w h i).
Proof.
  intros [Hok Hinv] Hst. unfold parse_iter. rewrite Hst. unfold app_id_parse.
  rewrite Hst in Hinv.
  destruct (store _ _ _) as [a | t |] eqn:Hs; cbn [mbind res_bind iter_post]; [| done | ].
  - destruct (negb _); quiet_step Hok; cbn; exact Hinv.
  - unfold store in Hs. by case_match.
Qed.

Lemma iter_post_attr_len1 (w : world) (h : hvx) (i : nat) :
  parser_inv w →
  parse_state (parse_info (ancs_c w)) = ATTR_LEN1 →
  iter_post w i (parse_iter w h i).
Proof.
  intros [Hok Hinv] Hst. unfold parse_iter. rewrite Hst. unfold attr_len1_parse.
  rewrite Hst in Hinv. quiet_step Hok. cbn. exact Hinv.
Qed.

Lemma p_attr_list_at_located (c : bt_gatt_ancs_c) (l : attr_list_sel)
    (e : bt_gatt_ancs_c_attr_list_t) :
  located c l e → p_attr_list_at c (attr_id (attr (evt c))) = Ok e.
Proof.
  intros ((Hl & _ & _) & He & _). unfold p_attr_list_at. by rewrite Hl, He.
Qed.

Lemma iter_post_attr_id (w : world) (h : hvx) (i : nat) :
  parser_inv w →
  parse_state (parse_info (ancs_c w)) = ATTR_ID →
  iter_post w i (parse_iter w h i).
Proof.
  intros [Hok Hinv] Hst. unfold parse_iter. rewrite Hst. unfold attr_id_parse.
  rewrite Hst in Hinv. destruct Hinv as (l & Hl & Hnb & Hty).
  destruct (Z.leb_spec (nb_of_attr (parse_info (ancs_c
              (set_ancs_c (set_evt (set_attr (set_attr_id (p_data_src h i)))) w))))
              (p_data_src h i)) as [| Hid]; [quiet_step Hok; cbn; done |].
  cbn [set_ancs_c ancs_c set_evt parse_info] in Hid. rewrite Hnb in Hid.
  unfold p_attr_list_at at 1. cbn [set_ancs_c ancs_c set_evt parse_info p_attr_list].
  rewrite Hl.
  replace (attr_list_of _ l) with (attr_list_of (ancs_c w) l) by (by destruct l).
  destruct (attr_list_of (ancs_c w) l !! Z.to_nat (p_data_src h i)) as [e |] eqn:He;
    cbn [mbind res_bind iter_post];
    [| apply lookup_ge_None in He; pose proof (tables_ok_length w l Hok) as Hn;
       destruct l; unfold BT_GATT_ANCS_NB_OF_NOTIF_ATTR, BT_GATT_ANCS_NB_OF_APP_ATTR in Hn;
       lia].
  case_match; [quiet_step Hok; cbn; done |].
  unfold attr_is_requested, p_attr_list_at.
  cbn [set_ancs_c ancs_c set_evt parse_info p_attr_list evt attr set_attr
       set_p_attr_data set_attr_id attr_id].
  rewrite Hl.
  replace (attr_list_of _ l) with (attr_list_of (ancs_c w) l) by (by destruct l).
  rewrite He. cbn [mbind res_bind].
  destruct (get e); quiet_step Hok; cbn;
    (exists l, e; repeat split; try done; by destruct l).
Qed.

Lemma store_attr_data_ok (w w1 : world) (i v : Z) :
  store_attr_data w i v = Ok w1 →
  ∃ a buf, p_attr_data (attr (evt (ancs_c w))) = Some a
           ∧ ram w !! a = Some buf
           ∧ (Z.to_nat i < length buf)%nat
           ∧ w1 = set_ram (<[a := <[Z.to_nat i := v]> buf]> (ram w)) w.
Proof.
  unfold store_attr_data, store. intros H.
  destruct (p_attr_data _) as [a |]; [| done].
  destruct (ram w !! a) as [buf |] eqn:Hr; [| done].
  destruct (decide _); [| done]. cbn in H. simplify_eq. eauto 6.
Qed.

Lemma tables_ok_set_ram (w : world) (a : nat) (buf buf' : list Z) :
  ram w !! a = Some buf → length buf' = length buf →
  tables_ok (set_ram (<[a := buf']> (ram w)) w) = tables_ok w.
Proof.
  intros Hr Hlen. unfold tables_ok.
  cbn [set_ram ram ancs_c].
  by rewrite !(forallb_entry_ok_insert (ram w) a buf buf').
Qed.

Lemma one_event (w w' : world) (ev : sink_call) :
  sink w' = sink w ++ [ev] → evt_terminated (ancs_c w) ev →
  ∃ evs, sink w' = sink w ++ evs ∧ Forall (evt_terminated (ancs_c w)) evs.
Proof. intros Hs Hev. exists [ev]. split; [done | by constructor]. Qed.

Lemma registered_entry_located (c c' : bt_gatt_ancs_c) (l : attr_list_sel)
    (e : bt_gatt_ancs_c_attr_list_t) (ev : bt_gatt_ancs_c_evt_t) :
  attr_list_of c' l !! Z.to_nat (attr_id (attr ev)) = Some e →
  evt_type ev = evt_type_of l →
  attr_list_of c l = attr_list_of c' l →
  registered_entry c ev = Some e.
Proof.
  intros He Hty Hsame. unfold registered_entry. rewrite Hty.
  destruct l; cbn [evt_type_of list_of_evt_type]; rewrite Hsame; exact He.
Qed.

Lemma evt_terminated_located (c c2 : bt_gatt_ancs_c) (l : attr_list_sel)
    (e : bt_gatt_ancs_c_attr_list_t) (storage : option (list Z)) :
  located c2 l e → attr_list_of c l = attr_list_of c2 l → get e = true →
  (attr_len (attr (evt c2)) ≠ 0 →
   ∃ buf, storage = Some buf
     ∧ buf !! Z.to_nat (Z.min (attr_len (attr (evt c2))) (list_attr_len e - 1)) = Some 0) →
  evt_terminated c (on_ds (evt c2) storage).
Proof.
  intros ((_ & _ & Hty) & He & _) Hsame Hget Hbuf. unfold evt_terminated.
  by rewrite (registered_entry_located c c2 l e (evt c2) He Hty Hsame).
Qed.

Lemma iter_post_attr_len2 (w : world) (h : hvx) (i : nat) :
  parser_inv w →
  parse_state (parse_info (ancs_c w)) = ATTR_LEN2 →
  iter_post w i (parse_iter w h i).
Proof.
  intros [Hok Hinv] Hst. unfold parse_iter. rewrite Hst. unfold attr_len2_parse.
  rewrite Hst in Hinv. destruct Hinv as (l & e & (Hl & Hnb & Hty) & He & Hp).
  cbn [set_ancs_c ancs_c set_evt set_parse_info evt attr set_attr set_attr_len
       attr_len attr_id].
  set (len := Z.lor _ _ mod 2 ^ 16).
  assert (Hlen : 0 ≤ len) by (apply Z.mod_pos_bound; lia).
  pose proof (tables_ok_entry w l _ e Hok He) as Hentry.
  assert (Hat : ∀ c', p_attr_list (parse_info c') = Some l →
                      attr_list_of c' l = attr_list_of (ancs_c w) l →
                      p_attr_list_at c' (attr_id (attr (evt (ancs_c w)))) = Ok e).
  { intros c' H1 H2. unfold p_attr_list_at. by rewrite H1, H2, He. }
  destruct (Z.eqb_spec len 0) as [Hz | Hnz]; cbn [negb].
  - unfold attr_is_requested. cbn [attr_id]. rewrite Hat; [| done | by destruct l].
    cbn [mbind res_bind].
    destruct (get e) eqn:Hget.
    + assert (Hev : evt_terminated (ancs_c w)
                      (on_ds (evt (ancs_c
                         (set_ancs_c (set_parse_info (set_current_attr_index 0))
                            (set_ancs_c (set_evt (set_attr (set_attr_len len))) w))))
                         (match p_attr_data (attr (evt (ancs_c w))) with
                          | Some a => ram w !! a
                          | None => None
                          end))).
      { unfold evt_terminated.
        rewrite (registered_entry_located _ (ancs_c w) l e); [| exact He | exact Hty | done].
        cbn. split; [done |]. intros Hne. by rewrite Hz in Hne. }
      destruct (all_req_attrs_parsed _); cbn [mbind res_bind iter_post];
        (split; [lia |]);
        (split; [| split; [done | split; [done | by eapply one_event]]]);
        (split; [erewrite (tables_ok_same _); [exact Hok | done ..] |]);
        cbn; [done |].
      exists l. repeat split; try done; by destruct l.
    + destruct (all_req_attrs_parsed _); quiet_step Hok; cbn; [done |].
      exists l. repeat split; try done; by destruct l.
  - rewrite Hat; [| done | by destruct l]. cbn [mbind res_bind].
    destruct (_ || _) eqn:Hsto; quiet_step Hok; cbn.
    + exists l, e. split; [repeat split; try done; by destruct l |].
      split; [fold len; lia |].
      intros Hget. destruct (entry_ok_storage _ _ Hentry Hget) as [Hs _].
      unfold has_storage in Hs. by rewrite Hsto in Hs.
    + assert (Hs : has_storage e = true) by (unfold has_storage; by rewrite Hsto).
      exists l, e. split; [repeat split; try done; by destruct l |].
      unfold entry_ok in Hentry. rewrite Hs in Hentry.
      destruct (list_p_attr_data e) as [a |]; [| done].
      destruct (ram w !! a) as [buf |]; [| done].
      apply andb_prop in Hentry as [H2 _]. apply Z.leb_le in H2.
      fold len. repeat split; try done; lia.
Qed.

Lemma store_attr_data_no_spin (w : world) (i v : Z) : store_attr_data w i v ≠ Spin.
Proof. unfold store_attr_data, store. by repeat case_match. Qed.

Lemma located_same (c c' : bt_gatt_ancs_c) (l : attr_list_sel)
    (e : bt_gatt_ancs_c_attr_list_t) :
  located c l e →
  p_attr_list (parse_info c') = p_attr_list (parse_info c) →
  nb_of_attr (parse_info c') = nb_of_attr (parse_info c) →
  evt c' = evt c →
  ancs_notif_attr_list c' = ancs_notif_attr_list c →
  ancs_app_attr_list c' = ancs_app_attr_list c →
  located c' l e.
Proof.
  intros ((Hl & Hnb & Hty) & He & Hp) H1 H2 H3 H4 H5.
  assert (Hlist : attr_list_of c' l = attr_list_of c l)
    by (destruct l; cbn [attr_list_of]; done).
  unfold located, bound. by rewrite H1, H2, H3, Hlist.
Qed.

Lemma attr_is_requested_located (c : bt_gatt_ancs_c) (l : attr_list_sel)
    (e : bt_gatt_ancs_c_attr_list_t) :
  located c l e → attr_is_requested c (attr (evt c)) = Ok (get e).
Proof.
  intros Hloc. unfold attr_is_requested. by rewrite (p_attr_list_at_located c l e Hloc).
Qed.

(** The end of an attribute: the handler is called when the attribute is
    requested, and the parser goes on to the next attribute or stops. *)
Lemma iter_post_deliver (w w2 : world) (i : nat) (l : attr_list_sel)
    (e : bt_gatt_ancs_c_attr_list_t) :
  tables_ok w2 = true → located (ancs_c w2) l e →
  ancs_notif_attr_list (ancs_c w2) = ancs_notif_attr_list (ancs_c w) →
  ancs_app_attr_list (ancs_c w2) = ancs_app_attr_list (ancs_c w) →
  sink w2 = sink w →
  (get e = true →
   evt_terminated (ancs_c w)
     (on_ds (evt (ancs_c w2))
        (match p_attr_data (attr (evt (ancs_c w2))) with
         | Some a => ram w2 !! a
         | None => None
         end))) →
  iter_post w i
    ((attr_is_requested (ancs_c w2) (attr (evt (ancs_c w2)))
      ≫= λ req : bool,
           if all_req_attrs_parsed (ancs_c (if req then deliver_evt w2 else w2))
           then Ok (DONE, if req then deliver_evt w2 else w2, S i)
           else Ok (ATTR_ID, if req then deliver_evt w2 else w2, S i))
     ≫= λ '(s, w0, index),
          Ok (set_ancs_c (set_parse_info (set_parse_state s)) w0, index)).
Proof.
  intros Hok Hloc Hn Ha Hsink Hev.
  rewrite (attr_is_requested_located _ l e Hloc). cbn [mbind res_bind].
  destruct Hloc as ((Hl & Hnb & Hty) & _).
  destruct (get e).
  - destruct (all_req_attrs_parsed _); cbn [mbind res_bind iter_post];
      (split; [lia |]);
      (split; [| split; [done | split; [done |
         eapply one_event; [cbn; by rewrite Hsink | by apply Hev]]]]);
      (split; [erewrite (tables_ok_same _); [exact Hok | done ..] |]);
      cbn; [done |].
    exists l. repeat split; try done.
  - destruct (all_req_attrs_parsed _); cbn [mbind res_bind iter_post];
      (split; [lia |]);
      (split; [| split; [done | split; [done | by apply no_events]]]);
      (split; [erewrite (tables_ok_same _); [exact Hok | done ..] |]);
      cbn; [done |].
    exists l. repeat split; try done.
Qed.

Lemma store_attr_data_total (w : world) (l : attr_list_sel)
    (e : bt_gatt_ancs_c_attr_list_t) (i v : Z) :
  tables_ok w = true → located (ancs_c w) l e → has_storage e = true →
  0 ≤ i < list_attr_len e →
  ∃ w1, store_attr_data w i v = Ok w1.
Proof.
  intros Hok (_ & He & Hp) Hs Hi.
  pose proof (tables_ok_entry w l _ e Hok He) as Hentry.
  unfold entry_ok in Hentry. rewrite Hs in Hentry.
  destruct (list_p_attr_data e) as [a |] eqn:Ha; [| done].
  destruct (ram w !! a) as [buf |] eqn:Hr; [| done].
  apply andb_prop in Hentry as [_ H2]. apply Z.leb_le in H2.
  unfold store_attr_data. rewrite Hp, Hr. unfold store.
  rewrite decide_True by lia. cbn. eauto.
Qed.

Lemma iter_post_attr_data (w : world) (h : hvx) (i : nat) :
  parser_inv w →
  parse_state (parse_info (ancs_c w)) = ATTR_DATA →
  iter_post w i (parse_iter w h i).
Proof.
  intros [Hok Hinv] Hst. unfold parse_iter. rewrite Hst. unfold attr_data_parse.
  rewrite Hst in Hinv. destruct Hinv as (l & e & Hloc & Hs & Hi & Him).
  rewrite (p_attr_list_at_located _ l e Hloc). cbn [mbind res_bind].
  replace (_ && _) with true by (symmetry; apply andb_true_intro; split; apply Z.ltb_lt; lia).
  destruct (store_attr_data w _ _) as [w1 | t |] eqn:Hst1; cbn [mbind res_bind iter_post];
    [| destruct (store_attr_data_total w l e
                   (current_attr_index (parse_info (ancs_c w))) (p_data_src h i)
                   Hok Hloc Hs ltac:(lia)) as [w1 Hw1];
       by rewrite Hw1 in Hst1
     | by apply store_attr_data_no_spin in Hst1].
  apply store_attr_data_ok in Hst1 as (a & buf & Hpa & Hra & Hlb & ->).
  set (i0 := current_attr_index (parse_info (ancs_c w))) in *.
  set (len := attr_len (attr (evt (ancs_c w)))) in *.
  set (buf1 := <[Z.to_nat i0 := p_data_src h i]> buf).
  set (w1 := set_ancs_c _ (set_ram _ w)).
  assert (Hloc1 : located (ancs_c w1) l e) by (by apply (located_same (ancs_c w))).
  assert (Hidx1 : current_attr_index (parse_info (ancs_c w1)) = i0 + 1) by done.
  assert (Hevt1 : evt (ancs_c w1) = evt (ancs_c w)) by done.
  assert (Hlen1 : attr_len (attr (evt (ancs_c w1))) = len) by done.
  assert (Hram1 : ram w1 = <[a := buf1]> (ram w)) by done.
  assert (Hsink1 : sink w1 = sink w) by done.
  assert (Hn1 : ancs_notif_attr_list (ancs_c w1) = ancs_notif_attr_list (ancs_c w)) by done.
  assert (Ha1 : ancs_app_attr_list (ancs_c w1) = ancs_app_attr_list (ancs_c w)) by done.
  assert (Hok1 : tables_ok w1 = true).
  { rewrite <- Hok. rewrite <- (tables_ok_set_ram w a buf buf1 Hra); [| by unfold buf1; rewrite length_insert].
    by apply tables_ok_same. }
  assert (Hra1 : ram w1 !! a = Some buf1).
  { rewrite Hram1. apply list_lookup_insert_eq. by eapply lookup_lt_Some. }
  clearbody w1.
  rewrite (p_attr_list_at_located _ l e Hloc1). cbn [mbind res_bind].
  rewrite Hidx1, Hlen1.
  destruct ((i0 + 1 =? len) || (i0 + 1 =? list_attr_len e - 1)) eqn:Hc.
  - rewrite (attr_is_requested_located _ l e Hloc1). cbn [mbind res_bind].
    destruct (get e) eqn:Hget.
    + destruct (store_attr_data w1 _ _) as [w2 | t |] eqn:Hst2; cbn [mbind res_bind iter_post];
        [| destruct (store_attr_data_total w1 l e (i0 + 1) 0 Hok1 Hloc1 Hs ltac:(lia))
             as [w2 Hw2];
           by rewrite Hw2 in Hst2
         | by apply store_attr_data_no_spin in Hst2].
      apply store_attr_data_ok in Hst2 as (a' & buf' & Hpa' & Hra' & Hlb' & ->).
      rewrite Hevt1, Hpa in Hpa'. injection Hpa' as <-.
      rewrite Hra1 in Hra'. injection Hra' as <-.
      set (buf2 := <[Z.to_nat (i0 + 1) := 0]> buf1).
      set (w2 := set_ram _ w1).
      assert (Hloc2 : located (ancs_c w2) l e) by done.
      assert (Hidx2 : current_attr_index (parse_info (ancs_c w2)) = i0 + 1) by done.
      assert (Hlen2 : attr_len (attr (evt (ancs_c w2))) = len) by done.
      assert (Hpa2 : p_attr_data (attr (evt (ancs_c w2))) = Some a)
        by (by cbn; rewrite Hevt1).
      assert (Hsink2 : sink w2 = sink w) by done.
      assert (Hn2 : ancs_notif_attr_list (ancs_c w2) = ancs_notif_attr_list (ancs_c w)) by done.
      assert (Ha2 : ancs_app_attr_list (ancs_c w2) = ancs_app_attr_list (ancs_c w)) by done.
      assert (Hok2 : tables_ok w2 = true).
      { rewrite <- Hok1. apply (tables_ok_set_ram w1 a buf1 buf2 Hra1).
        by unfold buf2; rewrite length_insert. }
      assert (Hra2 : ram w2 !! a = Some buf2).
      { apply list_lookup_insert_eq. by eapply lookup_lt_Some. }
      assert (Hz2 : buf2 !! Z.to_nat (i0 + 1) = Some 0)
        by (by apply list_lookup_insert_eq).
      clearbody w2. rewrite Hidx2, Hlen2.
      destruct (Z.ltb_spec (i0 + 1) len) as [Hlt | Hge].
      * cbn [mbind res_bind iter_post]. split; [lia |].
        split; [| split; [done | split; [done | by apply no_events]]].
        split; [erewrite (tables_ok_same _); [exact Hok2 | done ..] |].
        cbn. exists l, e. split; [by apply (located_same (ancs_c w2)) |].
        rewrite Hidx2, Hlen2. split; [lia |]. intros _.
        assert (Hm : i0 + 1 = list_attr_len e - 1).
        { apply orb_prop in Hc as [Hc | Hc]; apply Z.eqb_eq in Hc; lia. }
        split; [lia |]. exists a, buf2. rewrite <- Hm.
        repeat split; try done. destruct Hloc as (_ & _ & Hp). by rewrite <- Hp.
      * apply (iter_post_deliver w _ i l e); try done.
        intros _.
        apply (evt_terminated_located _ (ancs_c w2) l e);
          [done | by destruct l; cbn [attr_list_of]; rewrite ?Hn2, ?Ha2 | done |].
        intros _. exists buf2. rewrite Hpa2. split; [done |].
        rewrite Hlen2. replace (len `min` (list_attr_len e - 1)) with (i0 + 1) by lia.
        done.
    + cbn [mbind res_bind]. rewrite Hidx1, Hlen1.
      destruct (Z.ltb_spec (i0 + 1) len) as [Hlt | Hge].
      * cbn [mbind res_bind iter_post]. split; [lia |].
        split; [| split; [done | split; [done | by apply no_events]]].
        split; [erewrite (tables_ok_same _); [exact Hok1 | done ..] |].
        cbn. exists l, e. split; [by apply (located_same (ancs_c w1)) |].
        rewrite Hidx1, Hlen1. split; [lia |]. intros Hg. by rewrite Hg in Hget.
      * apply (iter_post_deliver w _ i l e); try done.
        intros Hg. by rewrite Hg in Hget.
  - apply orb_false_elim in Hc as [Hc1 Hc2].
    apply Z.eqb_neq in Hc1. apply Z.eqb_neq in Hc2.
    cbn [mbind res_bind iter_post]. split; [lia |].
    split; [| split; [done | split; [done | by apply no_events]]].
    split; [erewrite (tables_ok_same _); [exact Hok1 | done ..] |].
    cbn. exists l, e. split; [by apply (located_same (ancs_c w1)) |].
    rewrite Hidx1, Hlen1. split; [done |]. lia.
Qed.

Lemma iter_post_attr_skip (w : world) (h : hvx) (i : nat) :
  parser_inv w →
  parse_state (parse_info (ancs_c w)) = ATTR_SKIP →
  iter_post w i (parse_iter w h i).
Proof.
  intros [Hok Hinv] Hst. unfold parse_iter. rewrite Hst. unfold attr_skip.
  rewrite Hst in Hinv. destruct Hinv as (l & e & Hloc & Hi & Hnul).
  set (i0 := current_attr_index (parse_info (ancs_c w))) in *.
  set (len := attr_len (attr (evt (ancs_c w)))) in *.
  destruct (Z.ltb_spec i0 len) as [_ | Hge]; [| lia].
  set (w1 := set_ancs_c _ w).
  assert (Hloc1 : located (ancs_c w1) l e) by (by apply (located_same (ancs_c w))).
  assert (Hidx1 : current_attr_index (parse_info (ancs_c w1)) = i0 + 1) by done.
  assert (Hevt1 : evt (ancs_c w1) = evt (ancs_c w)) by done.
  assert (Hlen1 : attr_len (attr (evt (ancs_c w1))) = len) by done.
  assert (Hram1 : ram w1 = ram w) by done.
  assert (Hsink1 : sink w1 = sink w) by done.
  assert (Hn1 : ancs_notif_attr_list (ancs_c w1) = ancs_notif_attr_list (ancs_c w)) by done.
  assert (Ha1 : ancs_app_attr_list (ancs_c w1) = ancs_app_attr_list (ancs_c w)) by done.
  assert (Hok1 : tables_ok w1 = true) by (rewrite <- Hok; by apply tables_ok_same).
  clearbody w1. rewrite Hidx1, Hlen1.
  destruct (Z.eqb_spec (i0 + 1) len) as [Heq | Hne].
  - apply (iter_post_deliver w _ i l e); try done.
    intros Hget. destruct (Hnul Hget) as (Hm & a & buf & Hpa & Hra & Hz).
    apply (evt_terminated_located _ (ancs_c w1) l e);
      [done | by destruct l; cbn [attr_list_of]; rewrite ?Hn1, ?Ha1 | done |].
    intros _. exists buf. rewrite Hevt1, Hram1.
    destruct Hloc as (_ & _ & Hp). rewrite Hp, Hpa. split; [done |].
    fold len. replace (len `min` (list_attr_len e - 1)) with (list_attr_len e - 1) by lia.
    done.
  - cbn [mbind res_bind iter_post]. split; [lia |].
    split; [| split; [done | split; [done | by apply no_events]]].
    split; [erewrite (tables_ok_same _); [exact Hok1 | done ..] |].
    cbn. exists l, e. split; [by apply (located_same (ancs_c w1)) |].
    rewrite Hidx1, Hlen1, Hram1. split; [lia |]. done.
Qed.

(** Every iteration of the loop keeps the invariant and consumes input. *)
Lemma parse_iter_post (w : world) (h : hvx) (i : nat) :
  parser_inv w → (i < hvx_data_len h)%nat → iter_post w i (parse_iter w h i).
Proof.
  intros Hinv Hi.
  destruct (parse_state (parse_info (ancs_c w))) eqn:Hst.
  - by apply iter_post_command_id.
  - by apply iter_post_notif_uid.
  - by apply iter_post_app_id.
  - by apply iter_post_attr_id.
  - by apply iter_post_attr_len1.
  - by apply iter_post_attr_len2.
  - by apply iter_post_attr_data.
  - by apply iter_post_attr_skip.
  - unfold parse_iter. rewrite Hst. cbn [iter_post].
    split; [done |]. split; [done |]. split; [done |]. split; [done |].
    by apply no_events.
Qed.

Lemma evt_terminated_same (c c' : bt_gatt_ancs_c) (ev : sink_call) :
  ancs_notif_attr_list c' = ancs_notif_attr_list c →
  ancs_app_attr_list c' = ancs_app_attr_list c →
  evt_terminated c' ev → evt_terminated c ev.
Proof.
  intros Hn Ha. unfold evt_terminated, registered_entry.
  destruct ev as [| e storage |]; try done.
  destruct (list_of_evt_type _) as [[] |]; cbn [attr_list_of]; by rewrite ?Hn, ?Ha.
Qed.

Lemma parse_post_refl (w : world) : parser_inv w → parse_post w (Ok w).
Proof.
  intros Hinv. cbn [parse_post]. split; [done |]. split; [done |]. split; [done |].
  by apply no_events.
Qed.

Lemma parse_loop_post (fuel : nat) (w : world) (h : hvx) (i : nat) :
  parser_inv w → (hvx_data_len h - i ≤ fuel)%nat →
  parse_post w (parse_loop fuel w h i).
Proof.
  revert w i. induction fuel as [| fuel IH]; intros w i Hinv Hfuel.
  - cbn [parse_loop]. destruct (decide _); [lia |].
    by apply parse_post_refl.
  - cbn [parse_loop]. destruct (decide _) as [Hi |]; [| by apply parse_post_refl].
    pose proof (parse_iter_post w h i Hinv Hi) as Hpost.
    destruct (parse_iter w h i) as [[w1 j] | t |]; cbn [mbind res_bind]; [| done | done].
    destruct Hpost as (Hij & Hinv1 & Hn1 & Ha1 & evs1 & Hs1 & Hev1).
    pose proof (IH w1 j Hinv1 ltac:(lia)) as Hrest.
    destruct (parse_loop fuel w1 h j) as [w2 | t |]; [| done | done].
    destruct Hrest as (Hinv2 & Hn2 & Ha2 & evs2 & Hs2 & Hev2).
    cbn [parse_post]. split; [done |].
    split; [by rewrite Hn2 |]. split; [by rewrite Ha2 |].
    exists (evs1 ++ evs2). split; [by rewrite Hs2, Hs1, app_assoc |].
    apply Forall_app. split; [done |].
    eapply Forall_impl; [exact Hev2 |]. intros ev. by apply evt_terminated_same.
Qed.










(** With an entry registered with a length of 1 (which
    [bt_gatt_ancs_c_attr_add] accepts) the terminator of a one-byte
    attribute is stored at offset 1, after the one byte of data. *)
Lemma ds_length_1_entry_one_byte :
  ∃ w' e,
    on_received_ds 9 sample_title_len1 (hvx_of [0; 1; 2; 3; 4; 1; 1; 0; 110]) = Ok w'
    ∧ sink w' = sink sample_title_len1
                ++ [on_ds e (Some ([110; 0] ++ replicate 30 65))]
    ∧ attr_len (attr e) = 1
    ∧ registered_entry (ancs_c sample_title_len1) e
      = Some {| get := true; list_attr_len := 1; list_p_attr_data := Some 1%nat |}.
Proof.
  exists (received (on_received_ds 9 sample_title_len1
                      (hvx_of [0; 1; 2; 3; 4; 1; 1; 0; 110])) sample_title_len1).
  eexists. vm_compute. repeat split; reflexivity.
Qed.

Lemma parse_loop_stuck (w : world) (h : hvx) (i : nat) :
  (i < hvx_data_len h)%nat → parse_iter w h i = Ok (w, i) →
  ∀ fuel, parse_loop fuel w h i = Spin.
Proof.
  intros Hi Hiter fuel. induction fuel as [| fuel IH]; cbn [parse_loop];
    (destruct (decide _); [| done]); [done |].
  rewrite Hiter. cbn [mbind res_bind]. exact IH.
Qed.

(** With such an entry and an attribute of two bytes, the parser stays in
    the loop of [ancs_parse_get_attrs_response] without consuming the
    second byte. *)
Lemma ds_length_1_entry_two_bytes (fuel : nat) :
  let w := received (on_received_ds 9 sample_title_len1
                       (hvx_of [0; 1; 2; 3; 4; 1; 2; 0; 110])) sample_title_len1 in
  parse_state (parse_info (ancs_c w)) = ATTR_DATA
  ∧ on_received_ds fuel w (hvx_of [82]) = Spin.
Proof.
  cbv zeta. split; [reflexivity |].
  unfold on_received_ds, ancs_parse_get_attrs_response.
  apply parse_loop_stuck; [vm_compute; lia |].
  vm_compute. reflexivity.
Qed.

(** ** Get-app-attributes command that does not fit *)

Section no_space.

Variable W : nat.
Variable p_app_id : list Z.
Variable app_id_len : nat.
Hypothesis p_terminated : p_app_id !! app_id_len = Some 0.

Lemma enc_frame_refl (e : app_attr_enc) : enc_frame e e.
Proof. done. Qed.

Lemma enc_frame_trans (e1 e2 e3 : app_attr_enc) :
  enc_frame e1 e2 → enc_frame e2 e3 → enc_frame e1 e3.
Proof.
  intros (H1 & H2 & H3 & H4) (H5 & H6 & H7 & H8).
  repeat split; congruence.
Qed.

(** The bytes of the app identifier that are left, and its terminator, do
    not fit: the encoder gives up. *)
Lemma app_id_phase_abort (n fuel : nat) (e : app_attr_enc) :
  length (cp_data (enc_c e)) = W →
  (app_id_bytes_encoded_count e + n = app_id_len)%nat →
  (W ≤ index e + n)%nat → (n < fuel)%nat →
  ∃ e', app_attr_get_loop W fuel APP_ATTR_APP_ID e p_app_id app_id_len
        = Ok (APP_ATTR_ABORT, e')
        ∧ enc_frame e e'.
Proof.
  revert fuel e. induction n as [| n IH]; intros fuel e HW Hn Hix Hfuel.
  - destruct fuel as [| fuel]; [lia |]. cbn [app_attr_get_loop].
    unfold app_attr_encode_app_id.
    rewrite decide_True by lia. rewrite decide_True by lia.
    cbn [mbind res_bind]. destruct fuel; cbn [app_attr_get_loop]; by exists e.
  - destruct fuel as [| fuel]; [lia |]. cbn [app_attr_get_loop].
    unfold app_attr_encode_app_id.
    rewrite decide_False by lia. cbn [mbind res_bind].
    rewrite decide_True by lia.
    destruct (decide (W ≤ index e)%nat) as [Hfull | Hroom].
    + cbn [mbind res_bind]. destruct fuel; cbn [app_attr_get_loop]; by exists e.
    + destruct (lookup_lt_is_Some_2 p_app_id (app_id_bytes_encoded_count e)) as [b Hb].
      { apply lookup_lt_Some in p_terminated. lia. }
      rewrite Hb. rewrite store_poke by lia. cbn [mbind res_bind].
      cbn [app_id_bytes_encoded_count]. rewrite decide_False by lia.
      cbn [mbind res_bind].
      edestruct (IH fuel) as (e' & Hloop & Hframe); [| | | | rewrite Hloop].
      * cbn. rewrite poke_length; simpl; lia.
      * cbn. lia.
      * cbn. lia.
      * lia.
      * exists e'. split; [done |]. eapply enc_frame_trans; [| exact Hframe].
        repeat split. cbn. rewrite poke_length; simpl; lia.
Qed.

(** They fit: the encoder writes them and goes on to the attribute ids. *)
Lemma app_id_phase_fits (n fuel : nat) (e : app_attr_enc) :
  length (cp_data (enc_c e)) = W →
  (app_id_bytes_encoded_count e + n = app_id_len)%nat →
  (index e + n < W)%nat → (n < fuel)%nat →
  ∃ e', app_attr_get_loop W fuel APP_ATTR_APP_ID e p_app_id app_id_len
        = app_attr_get_loop W (fuel - S n) APP_ATTR_ATTR_ID e' p_app_id app_id_len
        ∧ enc_frame e e'
        ∧ index e' = (index e + S n)%nat
        ∧ attr_bytes_encoded_count e' = attr_bytes_encoded_count e.
Proof.
  revert fuel e. induction n as [| n IH]; intros fuel e HW Hn Hix Hfuel.
  - destruct fuel as [| fuel]; [lia |]. cbn [app_attr_get_loop].
    unfold app_attr_encode_app_id.
    rewrite decide_True by lia. rewrite decide_False by lia.
    rewrite store_poke by lia. cbn [mbind res_bind app_id_bytes_encoded_count].
    rewrite decide_False by lia. cbn [mbind res_bind app_id_bytes_encoded_count].
    rewrite decide_True by lia. cbn [mbind res_bind].
    replace (S fuel - 1)%nat with fuel by lia.
    eexists. split; [done |]. repeat split; cbn; try lia.
    rewrite poke_length; simpl; lia.
  - destruct fuel as [| fuel]; [lia |]. cbn [app_attr_get_loop].
    unfold app_attr_encode_app_id.
    rewrite decide_False by lia. cbn [mbind res_bind].
    rewrite decide_True by lia. rewrite decide_False by lia.
    destruct (lookup_lt_is_Some_2 p_app_id (app_id_bytes_encoded_count e)) as [b Hb].
    { apply lookup_lt_Some in p_terminated. lia. }
    rewrite Hb. rewrite store_poke by lia. cbn [mbind res_bind].
    cbn [app_id_bytes_encoded_count]. rewrite decide_False by lia.
    cbn [mbind res_bind].
    edestruct (IH fuel) as (e' & Hloop & Hframe & Hidx & Hcnt); [| | | | rewrite Hloop].
    + cbn. rewrite poke_length; simpl; lia.
    + cbn. lia.
    + cbn. lia.
    + lia.
    + exists e'. split; [done |]. split; [| split; [cbn in Hidx; lia | done]].
      eapply enc_frame_trans; [| exact Hframe].
      repeat split. cbn. rewrite poke_length; simpl; lia.
Qed.

(** No room for the id of a requested attribute. *)
Lemma attr_id_abort (fuel : nat) (e : app_attr_enc) (e0 : bt_gatt_ancs_c_attr_list_t) :
  ancs_app_attr_list (enc_c e) = [e0] → get e0 = true →
  attr_bytes_encoded_count e = 0%nat →
  (W ≤ index e)%nat → (0 < fuel)%nat →
  app_attr_get_loop W fuel APP_ATTR_ATTR_ID e p_app_id app_id_len
  = Ok (APP_ATTR_ABORT, e).
Proof.
  intros Hlist Hget Hcnt Hix Hfuel.
  destruct fuel as [| fuel]; [lia |]. cbn [app_attr_get_loop].
  unfold app_attr_encode_attr_id, app_attr_is_requested.
  rewrite Hcnt, Hlist. cbn [lookup list_lookup]. rewrite Hget.
  rewrite decide_True by done. cbn [mbind res_bind].
  rewrite decide_True by lia. cbn [mbind res_bind].
  by destruct fuel.
Qed.

(** The command needs one byte for its id, the app identifier with its
    terminator, and one byte for each requested attribute.  When that is
    more than the buffer has, the encoder ends in ABORT. *)
Lemma app_attr_get_loop_abort (fuel : nat) (c : bt_gatt_ancs_c)
    (e0 : bt_gatt_ancs_c_attr_list_t) :
  (1 ≤ W)%nat → length (cp_data c) = W → ancs_app_attr_list c = [e0] →
  (W < 1 + app_id_len + 1 + (if get e0 then 1 else 0))%nat →
  (app_id_len + 3 ≤ fuel)%nat →
  ∃ e', app_attr_get_loop W fuel APP_ATTR_COMMAND_ID
          {| enc_c := c; index := 0; attr_bytes_encoded_count := 0;
             app_id_bytes_encoded_count := 0 |} p_app_id app_id_len
        = Ok (APP_ATTR_ABORT, e')
        ∧ cp_write_params_sem (enc_c e') = cp_write_params_sem c
        ∧ parse_info (enc_c e') = parse_info c.
Proof.
  intros HW1 HW Hlist Hover Hfuel.
  destruct fuel as [| fuel]; [lia |]. cbn [app_attr_get_loop].
  unfold app_attr_encode_cmd_id. cbn [enc_c index].
  rewrite store_poke by lia. cbn [mbind res_bind].
  set (e1 := {| enc_c := set_cp_data _ c |}).
  assert (HW1' : length (cp_data (enc_c e1)) = W)
    by (cbn; rewrite poke_length; simpl; lia).
  destruct (decide (W ≤ 1 + app_id_len)%nat) as [Hsmall | Hbig].
  - destruct (app_id_phase_abort app_id_len fuel e1) as (e' & -> & Hs & _ & Hp & _);
      [done | cbn; lia | cbn; lia | lia |].
    exists e'. by repeat split.
  - destruct (app_id_phase_fits app_id_len fuel e1) as (e' & -> & (Hs & Hl & Hp & Hlen) & Hidx & Hcnt);
      [done | cbn; lia | cbn; lia | lia |].
    exists e'. destruct (get e0) eqn:Hget; [| lia].
    rewrite (attr_id_abort _ e' e0); [done | by rewrite Hl | done | done | | lia].
    rewrite Hidx. cbn. lia.
Qed.

End no_space.

(** C4, as the code has it: when the command does not fit (one byte
    of command id, the app identifier with its terminator and one byte for
    each requested attribute come to more than the [W] bytes of the
    buffer), the encoder ends in ABORT ([app_attr_get_loop_abort]) and the
    call returns [-ENOMEM] with nothing handed to the transport.  The
    semaphore taken at the start is not given back: its count is 0 when the
    call returns. *)
Theorem app_attr_request_no_space (W fuel : nat) (w : world) (p_app_id : list Z)
    (len : nat) (timeout : k_timeout_t) (e0 : bt_gatt_ancs_c_attr_list_t) :
  (1 ≤ W)%nat → length (cp_data (ancs_c w)) = W →
  ancs_app_attr_list (ancs_c w) = [e0] →
  cp_write_params_sem (ancs_c w) = 1 →
  (1 ≤ len)%nat → p_app_id !! len = Some 0 →
  (W < 1 + len + 1 + (if get e0 then 1 else 0))%nat →
  (len + 3 ≤ fuel)%nat →
  ∃ w', bt_gatt_ancs_c_app_attr_request W fuel w p_app_id len timeout
        = Ok (- ENOMEM, w')
        ∧ cp_write_params_sem (ancs_c w') = 0
        ∧ att w' = att w ∧ sink w' = sink w.
Proof.
  intros HW1 HW Hlist Hsem Hlen Hp Hover Hfuel.
  unfold bt_gatt_ancs_c_app_attr_request, ancs_c_app_attr_request.
  rewrite decide_False by lia. rewrite Hp. cbn [Z.eqb negb].
  unfold app_attr_get. cbn [set_ancs_c ancs_c set_parse_info cp_write_params_sem].
  rewrite Hsem. cbn [k_sem_take Z.ltb Z.compare mbind res_bind Z.eqb negb].
  set (c := set_number_of_requested_attr 0 _).
  assert (Hnb : ∃ n, app_attr_nb_to_get c = Ok n).
  { unfold app_attr_nb_to_get.
    replace (ancs_app_attr_list c) with [e0] by (by rewrite <- Hlist).
    cbn [length seq app_attr_nb_to_get_loop]. unfold app_attr_is_requested.
    replace (ancs_app_attr_list c) with [e0] by (by rewrite <- Hlist).
    cbn. by eexists. }
  destruct Hnb as [n ->]. cbn [mbind res_bind].
  destruct (app_attr_get_loop_abort W p_app_id len Hp fuel c e0) as (e' & -> & Hs & _);
    [done .. |].
  cbn [mbind res_bind]. eexists. split; [done |].
  cbn. by rewrite Hs.
Qed.


Lemma app_attr_request_no_space_witness :
  ∃ w', bt_gatt_ancs_c_app_attr_request 18 64 (sample_world 18 [] 0)
          (replicate 17 97 ++ [0]) 17 K_NO_WAIT
        = Ok (- ENOMEM, w')
        ∧ cp_write_params_sem (ancs_c w') = 0
        ∧ att w' = att (sample_world 18 [] 0) ∧ sink w' = sink (sample_world 18 [] 0).
Proof.
  apply (app_attr_request_no_space 18 64 (sample_world 18 [] 0) (replicate 17 97 ++ [0])
           17 K_NO_WAIT
           {| get := true; list_attr_len := 32; list_p_attr_data := Some 8%nat |});
    [lia | reflexivity | reflexivity | reflexivity | lia | reflexivity | simpl; lia | lia].
Defined.

Lemma store_length (d d' : list Z) (i : nat) (v : Z) :
  store d i v = Ok d' → length d' = length d.
Proof.
  unfold store. destruct (decide _); [| done]. intros [= <-]. apply length_insert.
Qed.

Ltac enc_step :=
  repeat match goal with
    | H : Ok _ = Ok _ |- _ => injection H as ? ?; subst
    | H : Trap _ = Ok _ |- _ => discriminate H
    | H : Spin = Ok _ |- _ => discriminate H
    | H : context [mbind _ (store ?d ?i ?v)] |- _ =>
      let Hs := fresh "Hs" in
      destruct (store d i v) eqn:Hs; cbn [mbind res_bind] in H;
      [apply store_length in Hs | |]
    | H : context [decide ?P] |- _ => destruct (decide P); cbn [mbind res_bind] in H
    | H : context [match ?x !! ?i with _ => _ end] |- _ =>
      destruct (x !! i); cbn [mbind res_bind] in H
    | H : context [if get ?x then _ else _] |- _ =>
      destruct (get x); cbn [mbind res_bind] in H
    end.

Lemma app_attr_encode_cmd_id_frame (e e' : app_attr_enc) (s : encode_app_attr_t) :
  app_attr_encode_cmd_id e = Ok (s, e') → enc_frame e e'.
Proof.
  unfold app_attr_encode_cmd_id. intros H. enc_step. by repeat split.
Qed.

Lemma app_attr_encode_app_id_frame (W : nat) (p : list Z) (len : nat)
    (e e' : app_attr_enc) (s : encode_app_attr_t) :
  app_attr_encode_app_id W e p len = Ok (s, e') → enc_frame e e'.
Proof.
  unfold app_attr_encode_app_id. intros H. enc_step; repeat split; cbn in *; (congruence || lia).
Qed.

Lemma app_attr_encode_attr_id_frame (W : nat) (e e' : app_attr_enc) (s : encode_app_attr_t) :
  app_attr_encode_attr_id W e = Ok (s, e') → enc_frame e e'.
Proof.
  unfold app_attr_encode_attr_id, app_attr_is_requested. intros H.
  enc_step; repeat split; cbn in *; (congruence || lia).
Qed.

Lemma app_attr_get_loop_frame (W fuel : nat) (p : list Z) (len : nat)
    (s s' : encode_app_attr_t) (e e' : app_attr_enc) :
  app_attr_get_loop W fuel s e p len = Ok (s', e') → enc_frame e e'.
Proof.
  revert s e. induction fuel as [| fuel IH]; intros s e H.
  - destruct s; cbn in H; by simplify_eq.
  - destruct s; cbn [app_attr_get_loop] in H; try (by simplify_eq).
    + destruct (app_attr_encode_cmd_id e) as [[s1 e1] | |] eqn:H1; [| done | done].
      apply app_attr_encode_cmd_id_frame in H1. apply IH in H.
      by eapply enc_frame_trans.
    + destruct (app_attr_encode_app_id W e p len) as [[s1 e1] | |] eqn:H1; [| done | done].
      apply app_attr_encode_app_id_frame in H1. apply IH in H.
      by eapply enc_frame_trans.
    + destruct (app_attr_encode_attr_id W e) as [[s1 e1] | |] eqn:H1; [| done | done].
      apply app_attr_encode_attr_id_frame in H1. apply IH in H.
      by eapply enc_frame_trans.
Qed.

(** No dispatch of a get-app-attributes command sets [current_app_id_index]
    back: the index the parser finds is the one the last response left. *)
Lemma app_attr_request_keeps_app_id_index (W fuel : nat) (w w' : world) (p : list Z)
    (len : nat) (timeout : k_timeout_t) (err : Z) :
  bt_gatt_ancs_c_app_attr_request W fuel w p len timeout = Ok (err, w') →
  current_app_id_index (parse_info (ancs_c w'))
  = current_app_id_index (parse_info (ancs_c w)).
Proof.
  unfold bt_gatt_ancs_c_app_attr_request, ancs_c_app_attr_request.
  destruct (decide _); [by intros [= _ <-] |].
  destruct (p !! len); [| done].
  destruct (negb _); [by intros [= _ <-] |].
  unfold app_attr_get.
  destruct (k_sem_take _ _) as [[e1 sem] | |]; cbn [mbind res_bind]; [| done | done].
  destruct (negb _); [by intros [= _ <-] |].
  destruct (app_attr_nb_to_get _); cbn [mbind res_bind]; [| done | done].
  destruct (app_attr_get_loop _ _ _ _ _ _) as [[s e] | |] eqn:Hloop;
    cbn [mbind res_bind]; [| done | done].
  apply app_attr_get_loop_frame in Hloop as (_ & _ & Hp & _). cbn in Hp.
  destruct s; try (intros [= _ <-]; cbn; by rewrite Hp).
  unfold bt_gatt_ancs_c_cp_write, bt_gatt_write.
  cbn [att set_ancs_c]. destruct (write_ret (att w) =? 0) eqn:Hw.
  - cbn [Z.eqb]. intros [= _ <-]. cbn. by rewrite Hp.
  - rewrite Hw. intros [= _ <-]. cbn. by rewrite Hp.
Qed.

(** An instance: with a Control Point buffer of 18 bytes and an app
    identifier of 17 bytes the encoding needs 20 bytes.  The sub-state
    machine ends in ABORT and the call returns [-ENOMEM], but the semaphore
    it took is still taken when it returns: nothing was handed to the GATT
    write, so no callback will give it back, and the next dispatch is
    turned away. *)
Lemma app_attr_request_no_space_keeps_semaphore :
  let w := sample_world 18 [] 0 in
  let app := replicate 17 97 ++ [0] in
  (∃ e, app_attr_get_loop 18 64 APP_ATTR_COMMAND_ID
          {| enc_c := set_number_of_requested_attr 0 (set_sem 0 (ancs_c w));
             index := 0; attr_bytes_encoded_count := 0;
             app_id_bytes_encoded_count := 0 |} app 17
        = Ok (APP_ATTR_ABORT, e))
  ∧ ∃ w', bt_gatt_ancs_c_app_attr_request 18 64 w app 17 K_NO_WAIT = Ok (- ENOMEM, w')
          ∧ cp_write_params_sem (ancs_c w) = 1
          ∧ cp_write_params_sem (ancs_c w') = 0
          ∧ written (att w') = []
          ∧ bt_gatt_ancs_perform_notif_action w' 67305985 ACTION_ID_POSITIVE K_NO_WAIT
            = Ok (- EBUSY, w').
Proof.
  cbv zeta. split.
  - eexists. vm_compute. reflexivity.
  - exists (world_after (bt_gatt_ancs_c_app_attr_request 18 64 (sample_world 18 [] 0)
                           (replicate 17 97 ++ [0]) 17 K_NO_WAIT)
                        (sample_world 18 [] 0)).
    vm_compute. repeat split; reflexivity.
Qed.

(** ** App identifier of a response *)

Lemma app_id_parse_past_end (w : world) (p : nat → Z) (i : nat) :
  Z.of_nat (length (app_id (evt (ancs_c w))))
  ≤ current_app_id_index (parse_info (ancs_c w)) →
  app_id_parse w p i = Trap OutOfBounds.
Proof.
  intros H. unfold app_id_parse. rewrite store_trap by lia. done.
Qed.

Lemma store_attr_data_app_id_index (w w' : world) (i v : Z) :
  store_attr_data w i v = Ok w' →
  current_app_id_index (parse_info (ancs_c w'))
  = current_app_id_index (parse_info (ancs_c w)).
Proof.
  intros H. by apply store_attr_data_ok in H as (a & buf & _ & _ & _ & ->).
Qed.

Ltac idx_cases H :=
  repeat first
    [ progress cbn [mbind res_bind] in H
    | progress simplify_eq
    | done
    | match type of H with
      | context [mbind _ (store_attr_data ?w ?i ?v)] =>
        let Hs := fresh in
        destruct (store_attr_data w i v) eqn:Hs;
        [apply store_attr_data_ok in Hs as (? & ? & _ & _ & _ & ->) | |]
      | context [mbind _ ?m] =>
        lazymatch m with
        | Ok _ => fail
        | Trap _ => fail
        | Spin => fail
        | context [mbind] => fail
        | context [match _ with _ => _ end] => fail
        | _ => destruct m eqn:?
        end
      end
    | case_match ];
  cbn; lia.

(** No step of the parser sets [current_app_id_index] back either. *)
Lemma parse_iter_app_id_index (w w' : world) (h : hvx) (i j : nat) :
  parse_iter w h i = Ok (w', j) →
  current_app_id_index (parse_info (ancs_c w))
  ≤ current_app_id_index (parse_info (ancs_c w')).
Proof.
  unfold parse_iter.
  destruct (parse_state (parse_info (ancs_c w))).
  - unfold command_id_parse. intros H. idx_cases H.
  - unfold notif_uid_parse. intros H. idx_cases H.
  - unfold app_id_parse. intros H. idx_cases H.
  - unfold attr_id_parse, attr_is_requested. intros H. idx_cases H.
  - unfold attr_len1_parse. intros H. idx_cases H.
  - unfold attr_len2_parse, attr_is_requested. intros H. idx_cases H.
  - unfold attr_data_parse, attr_is_requested. intros H. idx_cases H.
  - unfold attr_skip, attr_is_requested. intros H. idx_cases H.
  - intros [= <- _]. lia.
Qed.

Lemma parse_loop_app_id_index (fuel : nat) (w w' : world) (h : hvx) (i : nat) :
  parse_loop fuel w h i = Ok w' →
  current_app_id_index (parse_info (ancs_c w))
  ≤ current_app_id_index (parse_info (ancs_c w')).
Proof.
  revert w i. induction fuel as [| fuel IH]; intros w i; cbn [parse_loop];
    (destruct (decide _); [| intros [= <-]; lia]); [done |].
  destruct (parse_iter w h i) as [[w1 j] | |] eqn:Hiter; cbn [mbind res_bind];
    [| done | done].
  intros Hrest. apply parse_iter_app_id_index in Hiter. apply IH in Hrest. lia.
Qed.

(** C10: [app_id_parse] stores at [current_app_id_index] without a bound,
    and nothing ever sets that index back.  A first response for
    "com.apple.mobilemail" leaves the index at 20; it is still 20 after the
    next request, and the second response then stores past the 32 bytes of
    [evt.app_id].  A single response whose app identifier has 32 bytes
    before its terminator does the same. *)
Theorem app_id_parse_overruns :
  let w1 := mail_requested (sample_world 32 [] 0) in
  let w2 := received (on_received_ds 64 w1 (hvx_of mail_response)) w1 in
  let w3 := mail_requested w2 in
  on_received_ds 64 w1 (hvx_of mail_response) = Ok w2
  ∧ current_app_id_index (parse_info (ancs_c w1)) = 0
  ∧ current_app_id_index (parse_info (ancs_c w2)) = 20
  ∧ current_app_id_index (parse_info (ancs_c w3)) = 20
  ∧ parse_state (parse_info (ancs_c w3)) = COMMAND_ID
  ∧ on_received_ds 64 w3 (hvx_of mail_response) = Trap OutOfBounds
  ∧ on_received_ds 64 w1 (hvx_of (1 :: replicate 32 97 ++ [0])) = Trap OutOfBounds.
Proof. vm_compute. repeat split; reflexivity. Qed.

(** * Further properties *)

Lemma ds_frame_refl (w : world) : ds_frame w w.
Proof. by repeat split. Qed.

Lemma ds_frame_trans (w1 w2 w3 : world) :
  ds_frame w1 w2 → ds_frame w2 w3 → ds_frame w1 w3.
Proof.
  intros (H1 & H2 & H3 & H4 & H5 & H6 & H7) (G1 & G2 & G3 & G4 & G5 & G6 & G7).
  repeat split; congruence.
Qed.

Lemma map_length_store (r : list (list Z)) (a i : nat) (v : Z) (buf : list Z) :
  r !! a = Some buf →
  map length (<[a := <[i := v]> buf]> r) = map length r.
Proof.
  intros Hr. rewrite list_fmap_insert, length_insert.
  apply list_insert_id. by rewrite list_lookup_fmap, Hr.
Qed.

Lemma store_attr_data_frame (w w' : world) (i v : Z) :
  store_attr_data w i v = Ok w' → ds_frame w w'.
Proof.
  intros H. apply store_attr_data_ok in H as (a & buf & _ & Hr & _ & ->).
  repeat split; try done. cbn. by apply map_length_store.
Qed.

(** Case analysis on the outcome [H] of a parse function; stores into
    attribute buffers are replaced by what [store_attr_data_frame] says of
    them. *)
Ltac frame_cases H :=
  repeat first
    [ progress cbn [mbind res_bind] in H
    | progress simplify_eq
    | done
    | match type of H with
      | context [mbind _ (store_attr_data ?w ?i ?v)] =>
        let Hs := fresh in
        destruct (store_attr_data w i v) eqn:Hs;
        [apply store_attr_data_frame in Hs | |]
      | context [mbind _ ?m] =>
        lazymatch m with
        | Ok _ => fail
        | Trap _ => fail
        | Spin => fail
        | context [mbind] => fail
        | context [match _ with _ => _ end] => fail
        | _ => destruct m eqn:?
        end
      end
    | case_match ].

Lemma parse_iter_frame (w w' : world) (h : hvx) (i j : nat) :
  parse_iter w h i = Ok (w', j) → ds_frame w w'.
Proof.
  unfold parse_iter.
  destruct (parse_state (parse_info (ancs_c w))).
  - unfold command_id_parse. intros H. frame_cases H.
  - unfold notif_uid_parse. intros H. frame_cases H.
  - unfold app_id_parse. intros H. frame_cases H.
  - unfold attr_id_parse, attr_is_requested. intros H. frame_cases H.
  - unfold attr_len1_parse. intros H. frame_cases H.
  - unfold attr_len2_parse, attr_is_requested. intros H. frame_cases H.
  - unfold attr_data_parse, attr_is_requested. intros H. frame_cases H.
    all: repeat match goal with
           | F : ds_frame _ _ |- _ => destruct F as (? & ? & ? & ? & ? & ? & ?)
           end;
         unfold ds_frame; cbn in *; repeat split; congruence.
  - unfold attr_skip, attr_is_requested. intros H. frame_cases H.
  - intros [= <- _]. apply ds_frame_refl.
Qed.

Lemma parse_loop_frame (fuel : nat) (w w' : world) (h : hvx) (i : nat) :
  parse_loop fuel w h i = Ok w' → ds_frame w w'.
Proof.
  revert w i. induction fuel as [| fuel IH]; intros w i; cbn [parse_loop];
    (destruct (decide _); [| intros [= <-]; apply ds_frame_refl]); [done |].
  destruct (parse_iter w h i) as [[w1 j] | |] eqn:Hiter; cbn [mbind res_bind];
    [| done | done].
  intros Hrest. apply parse_iter_frame in Hiter. apply IH in Hrest.
  by eapply ds_frame_trans.
Qed.

Lemma on_received_ds_all_frame (fuel : nat) (hs : list hvx) :
  ∀ w w', on_received_ds_all fuel w hs = Ok w' → ds_frame w w'.
Proof.
  induction hs as [| h hs IH]; intros w w'; cbn [on_received_ds_all].
  - intros [= <-]. apply ds_frame_refl.
  - unfold on_received_ds, ancs_parse_get_attrs_response.
    destruct (parse_loop fuel w h 0) as [w1 | |] eqn:Hloop; cbn [mbind res_bind];
      [| done | done].
    intros Hrest. apply parse_loop_frame in Hloop. apply IH in Hrest.
    by eapply ds_frame_trans.
Qed.

(** X1: when the parser has handled Data Source notifications without an
    access outside an object (its run is [Ok]: no store past the end of
    [evt.app_id], of a table or of a buffer, and no loop without end), it
    has left the Control Point side of the client as it was: the
    semaphore, the command buffer, the count of requested attributes and
    what the transport has been handed; the attribute tables are not
    changed either, nor the number and the sizes of the caller's buffers.
    A Notification Source record, whatever it holds, changes nothing but
    the log of handler calls. *)
Theorem inbound_records_frame (fuel : nat) (w w' : world) (hs : list hvx) (h : hvx) :
  on_received_ds_all fuel w hs = Ok w' →
  ds_frame w w'
  ∧ ancs_c (on_received_ns w h) = ancs_c w ∧ ram (on_received_ns w h) = ram w
  ∧ att (on_received_ns w h) = att w.
Proof.
  intros H. split; [by eapply on_received_ds_all_frame |].
  unfold on_received_ns, parse_notif. by destruct (decide _).
Qed.

Lemma inbound_records_frame_witness :
  let w := sample_title_message_appid in
  let hs := [hvx_of [0; 1; 2; 3; 4; 1; 3; 0; 110; 82; 70; 3; 2; 0; 53; 50];
             hvx_of [0; 3; 0; 99; 111; 109]] in
  let h := hvx_of [0; 24; 6; 2; 1; 2; 3; 4] in
  let w' := received (on_received_ds_all 16 w hs) w in
  ds_frame w w'
  ∧ ancs_c (on_received_ns w h) = ancs_c w ∧ ram (on_received_ns w h) = ram w
  ∧ att (on_received_ns w h) = att w.
Proof.
  cbv zeta.
  apply (inbound_records_frame 16 sample_title_message_appid _
           [hvx_of [0; 1; 2; 3; 4; 1; 3; 0; 110; 82; 70; 3; 2; 0; 53; 50];
            hvx_of [0; 3; 0; 99; 111; 109]]).
  vm_compute. reflexivity.
Defined.

Lemma forallb_fuel (fuel : nat) (hs : list hvx) :
  forallb (fun h => (hvx_data_len h <=? fuel)%nat) hs = true →
  Forall (fun h => (hvx_data_len h ≤ fuel)%nat) hs.
Proof.
  intros Hfuel. apply Forall_forall. intros h Hh.
  rewrite forallb_forall in Hfuel. apply Nat.leb_le, Hfuel.
  by apply list_elem_of_In.
Qed.

Lemma byte_step_command_unknown (w : world) (cmd : Z) :
  parse_state (parse_info (ancs_c w)) = COMMAND_ID →
  cmd ≠ BT_GATT_ANCS_COMMAND_ID_GET_NOTIF_ATTRIBUTES →
  cmd ≠ BT_GATT_ANCS_COMMAND_ID_GET_APP_ATTRIBUTES →
  byte_step w cmd = Ok (unknown_cmd_effect w cmd).
Proof.
  intros Hst H0 H1. unfold byte_step, parse_iter, command_id_parse.
  rewrite Hst, hvx_of_single.
  rewrite (proj2 (Z.eqb_neq _ _) H0), (proj2 (Z.eqb_neq _ _) H1). reflexivity.
Qed.

(** X2: a parser that is DONE ignores what arrives, and a response whose
    first byte is not a command id the parser knows puts it there: nothing
    of the response is stored or reported, wherever it is cut. *)
Theorem ds_unknown_command_ignored (fuel : nat) (w : world) (cmd : Z)
    (rest : list Z) (hs : list hvx) :
  parse_state (parse_info (ancs_c w)) = COMMAND_ID →
  cmd ≠ BT_GATT_ANCS_COMMAND_ID_GET_NOTIF_ATTRIBUTES →
  cmd ≠ BT_GATT_ANCS_COMMAND_ID_GET_APP_ATTRIBUTES →
  concat (map payload hs) = cmd :: rest →
  forallb (fun h => (hvx_data_len h <=? fuel)%nat) hs = true →
  on_received_ds_all fuel w hs = Ok (unknown_cmd_effect w cmd)
  ∧ sink (unknown_cmd_effect w cmd) = sink w
  ∧ ram (unknown_cmd_effect w cmd) = ram w
  ∧ evt (ancs_c (unknown_cmd_effect w cmd)) = evt (ancs_c w)
  ∧ ∀ hs', forallb (fun h => (hvx_data_len h <=? fuel)%nat) hs' = true →
           on_received_ds_all fuel (unknown_cmd_effect w cmd) hs'
           = Ok (unknown_cmd_effect w cmd).
Proof.
  intros Hst H0 H1 Hcat Hfuel. split; [| repeat split].
  - apply on_received_ds_all_run; [by apply forallb_fuel |].
    rewrite Hcat. cbn [run]. rewrite byte_step_command_unknown by done.
    cbn [mbind res_bind]. by apply run_done.
  - intros hs' Hfuel'. apply on_received_ds_all_run; [by apply forallb_fuel |].
    by apply run_done.
Qed.

Lemma ds_unknown_command_ignored_witness :
  let w := sample_title_message_appid in
  on_received_ds_all 16 w [hvx_of [2; 1; 2; 3]; hvx_of [4; 1; 3; 0; 110; 82; 70]]
  = Ok (unknown_cmd_effect w 2)
  ∧ sink (unknown_cmd_effect w 2) = sink w
  ∧ ram (unknown_cmd_effect w 2) = ram w
  ∧ evt (ancs_c (unknown_cmd_effect w 2)) = evt (ancs_c w)
  ∧ ∀ hs', forallb (fun h => (hvx_data_len h <=? 16)%nat) hs' = true →
           on_received_ds_all 16 (unknown_cmd_effect w 2) hs'
           = Ok (unknown_cmd_effect w 2).
Proof.
  cbv zeta.
  apply (ds_unknown_command_ignored 16 sample_title_message_appid 2
           [1; 2; 3; 4; 1; 3; 0; 110; 82; 70]); done.
Defined.

Lemma attrs_done (l : attr_list_sel) (attrs : list (Z * list Z)) :
  ∀ w, attr_phase l w attrs → attrs ≠ [] →
       parse_state (parse_info (ancs_c (foldl (attr_effect l) w attrs))) = DONE.
Proof.
  induction attrs as [| x attrs IH]; intros w Hph Hne; [done |].
  pose proof (attr_phase_step _ _ _ _ Hph) as Hph'.
  cbn [foldl]. destruct attrs as [| y attrs]; [| by apply IH].
  cbn [foldl].
  destruct Hph as [Hlist Hnb Hexp Hst Hok Hreq].
  cbn [forallb] in Hreq. apply andb_prop in Hreq as [Hx _].
  destruct (attr_effect_eq l w x Hok Hx) as (e & a & buf & He & Hbuf & Hm & ->).
  cbv zeta. rewrite dsw_state, Hexp. reflexivity.
Qed.

(** X3: once the attributes the parser expects have all been received, the
    parser is DONE: whatever follows the response, in the same notification
    or in later ones, changes nothing and is not reported. *)
Theorem ds_response_trailing_bytes (fuel : nat) (w : world) (r : response)
    (junk : list Z) (hs : list hvx) :
  tables_ok w = true →
  parse_state (parse_info (ancs_c w)) = COMMAND_ID →
  expected_number_of_attrs (parse_info (ancs_c w))
  = Z.of_nat (length (response_attrs r)) →
  response_attrs r ≠ [] →
  forallb (attr_requested (ancs_c w) (response_list r)) (response_attrs r) = true →
  header_ok w r = true →
  concat (map payload hs) = response_wire r ++ junk →
  cut_ok r hs = true →
  forallb (fun h => (hvx_data_len h <=? fuel)%nat) hs = true →
  on_received_ds_all fuel w hs = Ok (response_effect w r)
  ∧ parse_state (parse_info (ancs_c (response_effect w r))) = DONE.
Proof.
  intros Hok Hst Hexp Hne Hreq Hhdr Hcat Hcut Hfuel.
  apply forallb_fuel in Hfuel.
  destruct r as [uid attrs | app attrs];
    cbn [response_attrs response_list response_wire response_effect header_ok cut_ok] in *.
  - apply bool_decide_eq_true in Hhdr.
    pose proof (notif_header_phase w uid attrs Hok Hexp Hreq) as Hph.
    pose proof (attrs_done NotifList attrs _ Hph Hne) as Hdone.
    split; [| exact Hdone].
    apply (notif_header_records fuel uid (attrs_wire attrs ++ junk)); try done.
    + rewrite Hcat. unfold notif_response_wire. cbn [attrs_wire map concat Datatypes.app].
      rewrite app_nil_r. by rewrite <- app_assoc.
    + rewrite run_app, (run_attrs NotifList) by done. cbn [mbind res_bind]. by apply run_done.
  - apply andb_prop in Hhdr as [Hhdr Hfit]. apply andb_prop in Hhdr as [Hnz Hk].
    apply Z.leb_le in Hk. apply Nat.ltb_lt in Hfit.
    assert (Hnz' : Forall (λ b, b ≠ 0) app).
    { apply Forall_forall. intros b Hb. rewrite forallb_forall in Hnz.
      specialize (Hnz b (proj1 (list_elem_of_In _ _) Hb)).
      by apply negb_true_iff, Z.eqb_neq in Hnz. }
    pose proof (app_header_phase w app attrs Hok Hexp Hreq) as Hph.
    pose proof (attrs_done AppList attrs _ Hph Hne) as Hdone.
    split; [| exact Hdone].
    apply on_received_ds_all_run; [done |].
    rewrite Hcat.
    replace (app_response_wire app attrs ++ junk)
      with (app_response_wire app [] ++ attrs_wire attrs ++ junk).
    + rewrite run_app_header by done.
      rewrite run_app, (run_attrs AppList) by done. cbn [mbind res_bind]. by apply run_done.
    + unfold app_response_wire. cbn [attrs_wire map concat Datatypes.app].
      by rewrite <- !app_assoc.
Qed.

Lemma ds_response_trailing_bytes_witness :
  let w := sample_title_message_appid in
  let r := NotifResponse [1; 2; 3; 4] sample_response in
  on_received_ds_all 16 w
    [hvx_of [0; 1; 2; 3; 4; 1; 3; 0; 110; 82; 70; 3; 2; 0; 53; 50];
     hvx_of [0; 3; 0; 99; 111; 109; 1; 1; 0; 88];
     hvx_of [7; 7; 7]]
  = Ok (response_effect w r)
  ∧ parse_state (parse_info (ancs_c (response_effect w r))) = DONE.
Proof.
  cbv zeta.
  apply (ds_response_trailing_bytes 16 sample_title_message_appid
           (NotifResponse [1; 2; 3; 4] sample_response) [1; 1; 0; 88; 7; 7; 7]);
    done.
Defined.

Lemma beyond_spec (c : bt_gatt_ancs_c) (a k : nat) (l : attr_list_sel)
    (e : bt_gatt_ancs_c_attr_list_t) :
  beyond c a k = true → e ∈ attr_list_of c l → list_p_attr_data e = Some a →
  list_attr_len e ≤ Z.of_nat k.
Proof.
  unfold beyond. rewrite forallb_forall. intros Hall He Hp.
  assert (Hin : In e (ancs_notif_attr_list c ++ ancs_app_attr_list c)).
  { apply list_elem_of_In, elem_of_app. destruct l; [by left | by right]. }
  specialize (Hall e Hin). rewrite bool_decide_eq_true_2 in Hall by done.
  by apply Z.leb_le in Hall.
Qed.

Lemma ram_kept_same (w w' : world) : ram w' = ram w → ram_kept w w'.
Proof. intros H a k _. by rewrite H. Qed.

Lemma beyond_same (c c' : bt_gatt_ancs_c) (a k : nat) :
  ancs_notif_attr_list c' = ancs_notif_attr_list c →
  ancs_app_attr_list c' = ancs_app_attr_list c →
  beyond c' a k = beyond c a k.
Proof. unfold beyond. by intros -> ->. Qed.

Lemma ram_kept_trans (w1 w2 w3 : world) :
  ancs_notif_attr_list (ancs_c w2) = ancs_notif_attr_list (ancs_c w1) →
  ancs_app_attr_list (ancs_c w2) = ancs_app_attr_list (ancs_c w1) →
  ram_kept w1 w2 → ram_kept w2 w3 → ram_kept w1 w3.
Proof.
  intros Hn Ha H12 H23 a k Hb.
  rewrite H23 by (by rewrite (beyond_same (ancs_c w1))). by apply H12.
Qed.

(** A store below the registered length of the entry being parsed. *)
Lemma store_attr_data_kept (w w' : world) (l : attr_list_sel)
    (e : bt_gatt_ancs_c_attr_list_t) (i v : Z) :
  located (ancs_c w) l e → 0 ≤ i < list_attr_len e →
  store_attr_data w i v = Ok w' → ram_kept w w'.
Proof.
  intros (_ & He & Hp) Hi H a k Hb.
  apply store_attr_data_ok in H as (a0 & buf & Hpa & Hr & _ & ->).
  cbn [set_ram ram]. unfold byte_at.
  destruct (decide (a = a0)) as [-> | Hne].
  - rewrite list_lookup_insert_eq by (by eapply lookup_lt_Some). rewrite Hr.
    apply list_lookup_insert_ne.
    assert (Hm : list_attr_len e ≤ Z.of_nat k).
    { apply (beyond_spec _ a0 k l e Hb); [by eapply list_elem_of_lookup_2 | congruence]. }
    lia.
  - by rewrite list_lookup_insert_ne.
Qed.

Lemma parse_iter_ram_same (w w' : world) (h : hvx) (i j : nat) :
  parse_state (parse_info (ancs_c w)) ≠ ATTR_DATA →
  parse_iter w h i = Ok (w', j) → ram w' = ram w.
Proof.
  unfold parse_iter.
  destruct (parse_state (parse_info (ancs_c w))); intros Hst; [.. | by intros [= <- _]].
  - unfold command_id_parse. intros H. frame_cases H.
  - unfold notif_uid_parse. intros H. frame_cases H.
  - unfold app_id_parse. intros H. frame_cases H.
  - unfold attr_id_parse, attr_is_requested. intros H. frame_cases H.
  - unfold attr_len1_parse. intros H. frame_cases H.
  - unfold attr_len2_parse, attr_is_requested. intros H. frame_cases H.
  - done.
  - unfold attr_skip, attr_is_requested. intros H. frame_cases H.
Qed.

Lemma parse_iter_attr_data_kept (w w' : world) (h : hvx) (i j : nat) :
  parser_inv w →
  parse_state (parse_info (ancs_c w)) = ATTR_DATA →
  parse_iter w h i = Ok (w', j) → ram_kept w w'.
Proof.
  intros [Hok Hinv] Hst. unfold parse_iter. rewrite Hst. unfold attr_data_parse.
  rewrite Hst in Hinv. destruct Hinv as (l & e & Hloc & Hs & Hi & Him).
  rewrite (p_attr_list_at_located _ l e Hloc). cbn [mbind res_bind].
  replace (_ && _) with true by (symmetry; apply andb_true_intro; split; apply Z.ltb_lt; lia).
  destruct (store_attr_data w _ _) as [w1 | t |] eqn:Hst1; cbn [mbind res_bind];
    [| done | done].
  pose proof (store_attr_data_kept w w1 l e (current_attr_index (parse_info (ancs_c w))) _
                Hloc ltac:(lia) Hst1) as Hk1.
  apply store_attr_data_ok in Hst1 as (a & buf & Hpa & Hra & Hlb & ->).
  set (i0 := current_attr_index (parse_info (ancs_c w))) in *.
  set (len := attr_len (attr (evt (ancs_c w)))) in *.
  set (w1 := set_ancs_c _ (set_ram _ w)).
  assert (Hloc1 : located (ancs_c w1) l e) by (by apply (located_same (ancs_c w))).
  assert (Hidx1 : current_attr_index (parse_info (ancs_c w1)) = i0 + 1) by done.
  assert (Hlen1 : attr_len (attr (evt (ancs_c w1))) = len) by done.
  assert (Hn1 : ancs_notif_attr_list (ancs_c w1) = ancs_notif_attr_list (ancs_c w)) by done.
  assert (Ha1 : ancs_app_attr_list (ancs_c w1) = ancs_app_attr_list (ancs_c w)) by done.
  assert (Hk1' : ram_kept w w1) by exact Hk1.
  clearbody w1. clear Hk1.
  rewrite (p_attr_list_at_located _ l e Hloc1). cbn [mbind res_bind].
  rewrite Hidx1, Hlen1.
  assert (Hfin : ∀ s w2 r, ram w2 = ram w1 →
            Ok (set_ancs_c (set_parse_info (set_parse_state s)) w2, r) = Ok (w', j) →
            ram_kept w w').
  { intros s w2 r Hr [= <- _]. intros a' k Hb. cbn [set_ancs_c ram]. rewrite Hr.
    by apply Hk1'. }
  destruct ((i0 + 1 =? len) || (i0 + 1 =? list_attr_len e - 1)) eqn:Hc;
    [| cbn [mbind res_bind]; by apply Hfin].
  rewrite (attr_is_requested_located _ l e Hloc1). cbn [mbind res_bind].
  assert (Hend : ∀ w2, located (ancs_c w2) l e → ram_kept w w2 →
            (if current_attr_index (parse_info (ancs_c w2)) <? attr_len (attr (evt (ancs_c w2)))
             then Ok (ATTR_SKIP, w2, S i)
             else
               req ← attr_is_requested (ancs_c w2) (attr (evt (ancs_c w2)));
               let w := if req : bool then deliver_evt w2 else w2 in
               if all_req_attrs_parsed (ancs_c w) then Ok (DONE, w, S i)
               else Ok (ATTR_ID, w, S i))
            ≫= (λ '(s, w0, index),
                  Ok (set_ancs_c (set_parse_info (set_parse_state s)) w0, index))
            = Ok (w', j) → ram_kept w w').
  { intros w2 Hloc2 Hk2. rewrite (attr_is_requested_located _ l e Hloc2).
    cbn [mbind res_bind].
    destruct (_ <? _); [| destruct (get e); destruct (all_req_attrs_parsed _)];
      cbn [mbind res_bind]; intros [= <- _]; intros a' k Hb; cbn [set_ancs_c ram deliver_evt evt_handler];
      by apply Hk2. }
  destruct (get e) eqn:Hget; cbn [mbind res_bind]; [| by apply Hend].
  destruct (store_attr_data w1 _ _) as [w2 | t |] eqn:Hst2; cbn [mbind res_bind];
    [| done | done].
  apply Hend.
  - apply store_attr_data_ok in Hst2 as (a' & buf' & _ & _ & _ & ->). done.
  - apply (ram_kept_trans w w1 w2); try done.
    apply (store_attr_data_kept w1 w2 l e (i0 + 1) 0 Hloc1); [| done].
    apply orb_prop in Hc as [Hc | Hc]; apply Z.eqb_eq in Hc; lia.
Qed.

Lemma parse_iter_kept (w w' : world) (h : hvx) (i j : nat) :
  parser_inv w → parse_iter w h i = Ok (w', j) → ram_kept w w'.
Proof.
  intros Hinv Hiter.
  destruct (decide (parse_state (parse_info (ancs_c w)) = ATTR_DATA)) as [Hst | Hst].
  - by eapply parse_iter_attr_data_kept.
  - apply ram_kept_same. by eapply parse_iter_ram_same.
Qed.

Lemma parse_loop_kept (fuel : nat) (h : hvx) :
  ∀ (w w' : world) (i : nat),
    parser_inv w → parse_loop fuel w h i = Ok w' →
    parser_inv w' ∧ ram_kept w w'
    ∧ ancs_notif_attr_list (ancs_c w') = ancs_notif_attr_list (ancs_c w)
    ∧ ancs_app_attr_list (ancs_c w') = ancs_app_attr_list (ancs_c w).
Proof.
  induction fuel as [| fuel IH]; intros w w' i Hinv; cbn [parse_loop];
    (destruct (decide _) as [Hi |];
     [| intros [= <-]; split; [done |]; split; [by apply ram_kept_same | done]]);
    [done |].
  pose proof (parse_iter_post w h i Hinv Hi) as Hpost.
  destruct (parse_iter w h i) as [[w1 j] | |] eqn:Hiter; cbn [mbind res_bind];
    [| done | done].
  destruct Hpost as (_ & Hinv1 & Hn1 & Ha1 & _).
  intros Hrest. destruct (IH _ _ _ Hinv1 Hrest) as (Hinv' & Hk & Hn & Ha).
  split; [done |]. split; [| split; congruence].
  apply (ram_kept_trans w w1 w'); try done. by eapply parse_iter_kept.
Qed.

Lemma on_received_ds_all_kept (fuel : nat) (hs : list hvx) :
  ∀ (w w' : world),
    parser_inv w → on_received_ds_all fuel w hs = Ok w' →
    parser_inv w' ∧ ram_kept w w'
    ∧ ancs_notif_attr_list (ancs_c w') = ancs_notif_attr_list (ancs_c w)
    ∧ ancs_app_attr_list (ancs_c w') = ancs_app_attr_list (ancs_c w).
Proof.
  induction hs as [| h hs IH]; intros w w' Hinv; cbn [on_received_ds_all].
  - intros [= <-]. split; [done |]. split; [by apply ram_kept_same | done].
  - unfold on_received_ds, ancs_parse_get_attrs_response.
    destruct (parse_loop fuel w h 0) as [w1 | |] eqn:Hloop; cbn [mbind res_bind];
      [| done | done].
    intros Hrest.
    destruct (parse_loop_kept _ _ _ _ _ Hinv Hloop) as (Hinv1 & Hk1 & Hn1 & Ha1).
    destruct (IH _ _ Hinv1 Hrest) as (Hinv' & Hk & Hn & Ha).
    split; [done |]. split; [| split; congruence].
    by apply (ram_kept_trans w w1 w').
Qed.

(** X4: the parser stores attribute data only below the registered length
    of the entry it is receiving.  In a session whose entries have a
    length of at least 2 and a buffer that long, when the parser has
    handled what arrived on the Data Source without an access outside an
    object (its run is [Ok]; a store past the end of [evt.app_id] is such
    an access, and where it lands is not defined), a byte of a caller's
    buffer at an offset at or after the registered length of every entry
    that points to that buffer has kept its value, and a buffer no entry
    points to has not been written at all. *)
Theorem ds_stores_within_registered_length (fuel : nat) (w w' : world)
    (hs : list hvx) (a k : nat) :
  tables_ok w = true →
  parse_state (parse_info (ancs_c w)) = COMMAND_ID →
  on_received_ds_all fuel w hs = Ok w' →
  beyond (ancs_c w) a k = true →
  byte_at (ram w') a k = byte_at (ram w) a k.
Proof.
  intros Hok Hst Hrun Hb.
  assert (Hinv : parser_inv w) by (split; [done | by rewrite Hst]).
  destruct (on_received_ds_all_kept fuel hs w w' Hinv Hrun) as (_ & Hk & _).
  by apply Hk.
Qed.

Lemma ds_stores_within_registered_length_witness :
  let w := sample_title_registered 4 in
  let w' := received (on_received_ds 16 w
                        (hvx_of [0; 1; 2; 3; 4; 1; 8; 0; 110; 82; 70; 53; 50; 32; 68; 75])) w in
  ram w' !! 1%nat = Some ([110; 82; 70; 0] ++ replicate 28 65)
  ∧ byte_at (ram w') 1 4 = byte_at (ram w) 1 4.
Proof.
  cbv zeta. split; [vm_compute; reflexivity |].
  apply (ds_stores_within_registered_length 16 (sample_title_registered 4) _
           [hvx_of [0; 1; 2; 3; 4; 1; 8; 0; 110; 82; 70; 53; 50; 32; 68; 75]]);
    vm_compute; reflexivity.
Defined.

Lemma store_attr_data_budget (w w' : world) (i v : Z) :
  store_attr_data w i v = Ok w' →
  ancs_c w' = ancs_c w ∧ sink w' = sink w.
Proof.
  intros H. by apply store_attr_data_ok in H as (a & buf & _ & _ & _ & ->).
Qed.

Ltac budget_cases H :=
  repeat first
    [ progress cbn [mbind res_bind] in H
    | progress simplify_eq
    | match type of H with
      | context [mbind _ (store_attr_data ?w ?i ?v)] =>
        let Hs := fresh in
        destruct (store_attr_data w i v) eqn:Hs;
        [apply store_attr_data_ok in Hs as (? & ? & _ & _ & _ & ->) | |]
      | context [mbind _ ?m] =>
        lazymatch m with
        | Ok _ => fail
        | Trap _ => fail
        | Spin => fail
        | context [mbind] => fail
        | context [match _ with _ => _ end] => fail
        | _ => destruct m eqn:?
        end
      end
    | case_match
    | done ].

Ltac budget_done :=
  unfold ds_budget, pending, attr_is_requested, all_req_attrs_parsed,
    p_attr_list_at, deliver_evt, evt_handler in *;
  cbn in *;
  repeat match goal with
    | H : (_ =? _) = false |- _ => apply Z.eqb_neq in H
    | H : (_ =? _) = true |- _ => apply Z.eqb_eq in H
    | H : (_ <? _) = false |- _ => apply Z.ltb_ge in H
    | H : (_ <? _) = true |- _ => apply Z.ltb_lt in H
    end;
  repeat first
    [ progress simplify_eq
    | match goal with l : attr_list_sel |- _ => destruct l; cbn in * end
    | case_match; cbn in * ];
  rewrite ?length_app; cbn;
  split; lia.

Lemma parse_iter_budget (w w' : world) (h : hvx) (i j : nat) :
  0 ≤ expected_number_of_attrs (parse_info (ancs_c w)) →
  parse_iter w h i = Ok (w', j) →
  ds_budget w' = ds_budget w
  ∧ 0 ≤ expected_number_of_attrs (parse_info (ancs_c w')).
Proof.
  intros Hexp. unfold parse_iter.
  destruct (parse_state (parse_info (ancs_c w))) eqn:Hst.
  - unfold command_id_parse. intros H. budget_cases H; budget_done.
  - unfold notif_uid_parse. intros H. budget_cases H; budget_done.
  - unfold app_id_parse. intros H. budget_cases H; budget_done.
  - unfold attr_id_parse. intros H. unfold attr_is_requested in H at 1.
    budget_cases H; budget_done.
  - unfold attr_len1_parse. intros H. budget_cases H; budget_done.
  - unfold attr_len2_parse. intros H. unfold attr_is_requested in H at 1.
    budget_cases H; budget_done.
  - unfold attr_data_parse. intros H. unfold attr_is_requested in H.
    budget_cases H; budget_done.
  - unfold attr_skip. intros H. unfold attr_is_requested in H at 1.
    budget_cases H; budget_done.
  - intros [= <- _]. done.
Qed.

Lemma parse_iter_sink (w w' : world) (h : hvx) (i j : nat) :
  parse_iter w h i = Ok (w', j) → ∃ evs, sink w' = sink w ++ evs.
Proof.
  unfold parse_iter.
  destruct (parse_state (parse_info (ancs_c w))) eqn:Hst.
  - unfold command_id_parse. intros H. budget_cases H; by exists []; rewrite app_nil_r.
  - unfold notif_uid_parse. intros H. budget_cases H; by exists []; rewrite app_nil_r.
  - unfold app_id_parse. intros H. budget_cases H; by exists []; rewrite app_nil_r.
  - unfold attr_id_parse, attr_is_requested. intros H.
    budget_cases H; by exists []; rewrite app_nil_r.
  - unfold attr_len1_parse. intros H. budget_cases H; by exists []; rewrite app_nil_r.
  - unfold attr_len2_parse, attr_is_requested. intros H.
    budget_cases H; first [by exists []; rewrite app_nil_r | by eexists [_]].
  - unfold attr_data_parse, attr_is_requested. intros H.
    budget_cases H; first [by exists []; rewrite app_nil_r | by eexists [_]].
  - unfold attr_skip, attr_is_requested. intros H.
    budget_cases H; first [by exists []; rewrite app_nil_r | by eexists [_]].
  - intros [= <- _]. by exists []; rewrite app_nil_r.
Qed.

Lemma parse_loop_budget (fuel : nat) (h : hvx) :
  ∀ (w w' : world) (i : nat),
    0 ≤ expected_number_of_attrs (parse_info (ancs_c w)) →
    parse_loop fuel w h i = Ok w' →
    ds_budget w' = ds_budget w
    ∧ 0 ≤ expected_number_of_attrs (parse_info (ancs_c w'))
    ∧ ∃ evs, sink w' = sink w ++ evs.
Proof.
  induction fuel as [| fuel IH]; intros w w' i Hexp; cbn [parse_loop];
    (destruct (decide _) as [Hi |];
     [| intros [= <-]; split; [done |]; split; [done |]; by exists []; rewrite app_nil_r]);
    [done |].
  destruct (parse_iter w h i) as [[w1 j] | |] eqn:Hiter; cbn [mbind res_bind];
    [| done | done].
  intros Hrest.
  destruct (parse_iter_budget _ _ _ _ _ Hexp Hiter) as [Hb1 Hexp1].
  destruct (parse_iter_sink _ _ _ _ _ Hiter) as [evs1 Hs1].
  destruct (IH _ _ _ Hexp1 Hrest) as (Hb & Hexp' & evs & Hs).
  split; [congruence |]. split; [done |].
  exists (evs1 ++ evs). by rewrite Hs, Hs1, app_assoc.
Qed.

Lemma on_received_ds_all_budget (fuel : nat) (hs : list hvx) :
  ∀ (w w' : world),
    0 ≤ expected_number_of_attrs (parse_info (ancs_c w)) →
    on_received_ds_all fuel w hs = Ok w' →
    ds_budget w' = ds_budget w
    ∧ 0 ≤ expected_number_of_attrs (parse_info (ancs_c w'))
    ∧ ∃ evs, sink w' = sink w ++ evs.
Proof.
  induction hs as [| h hs IH]; intros w w' Hexp; cbn [on_received_ds_all].
  - intros [= <-]. split; [done |]. split; [done |]. by exists []; rewrite app_nil_r.
  - unfold on_received_ds, ancs_parse_get_attrs_response.
    destruct (parse_loop fuel w h 0) as [w1 | |] eqn:Hloop; cbn [mbind res_bind];
      [| done | done].
    intros Hrest.
    destruct (parse_loop_budget _ _ _ _ _ Hexp Hloop) as (Hb1 & Hexp1 & evs1 & Hs1).
    destruct (IH _ _ Hexp1 Hrest) as (Hb & Hexp' & evs & Hs).
    split; [congruence |]. split; [done |].
    exists (evs1 ++ evs). by rewrite Hs, Hs1, app_assoc.
Qed.

(** X5: the parser calls the handler at most as many times as attributes
    are expected.  From the state a request leaves (COMMAND_ID), when the
    parser has handled what arrived on the Data Source and has come back
    from it without an access outside an object (its run is [Ok]), the
    calls made, the attributes still expected and the call owed for the
    attribute being received add up to the number of attributes the
    request announced. *)
Theorem ds_events_at_most_expected (fuel : nat) (w w' : world) (hs : list hvx) :
  0 ≤ expected_number_of_attrs (parse_info (ancs_c w)) →
  parse_state (parse_info (ancs_c w)) = COMMAND_ID →
  on_received_ds_all fuel w hs = Ok w' →
  ∃ evs, sink w' = sink w ++ evs
         ∧ Z.of_nat (length evs)
           + expected_number_of_attrs (parse_info (ancs_c w')) + pending (ancs_c w')
           = expected_number_of_attrs (parse_info (ancs_c w))
         ∧ 0 ≤ expected_number_of_attrs (parse_info (ancs_c w'))
         ∧ 0 ≤ pending (ancs_c w')
         ∧ (Z.of_nat (length evs) ≤ expected_number_of_attrs (parse_info (ancs_c w))).
Proof.
  intros Hexp Hst Hrun.
  destruct (on_received_ds_all_budget fuel hs w w' Hexp Hrun) as (Hb & Hexp' & evs & Hs).
  exists evs. split; [done |].
  unfold ds_budget in Hb. rewrite Hs, length_app in Hb.
  assert (Hp0 : pending (ancs_c w) = 0) by (unfold pending; by rewrite Hst).
  assert (Hp : 0 ≤ pending (ancs_c w')) by (unfold pending; repeat case_match; lia).
  repeat split; try done; lia.
Qed.

Lemma ds_events_at_most_expected_witness :
  let w := sample_title_message_appid in
  let w' := received (on_received_ds_all 16 w
                        [hvx_of [0; 1; 2; 3; 4; 1; 3; 0; 110; 82; 70; 3; 2; 0; 53; 50];
                         hvx_of [0; 3; 0; 99]]) w in
  ∃ evs, sink w' = sink w ++ evs
         ∧ Z.of_nat (length evs)
           + expected_number_of_attrs (parse_info (ancs_c w')) + pending (ancs_c w')
           = expected_number_of_attrs (parse_info (ancs_c w))
         ∧ 0 ≤ expected_number_of_attrs (parse_info (ancs_c w'))
         ∧ 0 ≤ pending (ancs_c w')
         ∧ (Z.of_nat (length evs) ≤ expected_number_of_attrs (parse_info (ancs_c w))).
Proof.
  cbv zeta.
  apply (ds_events_at_most_expected 16 sample_title_message_appid _
           [hvx_of [0; 1; 2; 3; 4; 1; 3; 0; 110; 82; 70; 3; 2; 0; 53; 50];
            hvx_of [0; 3; 0; 99]]); [vm_compute; discriminate | reflexivity |].
  vm_compute. reflexivity.
Defined.

Section app_wire.

Variable W : nat.
Variable p_app_id : list Z.
Variable app_id_len : nat.
Hypothesis p_terminated : p_app_id !! app_id_len = Some 0.

Lemma app_id_phase_wire (n : nat) (c : bt_gatt_ancs_c) (ab : nat) :
  ∀ (fuel : nat) (d : list Z) (ix cnt : nat),
    length d = W → (cnt + n = app_id_len)%nat → (ix + n < W)%nat → (n < fuel)%nat →
    app_attr_get_loop W fuel APP_ATTR_APP_ID
      {| enc_c := set_cp_data d c; index := ix; attr_bytes_encoded_count := ab;
         app_id_bytes_encoded_count := cnt |} p_app_id app_id_len
    = app_attr_get_loop W (fuel - S n) APP_ATTR_ATTR_ID
        {| enc_c := set_cp_data (poke d ix (take n (drop cnt p_app_id) ++ [0])) c;
           index := ix + S n; attr_bytes_encoded_count := ab;
           app_id_bytes_encoded_count := S app_id_len |} p_app_id app_id_len.
Proof.
  induction n as [| n IH]; intros fuel d ix cnt HW Hn Hix Hfuel.
  - destruct fuel as [| fuel]; [lia |]. cbn [app_attr_get_loop].
    unfold app_attr_encode_app_id. cbn [app_id_bytes_encoded_count index enc_c].
    rewrite decide_True by lia. rewrite decide_False by lia.
    cbn [cp_data set_cp_data].
    rewrite store_poke by lia. cbn [mbind res_bind app_id_bytes_encoded_count].
    rewrite decide_False by lia. cbn [mbind res_bind app_id_bytes_encoded_count].
    rewrite decide_True by lia. cbn [mbind res_bind].
    replace (S fuel - 1)%nat with fuel by lia.
    replace (ix + 1)%nat with (S ix) by lia.
    replace (S cnt) with (S app_id_len) by lia.
    reflexivity.
  - destruct fuel as [| fuel]; [lia |]. cbn [app_attr_get_loop].
    unfold app_attr_encode_app_id. cbn [app_id_bytes_encoded_count index enc_c].
    rewrite decide_False by lia. cbn [mbind res_bind app_id_bytes_encoded_count index enc_c].
    rewrite decide_True by lia. rewrite decide_False by lia.
    destruct (lookup_lt_is_Some_2 p_app_id cnt) as [b Hb].
    { apply lookup_lt_Some in p_terminated. lia. }
    rewrite Hb. cbn [cp_data set_cp_data]. rewrite store_poke by lia.
    cbn [mbind res_bind app_id_bytes_encoded_count]. rewrite decide_False by lia.
    cbn [mbind res_bind].
    change (set_cp_data (poke d ix [b]) (set_cp_data d c))
      with (set_cp_data (poke d ix [b]) c).
    rewrite IH; [| rewrite poke_length; simpl; lia | lia | lia | lia].
    replace (S ix) with (ix + length [b])%nat by (simpl; lia).
    rewrite poke_poke by (simpl; lia).
    rewrite (drop_S _ _ _ Hb). cbn [take Datatypes.app length].
    replace (S fuel - S (S n))%nat with (fuel - S n)%nat by lia.
    replace (ix + 1 + S n)%nat with (ix + S (S n))%nat by lia.
    reflexivity.
Qed.

End app_wire.

Lemma attr_id_phase_wire (W fuel : nat) (c : bt_gatt_ancs_c) (d : list Z) (ix cnt : nat)
    (p : list Z) (len : nat) (e0 : bt_gatt_ancs_c_attr_list_t) :
  ancs_app_attr_list c = [e0] → length d = W →
  (ix + (if get e0 then 1 else 0) ≤ W)%nat → (0 < fuel)%nat →
  app_attr_get_loop W fuel APP_ATTR_ATTR_ID
    {| enc_c := set_cp_data d c; index := ix; attr_bytes_encoded_count := 0;
       app_id_bytes_encoded_count := cnt |} p len
  = Ok (APP_ATTR_DONE,
        {| enc_c :=
             set_number_of_requested_attr
               (number_of_requested_attr c + (if get e0 then 1 else 0))
               (set_cp_data (poke d ix (app_attr_ids_wire [e0])) c);
           index := ix + length (app_attr_ids_wire [e0]);
           attr_bytes_encoded_count := 1;
           app_id_bytes_encoded_count := cnt |}).
Proof.
  intros Hlist HW Hix Hfuel.
  destruct fuel as [| fuel]; [lia |]. cbn [app_attr_get_loop].
  unfold app_attr_encode_attr_id, app_attr_is_requested.
  cbn [attr_bytes_encoded_count enc_c index]. rewrite decide_True by done.
  replace (ancs_app_attr_list (set_cp_data d c)) with [e0] by (by rewrite <- Hlist).
  cbn [lookup list_lookup mbind res_bind].
  unfold app_attr_ids_wire. cbn [imap concat Datatypes.app].
  destruct (get e0).
  - rewrite decide_False by lia. cbn [cp_data set_cp_data].
    rewrite store_poke by lia. cbn [mbind res_bind attr_bytes_encoded_count].
    rewrite decide_True by done. cbn [mbind res_bind].
    destruct fuel; cbn; replace (ix + 1)%nat with (S ix) by lia; reflexivity.
  - cbn [mbind res_bind attr_bytes_encoded_count].
    rewrite decide_True by done. cbn [mbind res_bind].
    rewrite poke_nil.
    destruct fuel; cbn [app_attr_get_loop]; do 2 f_equal.
    all: destruct c; cbn; rewrite Z.add_0_r, Nat.add_0_r; reflexivity.
Qed.

Lemma uint16_le (n : nat) : (uint16 n ≤ n)%nat.
Proof.
  unfold uint16. pose proof (Z.mod_pos_bound (Z.of_nat n) 65536 ltac:(lia)).
  pose proof (Z.mod_le (Z.of_nat n) 65536 ltac:(lia) ltac:(lia)). lia.
Qed.

(** The dispatcher of "get app attributes" when the semaphore is free and
    the command fits the buffer. *)
Lemma app_attr_request_encodes (W fuel : nat) (w : world) (p_app_id : list Z)
    (len : nat) (timeout : k_timeout_t) (e0 : bt_gatt_ancs_c_attr_list_t) :
  length (cp_data (ancs_c w)) = W →
  ancs_app_attr_list (ancs_c w) = [e0] →
  cp_write_params_sem (ancs_c w) = 1 →
  (1 ≤ len)%nat → p_app_id !! len = Some 0 →
  (length (get_app_attrs_wire p_app_id len [e0]) ≤ W)%nat →
  (len + 3 ≤ fuel)%nat →
  let wire := get_app_attrs_wire p_app_id len [e0] in
  ∃ w', bt_gatt_ancs_c_app_attr_request W fuel w p_app_id len timeout
        = Ok (write_ret (att w), w')
        ∧ take (length wire) (cp_data (ancs_c w')) = wire
        ∧ expected_number_of_attrs (parse_info (ancs_c w'))
          = requested_count (ancs_app_attr_list (ancs_c w))
        ∧ parse_state (parse_info (ancs_c w')) = COMMAND_ID
        ∧ sink w' = sink w
        ∧ (write_ret (att w) = 0 →
           written (att w') = written (att w) ++ [take (uint16 (length wire)) wire]
           ∧ cp_write_params_sem (ancs_c w') = 0)
        ∧ (write_ret (att w) ≠ 0 →
           att w' = att w ∧ cp_write_params_sem (ancs_c w') = 1)
        ∧ (Z.of_nat (length wire) < 65536 → take (uint16 (length wire)) wire = wire).
Proof.
  intros HW Hlist Hsem Hlen Hp Hfit Hfuel wire.
  assert (Hplen : (len < length p_app_id)%nat) by (by eapply lookup_lt_Some).
  assert (Hids : length (app_attr_ids_wire [e0]) = if get e0 then 1%nat else 0%nat).
  { unfold app_attr_ids_wire. cbn. by destruct (get e0). }
  assert (Hwlen : length wire = (1 + len + 1 + length (app_attr_ids_wire [e0]))%nat).
  { unfold wire, get_app_attrs_wire. cbn [length].
    rewrite !length_app, length_take. cbn [length]. lia. }
  unfold wire in Hwlen. rewrite Hwlen in Hfit.
  unfold bt_gatt_ancs_c_app_attr_request, ancs_c_app_attr_request.
  rewrite decide_False by lia. rewrite Hp. cbn [Z.eqb negb].
  unfold app_attr_get. cbn [set_ancs_c ancs_c set_parse_info cp_write_params_sem].
  rewrite Hsem. cbn [k_sem_take Z.ltb Z.compare mbind res_bind Z.eqb negb].
  set (c := set_number_of_requested_attr 0 _).
  assert (Hnb : ∃ n, app_attr_nb_to_get c = Ok n).
  { unfold app_attr_nb_to_get.
    replace (ancs_app_attr_list c) with [e0] by (by rewrite <- Hlist).
    cbn [length seq app_attr_nb_to_get_loop]. unfold app_attr_is_requested.
    replace (ancs_app_attr_list c) with [e0] by (by rewrite <- Hlist).
    cbn. by eexists. }
  destruct Hnb as [n ->]. cbn [mbind res_bind].
  destruct fuel as [| fuel]; [lia |]. cbn [app_attr_get_loop].
  unfold app_attr_encode_cmd_id. cbn [enc_c index].
  set (d0 := cp_data c).
  assert (Hd0 : length d0 = W) by done.
  clearbody d0.
  rewrite store_poke by lia. cbn [mbind res_bind].
  rewrite (app_id_phase_wire W p_app_id len Hp len c 0 fuel (poke d0 0 [_]) 1 0);
    [| rewrite poke_length; simpl; lia | lia | lia | lia].
  rewrite drop_0.
  rewrite (attr_id_phase_wire W _ c _ _ _ p_app_id len e0);
    [| by rewrite <- Hlist
     | rewrite !poke_length; rewrite ?length_app, ?length_take, ?poke_length;
         simpl; lia
     | destruct (get e0); lia | lia].
  cbn [mbind res_bind enc_c index].
  change (poke d0 0 [BT_GATT_ANCS_COMMAND_ID_GET_APP_ATTRIBUTES])
    with (poke d0 0 [1]).
  assert (Hbuf : poke (poke (poke d0 0 [1]) 1 (take len p_app_id ++ [0]))
                   (1 + S len) (app_attr_ids_wire [e0]) = poke d0 0 wire).
  { pose proof (poke_poke d0 0 [1] (take len p_app_id ++ [0]) ltac:(simpl; lia)) as H1.
    cbn [length Nat.add] in H1. rewrite H1.
    pose proof (poke_poke d0 0 ([1] ++ take len p_app_id ++ [0]) (app_attr_ids_wire [e0])) as H2.
    rewrite !length_app, length_take in H2. cbn [length] in H2.
    replace (0 + (1 + (len `min` length p_app_id + 1)))%nat with (1 + S len)%nat in H2 by lia.
    rewrite H2 by lia. unfold wire, get_app_attrs_wire. cbn. by rewrite <- !app_assoc. }
  rewrite Hbuf.
  replace (1 + S len + length (app_attr_ids_wire [e0]))%nat with (0 + length wire)%nat
    by (unfold wire; rewrite Hwlen; lia).
  assert (Htake : take (0 + length wire) (poke d0 0 wire) = wire).
  { rewrite poke_take by lia. by rewrite take_0. }
  assert (Hsent : take (uint16 (0 + length wire)) (poke d0 0 wire)
                  = take (uint16 (length wire)) wire).
  { replace (uint16 (0 + length wire))
      with (uint16 (length wire) `min` (0 + length wire))%nat
      by (pose proof (uint16_le (length wire)); cbn [Nat.add]; lia).
    rewrite <- take_take. by rewrite Htake. }
  assert (Hsmall : Z.of_nat (length wire) < 65536 → take (uint16 (length wire)) wire = wire).
  { intros Hs. rewrite uint16_small by done. apply firstn_all. }
  unfold bt_gatt_ancs_c_cp_write, bt_gatt_write. cbv zeta.
  cbn [set_ancs_c ancs_c att cp_data set_number_of_requested_attr set_cp_data].
  rewrite Hsent.
  assert (Hreq : requested_count (ancs_app_attr_list (ancs_c w))
                 = if get e0 then 1 else 0).
  { rewrite Hlist. unfold requested_count. cbn. by destruct (get e0). }
  destruct (write_ret (att w) =? 0) eqn:Hw.
  - apply Z.eqb_eq in Hw. cbn [Z.eqb]. rewrite Hw.
    eexists. split; [reflexivity |]. cbn. rewrite Hreq.
    repeat split; try done.
  - rewrite Hw. apply Z.eqb_neq in Hw.
    eexists. split; [reflexivity |]. cbn. rewrite Hreq.
    repeat split; try done.
Qed.

(** X6: the "get app attributes" command.  When the semaphore is free and
    the command fits the Control Point buffer, the dispatcher encodes 01, the
    [len] bytes of the app identifier, 00, and the id of the app attribute
    if it is requested; it hands these bytes to the GATT write, all of them
    when they are fewer than 65536 (the length parameter of
    [bt_gatt_ancs_c_cp_write] is a [uint16_t]: it is the length modulo
    65536 that is handed over), returns what the write returns, sets the
    expected number of attributes to the number of requested entries and
    the parser to COMMAND_ID.  The semaphore stays taken when the write was
    accepted and is given back when it was not. *)
Theorem app_attr_request_wire (W fuel : nat) (w : world) (p_app_id : list Z)
    (len : nat) (timeout : k_timeout_t) (e0 : bt_gatt_ancs_c_attr_list_t) :
  length (cp_data (ancs_c w)) = W →
  ancs_app_attr_list (ancs_c w) = [e0] →
  cp_write_params_sem (ancs_c w) = 1 →
  (1 ≤ len)%nat → p_app_id !! len = Some 0 →
  (length (get_app_attrs_wire p_app_id len [e0]) ≤ W)%nat →
  (len + 3 ≤ fuel)%nat →
  let wire := get_app_attrs_wire p_app_id len [e0] in
  ∃ w', bt_gatt_ancs_c_app_attr_request W fuel w p_app_id len timeout
        = Ok (write_ret (att w), w')
        ∧ take (length wire) (cp_data (ancs_c w')) = wire
        ∧ expected_number_of_attrs (parse_info (ancs_c w'))
          = requested_count (ancs_app_attr_list (ancs_c w))
        ∧ parse_state (parse_info (ancs_c w')) = COMMAND_ID
        ∧ sink w' = sink w
        ∧ (write_ret (att w) = 0 →
           written (att w') = written (att w) ++ [take (uint16 (length wire)) wire]
           ∧ cp_write_params_sem (ancs_c w') = 0)
        ∧ (write_ret (att w) ≠ 0 →
           att w' = att w ∧ cp_write_params_sem (ancs_c w') = 1)
        ∧ (Z.of_nat (length wire) < 65536 → take (uint16 (length wire)) wire = wire).
Proof. apply app_attr_request_encodes. Qed.

Lemma app_attr_request_wire_witness :
  let w := sample_world 32 [] 0 in
  let wire := get_app_attrs_wire (mail_app_id ++ [0]) 20
                [{| get := true; list_attr_len := 32; list_p_attr_data := Some 8%nat |}] in
  wire = [1; 99; 111; 109; 46; 97; 112; 112; 108; 101; 46;
          109; 111; 98; 105; 108; 101; 109; 97; 105; 108; 0; 0]
  ∧ ∃ w', bt_gatt_ancs_c_app_attr_request 32 64 w (mail_app_id ++ [0]) 20 K_NO_WAIT
          = Ok (write_ret (att w), w')
          ∧ take (length wire) (cp_data (ancs_c w')) = wire
          ∧ expected_number_of_attrs (parse_info (ancs_c w'))
            = requested_count (ancs_app_attr_list (ancs_c w))
          ∧ parse_state (parse_info (ancs_c w')) = COMMAND_ID
          ∧ sink w' = sink w
          ∧ (write_ret (att w) = 0 →
             written (att w') = written (att w) ++ [take (uint16 (length wire)) wire]
             ∧ cp_write_params_sem (ancs_c w') = 0)
          ∧ (write_ret (att w) ≠ 0 →
             att w' = att w ∧ cp_write_params_sem (ancs_c w') = 1)
          ∧ (Z.of_nat (length wire) < 65536 → take (uint16 (length wire)) wire = wire).
Proof.
  cbv zeta. split; [reflexivity |].
  apply (app_attr_request_wire 32 64 (sample_world 32 [] 0) (mail_app_id ++ [0]) 20
           K_NO_WAIT
           {| get := true; list_attr_len := 32; list_p_attr_data := Some 8%nat |});
    [reflexivity | reflexivity | reflexivity | lia | reflexivity | vm_compute; lia | lia].
Defined.

(** ** A Control Point buffer too short for the command *)

Lemma store_cases (d : list Z) (i : nat) (v : Z) :
  ((i < length d)%nat ∧ ∃ d', store d i v = Ok d' ∧ length d' = length d)
  ∨ ((length d ≤ i)%nat ∧ store d i v = Trap OutOfBounds).
Proof.
  unfold store. destruct (decide _); [left | right]; (split; [lia |]).
  - eexists. split; [done |]. apply length_insert.
  - done.
Qed.

Lemma sys_put_le16_trap (v : Z) (d : list Z) (i : nat) :
  (length d < i + 2)%nat → sys_put_le16 v d i = Trap OutOfBounds.
Proof.
  intros H. unfold sys_put_le16.
  destruct (store_cases d i (Z.land v 255)) as [(H1 & d1 & -> & L1) | (H1 & ->)]; [| done].
  cbn [mbind res_bind]. apply store_trap. lia.
Qed.

Lemma sys_put_le16_length (v : Z) (d d' : list Z) (i : nat) :
  sys_put_le16 v d i = Ok d' → length d' = length d.
Proof.
  unfold sys_put_le16.
  destruct (store d i _) as [d1 | |] eqn:H1; cbn [mbind res_bind]; [| done | done].
  intros H2. apply store_length in H1, H2. congruence.
Qed.

Lemma sys_put_le32_trap (v : Z) (d : list Z) (i : nat) :
  (length d < i + 4)%nat → sys_put_le32 v d i = Trap OutOfBounds.
Proof.
  intros H. unfold sys_put_le32.
  destruct (decide (length d < i + 2)%nat) as [Hs | Hl].
  - by rewrite sys_put_le16_trap.
  - rewrite sys_put_le16_poke by lia. cbn [mbind res_bind].
    apply sys_put_le16_trap. rewrite poke_length; simpl; lia.
Qed.

Lemma get_notif_attrs_body_trap (c : bt_gatt_ancs_c) (d : list Z) (n : Z)
    (attr i : nat) (e : bt_gatt_ancs_c_attr_list_t) :
  ancs_notif_attr_list c !! attr = Some e →
  (i ≤ length d)%nat →
  (length d < i + length (notif_attr_wire attr e))%nat →
  get_notif_attrs_body attr (with_cp c d n, i) = Trap OutOfBounds.
Proof.
  intros He Hi Hlen. unfold get_notif_attrs_body, notif_attr_wire in *.
  cbn [with_cp set_number_of_requested_attr set_cp_data ancs_notif_attr_list cp_data].
  rewrite He. destruct (get e); [| simpl in Hlen; lia].
  destruct (store_cases d i (Z.of_nat attr mod 256)) as [(H1 & d1 & -> & L1) | (H1 & ->)];
    [| done].
  cbn [mbind res_bind].
  assert (Hsel : (Z.of_nat attr =? BT_GATT_ANCS_NOTIF_ATTR_ID_TITLE)
                 || (Z.of_nat attr =? BT_GATT_ANCS_NOTIF_ATTR_ID_SUBTITLE)
                 || (Z.of_nat attr =? BT_GATT_ANCS_NOTIF_ATTR_ID_MESSAGE)
                 = bool_decide (attr = 1 ∨ attr = 2 ∨ attr = 3)%nat).
  { unfold BT_GATT_ANCS_NOTIF_ATTR_ID_TITLE, BT_GATT_ANCS_NOTIF_ATTR_ID_SUBTITLE,
      BT_GATT_ANCS_NOTIF_ATTR_ID_MESSAGE.
    destruct (bool_decide_reflect (attr = 1 ∨ attr = 2 ∨ attr = 3)%nat);
      destruct (Z.eqb_spec (Z.of_nat attr) 1);
      destruct (Z.eqb_spec (Z.of_nat attr) 2);
      destruct (Z.eqb_spec (Z.of_nat attr) 3); simpl; try done; lia. }
  rewrite Hsel. destruct (bool_decide _); simpl in Hlen; [| lia].
  rewrite sys_put_le16_trap by lia. done.
Qed.

Lemma get_notif_attrs_loop_trap (c : bt_gatt_ancs_c) (l : list bt_gatt_ancs_c_attr_list_t) :
  ∀ (s i : nat) (d : list Z) (n : Z),
    (∀ k e, l !! k = Some e → ancs_notif_attr_list c !! (s + k)%nat = Some e) →
    (s + length l ≤ 256)%nat →
    (i ≤ length d)%nat →
    (length d < i + length (notif_attrs_wire s l))%nat →
    get_notif_attrs_loop (seq s (length l)) (with_cp c d n, i) = Trap OutOfBounds.
Proof.
  induction l as [| e l IH]; intros s i d n Hl Hs Hi Hlen.
  - simpl in Hlen. lia.
  - simpl in Hs. cbn [notif_attrs_wire] in Hlen. rewrite length_app in Hlen.
    cbn [length seq get_notif_attrs_loop].
    assert (He : ancs_notif_attr_list c !! s = Some e).
    { specialize (Hl 0%nat e eq_refl). by rewrite Nat.add_0_r in Hl. }
    destruct (decide (i + length (notif_attr_wire s e) ≤ length d)%nat) as [Hfit | Hno].
    + rewrite (get_notif_attrs_body_poke c d n s i e); [| done | lia | done].
      cbn [mbind res_bind]. apply IH.
      * intros k e' Hk. specialize (Hl (S k) e' Hk).
        by replace (S s + k)%nat with (s + S k)%nat by lia.
      * lia.
      * rewrite poke_length by lia. lia.
      * rewrite poke_length by lia. lia.
    + rewrite (get_notif_attrs_body_trap c d n s i e); [done | done | done | lia].
Qed.

(** X7: a Control Point buffer too short for the command.  The encoders of
    "get notification attributes" and of "perform notification action"
    store without looking at the size of the buffer.  With the semaphore
    free and a buffer of fewer bytes than the command has (one for the
    command id, four for the UID, one for each requested attribute and two
    more for each of Title, Subtitle and Message; six for an action), a
    store goes past the end of the buffer.  (The encoder of "get app
    attributes" checks, and gives up.) *)
Theorem cp_buffer_too_short (w : world) (notif : bt_gatt_ancs_c_evt_notif_t)
    (uid action : Z) (timeout : k_timeout_t) :
  cp_write_params_sem (ancs_c w) = 1 →
  length (ancs_notif_attr_list (ancs_c w)) = 8%nat →
  bt_gatt_ancs_verify_notification_format notif = 0 →
  ((length (cp_data (ancs_c w))
    < length (get_notif_attrs_wire (notif_uid notif) (ancs_notif_attr_list (ancs_c w))))%nat →
   bt_gatt_ancs_c_request_attrs w notif timeout = Trap OutOfBounds)
  ∧ ((length (cp_data (ancs_c w)) < 6)%nat →
     bt_gatt_ancs_perform_notif_action w uid action timeout = Trap OutOfBounds).
Proof.
  intros Hsem Htab Hfmt. split.
  - intros Hlen.
    unfold bt_gatt_ancs_c_request_attrs, bt_gatt_ancs_get_notif_attrs, k_sem_take.
    rewrite Hfmt, Hsem.
    cbn [Z.ltb Z.compare mbind res_bind Z.eqb negb].
    cbn [set_number_of_requested_attr set_sem cp_data].
    unfold get_notif_attrs_wire, le32 in Hlen. cbn [length app] in Hlen.
    destruct (store_cases (cp_data (ancs_c w)) 0 BT_GATT_ANCS_COMMAND_ID_GET_NOTIF_ATTRIBUTES)
      as [(H1 & d1 & Hd1 & L1) | (H1 & ->)]; [| done].
    rewrite store_poke in * by lia. injection Hd1 as <-. cbn [mbind res_bind].
    destruct (decide (length (cp_data (ancs_c w)) < 5)%nat) as [Hs | Hl].
    { rewrite sys_put_le32_trap by (rewrite poke_length; simpl; lia). done. }
    rewrite sys_put_le32_poke by (rewrite poke_length; simpl; lia).
    cbn [mbind res_bind].
    rewrite (poke_poke _ 0 [_]) by (simpl; lia).
    match goal with
    | |- context [set_cp_data ?d (set_number_of_requested_attr 0 ?c)] =>
      change (set_cp_data d (set_number_of_requested_attr 0 c)) with (with_cp c d 0)
    end.
    change (Z.to_nat BT_GATT_ANCS_NB_OF_NOTIF_ATTR) with 8%nat.
    rewrite <- Htab.
    rewrite (get_notif_attrs_loop_trap _ (ancs_notif_attr_list (ancs_c w)));
      [done | intros k e Hk; exact Hk | lia | |];
      rewrite poke_length by (simpl; lia); simpl; lia.
  - intros Hlen. unfold bt_gatt_ancs_perform_notif_action, k_sem_take. rewrite Hsem.
    cbn [Z.ltb Z.compare mbind res_bind Z.eqb negb set_ancs_c ancs_c set_sem cp_data].
    unfold encode_notif_action.
    destruct (store_cases (cp_data (ancs_c w)) 0
                BT_GATT_ANCS_COMMAND_ID_GET_PERFORM_NOTIF_ACTION)
      as [(H1 & d1 & -> & L1) | (H1 & ->)]; [| done].
    cbn [mbind res_bind].
    destruct (decide (length d1 < 5)%nat) as [Hs | Hl].
    { by rewrite sys_put_le32_trap by lia. }
    rewrite sys_put_le32_poke by lia. cbn [mbind res_bind].
    rewrite store_trap by (rewrite poke_length; simpl; lia). done.
Qed.

Lemma cp_buffer_too_short_witness :
  let w := sample_world 10 [0; 1; 3; 5; 6; 7]%nat 0 in
  ((length (cp_data (ancs_c w))
    < length (get_notif_attrs_wire (notif_uid sample_notif)
                (ancs_notif_attr_list (ancs_c w))))%nat →
   bt_gatt_ancs_c_request_attrs w sample_notif K_NO_WAIT = Trap OutOfBounds)
  ∧ ((length (cp_data (ancs_c w)) < 6)%nat →
     bt_gatt_ancs_perform_notif_action w 67305985 ACTION_ID_POSITIVE K_NO_WAIT
     = Trap OutOfBounds).
Proof.
  cbv zeta.
  apply (cp_buffer_too_short (sample_world 10 [0; 1; 3; 5; 6; 7]%nat 0) sample_notif
           67305985 ACTION_ID_POSITIVE K_NO_WAIT); reflexivity.
Defined.

(** A buffer of 10 bytes for a command of 15. *)
Lemma request_attrs_past_the_buffer :
  let w := sample_world 10 [0; 1; 3; 5; 6; 7]%nat 0 in
  length (get_notif_attrs_wire (notif_uid sample_notif)
            (ancs_notif_attr_list (ancs_c w))) = 15%nat
  ∧ bt_gatt_ancs_c_request_attrs w sample_notif K_NO_WAIT = Trap OutOfBounds.
Proof. cbv zeta. split; vm_compute; reflexivity. Qed.

(** ** The UID of a notification, from the Notification Source to the
    Control Point *)

(** The dispatcher of "get notification attributes" when the semaphore is
    free and the command fits the buffer. *)
Lemma get_notif_attrs_encodes (w : world) (uid : Z) (timeout : k_timeout_t) :
  let wire := get_notif_attrs_wire uid (ancs_notif_attr_list (ancs_c w)) in
  cp_write_params_sem (ancs_c w) = 1 →
  length (ancs_notif_attr_list (ancs_c w)) = 8%nat →
  (length wire ≤ length (cp_data (ancs_c w)))%nat →
  ∃ w', bt_gatt_ancs_get_notif_attrs w uid timeout = Ok (write_ret (att w), w')
        ∧ (write_ret (att w) = 0 → written (att w') = written (att w) ++ [wire]).
Proof.
  intros wire Hsem Htab Hlen.
  unfold bt_gatt_ancs_get_notif_attrs, k_sem_take. rewrite Hsem.
  cbn [Z.ltb Z.compare mbind res_bind Z.eqb negb].
  cbn [set_number_of_requested_attr set_sem cp_data].
  subst wire. unfold get_notif_attrs_wire in *. simpl length in Hlen.
  rewrite store_poke by lia. cbn [mbind res_bind].
  rewrite sys_put_le32_poke by (rewrite poke_length; simpl; lia).
  cbn [mbind res_bind].
  rewrite (poke_poke _ 0 [_]) by (simpl; lia).
  match goal with
  | |- context [set_cp_data ?d (set_number_of_requested_attr 0 ?c)] =>
    change (set_cp_data d (set_number_of_requested_attr 0 c)) with (with_cp c d 0)
  end.
  change (Z.to_nat BT_GATT_ANCS_NB_OF_NOTIF_ATTR) with 8%nat.
  rewrite <- Htab.
  rewrite (get_notif_attrs_loop_poke _ (ancs_notif_attr_list (ancs_c w)));
    [| intros k e Hk; exact Hk | lia | rewrite poke_length; simpl; lia].
  cbn [mbind res_bind].
  change (1 + 4)%nat
    with (0 + length ([BT_GATT_ANCS_COMMAND_ID_GET_NOTIF_ATTRIBUTES] ++ le32 uid))%nat.
  rewrite poke_poke by (simpl; lia).
  set (wire := ([BT_GATT_ANCS_COMMAND_ID_GET_NOTIF_ATTRIBUTES] ++ le32 uid)
               ++ notif_attrs_wire 0 (ancs_notif_attr_list (ancs_c w))).
  change (0 :: le32 uid ++ notif_attrs_wire 0 (ancs_notif_attr_list (ancs_c w)))
    with wire.
  replace (0 + length ([BT_GATT_ANCS_COMMAND_ID_GET_NOTIF_ATTRIBUTES] ++ le32 uid)
           + length (notif_attrs_wire 0 (ancs_notif_attr_list (ancs_c w))))%nat
    with (length wire) by (subst wire; rewrite !length_app; simpl; lia).
  assert (Hwl : (length wire ≤ length (cp_data (ancs_c w)))%nat) by (subst wire; simpl; lia).
  assert (Htake : take (length wire) (poke (cp_data (ancs_c w)) 0 wire) = wire).
  { change (length wire) with (0 + length wire)%nat. rewrite poke_take by lia. done. }
  assert (Hsmall : Z.of_nat (length wire) < 65536).
  { subst wire. rewrite !length_app.
    pose proof (notif_attrs_wire_length 0 (ancs_notif_attr_list (ancs_c w))).
    simpl length in *. lia. }
  unfold bt_gatt_ancs_c_cp_write, bt_gatt_write. cbv zeta.
  rewrite (uint16_small _ Hsmall).
  cbn [ancs_c set_ancs_c cp_data with_cp set_number_of_requested_attr set_cp_data
       set_parse_info att].
  rewrite Htake.
  destruct (write_ret (att w) =? 0) eqn:E.
  - apply Z.eqb_eq in E. rewrite E. cbn [Z.eqb]. by eexists.
  - rewrite E. eexists. split; [reflexivity |].
    intros Hz. rewrite Hz in E. discriminate.
Qed.

Lemma payload_drop_4 (h : hvx) :
  hvx_data_len h = 8%nat →
  drop 4 (payload h)
  = [p_data_src h 4; p_data_src h 5; p_data_src h 6; p_data_src h 7].
Proof. unfold payload. by intros ->. Qed.

(** X8: the UID of a notification comes back as it arrived.  A Notification
    Source record of 8 bytes with an event id below 3 and a category below
    12 makes the decoder hand a notification to the handler; a request for
    the attributes of that notification, and an action on it, are handed to
    the transport as 00, respectively 02, followed by the four bytes 4 to 7
    of the record, in the order they arrived. *)
Theorem notif_uid_round_trip (w : world) (h : hvx) (action : Z) (timeout : k_timeout_t) :
  hvx_data_len h = 8%nat →
  Forall is_byte (payload h) →
  p_data_src h 0 < BT_GATT_ANCS_NB_OF_EVT_ID →
  p_data_src h 2 < BT_GATT_ANCS_NB_OF_CATEGORY_ID →
  cp_write_params_sem (ancs_c w) = 1 →
  write_ret (att w) = 0 →
  length (ancs_notif_attr_list (ancs_c w)) = 8%nat →
  (6 ≤ length (cp_data (ancs_c w)))%nat →
  (5 + length (notif_attrs_wire 0 (ancs_notif_attr_list (ancs_c w)))
   ≤ length (cp_data (ancs_c w)))%nat →
  let w1 := on_received_ns w h in
  let uid_bytes := drop 4 (payload h) in
  ∃ n, sink w1 = sink w ++ [on_ns BT_GATT_ANCS_C_EVT_NOTIF (Some n)]
       ∧ (∃ w2, bt_gatt_ancs_c_request_attrs w1 n timeout = Ok (0, w2)
                ∧ written (att w2)
                  = written (att w)
                    ++ [0 :: uid_bytes
                          ++ notif_attrs_wire 0 (ancs_notif_attr_list (ancs_c w))])
       ∧ (∃ w2, bt_gatt_ancs_perform_notif_action w1 (notif_uid n) action timeout
                = Ok (0, w2)
                ∧ written (att w2)
                  = written (att w) ++ [2 :: uid_bytes ++ [action mod 256]]).
Proof.
  intros Hlen Hbytes Hev Hcat Hsem Hret Htab H6 Hfit. cbv zeta.
  rewrite (payload_drop_4 h Hlen).
  set (p := p_data_src h).
  assert (Hb : ∀ i, (i < 8)%nat → is_byte (p i))
    by (intros i Hi; apply payload_byte; [done | lia]).
  assert (Huid : notif_uid (notif_of_hvx p) = of_le32 (p 4%nat) (p 5%nat) (p 6%nat) (p 7%nat)).
  { cbn [notif_of_hvx notif_uid]. unfold BT_GATT_ANCS_NOTIF_NOTIF_UID.
    apply (sys_get_le32_bytes p 4); apply Hb; lia. }
  assert (Hle : le32 (notif_uid (notif_of_hvx p)) = [p 4%nat; p 5%nat; p 6%nat; p 7%nat])
    by (rewrite Huid; apply le32_of_le32; apply Hb; lia).
  assert (Hfmt : bt_gatt_ancs_verify_notification_format (notif_of_hvx p) = 0).
  { unfold bt_gatt_ancs_verify_notification_format. cbn [notif_of_hvx evt_id category_id].
    unfold BT_GATT_ANCS_NOTIF_EVT_ID_INDEX, BT_GATT_ANCS_NOTIF_CATEGORY_ID_INDEX.
    destruct (Z.leb_spec BT_GATT_ANCS_NB_OF_EVT_ID (p 0%nat)); [subst p; lia |].
    destruct (Z.leb_spec BT_GATT_ANCS_NB_OF_CATEGORY_ID (p 2%nat)); [subst p; lia |].
    done. }
  exists (notif_of_hvx p).
  assert (Hw1 : on_received_ns w h
                = evt_handler (on_ns BT_GATT_ANCS_C_EVT_NOTIF (Some (notif_of_hvx p))) w).
  { unfold on_received_ns, parse_notif. rewrite decide_False by (rewrite Hlen; by intros []).
    fold p. by rewrite Hfmt. }
  rewrite Hw1. split; [done |]. split.
  - unfold bt_gatt_ancs_c_request_attrs. rewrite Hfmt. cbn [Z.eqb negb].
    destruct (get_notif_attrs_encodes
                (evt_handler (on_ns BT_GATT_ANCS_C_EVT_NOTIF (Some (notif_of_hvx p))) w)
                (notif_uid (notif_of_hvx p)) timeout) as (w2 & -> & Hwr);
      [done | done | |].
    { unfold get_notif_attrs_wire. rewrite Hle. cbn [length app]. cbn. lia. }
    cbn [mbind res_bind att evt_handler]. eexists. rewrite Hret. split; [done |].
    cbn [att set_ancs_c]. rewrite (Hwr Hret).
    unfold get_notif_attrs_wire. by rewrite Hle.
  - unfold bt_gatt_ancs_perform_notif_action, k_sem_take.
    cbn [evt_handler ancs_c]. rewrite Hsem.
    cbn [Z.ltb Z.compare mbind res_bind Z.eqb negb set_ancs_c ancs_c set_sem cp_data].
    rewrite encode_notif_action_poke by done. cbn [mbind res_bind].
    unfold bt_gatt_ancs_c_cp_write, bt_gatt_write. cbv zeta.
    change (uint16 6) with 6%nat. cbn [att set_ancs_c evt_handler].
    rewrite Hret. cbn [Z.eqb]. eexists. split; [done |].
    cbn [att written set_att ancs_c cp_data set_cp_data set_sem set_ancs_c].
    set (cmd := 2 :: le32 (notif_uid (notif_of_hvx p)) ++ [action mod 256]).
    change 6%nat with (0 + length cmd)%nat.
    rewrite poke_take by lia. rewrite take_0. subst cmd. cbn [app]. by rewrite Hle.
Qed.

Lemma notif_uid_round_trip_witness :
  let w := sample_world 18 [0; 1; 3; 5; 6; 7]%nat 0 in
  let h := hvx_of [0; 24; 6; 2; 1; 2; 3; 4] in
  let w1 := on_received_ns w h in
  let uid_bytes := drop 4 (payload h) in
  ∃ n, sink w1 = sink w ++ [on_ns BT_GATT_ANCS_C_EVT_NOTIF (Some n)]
       ∧ (∃ w2, bt_gatt_ancs_c_request_attrs w1 n K_NO_WAIT = Ok (0, w2)
                ∧ written (att w2)
                  = written (att w)
                    ++ [0 :: uid_bytes
                          ++ notif_attrs_wire 0 (ancs_notif_attr_list (ancs_c w))])
       ∧ (∃ w2, bt_gatt_ancs_perform_notif_action w1 (notif_uid n) ACTION_ID_NEGATIVE
                  K_NO_WAIT
                = Ok (0, w2)
                ∧ written (att w2)
                  = written (att w) ++ [2 :: uid_bytes ++ [ACTION_ID_NEGATIVE mod 256]]).
Proof.
  cbv zeta.
  apply (notif_uid_round_trip (sample_world 18 [0; 1; 3; 5; 6; 7]%nat 0)
           (hvx_of [0; 24; 6; 2; 1; 2; 3; 4]) ACTION_ID_NEGATIVE K_NO_WAIT).
  - reflexivity.
  - change (payload (hvx_of [0; 24; 6; 2; 1; 2; 3; 4])) with [0; 24; 6; 2; 1; 2; 3; 4].
    repeat (apply Forall_cons_2; [unfold is_byte; lia |]). apply Forall_nil_2.
  - reflexivity.
  - reflexivity.
  - reflexivity.
  - reflexivity.
  - reflexivity.
  - vm_compute. lia.
  - vm_compute. lia.
Defined.

(** ** Subscriptions and the link *)

Lemma setbit_set (a n : Z) : 0 ≤ n → Z.testbit a n = true → Z.setbit a n = a.
Proof.
  intros Hn Hb. apply Z.bits_inj'. intros m Hm.
  destruct (decide (m = n)) as [-> | Hne].
  - by rewrite Z.setbit_eq, Hb.
  - by rewrite Z.setbit_neq by lia.
Qed.

Lemma session_eta (s : session) :
  {| link := link s; sub := sub s; client := client s |} = s.
Proof. by destruct s. Qed.

Lemma set_state_same (l : ancs_link) : set_state (state l) l = l.
Proof. by destruct l. Qed.

(** The four subscription functions leave the client below alone. *)
Lemma notif_enable_frame (s : session) :
  client (bt_gatt_ancs_c_notif_source_notif_enable s).2 = client s
  ∧ client (bt_gatt_ancs_c_data_source_notif_enable s).2 = client s
  ∧ client (bt_gatt_ancs_c_notif_source_notif_disable s).2 = client s
  ∧ client (bt_gatt_ancs_c_data_source_notif_disable s).2 = client s.
Proof.
  unfold bt_gatt_ancs_c_notif_source_notif_enable,
    bt_gatt_ancs_c_data_source_notif_enable,
    bt_gatt_ancs_c_notif_source_notif_disable,
    bt_gatt_ancs_c_data_source_notif_disable,
    atomic_test_and_set_bit, bt_gatt_subscribe, bt_gatt_unsubscribe.
  repeat split; repeat (case_match; cbn [fst snd client]); simplify_eq; done.
Qed.

(** X9: enabling notifications.  When the state bit of the characteristic is
    set already, the call returns [-EALREADY] and changes nothing: the GATT
    layer is not called.  Otherwise [bt_gatt_subscribe] is called exactly
    once, on the stored connection, with the callback of the
    characteristic, the value [BT_GATT_CCC_NOTIFY], the stored value and CCC
    handles and the volatile flag; its result is returned, and the bit is
    set afterwards exactly when that result is 0.  The bit of the other
    characteristic and the rest of the client are not touched. *)
Theorem notif_enable_outcome (s : session) :
  let ns := bt_gatt_ancs_c_notif_source_notif_enable s in
  let ds := bt_gatt_ancs_c_data_source_notif_enable s in
  (if ns_enabled s then ns = (- EALREADY, s)
   else ns.1 = subscribe_ret (sub s)
        ∧ sub_calls (sub ns.2)
          = sub_calls (sub s)
            ++ [Subscribe (conn (link s)) (ns_subscription (link s)) (subscribe_ret (sub s))]
        ∧ ns_notif_params (link ns.2) = ns_subscription (link s)
        ∧ ns_enabled ns.2 = (ns.1 =? 0))
  ∧ ds_enabled ns.2 = ds_enabled s ∧ client ns.2 = client s
  ∧ ds_notif_params (link ns.2) = ds_notif_params (link s)
  ∧ (if ds_enabled s then ds = (- EALREADY, s)
     else ds.1 = subscribe_ret (sub s)
          ∧ sub_calls (sub ds.2)
            = sub_calls (sub s)
              ++ [Subscribe (conn (link s)) (ds_subscription (link s)) (subscribe_ret (sub s))]
          ∧ ds_notif_params (link ds.2) = ds_subscription (link s)
          ∧ ds_enabled ds.2 = (ds.1 =? 0))
  ∧ ns_enabled ds.2 = ns_enabled s ∧ client ds.2 = client s
  ∧ ns_notif_params (link ds.2) = ns_notif_params (link s).
Proof.
  cbv zeta.
  unfold bt_gatt_ancs_c_notif_source_notif_enable,
    bt_gatt_ancs_c_data_source_notif_enable, ns_enabled, ds_enabled,
    atomic_test_and_set_bit, atomic_test_bit, atomic_set_bit, atomic_clear_bit,
    bt_gatt_subscribe, ANCS_C_NS_NOTIF_ENABLED, ANCS_C_DS_NOTIF_ENABLED,
    BT_GATT_SUBSCRIBE_FLAG_VOLATILE.
  destruct (Z.testbit (state (link s)) 0) eqn:Hns;
    destruct (Z.testbit (state (link s)) 1) eqn:Hds;
    destruct (subscribe_ret (sub s) =? 0) eqn:Hret;
    cbn [fst snd link sub client state set_state set_ns_notif_params
         set_ds_notif_params sub_calls negb ns_notif_params ds_notif_params conn];
    try rewrite (setbit_set _ 0) by (done || lia);
    try rewrite (setbit_set _ 1) by (done || lia);
    rewrite ?set_state_same, ?session_eta;
    rewrite ?Z.setbit_eq, ?Z.clearbit_eq, ?Z.setbit_neq, ?Z.clearbit_neq,
      ?Z.setbit_eq, ?Z.clearbit_eq, ?Z.setbit_neq by lia;
    rewrite ?Hns, ?Hds, ?Hret;
    repeat split; reflexivity.
Qed.

(** X10: disabling notifications.  When the state bit of the characteristic
    is not set, the call returns [-EFAULT] and changes nothing: the GATT
    layer is not called.  Otherwise [bt_gatt_unsubscribe] is called exactly
    once with the stored connection and parameters; its result is
    returned, and the bit is cleared exactly when that result is 0, so a
    failed unsubscribe leaves the client enabled.  The bit of the other
    characteristic and the rest of the client are not touched. *)
Theorem notif_disable_outcome (s : session) :
  let ns := bt_gatt_ancs_c_notif_source_notif_disable s in
  let ds := bt_gatt_ancs_c_data_source_notif_disable s in
  (if ns_enabled s
   then ns.1 = unsubscribe_ret (sub s)
        ∧ sub_calls (sub ns.2)
          = sub_calls (sub s)
            ++ [Unsubscribe (conn (link s)) (ns_notif_params (link s))
                  (unsubscribe_ret (sub s))]
        ∧ ns_enabled ns.2 = negb (ns.1 =? 0)
   else ns = (- EFAULT, s))
  ∧ ds_enabled ns.2 = ds_enabled s ∧ client ns.2 = client s
  ∧ ns_notif_params (link ns.2) = ns_notif_params (link s)
  ∧ ds_notif_params (link ns.2) = ds_notif_params (link s)
  ∧ (if ds_enabled s
     then ds.1 = unsubscribe_ret (sub s)
          ∧ sub_calls (sub ds.2)
            = sub_calls (sub s)
              ++ [Unsubscribe (conn (link s)) (ds_notif_params (link s))
                    (unsubscribe_ret (sub s))]
          ∧ ds_enabled ds.2 = negb (ds.1 =? 0)
     else ds = (- EFAULT, s))
  ∧ ns_enabled ds.2 = ns_enabled s ∧ client ds.2 = client s
  ∧ ns_notif_params (link ds.2) = ns_notif_params (link s)
  ∧ ds_notif_params (link ds.2) = ds_notif_params (link s).
Proof.
  cbv zeta.
  unfold bt_gatt_ancs_c_notif_source_notif_disable,
    bt_gatt_ancs_c_data_source_notif_disable, ns_enabled, ds_enabled,
    atomic_test_bit, atomic_clear_bit,
    bt_gatt_unsubscribe, ANCS_C_NS_NOTIF_ENABLED, ANCS_C_DS_NOTIF_ENABLED.
  destruct (Z.testbit (state (link s)) 0) eqn:Hns;
    destruct (Z.testbit (state (link s)) 1) eqn:Hds;
    destruct (unsubscribe_ret (sub s) =? 0) eqn:Hret;
    cbn [fst snd link sub client state set_state sub_calls negb
         ns_notif_params ds_notif_params conn];
    rewrite ?Z.clearbit_eq, ?Z.clearbit_neq by lia;
    rewrite ?Hns, ?Hds, ?Hret;
    repeat split; reflexivity.
Qed.

(** X11: assigning the handles after discovery.  The result is [-ENOTSUP]
    exactly when the discovered service is not ANCS, and then nothing is
    changed; it is 0 exactly when the three characteristics, their value
    descriptors and the CCC descriptors of the two sources are all found,
    and then the five handles are those of the descriptors and the
    connection is the one of the discovery; otherwise it is [-EINVAL].  A
    failed call leaves the connection as it was; no call touches the state
    bits or the subscribe parameters.  After a successful call, enabling
    Notification Source notifications subscribes on the connection of the
    discovery with the handles of that characteristic's value and CCC
    descriptors. *)
Theorem handles_assign_outcome (dm : bt_gatt_dm) (s : session) :
  let r := bt_gatt_ancs_c_handles_assign dm (link s) in
  let found c d := bt_gatt_dm_char_by_uuid dm c ≫= λ a, bt_gatt_dm_desc_by_uuid dm a d in
  (r.1 = - ENOTSUP ↔ bt_gatt_dm_service_uuid dm ≠ BT_UUID_ANCS_SERVICE)
  ∧ (r.1 = - ENOTSUP → r.2 = link s)
  ∧ (r.1 = 0 ∨ r.1 = - ENOTSUP ∨ r.1 = - EINVAL)
  ∧ (r.1 ≠ 0 → conn r.2 = conn (link s))
  ∧ state r.2 = state (link s)
  ∧ ns_notif_params r.2 = ns_notif_params (link s)
  ∧ ds_notif_params r.2 = ds_notif_params (link s)
  ∧ (r.1 = 0 ↔
     bt_gatt_dm_service_uuid dm = BT_UUID_ANCS_SERVICE
     ∧ is_Some (found BT_UUID_ANCS_CONTROL_POINT BT_UUID_ANCS_CONTROL_POINT)
     ∧ is_Some (found BT_UUID_ANCS_NOTIFICATION_SOURCE BT_UUID_ANCS_NOTIFICATION_SOURCE)
     ∧ is_Some (found BT_UUID_ANCS_NOTIFICATION_SOURCE BT_UUID_GATT_CCC)
     ∧ is_Some (found BT_UUID_ANCS_DATA_SOURCE BT_UUID_ANCS_DATA_SOURCE)
     ∧ is_Some (found BT_UUID_ANCS_DATA_SOURCE BT_UUID_GATT_CCC))
  ∧ (r.1 = 0 →
     conn r.2 = bt_gatt_dm_conn_get dm
     ∧ Some (handle_cp r.2)
       = handle <$> found BT_UUID_ANCS_CONTROL_POINT BT_UUID_ANCS_CONTROL_POINT
     ∧ Some (handle_ns r.2)
       = handle <$> found BT_UUID_ANCS_NOTIFICATION_SOURCE BT_UUID_ANCS_NOTIFICATION_SOURCE
     ∧ Some (handle_ns_ccc r.2)
       = handle <$> found BT_UUID_ANCS_NOTIFICATION_SOURCE BT_UUID_GATT_CCC
     ∧ Some (handle_ds r.2)
       = handle <$> found BT_UUID_ANCS_DATA_SOURCE BT_UUID_ANCS_DATA_SOURCE
     ∧ Some (handle_ds_ccc r.2)
       = handle <$> found BT_UUID_ANCS_DATA_SOURCE BT_UUID_GATT_CCC
     ∧ (ns_enabled s = false →
        ∃ p, sub_calls (sub (bt_gatt_ancs_c_notif_source_notif_enable
                               {| link := r.2; sub := sub s; client := client s |}).2)
             = sub_calls (sub s)
               ++ [Subscribe (bt_gatt_dm_conn_get dm) p (subscribe_ret (sub s))]
             ∧ notify p = Some notify_on_received_ns
             ∧ value p = BT_GATT_CCC_NOTIFY
             ∧ Some (value_handle p)
               = handle <$> found BT_UUID_ANCS_NOTIFICATION_SOURCE
                              BT_UUID_ANCS_NOTIFICATION_SOURCE
             ∧ Some (ccc_handle p)
               = handle <$> found BT_UUID_ANCS_NOTIFICATION_SOURCE BT_UUID_GATT_CCC)).
Proof.
  cbv zeta. unfold bt_gatt_ancs_c_handles_assign, bt_uuid_cmp.
  destruct (decide (bt_gatt_dm_service_uuid dm = BT_UUID_ANCS_SERVICE)) as [Hs | Hs];
    cbn [Z.eqb negb fst snd].
  2: { repeat split; try done; try (by intros [? _]); try (by right; left);
       by intros _. }
  destruct (bt_gatt_dm_char_by_uuid dm BT_UUID_ANCS_CONTROL_POINT) as [c1 |];
    cbn [mbind option_bind fst snd].
  2: { repeat split; try done; try (by right; right);
       intros (_ & [? H] & _); done. }
  destruct (bt_gatt_dm_desc_by_uuid dm c1 BT_UUID_ANCS_CONTROL_POINT) as [d1 |];
    cbn [fst snd].
  2: { repeat split; try done; try (by right; right);
       intros (_ & [? H] & _); done. }
  destruct (bt_gatt_dm_char_by_uuid dm BT_UUID_ANCS_NOTIFICATION_SOURCE) as [c2 |];
    cbn [mbind option_bind fst snd].
  2: { repeat split; try done; try (by right; right);
       intros (_ & _ & [? H] & _); done. }
  destruct (bt_gatt_dm_desc_by_uuid dm c2 BT_UUID_ANCS_NOTIFICATION_SOURCE) as [d2 |];
    cbn [fst snd].
  2: { repeat split; try done; try (by right; right);
       intros (_ & _ & [? H] & _); done. }
  destruct (bt_gatt_dm_desc_by_uuid dm c2 BT_UUID_GATT_CCC) as [d3 |];
    cbn [fst snd].
  2: { repeat split; try done; try (by right; right);
       intros (_ & _ & _ & [? H] & _); done. }
  destruct (bt_gatt_dm_char_by_uuid dm BT_UUID_ANCS_DATA_SOURCE) as [c3 |];
    cbn [mbind option_bind fst snd].
  2: { repeat split; try done; try (by right; right);
       intros (_ & _ & _ & _ & [? H] & _); done. }
  destruct (bt_gatt_dm_desc_by_uuid dm c3 BT_UUID_ANCS_DATA_SOURCE) as [d4 |];
    cbn [fst snd].
  2: { repeat split; try done; try (by right; right);
       intros (_ & _ & _ & _ & [? H] & _); done. }
  destruct (bt_gatt_dm_desc_by_uuid dm c3 BT_UUID_GATT_CCC) as [d5 |];
    cbn [fst snd].
  2: { repeat split; try done; try (by right; right);
       intros (_ & _ & _ & _ & _ & [? H]); done. }
  split; [done |]. split; [done |]. split; [by left |]. split; [done |].
  do 3 (split; [done |]). split; [by repeat split |].
  intros _. do 6 (split; [done |]).
  unfold ns_enabled, atomic_test_bit, bt_gatt_ancs_c_notif_source_notif_enable,
    atomic_test_and_set_bit, bt_gatt_subscribe.
  cbn [link state set_conn set_handle_ds_ccc set_handle_ds set_handle_ns_ccc
       set_handle_ns set_handle_cp]. intros ->.
  eexists. destruct (negb _); cbn; (split; [reflexivity |]); done.
Qed.

(** X12: a disconnection.  [bt_gatt_ancs_c_on_disconnected] clears both
    subscription bits and gives the semaphore, and changes nothing else.
    With a semaphore of count 0 or 1 before, the count is 1 afterwards, also
    when a write was in flight whose callback never came: both
    subscriptions can be enabled again, and the next command is not turned
    away as busy but handed to the transport. *)
Theorem on_disconnected_recovers (s : session) (uid action : Z) (timeout : k_timeout_t) :
  cp_write_params_sem (ancs_c (client s)) = 0
  ∨ cp_write_params_sem (ancs_c (client s)) = 1 →
  (6 ≤ length (cp_data (ancs_c (client s))))%nat →
  let s' := bt_gatt_ancs_c_on_disconnected s in
  ns_enabled s' = false ∧ ds_enabled s' = false
  ∧ cp_write_params_sem (ancs_c (client s')) = 1
  ∧ link s' = set_state (state (link s')) (link s)
  ∧ sub s' = sub s
  ∧ client s' = set_ancs_c (set_sem 1) (client s)
  ∧ (bt_gatt_ancs_c_notif_source_notif_enable s').1 = subscribe_ret (sub s)
  ∧ (bt_gatt_ancs_c_data_source_notif_enable s').1 = subscribe_ret (sub s)
  ∧ ∃ w', bt_gatt_ancs_perform_notif_action (client s') uid action timeout
          = Ok (write_ret (att (client s)), w').
Proof.
  intros Hsem Hlen. cbv zeta.
  assert (Hgive : k_sem_give (cp_write_params_sem (ancs_c (client s))) = 1).
  { unfold k_sem_give. by destruct Hsem as [-> | ->]. }
  unfold bt_gatt_ancs_c_on_disconnected, ns_enabled, ds_enabled, atomic_test_bit,
    atomic_clear_bit, ANCS_C_NS_NOTIF_ENABLED, ANCS_C_DS_NOTIF_ENABLED.
  cbn [link state set_state sub client].
  split; [by rewrite Z.clearbit_neq, Z.clearbit_eq by lia |].
  split; [by rewrite Z.clearbit_eq |].
  split; [cbn; by rewrite Hgive |].
  split; [done |]. split; [done |].
  split; [unfold set_ancs_c; cbn; by rewrite Hgive |].
  unfold bt_gatt_ancs_c_notif_source_notif_enable,
    bt_gatt_ancs_c_data_source_notif_enable, atomic_test_and_set_bit,
    bt_gatt_subscribe, ANCS_C_NS_NOTIF_ENABLED, ANCS_C_DS_NOTIF_ENABLED.
  cbn [link state set_state sub client].
  rewrite Z.clearbit_neq, !Z.clearbit_eq by lia.
  split; [by destruct (negb _) |]. split; [by destruct (negb _) |].
  unfold bt_gatt_ancs_perform_notif_action.
  cbn [set_ancs_c ancs_c set_sem cp_write_params_sem]. rewrite Hgive.
  unfold k_sem_take. cbn [Z.ltb Z.compare mbind res_bind Z.eqb negb Z.sub Z.pos_sub
                          cp_data set_sem ancs_c].
  rewrite encode_notif_action_poke by done. cbn [mbind res_bind].
  unfold bt_gatt_ancs_c_cp_write, bt_gatt_write. cbn [att set_ancs_c].
  destruct (write_ret (att (client s)) =? 0) eqn:Hw.
  - apply Z.eqb_eq in Hw as Hw'. rewrite Hw'. cbn [Z.eqb]. by eexists.
  - rewrite Hw. by eexists.
Qed.

Lemma on_disconnected_recovers_witness :
  let s := sample_session
             (set_ancs_c (set_sem 0) (sample_world 32 [1%nat] 65)) in
  let s' := bt_gatt_ancs_c_on_disconnected s in
  ns_enabled s' = false ∧ ds_enabled s' = false
  ∧ cp_write_params_sem (ancs_c (client s')) = 1
  ∧ link s' = set_state (state (link s')) (link s)
  ∧ sub s' = sub s
  ∧ client s' = set_ancs_c (set_sem 1) (client s)
  ∧ (bt_gatt_ancs_c_notif_source_notif_enable s').1 = subscribe_ret (sub s)
  ∧ (bt_gatt_ancs_c_data_source_notif_enable s').1 = subscribe_ret (sub s)
  ∧ ∃ w', bt_gatt_ancs_perform_notif_action (client s') 67305985 ACTION_ID_POSITIVE
            K_NO_WAIT
          = Ok (write_ret (att (client s)), w').
Proof.
  cbv zeta.
  apply (on_disconnected_recovers
           (sample_session (set_ancs_c (set_sem 0) (sample_world 32 [1%nat] 65)))
           67305985 ACTION_ID_POSITIVE K_NO_WAIT).
  - left. reflexivity.
  - vm_compute. lia.
Defined.

(** ** The semaphore and the writes handed to the transport *)





Lemma cp_only_refl (c : bt_gatt_ancs_c) : cp_only c c.
Proof. done. Qed.

Lemma cp_only_trans (c1 c2 c3 : bt_gatt_ancs_c) :
  cp_only c1 c2 → cp_only c2 c3 → cp_only c1 c3.
Proof.
  intros (? & ? & ? & ? & ?) (? & ? & ? & ? & ?). repeat split; congruence.
Qed.

Lemma get_notif_attrs_body_cp_only (attr : nat) (c c' : bt_gatt_ancs_c) (i i' : nat) :
  get_notif_attrs_body attr (c, i) = Ok (c', i') → cp_only c c'.
Proof.
  unfold get_notif_attrs_body.
  destruct (_ !! _) as [e |]; [| done]. destruct (get e); [| by intros [= <- _]].
  destruct (store _ _ _); cbn [mbind res_bind]; [| done | done].
  destruct (_ || _).
  - destruct (sys_put_le16 _ _ _); cbn [mbind res_bind]; [| done | done].
    by intros [= <- _].
  - cbn [mbind res_bind]. by intros [= <- _].
Qed.

Lemma get_notif_attrs_loop_cp_only (attrs : list nat) :
  ∀ (c c' : bt_gatt_ancs_c) (i i' : nat),
    get_notif_attrs_loop attrs (c, i) = Ok (c', i') → cp_only c c'.
Proof.
  induction attrs as [| a attrs IH]; intros c c' i i'; cbn [get_notif_attrs_loop].
  - by intros [= <- _].
  - destruct (get_notif_attrs_body a (c, i)) as [[c1 i1] | |] eqn:Hb;
      cbn [mbind res_bind]; [| done | done].
    intros H. apply IH in H. apply get_notif_attrs_body_cp_only in Hb.
    by eapply cp_only_trans.
Qed.

Lemma app_attr_get_loop_cp_only (W fuel : nat) (p : list Z) (len : nat) :
  ∀ (s s' : encode_app_attr_t) (e e' : app_attr_enc),
    app_attr_get_loop W fuel s e p len = Ok (s', e') → cp_only (enc_c e) (enc_c e').
Proof.
  induction fuel as [| fuel IH]; intros s s' e e' H.
  - destruct s; cbn in H; by simplify_eq.
  - destruct s; cbn [app_attr_get_loop] in H; try (by simplify_eq).
    + destruct (app_attr_encode_cmd_id e) as [[s1 e1] | |] eqn:H1; [| done | done].
      cbn [mbind res_bind] in H. apply IH in H.
      eapply cp_only_trans; [| exact H].
      unfold app_attr_encode_cmd_id in H1. enc_step. done.
    + destruct (app_attr_encode_app_id W e p len) as [[s1 e1] | |] eqn:H1; [| done | done].
      cbn [mbind res_bind] in H. apply IH in H.
      eapply cp_only_trans; [| exact H].
      unfold app_attr_encode_app_id in H1. enc_step; done.
    + destruct (app_attr_encode_attr_id W e) as [[s1 e1] | |] eqn:H1; [| done | done].
      cbn [mbind res_bind] in H. apply IH in H.
      eapply cp_only_trans; [| exact H].
      unfold app_attr_encode_attr_id, app_attr_is_requested in H1. enc_step; done.
Qed.





Lemma dispatch_frame_refl (w : world) : dispatch_frame w w.
Proof. repeat split; by try left. Qed.

Lemma cp_write_frame (w w' : world) (len : nat) (err : Z) :
  bt_gatt_ancs_c_cp_write w len = (err, w') →
  sink w' = sink w ∧ ram w' = ram w ∧ cp_only (ancs_c w) (ancs_c w')
  ∨ sink w' = sink w ∧ ram w' = ram w
    ∧ cp_only (set_sem (k_sem_give (cp_write_params_sem (ancs_c w))) (ancs_c w))
        (ancs_c w').
Proof.
  unfold bt_gatt_ancs_c_cp_write, bt_gatt_write.
  destruct (write_ret (att w) =? 0) eqn:Hw.
  - cbn [Z.eqb]. intros [= _ <-]. by left.
  - rewrite Hw. intros [= _ <-]. by right.
Qed.

Lemma cp_write_dispatch_frame (w0 w w' : world) (len : nat) (err : Z) :
  sink w = sink w0 → ram w = ram w0 →
  ancs_notif_attr_list (ancs_c w) = ancs_notif_attr_list (ancs_c w0) →
  ancs_app_attr_list (ancs_c w) = ancs_app_attr_list (ancs_c w0) →
  evt (ancs_c w) = evt (ancs_c w0) →
  parse_info (ancs_c w) = parse_info (ancs_c w0)
  ∨ parse_state (parse_info (ancs_c w)) = COMMAND_ID →
  bt_gatt_ancs_c_cp_write w len = (err, w') →
  dispatch_frame w0 w'.
Proof.
  intros Hs Hr Hn Ha He Hp Hcp.
  apply cp_write_frame in Hcp
    as [(Hs' & Hr' & _ & Hn' & Ha' & Hp' & He') | (Hs' & Hr' & _ & Hn' & Ha' & Hp' & He')];
    cbn in Hn', Ha', Hp', He';
    (repeat split; [congruence .. |]);
    (destruct Hp as [Hp | Hp]; [left | right]; congruence).
Qed.

Lemma perform_notif_action_frame (w w' : world) (uid action : Z)
    (timeout : k_timeout_t) (err : Z) :
  bt_gatt_ancs_perform_notif_action w uid action timeout = Ok (err, w') →
  dispatch_frame w w' ∧ parse_info (ancs_c w') = parse_info (ancs_c w).
Proof.
  unfold bt_gatt_ancs_perform_notif_action.
  destruct (k_sem_take _ _) as [[e sem] | |]; cbn [mbind res_bind]; [| done | done].
  destruct (negb _); [intros [= _ <-]; split; [apply dispatch_frame_refl | done] |].
  destruct (encode_notif_action _ _ _) as [[d len] | |]; cbn [mbind res_bind];
    [| done | done].
  intros H. destruct (bt_gatt_ancs_c_cp_write _ _) as [e2 w2] eqn:Hcp. simplify_eq.
  split.
  - eapply cp_write_dispatch_frame; [.. | exact Hcp]; by try left.
  - apply cp_write_frame in Hcp as [(_ & _ & _ & _ & _ & Hp & _) | (_ & _ & _ & _ & _ & Hp & _)];
      exact Hp.
Qed.

Lemma request_attrs_frame (w w' : world) (notif : bt_gatt_ancs_c_evt_notif_t)
    (timeout : k_timeout_t) (err : Z) :
  bt_gatt_ancs_c_request_attrs w notif timeout = Ok (err, w') → dispatch_frame w w'.
Proof.
  unfold bt_gatt_ancs_c_request_attrs, bt_gatt_ancs_get_notif_attrs.
  destruct (negb _); [intros [= _ <-]; apply dispatch_frame_refl |].
  destruct (k_sem_take _ _) as [[e sem] | |]; cbn [mbind res_bind]; [| done | done].
  destruct (negb _); cbn [mbind res_bind];
    [intros [= _ <-]; repeat split; by right |].
  destruct (store _ _ _); cbn [mbind res_bind]; [| done | done].
  destruct (sys_put_le32 _ _ _); cbn [mbind res_bind]; [| done | done].
  destruct (get_notif_attrs_loop _ _) as [[c i] | |] eqn:Hloop;
    cbn [mbind res_bind]; [| done | done].
  apply get_notif_attrs_loop_cp_only in Hloop as (_ & Hn & Ha & Hp & He).
  cbn in Hn, Ha, Hp, He.
  destruct (bt_gatt_ancs_c_cp_write _ _) as [e2 w2] eqn:Hcp. cbn [mbind res_bind].
  intros [= _ <-].
  apply cp_write_frame in Hcp
    as [(Hs' & Hr' & _ & Hn' & Ha' & _ & He') | (Hs' & Hr' & _ & Hn' & Ha' & _ & He')];
    cbn in Hs', Hr', Hn', Ha', He'; repeat split; cbn; try congruence; by right.
Qed.

Lemma app_attr_request_frame (W fuel : nat) (w w' : world) (p : list Z) (len : nat)
    (timeout : k_timeout_t) (err : Z) :
  bt_gatt_ancs_c_app_attr_request W fuel w p len timeout = Ok (err, w') →
  dispatch_frame w w'.
Proof.
  unfold bt_gatt_ancs_c_app_attr_request, ancs_c_app_attr_request.
  destruct (decide _); [intros [= _ <-]; apply dispatch_frame_refl |].
  destruct (p !! len); [| done].
  destruct (negb _); [intros [= _ <-]; apply dispatch_frame_refl |].
  unfold app_attr_get. cbn [ancs_c set_ancs_c set_parse_info cp_write_params_sem].
  destruct (k_sem_take _ _) as [[e sem] | |]; cbn [mbind res_bind]; [| done | done].
  destruct (negb _); [intros [= _ <-]; repeat split; by right |].
  destruct (app_attr_nb_to_get _); cbn [mbind res_bind]; [| done | done].
  destruct (app_attr_get_loop _ _ _ _ _ _) as [[st e1] | |] eqn:Hloop;
    cbn [mbind res_bind]; [| done | done].
  apply app_attr_get_loop_cp_only in Hloop as (_ & Hn & Ha & Hp & He).
  cbn in Hn, Ha, Hp, He.
  destruct st;
    try (intros [= _ <-]; repeat split; cbn; try done; right; by rewrite Hp).
  destruct (bt_gatt_ancs_c_cp_write _ _) as [e2 w2] eqn:Hcp. intros [= _ <-].
  apply cp_write_frame in Hcp
    as [(Hs' & Hr' & _ & Hn' & Ha' & Hp' & He') | (Hs' & Hr' & _ & Hn' & Ha' & Hp' & He')];
    cbn in Hs', Hr', Hn', Ha', Hp', He'; repeat split; cbn; try congruence;
    right; by rewrite Hp', Hp.
Qed.






(** ** Subscriptions over a sequence of calls *)

Lemma sub_flow_same (f : notify_func) (s s' : session) :
  sub_calls (sub s') = sub_calls (sub s) → state (link s') = state (link s) →
  sub_flow f 0 s s'.
Proof.
  intros Hlog Hst. exists []. rewrite app_nil_r. split; [done |].
  assert (enabled f s' = enabled f s) as ->
    by (destruct f; unfold enabled, ns_enabled, ds_enabled; by rewrite Hst).
  simpl. lia.
Qed.

Lemma params_ok_same (s s' : session) :
  state (link s') = state (link s) →
  ns_notif_params (link s') = ns_notif_params (link s) →
  ds_notif_params (link s') = ds_notif_params (link s) →
  params_ok s → params_ok s'.
Proof.
  intros Hst Hns Hds Hok f. specialize (Hok f). revert Hok.
  destruct f; unfold enabled, params_of, ns_enabled, ds_enabled;
    by rewrite Hst, ?Hns, ?Hds.
Qed.

Lemma subscribed_app (f : notify_func) (l1 l2 : list gatt_sub_call) :
  subscribed f (l1 ++ l2) = subscribed f l1 + subscribed f l2.
Proof. induction l1 as [| [] l1 IH]; simpl; lia. Qed.

Lemma unsubscribed_app (f : notify_func) (l1 l2 : list gatt_sub_call) :
  unsubscribed f (l1 ++ l2) = unsubscribed f l1 + unsubscribed f l2.
Proof. induction l1 as [| [] l1 IH]; simpl; lia. Qed.

Ltac link_unfold :=
  unfold bt_gatt_ancs_c_notif_source_notif_enable,
    bt_gatt_ancs_c_data_source_notif_enable,
    bt_gatt_ancs_c_notif_source_notif_disable,
    bt_gatt_ancs_c_data_source_notif_disable,
    bt_gatt_ancs_c_on_disconnected,
    sub_flow, params_ok, enabled, params_of, ns_enabled, ds_enabled,
    atomic_test_and_set_bit, atomic_test_bit, atomic_set_bit, atomic_clear_bit,
    bt_gatt_subscribe, bt_gatt_unsubscribe,
    ANCS_C_NS_NOTIF_ENABLED, ANCS_C_DS_NOTIF_ENABLED in *.

Ltac link_bits :=
  cbn [fst snd link sub client state set_state set_ns_notif_params
       set_ds_notif_params sub_calls negb ns_notif_params ds_notif_params conn
       notify] in *;
  rewrite ?Z.setbit_eq, ?Z.clearbit_eq, ?Z.setbit_neq, ?Z.clearbit_neq,
    ?Z.setbit_eq, ?Z.clearbit_eq, ?Z.setbit_neq, ?Z.clearbit_neq by lia.

Lemma link_step_flow (s : session) (f : notify_func) :
  params_ok s →
  (params_ok (bt_gatt_ancs_c_notif_source_notif_enable s).2
   ∧ sub_flow f 0 s (bt_gatt_ancs_c_notif_source_notif_enable s).2)
  ∧ (params_ok (bt_gatt_ancs_c_data_source_notif_enable s).2
     ∧ sub_flow f 0 s (bt_gatt_ancs_c_data_source_notif_enable s).2)
  ∧ (params_ok (bt_gatt_ancs_c_notif_source_notif_disable s).2
     ∧ sub_flow f 0 s (bt_gatt_ancs_c_notif_source_notif_disable s).2)
  ∧ (params_ok (bt_gatt_ancs_c_data_source_notif_disable s).2
     ∧ sub_flow f 0 s (bt_gatt_ancs_c_data_source_notif_disable s).2)
  ∧ (params_ok (bt_gatt_ancs_c_on_disconnected s)
     ∧ sub_flow f 1 s (bt_gatt_ancs_c_on_disconnected s)).
Proof.
  intros Hok.
  pose proof (Hok notify_on_received_ns) as Hns.
  pose proof (Hok notify_on_received_ds) as Hds. clear Hok.
  link_unfold.
  destruct (Z.testbit (state (link s)) 0) eqn:Hb0;
    destruct (Z.testbit (state (link s)) 1) eqn:Hb1;
    destruct (subscribe_ret (sub s) =? 0) eqn:Hsr;
    destruct (unsubscribe_ret (sub s) =? 0) eqn:Hur;
    link_bits; rewrite ?Hb0, ?Hb1;
    repeat match goal with
      | |- _ ∧ _ => split
      | |- ∀ g : notify_func, _ => intros [] ?; link_bits; try done; try lia
      | H : 1 = 1 → _ |- _ => specialize (H eq_refl)
      | |- ∃ new, ?l = ?l ∧ _ => exists []
      | |- ∃ new, ?l ++ ?x = ?l ++ new ∧ _ => exists x; split; [done |]
      | |- ∃ new, ?l = ?l ++ new ∧ _ => exists []; rewrite app_nil_r; split; [done |]
      end;
    try (by auto);
    destruct f; cbn [subscribed unsubscribed notify]; unfold is_for;
    cbn [notify];
    rewrite ?Hns, ?Hds, ?Hsr, ?Hur, ?Hb0, ?Hb1, ?andb_false_r, ?andb_true_r;
    repeat case_bool_decide; simplify_eq; lia.
Qed.

Lemma handles_assign_frame (dm : bt_gatt_dm) (l : ancs_link) :
  let l' := (bt_gatt_ancs_c_handles_assign dm l).2 in
  state l' = state l ∧ ns_notif_params l' = ns_notif_params l
  ∧ ds_notif_params l' = ds_notif_params l.
Proof.
  cbv zeta. unfold bt_gatt_ancs_c_handles_assign.
  repeat (case_match; cbn [fst snd]); done.
Qed.

Lemma api_step_sub (W fuel : nat) (s s' : session) (call : api_call) (f : notify_func) :
  params_ok s → api_step W fuel s call = Ok s' →
  params_ok s' ∧ sub_flow f (is_disconnection call) s s'.
Proof.
  intros Hok.
  pose proof (link_step_flow s f Hok) as (H1 & H2 & H3 & H4 & H5).
  assert (Hclient : ∀ w, params_ok (set_client w s) ∧ sub_flow f 0 s (set_client w s)).
  { intros w. split; [by eapply params_ok_same | by apply sub_flow_same]. }
  destruct call; cbn [api_step is_disconnection].
  - by intros [= <-].
  - by intros [= <-].
  - by intros [= <-].
  - by intros [= <-].
  - by intros [= <-].
  - intros [= <-]. pose proof (handles_assign_frame dm (link s)) as (Hs & Hn & Hd).
    split; [by eapply params_ok_same | by apply sub_flow_same].
  - destruct (checked_add _ _ _); cbn [mbind res_bind]; [| done | done].
    intros [= <-]. apply Hclient.
  - destruct (checked_add _ _ _); cbn [mbind res_bind]; [| done | done].
    intros [= <-]. apply Hclient.
  - destruct (bt_gatt_ancs_c_request_attrs _ _ _) as [[e w] | |];
      cbn [mbind res_bind]; [| done | done].
    intros [= <-]. apply Hclient.
  - destruct (bt_gatt_ancs_perform_notif_action _ _ _ _) as [[e w] | |];
      cbn [mbind res_bind]; [| done | done].
    intros [= <-]. apply Hclient.
  - destruct (bt_gatt_ancs_c_app_attr_request _ _ _ _ _ _) as [[e w] | |];
      cbn [mbind res_bind]; [| done | done].
    intros [= <-]. apply Hclient.
  - intros [= <-]. apply Hclient.
  - intros [= <-]. apply Hclient.
  - destruct (on_received_ds _ _ _) as [w | |]; cbn [mbind res_bind];
      [| done | done].
    intros [= <-]. apply Hclient.
  - intros [= <-]. split; [by eapply params_ok_same | by apply sub_flow_same].
Qed.

Lemma api_run_sub (W fuel : nat) (f : notify_func) (calls : list api_call) :
  ∀ s s', params_ok s → api_run W fuel s calls = Ok s' →
          sub_flow f (disconnections calls) s s'.
Proof.
  induction calls as [| call calls IH]; intros s s' Hok.
  - intros [= <-]. by apply sub_flow_same.
  - cbn [api_run disconnections].
    destruct (api_step W fuel s call) as [s1 | |] eqn:Hstep; cbn [mbind res_bind];
      [| done | done].
    intros Hrun. apply (api_step_sub _ _ _ _ _ f) in Hstep as (Hok1 & new1 & Hl1 & Ha1 & Hb1);
      [| done].
    apply IH in Hrun as (new2 & Hl2 & Ha2 & Hb2); [| done].
    exists (new1 ++ new2). split; [by rewrite Hl2, Hl1, app_assoc |].
    rewrite subscribed_app, unsubscribed_app. lia.
Qed.

(** X14: the state bits follow the subscriptions.  Over any sequence of calls
    of the client's functions and callbacks, with any answers of the GATT
    layer, that the client completes (each call returns, none with an
    access outside an object: the run is [Ok]), and for each of the two
    characteristics: the subscriptions the
    GATT layer has accepted, less the ones it has dropped on request, are
    the change of the state bit, up to the disconnections in the sequence
    (each of which clears the bit without a call to the GATT layer).  So
    over such a sequence the client never subscribes a second time to a
    characteristic it holds a subscription for, and never unsubscribes
    from one it does not hold. *)
Theorem subscriptions_balanced (W fuel : nat) (s s' : session)
    (calls : list api_call) (f : notify_func) :
  params_ok s →
  api_run W fuel s calls = Ok s' →
  ∃ new, sub_calls (sub s') = sub_calls (sub s) ++ new
         ∧ unsubscribed f new + enabled f s' ≤ subscribed f new + enabled f s
         ∧ subscribed f new + enabled f s
           ≤ unsubscribed f new + enabled f s' + disconnections calls.
Proof. intros Hok Hrun. by apply (api_run_sub _ _ f) in Hrun. Qed.

Lemma subscriptions_balanced_witness :
  let s := sample_session (sample_world 32 [1%nat] 65) in
  let s' := session_after (api_run 32 64 s sample_calls) s in
  let f := notify_on_received_ds in
  ∃ new, sub_calls (sub s') = sub_calls (sub s) ++ new
         ∧ unsubscribed f new + enabled f s' ≤ subscribed f new + enabled f s
         ∧ subscribed f new + enabled f s
           ≤ unsubscribed f new + enabled f s' + disconnections sample_calls.
Proof.
  cbv zeta.
  apply (subscriptions_balanced 32 64 (sample_session (sample_world 32 [1%nat] 65)) _
           sample_calls notify_on_received_ds).
  - intros []; vm_compute; discriminate.
  - vm_compute. reflexivity.
Defined.

(** ** Registered buffers and the parser's precondition *)

Lemma lookup_map {A B} (f : A → B) (l : list A) (i : nat) :
  map f l !! i = f <$> l !! i.
Proof. revert i. induction l as [| x l IH]; intros [| i]; simpl; auto. Qed.

Lemma entry_ok_lengths (r r' : list (list Z)) (e : bt_gatt_ancs_c_attr_list_t) :
  map length r' = map length r → entry_ok r' e = entry_ok r e.
Proof.
  intros H. unfold entry_ok. destruct (has_storage e); [| done].
  destruct (list_p_attr_data e) as [a |]; [| done].
  assert (Ha : length <$> r' !! a = length <$> r !! a)
    by (rewrite <- !lookup_map; by rewrite H).
  destruct (r' !! a), (r !! a); simplify_eq/=; by rewrite ?Ha.
Qed.

Lemma forallb_same {A} (f g : A → bool) (l : list A) :
  (∀ x, f x = g x) → forallb f l = forallb g l.
Proof. intros H. induction l as [| x l IH]; simpl; [done | by rewrite H, IH]. Qed.

Lemma tables_ok_frame (w w' : world) :
  tables_frame w w' → tables_ok w' = tables_ok w.
Proof.
  intros (Hn & Ha & Hr). unfold tables_ok. rewrite Hn, Ha.
  f_equal. f_equal. f_equal; apply forallb_same; intros e; by apply entry_ok_lengths.
Qed.

Lemma tables_frame_refl (w : world) : tables_frame w w.
Proof. done. Qed.

Lemma tables_frame_trans (w1 w2 w3 : world) :
  tables_frame w1 w2 → tables_frame w2 w3 → tables_frame w1 w3.
Proof. intros (? & ? & ?) (? & ? & ?). repeat split; congruence. Qed.

Lemma dispatch_tables (w w' : world) : dispatch_frame w w' → tables_frame w w'.
Proof. intros (_ & Hr & Hn & Ha & _). repeat split; [done | done | by rewrite Hr]. Qed.

Lemma forallb_insert {A} (f : A → bool) (l : list A) (i : nat) (x : A) :
  forallb f l = true → f x = true → forallb f (<[i := x]> l) = true.
Proof.
  revert i. induction l as [| y l IH]; intros i; [done |].
  simpl. intros [Hy Hl]%andb_prop Hx.
  destruct i; simpl; apply andb_true_intro; auto.
Qed.

Lemma attr_add_tables_ok (w : world) (id : nat) (p : option nat) (len : Z)
    (c : bt_gatt_ancs_c) :
  tables_ok w = true →
  registration_fits (map length (ram w))
    (Z.to_nat BT_GATT_ANCS_NB_OF_NOTIF_ATTR) id p len = true →
  checked_add (bt_gatt_ancs_c_attr_add (ancs_c w) id p len) id
    (length (ancs_notif_attr_list (ancs_c w))) = Ok c →
  tables_ok (set_ancs_c (λ _, c) w) = true.
Proof.
  unfold tables_ok, registration_fits, checked_add, bt_gatt_ancs_c_attr_add.
  intros (((Hn & Ha)%andb_prop & Hln)%andb_prop & Hla)%andb_prop Hfit.
  destruct p as [a |]; cbn [bool_decide decide_rel]; [| intros [= <-]; cbn;
    by rewrite Hn, Ha, Hln, Hla].
  rewrite bool_decide_false by done.
  destruct ((len =? 0) || (BT_GATT_ANCS_ATTR_DATA_MAX <? len)) eqn:Hrej;
    cbn [fst snd Z.eqb andb orb] in *.
  { intros [= <-]. cbn. by rewrite Hn, Ha, Hln, Hla. }
  apply andb_prop in Hfit as ((Hid & H2)%andb_prop & Hbuf).
  destruct (negb _); [done |]. intros [= <-]. cbn.
  rewrite Ha, Hla, length_insert, Hln, !andb_true_r.
  apply forallb_insert; [done |].
  unfold entry_ok, has_storage. cbn.
  apply orb_false_elim in Hrej as (-> & _). cbn.
  rewrite lookup_map in Hbuf. destruct (ram w !! a); [| done].
  cbn in Hbuf. by rewrite H2, Hbuf.
Qed.

Lemma app_attr_add_tables_ok (w : world) (id : nat) (p : option nat) (len : Z)
    (c : bt_gatt_ancs_c) :
  tables_ok w = true →
  registration_fits (map length (ram w))
    (Z.to_nat BT_GATT_ANCS_NB_OF_APP_ATTR) id p len = true →
  checked_add (bt_gatt_ancs_c_app_attr_add (ancs_c w) id p len) id
    (length (ancs_app_attr_list (ancs_c w))) = Ok c →
  tables_ok (set_ancs_c (λ _, c) w) = true.
Proof.
  unfold tables_ok, registration_fits, checked_add, bt_gatt_ancs_c_app_attr_add.
  intros (((Hn & Ha)%andb_prop & Hln)%andb_prop & Hla)%andb_prop Hfit.
  destruct p as [a |]; cbn [bool_decide decide_rel]; [| intros [= <-]; cbn;
    by rewrite Hn, Ha, Hln, Hla].
  rewrite bool_decide_false by done.
  destruct ((len =? 0) || (BT_GATT_ANCS_ATTR_DATA_MAX <? len)) eqn:Hrej;
    cbn [fst snd Z.eqb andb orb] in *.
  { intros [= <-]. cbn. by rewrite Hn, Ha, Hln, Hla. }
  apply andb_prop in Hfit as ((Hid & H2)%andb_prop & Hbuf).
  destruct (negb _); [done |]. intros [= <-]. cbn.
  rewrite Hn, Hln, length_insert, Hla, !andb_true_r. cbn [andb].
  apply forallb_insert; [done |].
  unfold entry_ok, has_storage. cbn.
  apply orb_false_elim in Hrej as (-> & _). cbn.
  rewrite lookup_map in Hbuf. destruct (ram w !! a); [| done].
  cbn in Hbuf. by rewrite H2, Hbuf.
Qed.

Lemma api_step_tables_ok (W fuel : nat) (s s' : session) (call : api_call) :
  tables_ok (client s) = true →
  call_fits (map length (ram (client s))) call = true →
  api_step W fuel s call = Ok s' →
  tables_ok (client s') = true
  ∧ map length (ram (client s')) = map length (ram (client s)).
Proof.
  intros Hok Hfit.
  assert (Hframe : ∀ w, tables_frame (client s) w →
            tables_ok w = true ∧ map length (ram w) = map length (ram (client s))).
  { intros w Hf. split; [by rewrite (tables_ok_frame _ _ Hf) | apply Hf]. }
  pose proof (notif_enable_frame s) as (E1 & E2 & E3 & E4).
  destruct call; cbn [api_step call_fits] in *.
  - intros [= <-]. by rewrite E1.
  - intros [= <-]. by rewrite E2.
  - intros [= <-]. by rewrite E3.
  - intros [= <-]. by rewrite E4.
  - intros [= <-]. by apply Hframe.
  - by intros [= <-].
  - destruct (checked_add _ _ _) as [c | |] eqn:Hadd; cbn [mbind res_bind];
      [| done | done].
    intros [= <-]. split; [| done]. by eapply attr_add_tables_ok.
  - destruct (checked_add _ _ _) as [c | |] eqn:Hadd; cbn [mbind res_bind];
      [| done | done].
    intros [= <-]. split; [| done]. by eapply app_attr_add_tables_ok.
  - destruct (bt_gatt_ancs_c_request_attrs _ _ _) as [[e w] | |] eqn:H;
      cbn [mbind res_bind]; [| done | done].
    intros [= <-]. apply Hframe, dispatch_tables. by eapply request_attrs_frame.
  - destruct (bt_gatt_ancs_perform_notif_action _ _ _ _) as [[e w] | |] eqn:H;
      cbn [mbind res_bind]; [| done | done].
    intros [= <-]. apply Hframe, dispatch_tables. by eapply perform_notif_action_frame.
  - destruct (bt_gatt_ancs_c_app_attr_request _ _ _ _ _ _) as [[e w] | |] eqn:H;
      cbn [mbind res_bind]; [| done | done].
    intros [= <-]. apply Hframe, dispatch_tables. by eapply app_attr_request_frame.
  - intros [= <-]. by apply Hframe.
  - intros [= <-]. apply Hframe. unfold on_received_ns, parse_notif.
    by destruct (decide _).
  - destruct (on_received_ds _ _ _) as [w | |] eqn:H; cbn [mbind res_bind];
      [| done | done].
    intros [= <-]. apply Hframe.
    assert (Hf : ds_frame (client s) w).
    { apply (on_received_ds_all_frame fuel [h]). cbn [on_received_ds_all].
      rewrite H. done. }
    destruct Hf as (_ & _ & _ & _ & Hn & Ha & Hr). by repeat split.
  - intros [= <-]. by apply Hframe.
Qed.

Lemma init_tables_ok (cp_buff_size : nat) (r : list (list Z))
    (k : list sink_call) (g : gatt) :
  tables_ok {| ancs_c := bt_gatt_ancs_c_init cp_buff_size; ram := r;
               sink := k; att := g |} = true.
Proof. reflexivity. Qed.

(** X15: registered buffers stay fit for the parser.  [tables_ok], which the
    properties of the Data Source parser assume, holds right after
    [bt_gatt_ancs_c_init] and is kept by every sequence of calls of the
    client's functions and callbacks that the client completes (each call
    returns, none with an access outside an object: the run is [Ok]),
    provided each registration that [attr_add] or [app_attr_add] accepts is
    for an entry of the table, with a length of at least 2 and a buffer at
    least that long.  No call of such a sequence changes the number or the
    sizes of the buffers. *)
Theorem registrations_keep_tables_ok (W fuel : nat) (s s' : session)
    (calls : list api_call) :
  tables_ok (client s) = true →
  forallb (call_fits (map length (ram (client s)))) calls = true →
  api_run W fuel s calls = Ok s' →
  tables_ok (client s') = true
  ∧ map length (ram (client s')) = map length (ram (client s)).
Proof.
  revert s. induction calls as [| call calls IH]; intros s Hok Hfit; cbn [api_run].
  - by intros [= <-].
  - cbn [forallb] in Hfit. apply andb_prop in Hfit as (Hcall & Hrest).
    destruct (api_step W fuel s call) as [s1 | |] eqn:Hstep; cbn [mbind res_bind];
      [| done | done].
    apply api_step_tables_ok in Hstep as (Hok1 & Hlen1); [| done | done].
    intros Hrun. apply IH in Hrun as (Hok' & Hlen'); [| done | by rewrite Hlen1].
    split; [done | congruence].
Qed.

Lemma registrations_keep_tables_ok_witness :
  let s := fresh_session 32 65 in
  let calls := sample_registrations ++ sample_calls in
  let s' := session_after (api_run 32 64 s calls) s in
  tables_ok (client s') = true
  ∧ map length (ram (client s')) = map length (ram (client s)).
Proof.
  cbv zeta.
  apply (registrations_keep_tables_ok 32 64 (fresh_session 32 65) _
           (sample_registrations ++ sample_calls)).
  - apply init_tables_ok.
  - vm_compute. reflexivity.
  - vm_compute. reflexivity.
Defined.

(** ** Handler calls over a whole session *)

Lemma parser_inv_dispatch (w w' : world) :
  dispatch_frame w w' → parser_inv w → parser_inv w'.
Proof.
  intros (Hs & Hr & Hn & Ha & He & Hp) (Hok & Hinv).
  split; [by rewrite (tables_ok_same w w') |].
  destruct Hp as [Hp | ->]; [| done].
  rewrite Hp, He. cbv zeta in Hinv.
  assert (Hbound : ∀ l, bound (ancs_c w) l → bound (ancs_c w') l).
  { intros l (H1 & H2 & H3). unfold bound. rewrite Hp, He.
    by destruct l; cbn [attr_list_of] in *; rewrite ?Hn, ?Ha. }
  assert (Hloc : ∀ l e, located (ancs_c w) l e → located (ancs_c w') l e).
  { intros l e H. eapply located_same; [exact H | by rewrite Hp .. | done | done | done]. }
  destruct (parse_state (parse_info (ancs_c w))); try done.
  - destruct Hinv as (l & H). exists l. by apply Hbound.
  - destruct Hinv as (l & H). exists l. by apply Hbound.
  - destruct Hinv as (l & H). exists l. by apply Hbound.
  - destruct Hinv as (l & e & H). exists l, e. by apply Hloc.
  - destruct Hinv as (l & e & H). exists l, e. by apply Hloc.
  - destruct Hinv as (l & e & H & H'). exists l, e. split; [by apply Hloc | done].
  - destruct Hinv as (l & e & H & H1 & H2). exists l, e.
    split; [by apply Hloc |]. split; [done |]. by rewrite Hr.
Qed.

Lemma ds_calls_none (w w' : world) :
  sink w' = sink w →
  ∃ evs, sink w' = sink w ++ evs ∧ Forall (handler_call_ok (ancs_c w)) evs.
Proof. intros ->. exists []. split; [by rewrite app_nil_r | constructor]. Qed.

Lemma handler_call_ok_same (c c' : bt_gatt_ancs_c) (ev : sink_call) :
  ancs_notif_attr_list c' = ancs_notif_attr_list c →
  ancs_app_attr_list c' = ancs_app_attr_list c →
  handler_call_ok c' ev → handler_call_ok c ev.
Proof.
  intros Hn Ha. destruct ev; try done. by apply evt_terminated_same.
Qed.

(** One call in use keeps the parser's invariant and the tables, and the
    handler calls it adds are terminated. *)
Lemma api_step_in_use (W fuel : nat) (s s' : session) (call : api_call) :
  parser_inv (client s) → call_in_use fuel call = true →
  api_step W fuel s call = Ok s' →
  parser_inv (client s')
  ∧ ancs_notif_attr_list (ancs_c (client s')) = ancs_notif_attr_list (ancs_c (client s))
  ∧ ancs_app_attr_list (ancs_c (client s')) = ancs_app_attr_list (ancs_c (client s))
  ∧ ∃ evs, sink (client s') = sink (client s) ++ evs
           ∧ Forall (handler_call_ok (ancs_c (client s))) evs.
Proof.
  intros Hinv Huse.
  assert (Hframe : ∀ w, dispatch_frame (client s) w →
            parser_inv w
            ∧ ancs_notif_attr_list (ancs_c w) = ancs_notif_attr_list (ancs_c (client s))
            ∧ ancs_app_attr_list (ancs_c w) = ancs_app_attr_list (ancs_c (client s))
            ∧ ∃ evs, sink w = sink (client s) ++ evs
                     ∧ Forall (handler_call_ok (ancs_c (client s))) evs).
  { intros w Hf. split; [by eapply parser_inv_dispatch |].
    destruct Hf as (Hs & _ & Hn & Ha & _). split; [done |]. split; [done |].
    by apply ds_calls_none. }
  pose proof (notif_enable_frame s) as (E1 & E2 & E3 & E4).
  destruct call; cbn [api_step call_in_use is_registration negb andb] in *; try done.
  - intros [= <-]. rewrite E1. apply Hframe, dispatch_frame_refl.
  - intros [= <-]. rewrite E2. apply Hframe, dispatch_frame_refl.
  - intros [= <-]. rewrite E3. apply Hframe, dispatch_frame_refl.
  - intros [= <-]. rewrite E4. apply Hframe, dispatch_frame_refl.
  - intros [= <-]. apply Hframe. repeat split; by left.
  - intros [= <-]. apply Hframe, dispatch_frame_refl.
  - destruct (bt_gatt_ancs_c_request_attrs _ _ _) as [[e w] | |] eqn:H;
      cbn [mbind res_bind]; [| done | done].
    intros [= <-]. apply Hframe. by eapply request_attrs_frame.
  - destruct (bt_gatt_ancs_perform_notif_action _ _ _ _) as [[e w] | |] eqn:H;
      cbn [mbind res_bind]; [| done | done].
    intros [= <-]. apply Hframe. by eapply perform_notif_action_frame.
  - destruct (bt_gatt_ancs_c_app_attr_request _ _ _ _ _ _) as [[e w] | |] eqn:H;
      cbn [mbind res_bind]; [| done | done].
    intros [= <-]. apply Hframe. by eapply app_attr_request_frame.
  - intros [= <-]. cbn [client set_client].
    split; [| split; [done | split; [done |]]].
    + apply (parser_inv_dispatch
               (evt_handler (on_cp err) (client s))); [by repeat split; try left |].
      destruct Hinv as (Hok & Hinv). split; [done | exact Hinv].
    + exists [on_cp err]. split; [done |]. by repeat constructor.
  - intros [= <-]. cbn [client set_client]. unfold on_received_ns, parse_notif.
    set (n := notif_of_hvx (p_data_src h)).
    assert (Hlast : handler_call_ok (ancs_c (client s))
              (on_ns (if bt_gatt_ancs_verify_notification_format n =? 0
                      then BT_GATT_ANCS_C_EVT_NOTIF
                      else BT_GATT_ANCS_C_EVT_INVALID_NOTIF) (Some n))).
    { cbn. destruct (Z.eqb_spec (bt_gatt_ancs_verify_notification_format n) 0);
        [right; eauto | by left]. }
    destruct (decide _);
      (split; [by destruct Hinv | split; [done | split; [done |]]]).
    + eexists [_; _]. split; [cbn; by rewrite <- app_assoc |].
      apply Forall_cons_2; [by left |]. apply Forall_cons_2; [exact Hlast |].
      apply Forall_nil_2.
    + eexists [_]. split; [done |]. apply Forall_cons_2; [exact Hlast |].
      apply Forall_nil_2.
  - apply Nat.leb_le in Huse.
    pose proof (parse_loop_post fuel (client s) h 0 Hinv ltac:(lia)) as Hpost.
    unfold on_received_ds, ancs_parse_get_attrs_response.
    destruct (parse_loop fuel (client s) h 0) as [w | |]; cbn [mbind res_bind];
      [| done | done].
    intros [= <-]. destruct Hpost as (Hinv' & Hn & Ha & evs & Hs & Hev).
    split; [done |]. split; [done |]. split; [done |]. exists evs. split; [done |].
    eapply Forall_impl; [exact Hev |]. intros ev Ht. by destruct ev.
  - intros [= <-]. apply Hframe. repeat split; by left.
Qed.

Lemma api_run_in_use (W fuel : nat) (calls : list api_call) :
  ∀ s s',
    parser_inv (client s) → forallb (call_in_use fuel) calls = true →
    api_run W fuel s calls = Ok s' →
    parser_inv (client s')
    ∧ ancs_notif_attr_list (ancs_c (client s')) = ancs_notif_attr_list (ancs_c (client s))
    ∧ ancs_app_attr_list (ancs_c (client s')) = ancs_app_attr_list (ancs_c (client s))
    ∧ ∃ evs, sink (client s') = sink (client s) ++ evs
             ∧ Forall (handler_call_ok (ancs_c (client s))) evs.
Proof.
  induction calls as [| call calls IH]; intros s s' Hinv Huse; cbn [api_run].
  - intros [= <-]. split; [done |]. split; [done |]. split; [done |].
    by apply ds_calls_none.
  - cbn [forallb] in Huse. apply andb_prop in Huse as (Hcall & Hrest).
    destruct (api_step W fuel s call) as [s1 | |] eqn:Hstep; cbn [mbind res_bind];
      [| done | done].
    apply api_step_in_use in Hstep as (Hinv1 & Hn1 & Ha1 & evs1 & Hs1 & Hev1);
      [| done | done].
    intros Hrun. apply IH in Hrun as (Hinv2 & Hn2 & Ha2 & evs2 & Hs2 & Hev2);
      [| done | done].
    split; [done |]. split; [congruence |]. split; [congruence |].
    exists (evs1 ++ evs2). split; [by rewrite Hs2, Hs1, app_assoc |].
    apply Forall_app. split; [done |].
    eapply Forall_impl; [exact Hev2 |]. intros ev. by apply handler_call_ok_same.
Qed.

(** X16: handler calls over a whole session.  Take a client whose tables are
    fit for the parser and whose parser is at the start of a response, and
    use it in any way short of registering attributes: requests, actions,
    write callbacks, Notification Source and Data Source records however
    cut, subscriptions, disconnections, in any order and with any answers
    of the GATT layer.  When the client has completed these calls (each
    has returned, none with an access outside an object: the run is [Ok];
    a second app identifier that runs past [evt.app_id] ends it), every
    call the handler has got is of one of these kinds: NOTIF with a
    notification whose event id and category are in range; INVALID_NOTIF;
    NP_ERROR; or an attribute event of the Data
    Source parser, which is for a requested attribute and, when the
    attribute has data, finds the terminator in the buffer at offset
    min(attr_len, max_len - 1).  A request in the middle of a response, a
    response nobody asked for, or a disconnection between two records do
    not change that. *)
Theorem session_events_terminated (W fuel : nat) (s s' : session)
    (calls : list api_call) :
  tables_ok (client s) = true →
  parse_state (parse_info (ancs_c (client s))) = COMMAND_ID →
  forallb (call_in_use fuel) calls = true →
  api_run W fuel s calls = Ok s' →
  ∃ evs, sink (client s') = sink (client s) ++ evs
         ∧ Forall (handler_call_ok (ancs_c (client s))) evs.
Proof.
  intros Hok Hst Huse Hrun.
  assert (Hinv : parser_inv (client s)) by (split; [done | by rewrite Hst]).
  by apply api_run_in_use in Hrun as (_ & _ & _ & Hevs).
Qed.

Lemma session_events_terminated_witness :
  let s := session_after (api_run 32 64 (fresh_session 32 65) sample_registrations)
             (fresh_session 32 65) in
  let s' := session_after (api_run 32 64 s sample_calls) s in
  ∃ evs, sink (client s') = sink (client s) ++ evs
         ∧ Forall (handler_call_ok (ancs_c (client s))) evs.
Proof.
  cbv zeta.
  apply (session_events_terminated 32 64
           (session_after (api_run 32 64 (fresh_session 32 65) sample_registrations)
              (fresh_session 32 65)) _ sample_calls).
  - vm_compute. reflexivity.
  - vm_compute. reflexivity.
  - vm_compute. reflexivity.
  - vm_compute. reflexivity.
Defined.

(** ** The sample's handler on what the client hands it *)

Lemma c_string_terminated (buf : list Z) (k : nat) :
  buf !! k = Some 0 → ∃ s, c_string buf = Ok s ∧ (length s ≤ k)%nat.
Proof.
  revert k. induction buf as [| b buf IH]; intros k; [done |].
  cbn [c_string]. destruct (Z.eqb_spec b 0) as [-> | Hb].
  - intros _. exists []. split; [done | simpl; lia].
  - destruct k as [| k]; [intros [= ?]; done |]. cbn. intros Hk.
    destruct (IH k Hk) as (s & -> & Hlen). exists (b :: s).
    split; [done | simpl; lia].
Qed.

Lemma lit_at_in_range (table : list string) (i : Z) :
  (Z.to_nat i < length table)%nat → ∃ s, lit_at table i = Ok s.
Proof.
  intros H. unfold lit_at. destruct (lookup_lt_is_Some_2 table _ H) as [s ->]. eauto.
Qed.

Lemma notif_print_ok (n : bt_gatt_ancs_c_evt_notif_t) (app : sample_app) :
  bt_gatt_ancs_verify_notification_format n = 0 →
  ∃ app', notif_print n app = Ok app'
          ∧ m_notification_latest app' = m_notification_latest app.
Proof.
  unfold bt_gatt_ancs_verify_notification_format, notif_print.
  destruct (Z.leb_spec BT_GATT_ANCS_NB_OF_EVT_ID (evt_id n)) as [| He]; [done |].
  destruct (Z.leb_spec BT_GATT_ANCS_NB_OF_CATEGORY_ID (category_id n)) as [| Hc];
    [done |].
  intros _.
  destruct (lit_at_in_range lit_eventid (evt_id n)) as [ev ->].
  { unfold BT_GATT_ANCS_NB_OF_EVT_ID in He. simpl. lia. }
  destruct (lit_at_in_range lit_catid (category_id n)) as [cat ->].
  { unfold BT_GATT_ANCS_NB_OF_CATEGORY_ID in Hc. simpl. lia. }
  cbn [mbind res_bind]. eexists. split; [done |].
  by repeat case_match.
Qed.

Lemma attr_print_ok (table : list string) (a : bt_gatt_ancs_c_attr_t)
    (storage : option (list Z)) (app : sample_app) :
  (Z.to_nat (attr_id a) < length table)%nat →
  (attr_len a ≠ 0 → ∃ buf k, storage = Some buf ∧ buf !! k = Some 0) →
  ∃ app', attr_print table a storage app = Ok app'
          ∧ m_notification_latest app' = m_notification_latest app.
Proof.
  intros Hid Hdata. unfold attr_print.
  destruct (lit_at_in_range table _ Hid) as [name ->]. cbn [mbind res_bind].
  destruct (Z.eqb_spec (attr_len a) 0) as [| Hlen]; cbn [negb]; [by eexists |].
  destruct (Hdata Hlen) as (buf & k & -> & Hk).
  destruct (c_string_terminated buf k Hk) as (s & Hs & _).
  cbn [c_string_at]. rewrite Hs. cbn [mbind res_bind]. by eexists.
Qed.

Lemma handler_ok (c : bt_gatt_ancs_c) (app : sample_app) (ev : sink_call) :
  length (ancs_notif_attr_list c) = length lit_attrid →
  length (ancs_app_attr_list c) = length lit_appid →
  handler_call_ok c ev →
  bt_gatt_ancs_verify_notification_format (m_notification_latest app) = 0 →
  ∃ app', bt_ancs_c_evt_handler app ev = Ok app'
          ∧ bt_gatt_ancs_verify_notification_format (m_notification_latest app') = 0.
Proof.
  intros Hn Ha Hev Hlatest. destruct ev as [t n | e storage | err].
  - destruct Hev as [-> | (-> & m & -> & Hm)]; [by eexists |].
    cbn [bt_ancs_c_evt_handler].
    destruct (notif_print_ok m (set_m_notification_latest m app) Hm) as (app' & -> & Hl).
    exists app'. split; [done |]. by rewrite Hl.
  - cbn [handler_call_ok evt_terminated] in Hev. unfold registered_entry in Hev.
    cbn [bt_ancs_c_evt_handler].
    destruct (evt_type e); cbn [list_of_evt_type] in Hev; try done.
    + destruct (attr_list_of c NotifList !! _) as [r |] eqn:Hr; [| done].
      destruct Hev as (_ & Hterm). apply lookup_lt_Some in Hr. cbn in Hr.
      destruct (attr_print_ok lit_attrid (attr e) storage
                  (set_m_notif_attr_latest (attr e) app)) as (app' & Hp & Hl).
      { by rewrite <- Hn. }
      { intros Hlen. destruct (Hterm Hlen) as (buf & -> & Hz). eauto. }
      unfold notif_attr_print. cbn [m_notif_attr_latest set_m_notif_attr_latest].
      rewrite Hp. cbn [mbind res_bind].
      destruct (_ =? _); eexists; (split; [done |]); cbn; by rewrite Hl.
    + destruct (attr_list_of c AppList !! _) as [r |] eqn:Hr; [| done].
      destruct Hev as (_ & Hterm). apply lookup_lt_Some in Hr. cbn in Hr.
      destruct (attr_print_ok lit_appid (attr e) storage app) as (app' & Hp & Hl).
      { by rewrite <- Ha. }
      { intros Hlen. destruct (Hterm Hlen) as (buf & -> & Hz). eauto. }
      unfold app_attr_print. rewrite Hp. eexists. split; [done |]. by rewrite Hl.
  - cbn [bt_ancs_c_evt_handler]. eexists. split; [done |].
    unfold err_code_print. by repeat case_match.
Qed.

Lemma handle_events_ok (c : bt_gatt_ancs_c) (evs : list sink_call) :
  length (ancs_notif_attr_list c) = length lit_attrid →
  length (ancs_app_attr_list c) = length lit_appid →
  Forall (handler_call_ok c) evs →
  ∀ app,
    bt_gatt_ancs_verify_notification_format (m_notification_latest app) = 0 →
    ∃ app', handle_events app evs = Ok app'
            ∧ bt_gatt_ancs_verify_notification_format (m_notification_latest app') = 0.
Proof.
  intros Hn Ha Hall. induction Hall as [| ev evs Hev _ IH]; intros app Hlatest.
  - by exists app.
  - cbn [handle_events].
    destruct (handler_ok c app ev Hn Ha Hev Hlatest) as (app1 & -> & H1).
    cbn [mbind res_bind]. by apply IH.
Qed.

(** X17: the sample's handler is safe on what the client hands it.  Take the
    client in any session (tables fit for the parser, parser at the start
    of a response, any calls short of registrations) that the client
    completes (each call returns, none with an access outside an object:
    the run is [Ok]), and let the sample's [bt_ancs_c_evt_handler] handle
    the events of that session in turn.  It handles them all: each index
    into [lit_eventid], [lit_catid], [lit_attrid] and [lit_appid] is within
    the table, and each buffer printed with [%s] holds a terminator.  The
    notification it keeps in [m_notification_latest] passes the
    client's verification, so that a later request for its attributes is
    not turned down as invalid. *)
Theorem sample_handler_safe (W fuel : nat) (s s' : session) (calls : list api_call)
    (app : sample_app) :
  tables_ok (client s) = true →
  parse_state (parse_info (ancs_c (client s))) = COMMAND_ID →
  bt_gatt_ancs_verify_notification_format (m_notification_latest app) = 0 →
  forallb (call_in_use fuel) calls = true →
  api_run W fuel s calls = Ok s' →
  ∃ app', handle_events app (new_events s s') = Ok app'
          ∧ bt_gatt_ancs_verify_notification_format (m_notification_latest app') = 0.
Proof.
  intros Hok Hst Hlatest Huse Hrun.
  assert (Hinv : parser_inv (client s)) by (split; [done | by rewrite Hst]).
  apply api_run_in_use in Hrun as (_ & _ & _ & evs & Hs & Hevs); [| done | done].
  unfold new_events. rewrite Hs, drop_app_length.
  eapply handle_events_ok; [| | exact Hevs | done].
  - pose proof (tables_ok_length (client s) NotifList Hok) as H.
    cbn [attr_list_of] in H. unfold BT_GATT_ANCS_NB_OF_NOTIF_ATTR in H.
    simpl. lia.
  - pose proof (tables_ok_length (client s) AppList Hok) as H.
    cbn [attr_list_of] in H. unfold BT_GATT_ANCS_NB_OF_APP_ATTR in H.
    simpl. lia.
Qed.

Lemma sample_handler_safe_witness :
  let s := session_after (api_run 32 64 (fresh_session 32 65) sample_registrations)
             (fresh_session 32 65) in
  let s' := session_after (api_run 32 64 s sample_calls) s in
  ∃ app', handle_events zero_app (new_events s s') = Ok app'
          ∧ bt_gatt_ancs_verify_notification_format (m_notification_latest app') = 0.
Proof.
  cbv zeta.
  apply (sample_handler_safe 32 64
           (session_after (api_run 32 64 (fresh_session 32 65) sample_registrations)
              (fresh_session 32 65)) _ sample_calls zero_app).
  - vm_compute. reflexivity.
  - vm_compute. reflexivity.
  - vm_compute. reflexivity.
  - vm_compute. reflexivity.
  - vm_compute. reflexivity.
Defined.

(** ** The sample's buttons *)

Lemma api_run_app (W fuel : nat) (l1 l2 : list api_call) :
  ∀ s, api_run W fuel s (l1 ++ l2) = s1 ← api_run W fuel s l1; api_run W fuel s1 l2.
Proof.
  induction l1 as [| c l1 IH]; intros s; [done |].
  cbn [api_run app]. destruct (api_step W fuel s c); cbn [mbind res_bind]; [| done | done].
  apply IH.
Qed.

Lemma printk_statics (f : string) (a : list printk_arg) (app : sample_app) :
  m_notification_latest (printk f a app) = m_notification_latest app
  ∧ m_notif_attr_app_id_latest (printk f a app) = m_notif_attr_app_id_latest app
  ∧ m_notif_attr_latest (printk f a app) = m_notif_attr_latest app.
Proof. done. Qed.

Lemma pressed_nil (W fuel : nat) (st : session * sample_app) : pressed W fuel st st [].
Proof. repeat split; try done. exists []. by rewrite app_nil_r. Qed.

Lemma pressed_app (W fuel : nat) (st1 st2 st3 : session * sample_app)
    (l1 l2 : list api_call) :
  pressed W fuel st1 st2 l1 → pressed W fuel st2 st3 l2 →
  pressed W fuel st1 st3 (l1 ++ l2).
Proof.
  intros (R1 & U1 & S1 & M1 & A1 & B1 & C1 & k1 & K1)
         (R2 & U2 & S2 & M2 & A2 & B2 & C2 & k2 & K2).
  split; [by rewrite api_run_app, R1 |].
  split; [rewrite forallb_app; by rewrite U1, U2 |].
  repeat split; try congruence.
  exists (k1 ++ k2). by rewrite K2, K1, app_assoc.
Qed.

Lemma console_grows (app : sample_app) (err : Z) (f : string) :
  ∃ lines,
    console (if negb (err =? 0) then printk f [arg_d err] app else app)
    = console app ++ lines.
Proof.
  destruct (negb _); [by eexists [_] | exists []; by rewrite app_nil_r].
Qed.

Lemma statics_kept (app : sample_app) (err : Z) (f : string) :
  let app' := if negb (err =? 0) then printk f [arg_d err] app else app in
  m_notification_latest app' = m_notification_latest app
  ∧ m_notif_attr_latest app' = m_notif_attr_latest app
  ∧ m_notif_attr_app_id_latest app' = m_notif_attr_app_id_latest app.
Proof. cbv zeta. by destruct (negb _). Qed.

Lemma req_noti_attr_pressed (W fuel : nat) (st st' : session * sample_app) :
  req_noti_attr st = Ok st' →
  pressed W fuel st st' [RequestAttrs (m_notification_latest st.2) K_NO_WAIT].
Proof.
  destruct st as [s app]. unfold req_noti_attr, pressed. cbn [fst snd api_run api_step].
  destruct (bt_gatt_ancs_c_request_attrs _ _ _) as [[err w] | |] eqn:H;
    cbn [mbind res_bind]; [| done | done].
  intros [= <-]. cbn [fst snd client set_client].
  apply request_attrs_frame in H as (Hs & Hr & _).
  pose proof (statics_kept app err
    "Failed requesting attributes for a notification (err: %d)\n") as (? & ? & ?).
  do 4 (split; [done |]). do 3 (split; [done |]). apply console_grows.
Qed.

Lemma action_pressed (W fuel : nat) (s : session) (app : sample_app) (st' : session * sample_app)
    (action : Z) (line : string) :
  ('(err, w) ← bt_gatt_ancs_perform_notif_action (client s)
                 (notif_uid (m_notification_latest (printk line [] app)))
                 action K_NO_WAIT;
   Ok (set_client w s,
       if negb (err =? 0)
       then printk "Failed performing action (err: %d)\n" [arg_d err]
              (printk line [] app)
       else printk line [] app)) = Ok st' →
  pressed W fuel (s, app) st'
    [PerformNotifAction (notif_uid (m_notification_latest app)) action K_NO_WAIT].
Proof.
  unfold pressed. cbn [fst snd api_run api_step].
  change (m_notification_latest (printk line [] app)) with (m_notification_latest app).
  destruct (bt_gatt_ancs_perform_notif_action _ _ _ _) as [[err w] | |] eqn:H;
    cbn [mbind res_bind]; [| done | done].
  intros [= <-]. cbn [fst snd client set_client].
  apply perform_notif_action_frame in H as ((Hs & Hr & _) & _).
  pose proof (statics_kept (printk line [] app) err
    "Failed performing action (err: %d)\n") as (? & ? & ?).
  do 4 (split; [done |]). do 3 (split; [done |]).
  destruct (console_grows (printk line [] app) err
              "Failed performing action (err: %d)\n") as (k & ->).
  cbn [console printk]. exists ([{| fmt := line; args := [] |}] ++ k).
  by rewrite app_assoc.
Qed.

Lemma req_app_attr_pressed (W fuel : nat) (st st' : session * sample_app) :
  req_app_attr W fuel st = Ok st' →
  let a := m_notif_attr_app_id_latest st.2 in
  pressed W fuel st st'
    (if (attr_id a =? BT_GATT_ANCS_NOTIF_ATTR_ID_APP_IDENTIFIER)
        && negb (attr_len a =? 0)
     then [AppAttrRequest (default [] (p_attr_data a ≫= λ slot, ram (client st.1) !! slot))
             (Z.to_nat (attr_len a)) K_NO_WAIT]
     else []).
Proof.
  destruct st as [s app]. unfold req_app_attr. cbn [fst snd]. cbv zeta.
  destruct (_ && _); [| intros [= <-]; apply pressed_nil].
  destruct (p_attr_data _) as [slot |]; [| done]. cbn [mbind option_bind].
  destruct (ram (client s) !! slot) as [buf |]; [| done]. cbn [default].
  destruct (c_string buf) as [name | |]; cbn [mbind res_bind]; [| done | done].
  unfold pressed. cbn [fst snd api_run api_step].
  destruct (bt_gatt_ancs_c_app_attr_request _ _ _ _ _ _) as [[err w] | |] eqn:H;
    cbn [mbind res_bind]; [| done | done].
  intros [= <-]. cbn [fst snd client set_client].
  apply app_attr_request_frame in H as (Hs & Hr & _).
  pose proof (statics_kept (printk "Request for %s: \n" [arg_cs name] app) err
    "Failed requesting attributes for a given app (err: %d)\n") as (? & ? & ?).
  do 4 (split; [done |]). do 3 (split; [done |]).
  destruct (console_grows (printk "Request for %s: \n" [arg_cs name] app) err
              "Failed requesting attributes for a given app (err: %d)\n") as (k & ->).
  cbn [console printk]. eexists (_ :: k). by rewrite <- app_assoc.
Qed.

(** X18: a button press is a sequence of calls of the client.  Whatever
    buttons are pressed, when [button_changed] returns it has done to the
    client what at most four of its functions do, called in this order
    without waiting: a request for the attributes of the latest
    notification (button 1), a request for the attributes of the app whose
    identifier came last (button 2, when an identifier with data has come),
    a positive and a negative action on the latest notification (buttons 3
    and 4, when the notification has the flag).  The handler is not called
    and the statics are not changed, only the console grows.  So what holds
    of every sequence of calls holds of a sample whose buttons are
    pressed. *)
Theorem button_changed_as_calls (W fuel : nat) (s s' : session)
    (app app' : sample_app) (button_state has_changed : Z) :
  button_changed W fuel (s, app) button_state has_changed = Ok (s', app') →
  let calls := button_calls app (ram (client s)) button_state has_changed in
  api_run W fuel s calls = Ok s'
  ∧ forallb (call_in_use fuel) calls = true
  ∧ sink (client s') = sink (client s)
  ∧ m_notification_latest app' = m_notification_latest app
  ∧ m_notif_attr_latest app' = m_notif_attr_latest app
  ∧ m_notif_attr_app_id_latest app' = m_notif_attr_app_id_latest app
  ∧ ∃ lines, console app' = console app ++ lines.
Proof.
  intros H. cbv zeta. unfold button_changed in H. unfold button_calls.
  set (buttons := Z.land button_state has_changed) in *.
  assert (H1 : ∃ st1, (if negb (Z.land buttons KEY_REQ_NOTI_ATTR =? 0)
                       then req_noti_attr (s, app) else Ok (s, app)) = Ok st1)
    by (destruct (if negb _ then _ else _) as [st1 | |]; [by eexists | done | done]).
  destruct H1 as (st1 & H1). rewrite H1 in H. cbn [mbind res_bind] in H.
  assert (H2 : ∃ st2, (if negb (Z.land buttons KEY_REQ_APP_ATTR =? 0)
                       then req_app_attr W fuel st1 else Ok st1) = Ok st2)
    by (destruct (if negb _ then _ else _) as [st2 | |]; [by eexists | done | done]).
  destruct H2 as (st2 & H2). rewrite H2 in H. cbn [mbind res_bind] in H.
  assert (H3 : ∃ st3, (if negb (Z.land buttons KEY_POS_ACTION =? 0)
                       then pos_action st2 else Ok st2) = Ok st3)
    by (destruct (if negb _ then _ else _) as [st3 | |]; [by eexists | done | done]).
  destruct H3 as (st3 & H3). rewrite H3 in H. cbn [mbind res_bind] in H.
  assert (P1 : pressed W fuel (s, app) st1
                 (if negb (Z.land buttons KEY_REQ_NOTI_ATTR =? 0)
                  then [RequestAttrs (m_notification_latest app) K_NO_WAIT] else [])).
  { revert H1. destruct (negb (Z.land buttons KEY_REQ_NOTI_ATTR =? 0)); intros H1;
      [by apply (req_noti_attr_pressed W fuel) in H1 |].
    injection H1 as <-. apply pressed_nil. }
  pose proof P1 as (_ & _ & _ & Hr1 & Hn1 & _ & Ha1 & _). cbn [fst snd] in Hr1, Hn1, Ha1.
  assert (P2 : pressed W fuel st1 st2
                 (if negb (Z.land buttons KEY_REQ_APP_ATTR =? 0)
                     && (attr_id (m_notif_attr_app_id_latest app)
                         =? BT_GATT_ANCS_NOTIF_ATTR_ID_APP_IDENTIFIER)
                     && negb (attr_len (m_notif_attr_app_id_latest app) =? 0)
                  then [AppAttrRequest
                          (default [] (p_attr_data (m_notif_attr_app_id_latest app)
                                       ≫= λ slot, ram (client s) !! slot))
                          (Z.to_nat (attr_len (m_notif_attr_app_id_latest app)))
                          K_NO_WAIT]
                  else [])).
  { revert H2. destruct (negb (Z.land buttons KEY_REQ_APP_ATTR =? 0));
      intros H2; cbn [andb].
    - apply req_app_attr_pressed in H2. cbv zeta in H2.
      by rewrite Ha1, Hr1 in H2.
    - injection H2 as <-. apply pressed_nil. }
  pose proof P2 as (_ & _ & _ & _ & Hn2 & _ & _ & _). rewrite Hn1 in Hn2.
  assert (P3 : pressed W fuel st2 st3
                 (if negb (Z.land buttons KEY_POS_ACTION =? 0)
                     && (positive_action (evt_flags (m_notification_latest app)) =? 1)
                  then [PerformNotifAction (notif_uid (m_notification_latest app))
                          ACTION_ID_POSITIVE K_NO_WAIT]
                  else [])).
  { revert H3. destruct (negb (Z.land buttons KEY_POS_ACTION =? 0));
      intros H3; cbn [andb].
    - destruct st2 as [s2 app2]. unfold pos_action in H3. cbn [snd] in Hn2.
      rewrite Hn2 in H3.
      destruct (positive_action _ =? 1).
      + apply (action_pressed W fuel) in H3. by rewrite Hn2 in H3.
      + injection H3 as <-. apply pressed_nil.
    - injection H3 as <-. apply pressed_nil. }
  pose proof P3 as (_ & _ & _ & _ & Hn3 & _ & _ & _). rewrite Hn2 in Hn3.
  assert (P4 : pressed W fuel st3 (s', app')
                 (if negb (Z.land buttons KEY_NEG_ACTION =? 0)
                     && (negative_action (evt_flags (m_notification_latest app)) =? 1)
                  then [PerformNotifAction (notif_uid (m_notification_latest app))
                          ACTION_ID_NEGATIVE K_NO_WAIT]
                  else [])).
  { revert H. destruct (negb (Z.land buttons KEY_NEG_ACTION =? 0));
      intros H; cbn [andb].
    - destruct st3 as [s3 app3]. unfold neg_action in H. cbn [snd] in Hn3.
      rewrite Hn3 in H.
      destruct (negative_action _ =? 1).
      + apply (action_pressed W fuel) in H. by rewrite Hn3 in H.
      + injection H as <- <-. apply pressed_nil.
    - injection H as <-. apply pressed_nil. }
  pose proof (pressed_app _ _ _ _ _ _ _ P1
                (pressed_app _ _ _ _ _ _ _ P2
                   (pressed_app _ _ _ _ _ _ _ P3 P4)))
    as (R & U & S & _ & A & B & C & K).
  cbn [fst snd] in *. by repeat split.
Qed.

Lemma button_changed_as_calls_witness :
  let st := sample_after (app_id_received 3) in
  let st' := pressed_after (button_changed 32 64 st 15 7) st in
  let calls := button_calls st.2 (ram (client st.1)) 15 7 in
  api_run 32 64 st.1 calls = Ok st'.1
  ∧ forallb (call_in_use 64) calls = true
  ∧ sink (client st'.1) = sink (client st.1)
  ∧ m_notification_latest st'.2 = m_notification_latest st.2
  ∧ m_notif_attr_latest st'.2 = m_notif_attr_latest st.2
  ∧ m_notif_attr_app_id_latest st'.2 = m_notif_attr_app_id_latest st.2
  ∧ ∃ lines, console st'.2 = console st.2 ++ lines.
Proof.
  cbv zeta.
  apply (button_changed_as_calls 32 64 (sample_after (app_id_received 3)).1
           (pressed_after (button_changed 32 64 (sample_after (app_id_received 3)) 15 7)
              (sample_after (app_id_received 3))).1
           (sample_after (app_id_received 3)).2
           (pressed_after (button_changed 32 64 (sample_after (app_id_received 3)) 15 7)
              (sample_after (app_id_received 3))).2 15 7).
  vm_compute. reflexivity.
Defined.

Lemma c_string_trap (buf : list Z) (t : trap) : c_string buf = Trap t → t = OutOfBounds.
Proof.
  induction buf as [| b buf IH]; cbn [c_string]; [by intros [= <-] |].
  destruct (b =? 0); [done |].
  destruct (c_string buf) as [x | t' |]; cbn [mbind res_bind]; [done | | done].
  intros [= <-]. by apply IH.
Qed.

Lemma c_string_no_spin (buf : list Z) : c_string buf ≠ Spin.
Proof.
  induction buf as [| b buf IH]; cbn [c_string]; [done |].
  destruct (b =? 0); [done |]. by destruct (c_string buf).
Qed.

(** X19: the app identifier and button 2.  Let the handler have kept an App
    Identifier attribute with data, of length [attr_len] on the wire, and
    let button 2 be pressed: the sample passes the buffer of the attribute
    and [attr_len] to [bt_gatt_ancs_c_app_attr_request], which looks for
    the terminator at offset [attr_len].  The parser has stored at most
    max_len - 1 bytes but reports the length on the wire: when that length
    reaches the size of the buffer (32 in the sample), the look-up is
    outside the buffer.  When the buffer holds the terminator at that
    offset (and the semaphore is free, the command fits and the write is
    accepted), the transport is handed 01, the identifier, 00 and the
    requested attribute id: all of these bytes when they are fewer than
    65536, their number modulo 65536 being what reaches the write as its
    [uint16_t] length. *)
Theorem app_id_button_bounds (W fuel : nat) (s : session) (app0 app : sample_app)
    (e : bt_gatt_ancs_c_evt_t) (storage : option (list Z)) (a : nat) (buf : list Z)
    (e0 : bt_gatt_ancs_c_attr_list_t) :
  evt_type e = BT_GATT_ANCS_C_EVT_NOTIF_ATTRIBUTE →
  attr_id (attr e) = BT_GATT_ANCS_NOTIF_ATTR_ID_APP_IDENTIFIER →
  0 < attr_len (attr e) →
  p_attr_data (attr e) = Some a →
  bt_ancs_c_evt_handler app0 (on_ds e storage) = Ok app →
  ram (client s) !! a = Some buf →
  let len := Z.to_nat (attr_len (attr e)) in
  let press := button_changed W fuel (s, app) KEY_REQ_APP_ATTR KEY_REQ_APP_ATTR in
  (length buf ≤ len → press = Trap OutOfBounds)%nat
  ∧ (buf !! len = Some 0 →
     length (cp_data (ancs_c (client s))) = W →
     ancs_app_attr_list (ancs_c (client s)) = [e0] →
     cp_write_params_sem (ancs_c (client s)) = 1 →
     write_ret (att (client s)) = 0 →
     (length (get_app_attrs_wire buf len [e0]) ≤ W)%nat →
     (len + 3 ≤ fuel)%nat →
     let wire := get_app_attrs_wire buf len [e0] in
     ∃ s' app', press = Ok (s', app')
                ∧ written (att (client s'))
                  = written (att (client s)) ++ [take (uint16 (length wire)) wire]
                ∧ (Z.of_nat (length wire) < 65536 →
                   written (att (client s')) = written (att (client s)) ++ [wire])).
Proof.
  intros Hty Hid Hlen Hp Hh Hbuf. cbv zeta.
  assert (Hlatest : m_notif_attr_app_id_latest app = attr e).
  { cbn [bt_ancs_c_evt_handler] in Hh. rewrite Hty in Hh.
    destruct (notif_attr_print _ _ _) as [app1 | |]; cbn [mbind res_bind] in Hh;
      [| done | done].
    rewrite Hid in Hh. cbn [Z.eqb] in Hh. by injection Hh as <-. }
  unfold button_changed, KEY_REQ_APP_ATTR, KEY_REQ_NOTI_ATTR, KEY_POS_ACTION,
    KEY_NEG_ACTION.
  change (Z.land (Z.land 2 2) 1 =? 0) with true.
  change (Z.land (Z.land 2 2) 2 =? 0) with false.
  change (Z.land (Z.land 2 2) 4 =? 0) with true.
  change (Z.land (Z.land 2 2) 8 =? 0) with true.
  cbn [negb mbind res_bind].
  assert (Hend : ∀ r : res (session * sample_app), (st ← r; st ← Ok st; Ok st) = r)
    by (by intros [[] | |]).
  rewrite !Hend. clear Hend.
  unfold req_app_attr. rewrite Hlatest, Hid, Hp, Hbuf.
  destruct (Z.eqb_spec (attr_len (attr e)) 0) as [| _]; [lia |].
  cbn [Z.eqb andb negb].
  assert (Hpos : Z.to_nat (attr_len (attr e)) ≠ 0%nat) by lia.
  split.
  - intros Hshort.
    destruct (c_string buf) as [name | t |] eqn:Hs; cbn [mbind res_bind].
    + unfold bt_gatt_ancs_c_app_attr_request, ancs_c_app_attr_request.
      rewrite decide_False by done.
      rewrite (lookup_ge_None_2 buf) by done. done.
    + by rewrite (c_string_trap _ _ Hs).
    + by apply c_string_no_spin in Hs.
  - intros Hz HW Hlist Hsem Hret Hfit Hfuel.
    destruct (c_string_terminated buf _ Hz) as (name & -> & _). cbn [mbind res_bind].
    destruct (app_attr_request_encodes W fuel (client s) buf
                (Z.to_nat (attr_len (attr e))) K_NO_WAIT e0)
      as (w' & -> & _ & _ & _ & _ & Hw & _ & Hsmall);
      [done | done | done | lia | done ..|].
    cbn [mbind res_bind]. eexists _, _. split; [done |].
    cbn [client set_client]. destruct (Hw Hret) as [Hwr _]. split; [done |].
    intros Hs. by rewrite Hwr, (Hsmall Hs).
Qed.

Lemma app_id_button_bounds_witness :
  let st := sample_after (app_id_received 40) in
  let e := {| evt_type := BT_GATT_ANCS_C_EVT_NOTIF_ATTRIBUTE;
              attr := {| attr_len := 40; attr_id := 0; p_attr_data := Some 0%nat |};
              evt_notif_uid := 67305985;
              app_id := replicate 32 0 |} in
  let buf := replicate 31 97 ++ [0] in
  let e0 := {| get := true; list_attr_len := 32; list_p_attr_data := Some 8%nat |} in
  let len := Z.to_nat (attr_len (attr e)) in
  let press := button_changed 32 64 (st.1, st.2) KEY_REQ_APP_ATTR KEY_REQ_APP_ATTR in
  (length buf ≤ len → press = Trap OutOfBounds)%nat
  ∧ (buf !! len = Some 0 →
     length (cp_data (ancs_c (client st.1))) = 32%nat →
     ancs_app_attr_list (ancs_c (client st.1)) = [e0] →
     cp_write_params_sem (ancs_c (client st.1)) = 1 →
     write_ret (att (client st.1)) = 0 →
     (length (get_app_attrs_wire buf len [e0]) ≤ 32)%nat →
     (len + 3 ≤ 64)%nat →
     let wire := get_app_attrs_wire buf len [e0] in
     ∃ s' app', press = Ok (s', app')
                ∧ written (att (client s'))
                  = written (att (client st.1)) ++ [take (uint16 (length wire)) wire]
                ∧ (Z.of_nat (length wire) < 65536 →
                   written (att (client s')) = written (att (client st.1)) ++ [wire])).
Proof.
  cbv zeta.
  apply (app_id_button_bounds 32 64 (sample_after (app_id_received 40)).1 zero_app
           (sample_after (app_id_received 40)).2
           {| evt_type := BT_GATT_ANCS_C_EVT_NOTIF_ATTRIBUTE;
              attr := {| attr_len := 40; attr_id := 0; p_attr_data := Some 0%nat |};
              evt_notif_uid := 67305985;
              app_id := replicate 32 0 |}
           (Some (replicate 31 97 ++ [0])) 0 (replicate 31 97 ++ [0])
           {| get := true; list_attr_len := 32; list_p_attr_data := Some 8%nat |}).
  - reflexivity.
  - reflexivity.
  - reflexivity.
  - reflexivity.
  - vm_compute. reflexivity.
  - vm_compute. reflexivity.
Defined.

(** The two cases in the sample.  An app identifier of 40 bytes arrives:
    the handler is called once, with the length 40 and a buffer that holds
    31 bytes and the terminator, and button 2 then reads outside the
    buffer.  With an identifier of 3 bytes, button 2 has the command
    01 'a' 'a' 'a' 00 00 handed to the transport. *)
Lemma sample_app_id_buttons :
  (let st := sample_after (app_id_received 40) in
   new_events sample_registered st.1
   = [on_cp 0;
      on_ds {| evt_type := BT_GATT_ANCS_C_EVT_NOTIF_ATTRIBUTE;
               attr := {| attr_len := 40; attr_id := 0; p_attr_data := Some 0%nat |};
               evt_notif_uid := 67305985;
               app_id := replicate 32 0 |}
            (Some (replicate 31 97 ++ [0]))]
   ∧ button_changed 32 64 st KEY_REQ_APP_ATTR KEY_REQ_APP_ATTR = Trap OutOfBounds)
  ∧ (let st := sample_after (app_id_received 3) in
     ∃ s' app', button_changed 32 64 st KEY_REQ_APP_ATTR KEY_REQ_APP_ATTR = Ok (s', app')
                ∧ written (att (client s'))
                  = written (att (client st.1)) ++ [[1; 97; 97; 97; 0; 0]]).
Proof.
  cbv zeta. split.
  - split; vm_compute; reflexivity.
  - exists (pressed_after (button_changed 32 64 (sample_after (app_id_received 3)) 2 2)
              (sample_after (app_id_received 3))).1,
           (pressed_after (button_changed 32 64 (sample_after (app_id_received 3)) 2 2)
              (sample_after (app_id_received 3))).2.
    vm_compute. split; reflexivity.
Qed.

(** ** An entry registered with a length of 1 *)

Lemma set_parse_state_same (w : world) :
  set_ancs_c (set_parse_info (set_parse_state (parse_state (parse_info (ancs_c w))))) w = w.
Proof. destruct w as [[? ? ? ? ? [] ?] ? ? ?]. reflexivity. Qed.

(** X20: an entry registered with a length of 1 makes the parser hang.
    [bt_gatt_ancs_c_attr_add] accepts a length of 1.  When the data of an
    attribute with such an entry begins and the attribute has two bytes or
    more, of which two are in the notification at hand, the parser stores
    the first byte and then stays in ATTR_DATA without consuming the second:
    the loop of [ancs_parse_get_attrs_response] does not end, however many
    iterations it is given. *)
Theorem length_1_entry_hangs (w : world) (h : hvx) (i : nat) (l : attr_list_sel)
    (e : bt_gatt_ancs_c_attr_list_t) (a : nat) (buf : list Z) :
  parse_state (parse_info (ancs_c w)) = ATTR_DATA →
  located (ancs_c w) l e →
  list_attr_len e = 1 →
  list_p_attr_data e = Some a →
  ram w !! a = Some buf → buf ≠ [] →
  current_attr_index (parse_info (ancs_c w)) = 0 →
  2 ≤ attr_len (attr (evt (ancs_c w))) →
  (i + 1 < hvx_data_len h)%nat →
  (∀ c id, (bt_gatt_ancs_c_attr_add c id (Some a) (list_attr_len e)).1 = 0)
  ∧ ∀ fuel, parse_loop fuel w h i = Spin.
Proof.
  intros Hst Hloc Hlen Hp Hram Hbuf Hidx Hattr Hi. split.
  { intros c id. unfold bt_gatt_ancs_c_attr_add. rewrite Hlen. reflexivity. }
  pose proof (p_attr_list_at_located _ _ _ Hloc) as Hat.
  destruct Hloc as (Hbound & Hentry & Hptr).
  (* the first byte is stored *)
  assert (Hstore : ∃ w1, store_attr_data w 0 (p_data_src h i) = Ok w1
                         ∧ ancs_c w1 = ancs_c w).
  { unfold store_attr_data, store. rewrite Hptr, Hp, Hram.
    rewrite decide_True by (destruct buf; [done | simpl; lia]).
    cbn [mbind res_bind]. by eexists. }
  destruct Hstore as (w1 & Hw1 & Hc1).
  set (w2 := set_ancs_c (set_parse_info (set_current_attr_index 1)) w1).
  assert (Hat2 : p_attr_list_at (ancs_c w2) (attr_id (attr (evt (ancs_c w2)))) = Ok e).
  { subst w2. cbn [ancs_c set_ancs_c]. rewrite Hc1.
    unfold p_attr_list_at in *. by destruct (ancs_c w) as [? ? ? ? ? [] ?]. }
  assert (Hst2 : parse_state (parse_info (ancs_c w2)) = ATTR_DATA).
  { subst w2. cbn [ancs_c set_ancs_c]. rewrite Hc1.
    by destruct (ancs_c w) as [? ? ? ? ? [] ?]. }
  assert (Hidx2 : current_attr_index (parse_info (ancs_c w2)) = 1) by done.
  assert (Hattr2 : attr_len (attr (evt (ancs_c w2))) = attr_len (attr (evt (ancs_c w)))).
  { subst w2. cbn [ancs_c set_ancs_c]. rewrite Hc1.
    by destruct (ancs_c w) as [? ? ? ? ? [] ?]. }
  assert (Hid : set_ancs_c (set_parse_info (set_parse_state ATTR_DATA)) w2 = w2)
    by (rewrite <- Hst2 at 1; apply set_parse_state_same).
  assert (Hiter1 : parse_iter w h i = Ok (w2, S i)).
  { unfold parse_iter. rewrite Hst. unfold attr_data_parse.
    rewrite Hat. cbn [mbind res_bind]. rewrite Hidx, Hlen.
    destruct (Z.ltb_spec 0 (attr_len (attr (evt (ancs_c w))))) as [_ |]; [| lia].
    cbn [Z.ltb Z.compare andb]. rewrite Hw1. cbn [mbind res_bind Z.add Pos.add].
    cbn [ancs_c set_ancs_c set_parse_info parse_info set_current_attr_index
         current_attr_index evt]. rewrite Hc1.
    replace (p_attr_list_at _ _) with (Ok (A := bt_gatt_ancs_c_attr_list_t) e).
    cbn [mbind res_bind]. rewrite Hlen. change (0 + 1) with 1. fold w2.
    destruct (Z.eqb_spec 1 (attr_len (attr (evt (ancs_c w))))) as [| _]; [lia |].
    change (1 =? 1 - 1) with false. cbn [orb mbind res_bind].
    by rewrite Hid. }
  assert (Hiter2 : parse_iter w2 h (S i) = Ok (w2, S i)).
  { unfold parse_iter. rewrite Hst2. unfold attr_data_parse.
    rewrite Hat2. cbn [mbind res_bind]. rewrite Hidx2, Hlen.
    cbn [Z.ltb Z.compare Pos.compare Pos.compare_cont andb mbind res_bind].
    rewrite Hat2. cbn [mbind res_bind]. rewrite Hidx2, Hlen, Hattr2.
    destruct (Z.eqb_spec 1 (attr_len (attr (evt (ancs_c w))))) as [| _]; [lia |].
    change (1 =? 1 - 1) with false. cbn [orb mbind res_bind].
    by rewrite Hid. }
  intros fuel. destruct fuel as [| fuel]; cbn [parse_loop];
    (rewrite decide_True by lia); [done |].
  rewrite Hiter1. cbn [mbind res_bind].
  apply parse_loop_stuck; [lia | exact Hiter2].
Qed.

Lemma length_1_entry_hangs_witness :
  (∀ c id, (bt_gatt_ancs_c_attr_add c id (Some 1%nat) 1).1 = 0)
  ∧ ∀ fuel, parse_loop fuel sample_title_len1_data (hvx_of [110; 82]) 0 = Spin.
Proof.
  apply (length_1_entry_hangs sample_title_len1_data (hvx_of [110; 82]) 0 NotifList
           {| get := true; list_attr_len := 1; list_p_attr_data := Some 1%nat |}
           1 (replicate 32 65)).
  - reflexivity.
  - repeat split; reflexivity.
  - reflexivity.
  - reflexivity.
  - reflexivity.
  - done.
  - reflexivity.
  - vm_compute. discriminate.
  - vm_compute. lia.
Defined.

(** ** The sample's connection callbacks *)

Lemma enable_notifications_idle (s : session) (app : sample_app) :
  has_ancs app && (BT_SECURITY_L2 <=? security_level app) = false →
  enable_notifications (s, app) = (s, app).
Proof. unfold enable_notifications. by intros ->. Qed.

Lemma enable_notifications_ready (s : session) (app : sample_app) :
  has_ancs app = true → BT_SECURITY_L2 ≤ security_level app →
  ns_enabled s = false → ds_enabled s = false →
  let r := enable_notifications (s, app) in
  sub_calls (sub r.1)
  = sub_calls (sub s) ++ both_subscriptions (link s) (subscribe_ret (sub s))
  ∧ ns_enabled r.1 = (subscribe_ret (sub s) =? 0)
  ∧ ds_enabled r.1 = (subscribe_ret (sub s) =? 0)
  ∧ has_ancs r.2 = true ∧ security_level r.2 = security_level app
  ∧ client r.1 = client s.
Proof.
  intros Ha Hl Hns Hds. cbv zeta. unfold enable_notifications.
  rewrite Ha. replace (BT_SECURITY_L2 <=? security_level app) with true
    by (symmetry; apply Z.leb_le; done).
  cbn [andb].
  unfold bt_gatt_ancs_c_notif_source_notif_enable,
    bt_gatt_ancs_c_data_source_notif_enable, ns_enabled, ds_enabled,
    atomic_test_and_set_bit, atomic_test_bit, atomic_set_bit, atomic_clear_bit,
    bt_gatt_subscribe, both_subscriptions, ns_subscription, ds_subscription,
    ANCS_C_NS_NOTIF_ENABLED, ANCS_C_DS_NOTIF_ENABLED in *.
  rewrite Hns. cbn [fst snd link sub client state set_state set_ns_notif_params
    set_ds_notif_params sub_calls ns_notif_params ds_notif_params conn
    subscribe_ret unsubscribe_ret handle_ns handle_ns_ccc handle_ds handle_ds_ccc].
  destruct (subscribe_ret (sub s) =? 0) eqn:Hret;
    cbn [negb fst snd link sub client state set_state set_ns_notif_params
      set_ds_notif_params sub_calls ns_notif_params ds_notif_params conn
      subscribe_ret unsubscribe_ret handle_ns handle_ns_ccc handle_ds handle_ds_ccc];
    rewrite ?Z.setbit_neq, ?Z.clearbit_neq by lia;
    rewrite ?Z.setbit_neq, ?Z.clearbit_neq by lia;
    rewrite Hds;
    cbn [negb fst snd link sub client state set_state set_ns_notif_params
      set_ds_notif_params sub_calls ns_notif_params ds_notif_params conn
      subscribe_ret unsubscribe_ret handle_ns handle_ns_ccc handle_ds handle_ds_ccc];
    rewrite ?Hret;
    cbn [negb fst snd link sub client state set_state set_ns_notif_params
      set_ds_notif_params sub_calls ns_notif_params ds_notif_params conn
      subscribe_ret unsubscribe_ret handle_ns handle_ns_ccc handle_ds handle_ds_ccc];
    rewrite ?Z.setbit_eq, ?Z.clearbit_eq, ?Z.setbit_neq, ?Z.clearbit_neq,
      ?Z.setbit_eq, ?Z.clearbit_eq, ?Z.setbit_neq, ?Z.clearbit_neq by lia;
    rewrite <- ?app_assoc; cbn [List.app];
    repeat split; try done.
  by rewrite Z.clearbit_eq.
Qed.

Lemma enable_notifications_statics (s : session) (app : sample_app) :
  let r := enable_notifications (s, app) in
  has_ancs r.2 = has_ancs app ∧ security_level r.2 = security_level app.
Proof.
  cbv zeta. unfold enable_notifications.
  destruct (has_ancs app && _); [| done].
  destruct (bt_gatt_ancs_c_notif_source_notif_enable s) as [e1 s1].
  destruct (bt_gatt_ancs_c_data_source_notif_enable s1) as [e2 s2].
  by destruct (negb (e1 =? 0)), (negb (e2 =? 0)).
Qed.

Lemma connected_fresh (c : option nat) (s : session) (app : sample_app) (k : stack) :
  ∃ app1 k1, connected c 0 (s, app, k) = (s, app1, k1)
    ∧ has_ancs app1 = false ∧ security_level app1 = BT_SECURITY_L0.
Proof.
  unfold connected. cbn [Z.eqb negb].
  destruct (negb (bt_gatt_dm_start_ret _ mod 256 =? 0)); by eexists _, _.
Qed.

Lemma security_changed_enables (c : option nat) (level : Z) (s : session)
    (app : sample_app) (k : stack) :
  ∃ app1, (security_changed c level 0 (s, app, k)).1
          = enable_notifications (s, app1)
    ∧ (security_changed c level 0 (s, app, k)).2 = k
    ∧ has_ancs app1 = has_ancs app ∧ security_level app1 = level.
Proof.
  unfold security_changed. cbn [Z.eqb]. eexists.
  destruct (enable_notifications _) eqn:He. cbn [fst snd].
  split; [symmetry; apply He |]. done.
Qed.

Lemma discover_completed_cb_spec (dm : bt_gatt_dm) (s : session) (app : sample_app)
    (k : stack) :
  let r := bt_gatt_ancs_c_handles_assign dm (link s) in
  let d := discover_completed_cb dm (s, app, k) in
  security_level d.1.2 = security_level app
  ∧ if r.1 =? 0 then
      has_ancs d.1.2 = true
      ∧ if security_level app <? BT_SECURITY_L2 then
          d.1.1 = set_link r.2 s
          ∧ stack_calls d.2
            = stack_calls k
              ++ [call_bt_gatt_dm_data_print;
                  call_bt_conn_set_security (conn r.2) BT_SECURITY_L2;
                  call_bt_gatt_dm_data_release]
        else
          (∃ app1, d.1.1 = (enable_notifications (set_link r.2 s, app1)).1
                   ∧ has_ancs app1 = true ∧ security_level app1 = security_level app)
          ∧ stack_calls d.2
            = stack_calls k
              ++ [call_bt_gatt_dm_data_print; call_bt_gatt_dm_data_release]
    else
      d.1.1 = set_link r.2 s ∧ has_ancs d.1.2 = has_ancs app
      ∧ stack_calls d.2
        = stack_calls k ++ [call_bt_gatt_dm_data_print; call_bt_gatt_dm_data_release].
Proof.
  cbv zeta. unfold discover_completed_cb.
  destruct (bt_gatt_ancs_c_handles_assign dm (link s)) as [err l].
  cbv zeta. cbn [fst snd].
  destruct (err =? 0); cbn [negb].
  - change (security_level (set_has_ancs true
        (printk "The discovery procedure succeeded\n" [] app)))
      with (security_level app).
    destruct (security_level app <? BT_SECURITY_L2).
    + destruct (negb (bt_conn_set_security_ret _ =? 0)),
        (negb (bt_gatt_dm_data_release_ret _ =? 0));
        cbn; rewrite <- ?app_assoc; done.
    + pose proof (enable_notifications_statics (set_link l s)
        (set_has_ancs true (printk "The discovery procedure succeeded\n" [] app)))
        as [Hh Hs].
      cbv zeta in Hh, Hs.
      set (app0 := set_has_ancs true _) in *.
      destruct (enable_notifications (set_link l s, app0)) as [s1 app1] eqn:He.
      cbn [fst snd] in Hh, Hs.
      destruct (negb (bt_gatt_dm_data_release_ret _ =? 0));
        cbn [fst snd stack_calls called security_level has_ancs printk];
        rewrite <- ?app_assoc; cbn [List.app];
        (repeat split; try done);
        exists app0; rewrite He; done.
  - destruct (negb (bt_gatt_dm_data_release_ret _ =? 0));
      cbn; rewrite <- ?app_assoc; done.
Qed.

(** X21: when the sample subscribes.  On a connection that succeeded, with a
    client that holds no subscription, neither the completed discovery alone
    nor the security change alone calls [bt_gatt_subscribe]; the discovery
    asks once for security level 2 when the handles were assigned.  Once
    both have happened, in either order, and the handles were assigned, the
    Notification Source and then the Data Source are subscribed, once each,
    on the discovered connection with the discovered handles; the second
    call is made whatever the first returned, and each state bit is set
    exactly when the call returned 0.  When the handles could not be
    assigned no subscription is made in either order.  A disconnection
    leaves the client without subscription bits. *)
Theorem sample_subscribes_when_ready (st0 : sample) (dm : bt_gatt_dm)
    (c c' : option nat) (level : Z) :
  no_subscription st0 → BT_SECURITY_L2 ≤ level →
  let st := connected c 0 st0 in
  let r := bt_gatt_ancs_c_handles_assign dm (link st0.1.1) in
  let ret := subscribe_ret (sub st0.1.1) in
  let before := subscribe_calls st0 in
  let d := discover_completed_cb dm st in
  let sc := security_changed c' level 0 st in
  let d_sc := security_changed c' level 0 d in
  let sc_d := discover_completed_cb dm sc in
  subscribe_calls st = before ∧ subscribe_calls d = before
  ∧ subscribe_calls sc = before
  ∧ stack_calls d.2
    = stack_calls st.2
      ++ [call_bt_gatt_dm_data_print]
      ++ (if r.1 =? 0
          then [call_bt_conn_set_security (bt_gatt_dm_conn_get dm) BT_SECURITY_L2]
          else [])
      ++ [call_bt_gatt_dm_data_release]
  ∧ stack_calls sc_d.2
    = stack_calls st.2 ++ [call_bt_gatt_dm_data_print; call_bt_gatt_dm_data_release]
  ∧ (if r.1 =? 0
     then subscribe_calls d_sc = before ++ both_subscriptions r.2 ret
          ∧ subscribe_calls sc_d = before ++ both_subscriptions r.2 ret
          ∧ conn r.2 = bt_gatt_dm_conn_get dm
          ∧ ns_enabled d_sc.1.1 = (ret =? 0) ∧ ds_enabled d_sc.1.1 = (ret =? 0)
          ∧ ns_enabled sc_d.1.1 = (ret =? 0) ∧ ds_enabled sc_d.1.1 = (ret =? 0)
     else subscribe_calls d_sc = before ∧ subscribe_calls sc_d = before)
  ∧ ∀ st1 c1 reason, no_subscription (disconnected c1 reason st1).
Proof.
  intros [Hns Hds] Hl. destruct st0 as [[s app] k]. cbn [fst snd] in Hns, Hds.
  cbv zeta. unfold subscribe_calls. cbn [fst snd].
  destruct (connected_fresh c s app k) as (app1 & k1 & -> & Ha1 & Hl1).
  cbn [fst snd].
  pose proof (handles_assign_frame dm (link s)) as (Hst & _ & _).
  cbv zeta in Hst.
  assert (Hconn : (bt_gatt_ancs_c_handles_assign dm (link s)).1 = 0 →
                  conn (bt_gatt_ancs_c_handles_assign dm (link s)).2
                  = bt_gatt_dm_conn_get dm).
  { unfold bt_gatt_ancs_c_handles_assign, EINVAL, ENOTSUP.
    repeat (case_match; cbn [fst snd]); done. }
  (* the security change first *)
  destruct (security_changed_enables c' level s app1 k1)
    as (app2 & Hsc & Hsck & Ha2 & Hl2).
  rewrite enable_notifications_idle in Hsc by (by rewrite Ha2, Ha1).
  destruct (security_changed c' level 0 (s, app1, k1)) as [[s2 app2'] k2].
  cbn [fst snd] in Hsc, Hsck. injection Hsc as -> ->. subst k2.
  (* the discovery first *)
  pose proof (discover_completed_cb_spec dm s app1 k1) as [Hdl Hd].
  pose proof (discover_completed_cb_spec dm s app2 k1) as [Hdl2 Hd2].
  cbv zeta in Hdl, Hd, Hdl2, Hd2.
  rewrite Hl1 in Hd. change (BT_SECURITY_L0 <? BT_SECURITY_L2) with true in Hd.
  rewrite Hl2 in Hd2.
  replace (level <? BT_SECURITY_L2) with false in Hd2
    by (symmetry; apply Z.ltb_ge; done).
  destruct (discover_completed_cb dm (s, app1, k1)) as [[sd appd] kd].
  destruct (discover_completed_cb dm (s, app2, k1)) as [[sd2 appd2] kd2].
  cbn [fst snd] in *.
  destruct (security_changed_enables c' level sd appd kd)
    as (appd' & Hdsc & _ & Had' & Hld').
  destruct (security_changed c' level 0 (sd, appd, kd)) as [[s3 app3] k3].
  cbn [fst snd] in Hdsc.
  assert (Hbits : ns_enabled (set_link (bt_gatt_ancs_c_handles_assign dm (link s)).2 s)
                  = false
                  ∧ ds_enabled (set_link (bt_gatt_ancs_c_handles_assign dm (link s)).2 s)
                    = false).
  { unfold ns_enabled, ds_enabled, set_link in *. cbn [link]. by rewrite Hst. }
  destruct Hbits as [Hns' Hds'].
  destruct ((bt_gatt_ancs_c_handles_assign dm (link s)).1 =? 0) eqn:Herr.
  - apply Z.eqb_eq in Herr. specialize (Hconn Herr).
    destruct Hd as (Had & -> & Hkd).
    destruct Hd2 as (Had2 & (app4 & Hsd2 & Ha4 & Hl4) & Hkd2).
    pose proof (enable_notifications_ready _ appd' ltac:(by rewrite Had')
                  ltac:(by rewrite Hld') Hns' Hds') as (E1 & E2 & E3 & _).
    pose proof (enable_notifications_ready _ app4 Ha4
                  ltac:(by rewrite Hl4) Hns' Hds') as (F1 & F2 & F3 & _).
    cbv zeta in E1, E2, E3, F1, F2, F3.
    rewrite <- Hsd2 in F1, F2, F3.
    assert (Hs3 : s3 = (enable_notifications
              (set_link (bt_gatt_ancs_c_handles_assign dm (link s)).2 s, appd')).1)
      by (by rewrite <- Hdsc).
    rewrite <- Hs3 in E1, E2, E3.
    rewrite Hkd, Hkd2, Hconn. cbn [List.app].
    unfold set_link in *. cbn [sub link sub_calls subscribe_ret] in *.
    repeat split; try done.
    all: unfold disconnected, bt_gatt_ancs_c_on_disconnected, ns_enabled, ds_enabled,
      atomic_test_bit, atomic_clear_bit, ANCS_C_NS_NOTIF_ENABLED,
      ANCS_C_DS_NOTIF_ENABLED; destruct st1 as [[s1 a1] q1]; cbn [fst snd link state set_state];
      rewrite ?Z.clearbit_eq, ?Z.clearbit_neq, ?Z.clearbit_eq by lia; done.
  - destruct Hd as (-> & Had & Hkd).
    destruct Hd2 as (-> & Had2 & Hkd2).
    rewrite enable_notifications_idle in Hdsc by (by rewrite Had', Had, Ha1).
    injection Hdsc as -> ->.
    rewrite Hkd, Hkd2. cbn [List.app].
    unfold set_link in *. cbn [sub link sub_calls subscribe_ret] in *.
    repeat split; try done.
    all: unfold disconnected, bt_gatt_ancs_c_on_disconnected, ns_enabled, ds_enabled,
      atomic_test_bit, atomic_clear_bit, ANCS_C_NS_NOTIF_ENABLED,
      ANCS_C_DS_NOTIF_ENABLED; destruct st1 as [[s1 a1] q1]; cbn [fst snd link state set_state];
      rewrite ?Z.clearbit_eq, ?Z.clearbit_neq, ?Z.clearbit_eq by lia; done.
Qed.

Lemma sample_subscribes_when_ready_witness :
  let st0 : sample := (sample_registered, zero_app, sample_stack) in
  let st := connected (Some 1%nat) 0 st0 in
  let r := bt_gatt_ancs_c_handles_assign sample_dm (link st0.1.1) in
  let ret := subscribe_ret (sub st0.1.1) in
  let before := subscribe_calls st0 in
  let d := discover_completed_cb sample_dm st in
  let sc := security_changed (Some 1%nat) 2 0 st in
  let d_sc := security_changed (Some 1%nat) 2 0 d in
  let sc_d := discover_completed_cb sample_dm sc in
  subscribe_calls st = before ∧ subscribe_calls d = before
  ∧ subscribe_calls sc = before
  ∧ stack_calls d.2
    = stack_calls st.2
      ++ [call_bt_gatt_dm_data_print]
      ++ (if r.1 =? 0
          then [call_bt_conn_set_security (bt_gatt_dm_conn_get sample_dm) BT_SECURITY_L2]
          else [])
      ++ [call_bt_gatt_dm_data_release]
  ∧ stack_calls sc_d.2
    = stack_calls st.2 ++ [call_bt_gatt_dm_data_print; call_bt_gatt_dm_data_release]
  ∧ (if r.1 =? 0
     then subscribe_calls d_sc = before ++ both_subscriptions r.2 ret
          ∧ subscribe_calls sc_d = before ++ both_subscriptions r.2 ret
          ∧ conn r.2 = bt_gatt_dm_conn_get sample_dm
          ∧ ns_enabled d_sc.1.1 = (ret =? 0) ∧ ds_enabled d_sc.1.1 = (ret =? 0)
          ∧ ns_enabled sc_d.1.1 = (ret =? 0) ∧ ds_enabled sc_d.1.1 = (ret =? 0)
     else subscribe_calls d_sc = before ∧ subscribe_calls sc_d = before)
  ∧ ∀ st1 c1 reason, no_subscription (disconnected c1 reason st1).
Proof.
  cbv zeta.
  apply (sample_subscribes_when_ready (sample_registered, zero_app, sample_stack)
           sample_dm (Some 1%nat) (Some 1%nat) 2).
  - split; vm_compute; reflexivity.
  - vm_compute. discriminate.
Defined.

(** The sample on [sample_dm]: the discovery and then the change to
    security level 2 subscribe to both sources with the handles 19, 20 and
    22, 23, and both state bits are set. *)
Lemma sample_subscribes_on_sample_dm :
  let st := connected (Some 1%nat) 0 (sample_registered, zero_app, sample_stack) in
  let d_sc := security_changed (Some 1%nat) 2 0 (discover_completed_cb sample_dm st) in
  subscribe_calls d_sc
  = [Subscribe (Some 1%nat)
       {| notify := Some notify_on_received_ns; value := 1; value_handle := 19;
          ccc_handle := 20; flags := 1 |} 0;
     Subscribe (Some 1%nat)
       {| notify := Some notify_on_received_ds; value := 1; value_handle := 22;
          ccc_handle := 23; flags := 1 |} 0]
  ∧ state (link d_sc.1.1) = 3.
Proof. vm_compute. done. Qed.
